(* ===== verification/_CoqProject ===== *)
-Q . S2P
Prelude.v
Hoare.v
PyDict.v
PyStr.v
Models.v
Config.v
Registry.v
Storage.v
Persistence.v
Notifiers.v
Keywords.v
Escape.v
Base58.v
Solana.v
Tests.v
Core.v
Invariant.v
Liveness.v
Provenance.v
Sent.v
Trace.v
Budget.v
Stored.v
Cli.v
Started.v
