(* ===== verification/Prelude.v ===== *)
(** * Wallet Watch: a verification development

    Wallet Watch (package [wallet_watch] under src/src/) watches blockchain
    addresses.  A provider receives events about addresses through a webhook,
    turns each into a [Transaction] and hands it to the callbacks subscribed
    for the address; the orchestrator's callback filters the transaction,
    sends a message through the notifiers the watch names and stores the
    transaction.  This development is a shallow embedding of that program in
    Rocq: each Python function is a Rocq function of the same name, each
    object a record, each method a computation on the object's state.

    ** The parts and the files

    - Prelude.v (this file): Python exceptions ([exn], [result]); effectful
      code as a state-and-exception monad [M W A := W -> result A * W] with
      [try:]/[except:] and [for:] in the scope [py_scope]; the process
      environment [Env] (what was logged, the outbound requests made, the
      replies the network will give, the clock); [preserves], the rule that
      a computation keeps a preorder on states, with [env_extends] as the
      instance every component satisfies; tactics and hint databases.
    - Hoare.v: Hoare triples on the monad, with the outcome (return or
      raise) in the postcondition; [keeps I m], the triple of an invariant,
      with one rule for each construct of the monad and the tactic
      [solve_keeps] that follows the syntax of a method.
    - PyDict.v: a Python [dict] as an association list in insertion order,
      with its abstraction [pd_abs] to a finite map and the equivalence
      [pd_equiv] of dictionaries that differ in the order of their keys.
    - PyStr.v: the [str] methods the program calls, truth values, floats
      (the kernel's binary64), and [pyval], the values of a YAML or JSON
      document, with [get] and division as Python types them.
    - Models.v: models.py ([Transaction], [to_message]), the configuration
      classes of config.py, and the shape of a webhook event.
    - Config.v: the rest of config.py.  [expand_env_vars], [load_config],
      [get_default_config]; the process environment, the YAML decoder and
      pydantic's validation are the parameters [Environ], [Yaml] and
      [Pydantic].
    - Registry.v: chains/base.py.  [ChainBase] with [add_callback],
      [remove_callbacks], [notify_callbacks]; the contract [RegistrySpec] on
      a finite map and the refinement; the abstract methods as the class
      [ChainProvider] with the laws [ChainProviderLaws].
    - Storage.v: storage/sqlite.py and storage/__init__.py.  The two tables
      as lists of rows, the SQL statements as functions on them, the methods
      [save_watch], [get_watches], [delete_watch], [save_transaction],
      [get_transactions], [close] with their [except] clauses, [get_storage];
      the contract [StorageSpec]; [storage_step], the state machine of calls;
      storage/base.py as the class [StorageBase] with the laws [StorageSafe].
    - Persistence.v: the round trips of the storage, a method that writes
      followed by the method that reads.
    - Notifiers.v: notifiers/.  The interface [NotifierBase] as a class, the
      Telegram notifier ([tg_send], [tg_send_to], the subscriber set,
      [tg_send_to_keyboard] and [_build_keyboard]) and the HTTP webhook
      notifier ([wh_send], [wh_send_to]), [get_notifier], as the
      orchestrator calls them: without keyword arguments.
    - Keywords.v: the same methods with their keyword arguments.
      [tg_send_kwargs] hands the keyboard to every [send_to];
      [start_polling]; [wh_payload], the dictionary the webhook posts, built
      from [timestamp] and [extra], and [wh_send_to_kwargs], which posts its
      JSON text (the encoder is the parameter [JsonDumps]).
    - Escape.v: [format_message] against [html_escape], the escaping in one
      pass, and [html_unescape], the decoding of the three entities.
    - Base58.v: [validate_address] of chains/solana.py over a model of the
      [base58] package's decoder.
    - Solana.v: chains/solana.py and chains/__init__.py.  [SolanaProvider]
      with [subscribe], [unsubscribe], [_update_webhook], the POST route
      [handle_webhook], [_process_webhook_data], the JSON-RPC reads
      [get_balance] and [get_recent_transactions], [get_chain_provider].
    - Tests.v: tests/test_chains.py.  Each test function as a boolean on the
      model.
    - Core.v: core.py.  [WalletWatch] with [_setup], [_should_notify],
      [_handle_transaction], [run]; [session], the three statements of the
      command [start] that build and run the orchestrator, and [start], the
      command from a configuration in memory when the server returns.
    - Invariant.v: the invariant [ww_wf] of the orchestrator, put together
      from the invariants of its objects ([chain_wf], [notifier_ok],
      [Storage.db_wf]).
    - Liveness.v: runs of a labelled step relation ([eventually], [within])
      and the rounds of Telegram's broadcast.
    - Provenance.v: the calls the webhook route makes for a request
      ([invoked]), the rows of the table as rows of transactions in a set
      ([rows_from]), the transactions a list of requests can have pushed
      ([pushed]), and the invariant [traced] of the orchestrator's state.
    - Sent.v: the requests that carry a message ([notification]), the line
      of the [except] clause around a notifier ([failure_line]), and what
      each method adds to the environment (Section [footprint]); the
      invariant [sent_from] of the environment is an instance.
    - Trace.v: the two invariants together ([trace]) along a session.
    - Budget.v: the subscribers the notifiers have left and the failure
      lines of the log, as one quantity ([budget]) that no method of the
      orchestrator increases.
    - Stored.v: what the handling of a request establishes (Section
      [reach], the dual of [Provenance.handle_webhook_calls]), and the
      orchestrator while it serves ([serving], [has_row]).
    - Cli.v: cli.py.  The commands [start_command], [validate],
      [health_command], [check], [init] and their dispatch [main], on a
      process that holds the files, the two output streams, the logging
      level and the orchestrator; each returns the exit code.
    - Started.v: the orchestrator [start_command] leaves in the process is
      the one a session on the chosen configuration ended with, so the
      theorems of Invariant.v, Trace.v and Budget.v hold of the command.

    ** How the components interact in the model

    The orchestrator's state is the record [WalletWatch] paired with [Env].
    A callback is the closure [lambda tx, w=watch: self._handle_transaction
    (tx, w)]; the model represents it by the watch, and [Core.invoke] calls
    it.  The provider's delivery code is written once, in Registry.v and
    Solana.v, for any type of callbacks [C] and any state [W] they act on,
    and Core.v instantiates it.  The notifiers are used through
    [NotifierBase]; what the orchestrator's theorems need of them is the law
    [NotifierEnv] (a notifier only logs and sends requests), which each
    implementation discharges.  In the same way the abstract classes of
    chains/base.py and storage/base.py are the classes [ChainProvider] and
    [StorageBase]: their laws say what the orchestrator relies on when it
    calls a provider or a storage outside any [try], the Solana provider and
    the SQLite storage are the instances, and [Core.run_watch_subscribe_checked]
    shows that the loop of [run] is the interface's [subscribe_checked] on
    the chain of the watch.  The network is not modelled: a request is
    appended to [calls] and its outcome is [oracle n] for the [n]-th request
    of the process, so a theorem that quantifies over the environment holds
    for every behaviour of the network; the body of the reply to a JSON-RPC
    read is [Solana.response_json n].  The command line runs [Core.session]
    on the configuration [Config.load_config] returns and keeps the
    orchestrator in the process; the server it blocks in handles the
    requests it is given and is then interrupted from the keyboard.

    ** What the theorems show

    - Registry: the dictionary refines the contract and keeps its keys
      unique; callbacks fire in registration order; a callback that raises
      is logged and does not stop the others; removal silences an address;
      the operations respect the equivalence of registries and delivery does
      not see the order of the addresses; with a provider that keeps the laws
      the loop over the watches never raises.
    - Models: the description and the label are in the message verbatim.
    - Storage: the reachable states keep addresses and signatures unique and
      row ids increasing; [save_transaction] is insert-if-absent and
      [save_watch] an upsert on the finite-map contract; queries are sorted,
      bounded by a limit that is not negative, and rows of the table; a
      closed connection makes every method fail softly; any sequence of
      calls on a storage that keeps the laws runs to its end.
    - Notifiers: the webhook never raises and makes at most one request;
      Telegram's [send_to] never raises; Telegram's [send] reaches every
      subscriber when nobody blocked the bot and raises [RuntimeError] when
      somebody did; [_build_keyboard] keeps every button in order, in rows
      of one to eight, and a button without text drops the whole message.
    - Keywords: without keyword arguments the methods are the ones of
      Notifiers.v; an entry of [extra] replaces the message of the payload;
      an [extra] that is not a mapping sends nothing; [start_polling] is
      one call of the library.
    - Escape: the three replacements of [format_message] are one pass of
      escaping, and decoding gives the message back, so the escaping is
      injective.
    - Persistence: a saved watch is the last row read back, a deleted one
      is not read back, a new transaction is read back with the rows stored
      before, a known signature changes nothing that can be read.
    - Invariant: the constructor establishes [ww_wf]; [run_watch],
      [_handle_transaction], the webhook route, the server and [run] keep
      it, whether they return or raise; so does a whole session, and every
      callback a provider holds is a watch of the configuration under its
      own valid address.
    - Provenance, Sent, Trace: the handling of a request keeps every
      invariant that the calls it makes keep, and it makes calls only for a
      request that carries the secret, with a transaction built from one of
      its events, of a callback registered for the address; so every row
      a session stores and every notification it sends comes from an
      authorised request, an event of its body, an address of the event
      that a watch of the configuration names and that is valid, and a
      transaction that passed the filter; requests without the secret have
      no effect.
    - Liveness: a call of [send] that raises leaves fewer subscribers, so
      of the calls made one after the other on a notifier with [n]
      subscribers one of the first [n + 1] returns, whatever the network
      does.
    - Stored: the converse of Trace.  No step between the route and the
      callback of a watch can raise past it, the callback stores what
      passes the filter, and nothing deletes a row or closes the storage;
      so every pushed transaction has a row with its signature when the
      session ends, and the signatures of the table are exactly those of
      the pushed transactions.  The row need not have the address of the
      transaction: the transactions of the addresses of one event share the
      signature, and only the first is stored.
    - Budget: a notification attempt that raises costs the notifier a
      subscriber, the webhook never raises, and no component writes the
      failure line, so [run] never increases the sum of the subscribers left
      and the failure lines written; the constructor gives the notifiers at
      most one subscriber, so the log of a session, and of the command
      [start], has at most one failure line, and the example shows one.
    - Tests: the four tests of the repository pass on the model.
    - Base58: a valid address has 32 to 44 characters; a character outside
      the alphabet makes it invalid; white space at the end does not count.
    - Config: the expansion keeps the shape of the document and every
      string that is not one whole reference; a reference gives the value
      of the variable, or the default exactly when the variable is not set.
    - Solana: [subscribe] validates, registers and pushes the address list;
      the POST route answers 401, 200 or 500 and never raises; an event
      reaches the callbacks of its subscribed addresses once each, whatever
      the order of the set; a time stamp out of range drops the event;
      [get_balance] never raises and reports an RPC error as a balance of
      zero.
    - Core: the filter's exact meaning, NaN included; [_handle_transaction]
      never raises, stores what passes the filter whatever the notifiers
      did, and does nothing but log for what does not; a positive threshold
      silences every Solana event; handling a request changes neither
      configuration nor subscriptions; the constructor builds what the
      configuration names and [run] subscribes the accepted watches in
      order and answers every request; nothing closes the storage.
    - Cli: every command returns an exit code; the exit code of
      [start_command] as a function of the files and the configuration; the
      storage is still open when the process exits; the program end to end
      on a configuration file and a webhook request, and on the template
      [init] writes.

    ** Bounds and assumptions

    Every loop of the modelled code runs over a finite list (callbacks,
    subscribers, events, addresses, watches, buttons) and is structural.
    Two definitions have fuel.  [Notifiers.chunks], the library's slicing of
    a row of buttons, has the length of the row, and
    [Notifiers.chunks_concat] shows that this is enough, no button being
    lost.  [Escape.html_unescape], which is the reader's side and not code
    of the repository, has the length of its input: it consumes a character
    for each one it writes, and [Escape.html_unescape_escape] shows that any
    fuel from the length of the escaped text on decodes it entirely.  The
    liveness theorem bounds the calls that raise by the number of
    subscribers and assumes nothing of the network.  Values have the types the source annotates: a JSON body
    whose fields have other types is outside the model.  Strings are
    sequences of bytes, and [upper], [lower] and [title] act on ASCII
    letters.  The order in which Python visits a set is a parameter
    ([Solana.SetOrder]) for the addresses of an event, and the list order
    for Telegram's subscribers.  The storage fails only through a closed
    connection, and its file always opens.  [datetime.fromtimestamp] is
    taken in UTC.  The keys of a YAML mapping are strings.  White space is
    ASCII white space.  [logs] keeps every call to the logger, whatever the
    level [setup_logging] set.  The one bound in a proof is the 32 bytes of
    an address, for which the powers of 58 and 256 are compared by
    computation.

    ** Not modelled

    The YAML decoder and pydantic's validation (parameters of Config.v;
    [Config.typed_validate] is an instance for documents whose values have
    the declared types, used by the examples); [click]'s parsing of the
    command line; the polling loop of the Telegram library, of which
    [start_polling] is one call that returns or raises; the headers and the
    timeout of the webhook's requests, and the JSON encoder of its payload
    (the parameter [Keywords.JsonDumps]); the JSON text of the columns
    [notify], [filters] and [raw], for which the storage keeps the value;
    Flask's request parsing and threading (requests are handled one at a
    time); the PostgreSQL storage, which is not in the repository. *)

From stdpp Require Export prelude strings list sorting.

(** ** Python exceptions *)

(** The exception classes the modelled code raises or catches.  An exception
    carries its message, which is what [str(e)] prints in the log lines. *)
Inductive exn_kind :=
| ValueError | TypeError | RuntimeError | KeyError | OverflowError
| ProgrammingError | ApiTelegramException | RequestTimeout | RequestException
| FileNotFoundError | AttributeError | KeyboardInterrupt
| OtherException.

Record exn := Exn { exn_kind_of : exn_kind; exn_msg : string }.

#[export] Instance exn_kind_eq_dec : EqDecision exn_kind.
Proof. solve_decision. Defined.

#[export] Instance exn_eq_dec : EqDecision exn.
Proof. solve_decision. Defined.

(** The outcome of a call: a value, or a raised exception. *)
Inductive result (A : Type) :=
| Ok (a : A)
| Raise (e : exn).
Arguments Ok {A} a.
Arguments Raise {A} e.

Definition is_ok {A} (r : result A) : bool :=
  match r with Ok _ => true | Raise _ => false end.

(** Pure, fallible code: the first raise ends the evaluation. *)
#[export] Instance result_ret : MRet result := @Ok.
#[export] Instance result_bind : MBind result := λ A B f r,
  match r with Ok a => f a | Raise e => Raise e end.
#[export] Instance result_fmap : FMap result := λ A B f r,
  match r with Ok a => Ok (f a) | Raise e => Raise e end.

(** ** The state-and-exception monad

    A method of an object with state [W] is a function from the state before the
    call to the outcome and the state after it.  The state after a raise is kept:
    Python does not roll back the mutations made before the exception. *)
Definition M (W A : Type) : Type := W → result A * W.

Definition m_ret {W A} (a : A) : M W A := λ w, (Ok a, w).

Definition m_bind {W A B} (f : A → M W B) (m : M W A) : M W B :=
  λ w, match m w with
       | (Ok a, w') => f a w'
       | (Raise e, w') => (Raise e, w')
       end.

#[export] Instance M_ret {W} : MRet (M W) := @m_ret W.
#[export] Instance M_bind {W} : MBind (M W) := @m_bind W.

Definition m_raise {W A} (e : exn) : M W A := λ w, (Raise e, w).
(** The result of a pure, fallible expression as a computation. *)
Definition m_lift {W A} (r : result A) : M W A := λ w, (r, w).
Definition m_get {W} : M W W := λ w, (Ok w, w).
Definition m_put {W} (w : W) : M W unit := λ _, (Ok tt, w).
Definition m_modify {W} (f : W → W) : M W unit := λ w, (Ok tt, f w).

(** [try: m except e => h]: runs [m]; when it raises, runs the handler in the
    state the raise left. *)
Definition m_try {W A} (m : M W A) (h : exn → M W A) : M W A :=
  λ w, match m w with
       | (Ok a, w') => (Ok a, w')
       | (Raise e, w') => h e w'
       end.

(** A [for x in l: body] loop: an exception in the body leaves the loop. *)
Fixpoint m_for {W A} (l : list A) (body : A → M W unit) : M W unit :=
  match l with
  | [] => m_ret tt
  | x :: l' => m_bind (λ _, m_for l' body) (body x)
  end.

(** Running a computation on a part of a larger state. *)
Definition m_zoom {W V A} (get : V → W) (set : W → V → V) (m : M W A) : M V A :=
  λ v, match m (get v) with (r, w') => (r, set w' v) end.

Definition exec {W A} (m : M W A) (w : W) : W := (m w).2.
Definition eval {W A} (m : M W A) (w : W) : result A := (m w).1.

Declare Scope py_scope.
Delimit Scope py_scope with py.
Notation "'try:' m 'except:' h" := (m_try m h)
  (at level 10, m at level 100, h at level 200) : py_scope.
Notation "'for:' x 'in' l 'do:' body" := (m_for l (λ x, body))
  (at level 10, x binder, l at level 100, body at level 200) : py_scope.
Open Scope py_scope.

(** ** The process environment

    What the program does to the outside world and what the outside world
    answers.  [logs] is what the [logging] calls wrote; [calls] are the outbound
    network requests in the order they were made; the reply to the [n]-th
    request of the process is [oracle n], so a theorem that quantifies over the
    environment holds whatever the network does; [now] is the wall clock in
    seconds, which stamps the rows the storage engine writes. *)
Inductive log_level := DEBUG | INFO | WARNING | ERROR.

(** What a network call does: it returns, or it raises (a timeout, a status
    that [raise_for_status] rejects, an API error with its text). *)
Inductive net_reply :=
| ReplyOk
| ReplyRaise (e : exn).

(** A button of a Telegram inline keyboard: it opens a URL or sends a
    callback token back to the bot. *)
Inductive tg_button :=
| UrlButton (text url : string)
| CallbackButton (text callback_data : string).

#[export] Instance tg_button_eq_dec : EqDecision tg_button.
Proof. solve_decision. Defined.

Inductive net_call :=
| TgSendMessage (chat_id text : string)
| TgSendMarkup (chat_id text : string) (reply_markup : list (list tg_button))
| TgPolling (timeout long_polling_timeout : Z)
| HttpPost (url text : string)
| HttpPostJson (url body : string)
| HttpGet (url text : string)
| HeliusPut (url webhookURL : string) (accountAddresses : list string)
    (authHeader : option string)
| JsonRpc (url method address : string) (limit : option Z).

#[export] Instance log_level_eq_dec : EqDecision log_level.
Proof. solve_decision. Defined.
#[export] Instance net_reply_eq_dec : EqDecision net_reply.
Proof. solve_decision. Defined.
#[export] Instance net_call_eq_dec : EqDecision net_call.
Proof. solve_decision. Defined.

Record Env := mkEnv {
  logs : list (log_level * string);
  calls : list net_call;
  oracle : nat → net_reply;
  now : Z;
}.

Definition env0 (o : nat → net_reply) (t : Z) : Env :=
  {| logs := []; calls := []; oracle := o; now := t |}.

(** A state that contains the environment. *)
Class HasEnv (W : Type) := {
  env_of : W → Env;
  with_env : Env → W → W;
  env_of_with_env e w : env_of (with_env e w) = e;
  with_env_env_of w : with_env (env_of w) w = w;
  with_env_with_env e e' w : with_env e (with_env e' w) = with_env e w;
}.

#[export] Instance Env_HasEnv : HasEnv Env :=
  {| env_of := id; with_env := λ e _, e;
     env_of_with_env := λ _ _, eq_refl;
     with_env_env_of := λ _, eq_refl;
     with_env_with_env := λ _ _ _, eq_refl |}.

(** An object with state [S] that runs in the environment. *)
#[export] Instance pair_HasEnv {S : Type} : HasEnv (S * Env).
Proof.
  refine {| env_of := snd; with_env := λ e w, (w.1, e) |};
    [done | by intros [] | done].
Defined.

(** Reading and updating the object's own state. *)
Definition st_get {S} : M (S * Env) S := λ w, (Ok w.1, w).
Definition st_modify {S} (f : S → S) : M (S * Env) unit :=
  λ w, (Ok tt, (f w.1, w.2)).

Definition env_log (lvl : log_level) (msg : string) (e : Env) : Env :=
  {| logs := logs e ++ [(lvl, msg)]; calls := calls e;
     oracle := oracle e; now := now e |}.

(** The environment after more requests and log lines. *)
Definition env_after (e : Env) (cs : list net_call)
    (ls : list (log_level * string)) : Env :=
  {| logs := logs e ++ ls; calls := calls e ++ cs;
     oracle := oracle e; now := now e |}.

(** The reply the [i]-th next request will get. *)
Definition reply_at (e : Env) (i : nat) : net_reply :=
  oracle e (length (calls e) + i).

(** The reply to a new request is the oracle's at the number of requests made
    so far. *)
Definition env_call (c : net_call) (e : Env) : net_reply * Env :=
  (oracle e (length (calls e)),
   {| logs := logs e; calls := calls e ++ [c];
      oracle := oracle e; now := now e |}).

Section with_env.
Context {W : Type} `{!HasEnv W}.

Definition log (lvl : log_level) (msg : string) : M W unit :=
  m_modify (λ w, with_env (env_log lvl msg (env_of w)) w).

Definition net (c : net_call) : M W net_reply :=
  λ w, let '(r, e) := env_call c (env_of w) in (Ok r, with_env e w).

Definition wall_clock : M W Z := λ w, (Ok (now (env_of w)), w).

(** The number of requests the process has made so far. *)
Definition calls_made : M W nat := λ w, (Ok (length (calls (env_of w))), w).

End with_env.

(** ** Tactics and hint databases *)

Create HintDb ww discriminated.
Create Rewrite HintDb ww_rw.

(** Unfolds the monad's operations down to pairs. *)
Ltac m_unfold :=
  unfold mbind, mret, M_bind, M_ret, m_bind, m_ret, m_try, m_raise, m_lift, m_get,
    m_put, m_modify, m_zoom, exec, eval, log, net, wall_clock, st_get,
    st_modify in *.

(** Case analysis on the scrutinee of the first [match] or [if] of the goal. *)
Ltac case_goal :=
  match goal with
  | |- context [match ?x with _ => _ end] => destruct x eqn:?
  end.

(** ** Laws of the monad *)

Section monad_laws.
Context {W : Type}.

Lemma m_bind_ret_l {A B} (a : A) (f : A → M W B) w :
  (mret a ≫= f) w = f a w.
Proof. done. Qed.

Lemma m_bind_ret_r {A} (m : M W A) w : (m ≫= mret) w = m w.
Proof. m_unfold. by destruct (m w) as [[]]. Qed.

Lemma m_bind_assoc {A B C} (m : M W A) (f : A → M W B) (g : B → M W C) w :
  ((m ≫= f) ≫= g) w = (m ≫= λ a, f a ≫= g) w.
Proof. m_unfold. by destruct (m w) as [[]]. Qed.

(** Running a sequence: the rest runs in the state the first part left. *)
Lemma m_bind_run {A B} (m : M W A) (f : A → M W B) w :
  (m ≫= f) w =
  match m w with
  | (Ok a, w') => f a w'
  | (Raise x, w') => (Raise x, w')
  end.
Proof. done. Qed.

(** A [try] around a sequence: the handler also guards the rest. *)
Lemma m_try_bind {A B} (m : M W A) (f : A → M W B) h w :
  m_try (m ≫= f) h w =
  match m w with
  | (Ok a, w') => m_try (f a) h w'
  | (Raise x, w') => h x w'
  end.
Proof. m_unfold. by destruct (m w) as [[]]. Qed.

Lemma m_try_ok {A} (m : M W A) h w a w' :
  m w = (Ok a, w') → m_try m h w = (Ok a, w').
Proof. m_unfold. by intros ->. Qed.

Lemma m_try_raise {A} (m : M W A) h w e w' :
  m w = (Raise e, w') → m_try m h w = h e w'.
Proof. m_unfold. by intros ->. Qed.

(** A computation that cannot raise. *)
Definition no_raise {A} (m : M W A) : Prop := ∀ w, is_ok (m w).1 = true.

Lemma no_raise_ret {A} (a : A) : no_raise (mret a : M W A).
Proof. done. Qed.

Lemma no_raise_modify f : no_raise (m_modify f : M W unit).
Proof. done. Qed.

Lemma no_raise_bind {A B} (m : M W A) (f : A → M W B) :
  no_raise m → (∀ a, no_raise (f a)) → no_raise (m ≫= f).
Proof.
  intros Hm Hf w. specialize (Hm w). m_unfold.
  destruct (m w) as [[a|e] w']; [apply Hf | done].
Qed.

Lemma no_raise_try {A} (m : M W A) h :
  (∀ e, no_raise (h e)) → no_raise (m_try m h).
Proof.
  intros Hh w. m_unfold. destruct (m w) as [[a|e] w']; [done | apply Hh].
Qed.

Lemma no_raise_for {A} (l : list A) (body : A → M W unit) :
  (∀ x, x ∈ l → no_raise (body x)) → no_raise (m_for l body).
Proof.
  induction l as [|x l IH]; intros H; [done|].
  apply no_raise_bind; [apply H; left | intros _; apply IH].
  intros y Hy. apply H. by right.
Qed.

(** A [for] loop over a concatenation runs the first loop, then the second. *)
Lemma m_for_app {A} (l1 l2 : list A) (body : A → M W unit) w :
  m_for (l1 ++ l2) body w = (m_for l1 body ≫= λ _, m_for l2 body) w.
Proof.
  revert w. induction l1 as [|x l1 IH]; intros w; [done|].
  simpl. m_unfold. destruct (body x w) as [[[]|e] w']; [apply IH | done].
Qed.

(** When the body cannot raise, the loop's final state is the left fold of the
    body's effect. *)
Lemma m_for_exec_foldl {A} (l : list A) (body : A → M W unit) w :
  (∀ x, x ∈ l → no_raise (body x)) →
  m_for l body w = (Ok tt, foldl (λ w x, exec (body x) w) w l).
Proof.
  revert w. induction l as [|x l IH]; intros w H; [done|].
  simpl. m_unfold. pose proof (H x (list_elem_of_here _ _) w) as Hx.
  destruct (body x w) as [[[]|e] w'] eqn:E; [|done]. simpl.
  rewrite IH; [done|]. intros y Hy. apply H. by right.
Qed.

End monad_laws.

Lemma no_raise_zoom {W V A} (get : V → W) set (m : M W A) :
  no_raise m → no_raise (m_zoom get set m).
Proof.
  intros Hm v. specialize (Hm (get v)). m_unfold. by destruct (m (get v)).
Qed.

#[export] Hint Resolve no_raise_ret no_raise_modify no_raise_bind no_raise_try
  no_raise_for no_raise_zoom : ww.

(** ** The environment's operations *)

Section env_lemmas.
Context {W : Type} `{!HasEnv W}.

Lemma no_raise_log lvl msg : no_raise (log lvl msg : M W unit).
Proof. done. Qed.

Lemma no_raise_net c : no_raise (net c : M W net_reply).
Proof. intros w. unfold net. by destruct (env_call _ _). Qed.

Lemma log_calls lvl msg (w : W) :
  calls (env_of (exec (log lvl msg) w)) = calls (env_of w).
Proof. m_unfold. simpl. by rewrite env_of_with_env. Qed.

Lemma log_logs lvl msg (w : W) :
  logs (env_of (exec (log lvl msg) w)) = logs (env_of w) ++ [(lvl, msg)].
Proof. m_unfold. simpl. by rewrite env_of_with_env. Qed.

Lemma net_calls c (w : W) :
  calls (env_of (exec (net c) w)) = calls (env_of w) ++ [c].
Proof. m_unfold. simpl. by rewrite env_of_with_env. Qed.

Lemma net_reply_oracle c (w : W) :
  eval (net c) w = Ok (oracle (env_of w) (length (calls (env_of w)))).
Proof. done. Qed.

End env_lemmas.

Lemma env_log_after lvl msg e : env_log lvl msg e = env_after e [] [(lvl, msg)].
Proof. unfold env_log, env_after. by rewrite app_nil_r. Qed.

Lemma env_call_after c e :
  env_call c e = (reply_at e 0, env_after e [c] []).
Proof.
  unfold env_call, env_after, reply_at. by rewrite app_nil_r, Nat.add_0_r.
Qed.

Lemma env_after_nil e : env_after e [] [] = e.
Proof. destruct e. unfold env_after. simpl. by rewrite !app_nil_r. Qed.

Lemma env_after_after e cs ls cs' ls' :
  env_after (env_after e cs ls) cs' ls' = env_after e (cs ++ cs') (ls ++ ls').
Proof. unfold env_after. simpl. by rewrite !app_assoc. Qed.

Lemma reply_at_after e cs ls i :
  reply_at (env_after e cs ls) i = reply_at e (length cs + i).
Proof.
  unfold reply_at, env_after. simpl. rewrite length_app. f_equal. lia.
Qed.

(** Logging and requests of a component whose state is paired with the
    environment. *)
Lemma log_run {S} lvl msg (s : S) e :
  log lvl msg (s, e) = (Ok tt, (s, env_after e [] [(lvl, msg)])).
Proof. unfold log, m_modify. simpl. by rewrite env_log_after. Qed.

Lemma net_run {S} c (s : S) e :
  net c (s, e) = (Ok (reply_at e 0), (s, env_after e [c] [])).
Proof.
  unfold net. change (env_of (s, e)) with e. by rewrite env_call_after.
Qed.

#[export] Hint Resolve no_raise_log no_raise_net : ww.
#[export] Hint Rewrite env_after_after reply_at_after : ww_rw.
#[export] Hint Rewrite @log_calls @log_logs @net_calls : ww_rw.

(** ** Lists *)

Section list_lemmas.
Context {A : Type}.

Lemma filter_length_le (P : A → Prop) `{!∀ x, Decision (P x)} (l : list A) :
  length (filter P l) ≤ length l.
Proof. apply length_filter. Qed.

Lemma take_length_le (n : nat) (l : list A) : length (take n l) ≤ n.
Proof. rewrite length_take. lia. Qed.

End list_lemmas.

Section sorted_lemmas.
Context {A : Type} (R : relation A).

Lemma StronglySorted_sublist (l1 l2 : list A) :
  l1 `sublist_of` l2 → StronglySorted R l2 → StronglySorted R l1.
Proof.
  induction 1 as [|x l1 l2 Hsub IH|x l1 l2 Hsub IH]; intros Hs; [done|..].
  - apply StronglySorted_inv in Hs as [Hs Hx]. constructor; [auto|].
    rewrite Forall_forall in *. intros y Hy. apply Hx.
    by eapply elem_of_sublist.
  - apply StronglySorted_inv in Hs as [Hs _]. auto.
Qed.

Lemma StronglySorted_snoc (l : list A) (x : A) :
  StronglySorted R l → Forall (λ y, R y x) l → StronglySorted R (l ++ [x]).
Proof.
  intros Hl Hx. apply StronglySorted_app_2; [|done|repeat constructor].
  intros x1 x2 H1 ->%list_elem_of_singleton.
  by eapply Forall_forall in Hx.
Qed.

End sorted_lemmas.

(** In a list sorted strictly by a key, the key determines the element. *)
Lemma StronglySorted_key_inj {A} (f : A → Z) (l : list A) x y :
  StronglySorted (λ a b, (f a < f b)%Z) l →
  x ∈ l → y ∈ l → f x = f y → x = y.
Proof.
  induction 1 as [|a l Hl IH Ha]; [by intros ?%elem_of_nil|].
  rewrite Forall_forall in Ha.
  intros [->|Hx]%elem_of_cons [->|Hy]%elem_of_cons Heq; auto.
  - specialize (Ha _ Hy). lia.
  - specialize (Ha _ Hx). lia.
Qed.

Lemma Forall_sublist {A} (P : A → Prop) (l1 l2 : list A) :
  l1 `sublist_of` l2 → Forall P l2 → Forall P l1.
Proof.
  rewrite !Forall_forall. intros Hs H x Hx. apply H. by eapply elem_of_sublist.
Qed.

Lemma filter_none {A} (P : A → Prop) `{!∀ x, Decision (P x)} (l : list A) :
  (∀ x, x ∈ l → ¬ P x) → filter P l = [].
Proof.
  induction l as [|x l IH]; intros Hl; [done|].
  rewrite filter_cons, decide_False by (apply Hl; left).
  apply IH. intros y Hy. apply Hl. by right.
Qed.

Lemma filter_all {A} (P : A → Prop) `{!∀ x, Decision (P x)} (l : list A) :
  (∀ x, x ∈ l → P x) → filter P l = l.
Proof.
  induction l as [|x l IH]; intros Hl; [done|].
  rewrite filter_cons, decide_True by (apply Hl; left).
  f_equal. apply IH. intros y Hy. apply Hl. by right.
Qed.

(** A list of keys without duplicates stays so under [filter] and [take]. *)
Lemma NoDup_fmap_sublist {A B} (f : A → B) (l1 l2 : list A) :
  l1 `sublist_of` l2 → NoDup (f <$> l2) → NoDup (f <$> l1).
Proof. intros Hs Hn. eapply sublist_NoDup; [done|]. by apply fmap_sublist. Qed.

(** A fold whose step does nothing on any element of the list. *)
Lemma foldl_none {A B} (f : B → A → B) (l : list A) (b : B) :
  (∀ x b, x ∈ l → f b x = b) → foldl f b l = b.
Proof.
  revert b. induction l as [|x l IH]; intros b Hf; [done|]. simpl.
  rewrite Hf by left. apply IH. intros y b' ?. apply Hf. by right.
Qed.

(** A fold whose step does nothing on every element but [a], over a list
    that holds [a] once, is one step on [a]. *)
Lemma foldl_only {A B} (f : B → A → B) (l : list A) (a : A) (b : B) :
  NoDup l → a ∈ l → (∀ x b, x ∈ l → x ≠ a → f b x = b) →
  foldl f b l = f b a.
Proof.
  revert b. induction l as [|x l IH]; intros b Hnd Ha Hf;
    [by apply elem_of_nil in Ha|].
  apply NoDup_cons in Hnd as [Hx Hnd]. simpl.
  apply elem_of_cons in Ha as [->|Ha].
  - apply foldl_none. intros y b' Hy. apply Hf; [by right | by intros ->].
  - rewrite Hf; [|left|by intros ->]. apply IH; [done..|].
    intros z b' ? ?. apply Hf; [by right | done].
Qed.

(** ** Computations that only add to the environment

    The modelled code reaches the environment through [log] and [net] only:
    it appends log lines and requests, and never changes the clock, the
    replies to come, or what is already written. *)

Definition env_extends (e e' : Env) : Prop := ∃ cs ls, e' = env_after e cs ls.

#[export] Instance env_extends_preorder : PreOrder env_extends.
Proof.
  split.
  - intros e. exists [], []. by rewrite env_after_nil.
  - intros e1 e2 e3 (cs & ls & ->) (cs' & ls' & ->).
    exists (cs ++ cs'), (ls ++ ls'). by rewrite env_after_after.
Qed.

Lemma env_extends_after e cs ls : env_extends e (env_after e cs ls).
Proof. by exists cs, ls. Qed.

Lemma env_extends_now e e' : env_extends e e' → now e' = now e.
Proof. by intros (cs & ls & ->). Qed.

Lemma env_extends_oracle e e' : env_extends e e' → oracle e' = oracle e.
Proof. by intros (cs & ls & ->). Qed.

Lemma env_extends_calls e e' : env_extends e e' → calls e `prefix_of` calls e'.
Proof. intros (cs & ls & ->). by exists cs. Qed.

Lemma env_extends_logs e e' : env_extends e e' → logs e `prefix_of` logs e'.
Proof. intros (cs & ls & ->). by exists ls. Qed.

(** A computation preserves a preorder on states when the state it leaves
    is related to the one it started from, whether it returns or raises. *)
Section preserves.
Context {W : Type} (R : relation W) `{!PreOrder R}.

Definition preserves {A} (m : M W A) : Prop := ∀ w, R w (m w).2.

Lemma preserves_ret {A} (a : A) : preserves (mret a).
Proof. intros w. reflexivity. Qed.

Lemma preserves_raise {A} x : preserves (m_raise x : M W A).
Proof. intros w. reflexivity. Qed.

Lemma preserves_lift {A} (r : result A) : preserves (m_lift r).
Proof. intros w. reflexivity. Qed.

Lemma preserves_get : preserves m_get.
Proof. intros w. reflexivity. Qed.

Lemma preserves_bind {A B} (m : M W A) (f : A → M W B) :
  preserves m → (∀ a, preserves (f a)) → preserves (m ≫= f).
Proof.
  intros Hm Hf w. specialize (Hm w). unfold mbind, M_bind, m_bind.
  destruct (m w) as [[a|x] w']; [|done]. etrans; [exact Hm | apply Hf].
Qed.

(** Binding the result of a pure expression: the rest runs only on a value
    the expression can return. *)
Lemma preserves_lift_bind {A B} (r : result A) (f : A → M W B) :
  (∀ a, r = Ok a → preserves (f a)) → preserves (m_lift r ≫= f).
Proof.
  intros Hf w. unfold mbind, M_bind, m_bind, m_lift.
  destruct r as [a|x]; [by apply Hf | reflexivity].
Qed.

Lemma preserves_try {A} (m : M W A) h :
  preserves m → (∀ x, preserves (h x)) → preserves (m_try m h).
Proof.
  intros Hm Hh w. specialize (Hm w). unfold m_try.
  destruct (m w) as [[a|x] w']; [done|]. etrans; [exact Hm | apply Hh].
Qed.

Lemma preserves_for {A} (l : list A) (body : A → M W unit) :
  (∀ x, preserves (body x)) → preserves (m_for l body).
Proof.
  intros Hb. induction l as [|x l IH]; [apply preserves_ret|].
  apply (preserves_bind (body x) (λ _, m_for l body)); [apply Hb | by intros _].
Qed.

End preserves.

(** A computation that preserves a relation preserves every coarser one. *)
Lemma preserves_impl {W A} (R R' : relation W) (m : M W A) :
  (∀ w w', R w w' → R' w w') → preserves R m → preserves R' m.
Proof. intros HR Hm w. apply HR, Hm. Qed.

Lemma preserves_st_get {S} (R : relation (S * Env)) `{!Reflexive R} :
  preserves R st_get.
Proof. intros w. reflexivity. Qed.

(** A computation of an object in the environment that only adds to the
    environment. *)
Definition env_rel {S} : relation (S * Env) := λ w w', env_extends w.2 w'.2.

#[export] Instance env_rel_preorder {S} : PreOrder (env_rel (S:=S)).
Proof.
  split; [intros w; unfold env_rel; reflexivity|].
  intros w1 w2 w3. unfold env_rel. apply transitivity.
Qed.

Abbreviation env_mono := (preserves env_rel).

Section env_mono.
Context {S : Type}.
Implicit Types (s : S) (e : Env).

Lemma env_mono_run {A} (m : M (S * Env) A) s e :
  env_mono m → env_extends e (m (s, e)).2.2.
Proof. intros Hm. apply (Hm (s, e)). Qed.

Lemma env_mono_st_get : env_mono (st_get (S:=S)).
Proof. intros w. reflexivity. Qed.

Lemma env_mono_st_modify f : env_mono (st_modify (S:=S) f).
Proof. intros [s e]. unfold env_rel. reflexivity. Qed.

Lemma env_mono_wall_clock : env_mono (wall_clock : M (S * Env) Z).
Proof. intros w. reflexivity. Qed.

Lemma env_mono_log lvl msg : env_mono (log lvl msg : M (S * Env) unit).
Proof. intros [s e]. rewrite log_run. apply env_extends_after. Qed.

Lemma env_mono_net c : env_mono (net c : M (S * Env) net_reply).
Proof. intros [s e]. rewrite net_run. apply env_extends_after. Qed.

End env_mono.

#[export] Hint Resolve preserves_ret preserves_raise preserves_lift preserves_get
  env_mono_st_get env_mono_st_modify env_mono_wall_clock env_mono_log
  env_mono_net : ww.

(** Proves that a computation built from the monad's operations preserves a
    preorder, from the hints on its parts. *)
Ltac solve_preserves :=
  repeat first
    [ progress eauto with ww
    | apply preserves_bind; [tc_solve| |intros ?]
    | apply preserves_try; [tc_solve| |intros ?]
    | apply preserves_for; [tc_solve|intros ?]
    | case_match
    | case_decide ].
