(* ===== verification/Hoare.v ===== *)
(** * A Hoare logic for the methods

    [hoare P m Q]: from a state in [P], the computation [m] ends with an
    outcome and a state in [Q].  The postcondition speaks of the outcome as a
    [result], so one triple covers the return and the raise: Python keeps the
    mutations a method made before it raised, and an invariant has to hold of
    that state too.

    [keeps I m] is the triple of an invariant: [m] started in [I] ends in [I],
    whatever its outcome.  The rules follow the syntax of the monad, so the
    proof that a method keeps an invariant reads like the method. *)

From S2P Require Import Prelude.

Section hoare.
Context {W : Type}.
Implicit Types (P I : W → Prop).

Definition hoare {A} P (m : M W A) (Q : result A → W → Prop) : Prop :=
  ∀ w, P w → Q (m w).1 (m w).2.

Definition keeps {A} I (m : M W A) : Prop := hoare I m (λ _, I).

Lemma hoare_conseq {A} P P' (m : M W A) (Q Q' : result A → W → Prop) :
  hoare P m Q → (∀ w, P' w → P w) → (∀ r w, Q r w → Q' r w) → hoare P' m Q'.
Proof. intros Hm HP HQ w Hw. apply HQ, Hm, HP, Hw. Qed.

Lemma hoare_ret {A} P (a : A) : hoare P (mret a) (λ r w, r = Ok a ∧ P w).
Proof. by intros w Hw. Qed.

Lemma hoare_lift {A} P (r : result A) : hoare P (m_lift r) (λ r' w, r' = r ∧ P w).
Proof. by intros w Hw. Qed.

Lemma hoare_get P : hoare P m_get (λ r w, r = Ok w ∧ P w).
Proof. by intros w Hw. Qed.

Lemma hoare_bind {A B} P (m : M W A) (f : A → M W B) Q Q' :
  hoare P m Q →
  (∀ a, hoare (Q (Ok a)) (f a) Q') →
  (∀ x w, Q (Raise x) w → Q' (Raise x) w) →
  hoare P (m ≫= f) Q'.
Proof.
  intros Hm Hf Hx w Hw. specialize (Hm w Hw). rewrite m_bind_run.
  destruct (m w) as [[a|x] w']; [by apply Hf | by apply Hx].
Qed.

Lemma hoare_try {A} P (m : M W A) h Q Q' :
  hoare P m Q →
  (∀ a w, Q (Ok a) w → Q' (Ok a) w) →
  (∀ x, hoare (Q (Raise x)) (h x) Q') →
  hoare P (m_try m h) Q'.
Proof.
  intros Hm Ha Hh w Hw. specialize (Hm w Hw). unfold m_try.
  destruct (m w) as [[a|x] w']; [by apply Ha | by apply Hh].
Qed.

(** *** Invariants *)

Lemma keeps_ret {A} I (a : A) : keeps I (mret a).
Proof. by intros w Hw. Qed.

Lemma keeps_raise {A} I x : keeps I (m_raise x : M W A).
Proof. by intros w Hw. Qed.

Lemma keeps_lift {A} I (r : result A) : keeps I (m_lift r).
Proof. by intros w Hw. Qed.

(** The continuation may rely on what the first part promises of its
    value. *)
Lemma keeps_bind_value {A B} I (Q : A → Prop) (m : M W A) (f : A → M W B) :
  hoare I m (λ r w, I w ∧ ∀ a, r = Ok a → Q a) →
  (∀ a, Q a → keeps I (f a)) →
  keeps I (m ≫= f).
Proof.
  intros Hm Hf. eapply hoare_bind; [exact Hm | |].
  - intros a w [Hw Ha]. by apply (Hf a); [apply Ha|].
  - by intros x w [Hw _].
Qed.

Lemma keeps_bind {A B} I (m : M W A) (f : A → M W B) :
  keeps I m → (∀ a, keeps I (f a)) → keeps I (m ≫= f).
Proof.
  intros Hm Hf. apply (keeps_bind_value I (λ _, True)); [|by intros a _].
  intros w Hw. split; [by apply Hm | done].
Qed.

Lemma keeps_lift_bind {A B} I (r : result A) (f : A → M W B) :
  (∀ a, r = Ok a → keeps I (f a)) → keeps I (m_lift r ≫= f).
Proof.
  intros Hf. apply (keeps_bind_value I (λ a, r = Ok a)); [|done].
  by intros w Hw.
Qed.

Lemma keeps_try {A} I (m : M W A) h :
  keeps I m → (∀ x, keeps I (h x)) → keeps I (m_try m h).
Proof. intros Hm Hh. eapply hoare_try; [exact Hm | done | exact Hh]. Qed.

Lemma keeps_for {A} I (l : list A) (body : A → M W unit) :
  (∀ x, x ∈ l → keeps I (body x)) → keeps I (m_for l body).
Proof.
  induction l as [|x l IH]; intros Hb; [apply keeps_ret|].
  apply (keeps_bind I (body x) (λ _, m_for l body)).
  - apply Hb. left.
  - intros _. apply IH. intros y Hy. apply Hb. by right.
Qed.

(** An invariant that a computation keeps holds after it. *)
Lemma keeps_exec {A} I (m : M W A) w : keeps I m → I w → I (exec m w).
Proof. intros Hm Hw. by apply Hm. Qed.

(** An invariant as a preorder on states, for the lemmas stated with
    [preserves]. *)
Definition inv_rel I : relation W := λ w w', I w → I w'.

#[export] Instance inv_rel_preorder I : PreOrder (inv_rel I).
Proof.
  split; [intros w Hw; exact Hw | intros w1 w2 w3 H1 H2 Hw; by apply H2, H1].
Qed.

Lemma keeps_preserves {A} I (m : M W A) : keeps I m ↔ preserves (inv_rel I) m.
Proof. split; intros Hm w Hw; exact (Hm w Hw). Qed.

(** A computation that keeps two invariants keeps both. *)
Lemma keeps_and {A} I I' (m : M W A) :
  keeps I m → keeps I' m → keeps (λ w, I w ∧ I' w) m.
Proof. intros Hm Hm' w [Hw Hw']. split; [by apply Hm | by apply Hm']. Qed.

(** *** What a computation establishes

    [hoare I m (λ _, I')] with [I'] new: somewhere [m] does the step that
    makes [I'] true.  After a part that cannot raise the rest still runs,
    and a loop whose bodies cannot raise reaches each of its elements. *)

Lemma hoare_bind_returns {A B} P I (m : M W A) (f : A → M W B) Q :
  no_raise m → hoare P m (λ _, I) → (∀ a, hoare I (f a) Q) →
  hoare P (m ≫= f) Q.
Proof.
  intros Hok Hm Hf w Hw. specialize (Hm w Hw). specialize (Hok w).
  rewrite m_bind_run. destruct (m w) as [[a|x] w']; [by apply Hf | done].
Qed.

(** The handler of a [try] keeps what the body established. *)
Lemma hoare_try_keeps {A} P I' (m : M W A) h :
  hoare P m (λ _, I') → (∀ x, keeps I' (h x)) → hoare P (m_try m h) (λ _, I').
Proof. intros Hm Hh. eapply hoare_try; [exact Hm | done | exact Hh]. Qed.

(** What the body establishes for one element of the list, and keeps for
    the others, holds after the loop. *)
Lemma hoare_for_reach {A} I I' (l : list A) (body : A → M W unit) x :
  x ∈ l →
  (∀ y, y ∈ l → no_raise (body y)) →
  (∀ y, y ∈ l → keeps I (body y)) →
  (∀ y, y ∈ l → keeps I' (body y)) →
  hoare I (body x) (λ _, I') →
  hoare I (m_for l body) (λ _, I').
Proof.
  intros Hx Hok HI HI' Hbody. induction l as [|y l IH]; [by inversion Hx|].
  apply elem_of_cons in Hx as [<-|Hx].
  - apply (hoare_bind_returns I I' (body x));
      [apply Hok; left | done | intros _].
    apply keeps_for. intros z Hz. apply HI'. by right.
  - apply (hoare_bind_returns I I (body y));
      [apply Hok; left | apply HI; left | intros _].
    apply IH; [done|intros z Hz..]; [apply Hok | apply HI | apply HI'];
      by right.
Qed.

End hoare.

(** ** Invariants of an object in the environment

    The invariants of the components speak of the object, not of the
    environment: logging, the network and the clock keep them all. *)

Section of_state.
Context {S : Type}.
Implicit Types (J : S → Prop).

Definition of_state J : S * Env → Prop := λ w, J w.1.

Lemma keeps_log J lvl msg : keeps (of_state J) (log lvl msg).
Proof. intros [s e] Hs. by rewrite log_run. Qed.

Lemma keeps_net J c : keeps (of_state J) (net c).
Proof. intros [s e] Hs. by rewrite net_run. Qed.

Lemma keeps_wall_clock J : keeps (of_state J) wall_clock.
Proof. by intros w Hw. Qed.

Lemma keeps_st_modify J (f : S → S) :
  (∀ s, J s → J (f s)) → keeps (of_state J) (st_modify f).
Proof. intros Hf [s e] Hs. by apply Hf. Qed.

(** What [st_get] returns is a snapshot that satisfies the invariant. *)
Lemma keeps_st_get_bind {B} J (f : S → M (S * Env) B) :
  (∀ s, J s → keeps (of_state J) (f s)) → keeps (of_state J) (st_get ≫= f).
Proof.
  intros Hf. apply (keeps_bind_value (of_state J) J); [|done].
  intros w Hw. split; [done|]. by intros a [= <-].
Qed.

Lemma keeps_st_get J : keeps (of_state J) (st_get (S:=S)).
Proof. by intros w Hw. Qed.

(** Reading the object keeps every invariant. *)
Lemma keeps_st_get_world (I : S * Env → Prop) : keeps I (st_get (S:=S)).
Proof. by intros w Hw. Qed.

Lemma keeps_both {A} J J' (m : M (S * Env) A) :
  keeps (of_state J) m → keeps (of_state J') m →
  keeps (of_state (λ s, J s ∧ J' s)) m.
Proof. intros Hm Hm' w [Hw Hw']. split; [by apply Hm | by apply Hm']. Qed.

(** An invariant of a part of the object is kept by a computation that
    leaves the part as it is. *)
Lemma keeps_part {A B} (part : S → B) (J : B → Prop) (m : M (S * Env) A) :
  (∀ w, part (m w).2.1 = part w.1) → keeps (of_state (λ s, J (part s))) m.
Proof. intros Hm w Hw. unfold of_state. by rewrite Hm. Qed.

(** An invariant of the object and the environment together: what [st_get]
    returns is the object of a state that satisfies it. *)
Lemma keeps_st_get_bind_world {B} (I : S * Env → Prop)
    (f : S → M (S * Env) B) :
  (∀ s, (∃ e, I (s, e)) → keeps I (f s)) → keeps I (st_get ≫= f).
Proof.
  intros Hf. apply (keeps_bind_value I (λ s, ∃ e, I (s, e))); [|done].
  intros [s e] Hw. split; [done|]. intros a [= <-]. by exists e.
Qed.

End of_state.

(** ** Invariants of the environment

    What is true of every request the process has made.  Only [net] makes
    a request. *)

Section of_env.
Context {S : Type}.
Implicit Types (P : Env → Prop) (Q : net_call → Prop).

Definition of_env P : S * Env → Prop := λ w, P w.2.

(** Every request made so far satisfies [Q]. *)
Definition calls_in Q : Env → Prop := λ e, Forall Q (calls e).

Lemma calls_in_after Q e cs ls :
  calls_in Q e → Forall Q cs → calls_in Q (env_after e cs ls).
Proof. intros He Hcs. by apply Forall_app. Qed.

Lemma calls_in_log Q lvl msg e : calls_in Q e → calls_in Q (env_log lvl msg e).
Proof. rewrite env_log_after. intros He. by apply calls_in_after. Qed.

Lemma keeps_calls_log Q lvl msg : keeps (of_env (calls_in Q)) (log lvl msg).
Proof. intros [s e] He. rewrite log_run. by apply calls_in_after. Qed.

Lemma keeps_calls_net Q c : Q c → keeps (of_env (calls_in Q)) (net c).
Proof.
  intros Hc [s e] He. rewrite net_run. apply calls_in_after; [done|].
  by apply Forall_singleton.
Qed.

Lemma keeps_env_st_modify P (f : S → S) : keeps (of_env P) (st_modify f).
Proof. by intros w Hw. Qed.

Lemma keeps_env_st_get P : keeps (of_env P) (st_get (S:=S)).
Proof. by intros w Hw. Qed.

Lemma keeps_env_wall_clock P : keeps (of_env P) wall_clock.
Proof. by intros w Hw. Qed.

(** [P] stays true when the process makes requests in [Q] and writes log
    lines in [L]. *)
Definition env_closed Q (L : log_level * string → Prop) P : Prop :=
  ∀ e cs ls, P e → Forall Q cs → Forall L ls → P (env_after e cs ls).

Lemma keeps_closed_log Q L P lvl msg :
  env_closed Q L P → L (lvl, msg) → keeps (of_env P) (log lvl msg).
Proof.
  intros HP Hl [s e] He. rewrite log_run.
  apply HP; [done | done | by apply Forall_singleton].
Qed.

Lemma keeps_closed_net Q L P c :
  env_closed Q L P → Q c → keeps (of_env P) (net c).
Proof.
  intros HP Hc [s e] He. rewrite net_run.
  apply HP; [done | by apply Forall_singleton | done].
Qed.

Lemma calls_in_closed Q : env_closed Q (λ _, True) (calls_in Q).
Proof. intros e cs ls He Hcs _. by apply calls_in_after. Qed.

(** The number of log lines that satisfy [p]. *)
Definition lines (p : log_level * string → bool) (e : Env) : nat :=
  length (List.filter p (logs e)).

Lemma lines_after p e cs ls :
  lines p (env_after e cs ls) = lines p e + length (List.filter p ls).
Proof. unfold lines. simpl. by rewrite List.filter_app, length_app. Qed.

Lemma lines_quiet p e cs ls :
  Forall (λ l, p l = false) ls → lines p (env_after e cs ls) = lines p e.
Proof.
  intros Hls. rewrite lines_after.
  induction Hls as [|l ls Hl _ IH]; simpl; [lia|]. by rewrite Hl.
Qed.

Lemma lines_closed p k :
  env_closed (λ _, True) (λ l, p l = false) (λ e, lines p e = k).
Proof. intros e cs ls He _ Hls. by rewrite lines_quiet. Qed.

Lemma lines_le_closed p k :
  env_closed (λ _, True) (λ l, p l = false) (λ e, lines p e ≤ k).
Proof. intros e cs ls He _ Hls. by rewrite lines_quiet. Qed.

End of_env.

#[export] Hint Resolve keeps_ret keeps_raise keeps_lift keeps_log keeps_net
  keeps_wall_clock keeps_st_get keeps_calls_log keeps_env_st_modify
  keeps_env_st_get keeps_env_wall_clock keeps_st_get_world : ww.

(** Proves that a computation keeps an invariant by following its syntax;
    what is left are the steps that change the object. *)
Ltac solve_keeps :=
  repeat first
    [ progress eauto with ww
    | apply keeps_st_get_bind; intros ? ?
    | apply keeps_lift_bind; intros ? ?
    | apply keeps_bind; [|intros ?]
    | apply keeps_try; [|intros ?]
    | apply keeps_for; intros ? ?
    | case_match
    | case_decide ].
