(* ===== verification/PyDict.v ===== *)
(** * Python dictionaries

    A [dict] keeps its keys in insertion order: assigning to a key that is
    present keeps the key's position, assigning to a new key appends it, and
    [del] removes it.  The code reads that order ([list(d.keys())],
    [list(d.values())[0]]), so a dictionary is modelled as an association list
    with distinct keys, and its order-free view is the finite map [pd_abs].
    The lemmas of this file are what the components use: none of them unfolds
    the list representation again. *)

From stdpp Require Import gmap.
From S2P Require Import Prelude.

Abbreviation pydict K V := (list (K * V)).

Section pydict.
Context {K V : Type} `{!EqDecision K}.
Implicit Types (k : K) (v : V) (d : pydict K V).

(** [d.get(k)], [d[k]] when the key is present. *)
Fixpoint pd_get k d : option V :=
  match d with
  | [] => None
  | (k', v) :: d' => if decide (k = k') then Some v else pd_get k d'
  end.

(** [k in d] *)
Definition pd_mem k d : bool := if pd_get k d is Some _ then true else false.

(** [d[k] = v] *)
Fixpoint pd_set k v d : pydict K V :=
  match d with
  | [] => [(k, v)]
  | (k', v') :: d' =>
      if decide (k = k') then (k', v) :: d' else (k', v') :: pd_set k v d'
  end.

(** [del d[k]] (for a key that is present; no change otherwise) *)
Definition pd_del k d : pydict K V := filter (λ kv, kv.1 ≠ k) d.

(** [list(d.keys())], [list(d.values())] *)
Definition pd_keys d : list K := d.*1.
Definition pd_values d : list V := d.*2.

(** The representation invariant: no key twice. *)
Definition pd_wf d : Prop := NoDup (pd_keys d).

#[export] Instance pd_wf_dec d : Decision (pd_wf d).
Proof. unfold pd_wf. apply _. Defined.

(** *** Lookup *)

Lemma pd_get_nil k : pd_get k ([] : pydict K V) = None.
Proof. done. Qed.

Lemma pd_get_cons k k' v d :
  pd_get k ((k', v) :: d) = if decide (k = k') then Some v else pd_get k d.
Proof. done. Qed.

Lemma pd_mem_spec k d : pd_mem k d = true ↔ is_Some (pd_get k d).
Proof.
  unfold pd_mem. destruct (pd_get k d); (split; [|done]); [eauto | done].
Qed.

Lemma pd_mem_false k d : pd_mem k d = false ↔ pd_get k d = None.
Proof. unfold pd_mem. by destruct (pd_get k d). Qed.

Lemma pd_mem_keys k d : pd_mem k d = true ↔ k ∈ pd_keys d.
Proof.
  rewrite pd_mem_spec. unfold pd_keys.
  induction d as [|[k' v'] d IH]; simpl.
  - split; [by intros [? ?] | by intros ?%elem_of_nil].
  - rewrite elem_of_cons. destruct (decide (k = k')); naive_solver.
Qed.

Lemma pd_get_None_keys k d : pd_get k d = None ↔ k ∉ pd_keys d.
Proof. rewrite <- pd_mem_false, <- pd_mem_keys. by destruct (pd_mem k d). Qed.

Lemma pd_get_elem_of k v d : pd_get k d = Some v → (k, v) ∈ d.
Proof.
  induction d as [|[k' v'] d IH]; simpl; [done|].
  destruct (decide (k = k')) as [->|]; [intros [= ->]; left | right; auto].
Qed.

Lemma pd_elem_of_get k v d : pd_wf d → (k, v) ∈ d → pd_get k d = Some v.
Proof.
  unfold pd_wf, pd_keys. induction d as [|[k' v'] d IH]; simpl.
  - by intros _ ?%elem_of_nil.
  - rewrite NoDup_cons. intros [Hk Hd] [[= -> ->]|Hin]%elem_of_cons.
    + by rewrite decide_True.
    + rewrite decide_False; [auto|]. intros ->. apply Hk.
      apply list_elem_of_fmap. by exists (k', v).
Qed.

(** *** Assignment *)

Lemma pd_get_set_eq k v d : pd_get k (pd_set k v d) = Some v.
Proof.
  induction d as [|[k' v'] d IH]; simpl; [by rewrite decide_True|].
  destruct (decide (k = k')) as [->|Hne]; simpl;
    [by rewrite decide_True | by rewrite decide_False].
Qed.

Lemma pd_get_set_ne k k' v d : k ≠ k' → pd_get k' (pd_set k v d) = pd_get k' d.
Proof.
  intros Hne. induction d as [|[k'' v''] d IH]; simpl.
  - by rewrite decide_False.
  - destruct (decide (k = k'')) as [->|]; simpl; [|by rewrite IH].
    by rewrite !decide_False.
Qed.

Lemma pd_get_set k k' v d :
  pd_get k' (pd_set k v d) = if decide (k = k') then Some v else pd_get k' d.
Proof.
  case_decide as H; [subst; apply pd_get_set_eq | by apply pd_get_set_ne].
Qed.

(** Assigning to a present key keeps the order of the keys; assigning to a new
    key puts it last. *)
Lemma pd_keys_set k v d :
  pd_keys (pd_set k v d) = if pd_mem k d then pd_keys d else pd_keys d ++ [k].
Proof.
  unfold pd_keys, pd_mem. induction d as [|[k' v'] d IH]; csimpl; [done|].
  destruct (decide (k = k')) as [->|Hne]; csimpl; [done|].
  rewrite IH. by destruct (pd_get k d).
Qed.

Lemma pd_set_wf k v d : pd_wf d → pd_wf (pd_set k v d).
Proof.
  unfold pd_wf. rewrite pd_keys_set. destruct (pd_mem k d) eqn:E; [done|].
  intros Hd. apply NoDup_app. split_and!; [done| |apply NoDup_singleton].
  intros x Hx ->%list_elem_of_singleton.
  apply pd_mem_keys in Hx. congruence.
Qed.

(** *** Deletion *)

Lemma pd_get_del_eq k d : pd_get k (pd_del k d) = None.
Proof.
  apply pd_get_None_keys. unfold pd_keys, pd_del.
  intros ([k' v'] & -> & [? _]%list_elem_of_filter)%list_elem_of_fmap. done.
Qed.

Lemma pd_get_del_ne k k' d : k ≠ k' → pd_get k' (pd_del k d) = pd_get k' d.
Proof.
  intros Hne. unfold pd_del. induction d as [|[k'' v''] d IH]; [done|].
  rewrite filter_cons. simpl. destruct (decide (k'' ≠ k)) as [?|Heq]; simpl.
  - by rewrite IH.
  - apply dec_stable in Heq as ->. by rewrite decide_False.
Qed.

Lemma pd_keys_del k d : pd_keys (pd_del k d) = filter (λ k', k' ≠ k) (pd_keys d).
Proof.
  unfold pd_keys, pd_del. induction d as [|[k' v'] d IH]; [done|].
  rewrite filter_cons. csimpl. rewrite filter_cons.
  destruct (decide (k' ≠ k)); csimpl; by rewrite IH.
Qed.

Lemma pd_del_wf k d : pd_wf d → pd_wf (pd_del k d).
Proof. unfold pd_wf. rewrite pd_keys_del. apply NoDup_filter. Qed.

Lemma pd_del_absent k d : pd_mem k d = false → pd_del k d = d.
Proof.
  rewrite pd_mem_false, pd_get_None_keys. unfold pd_del, pd_keys.
  induction d as [|[k' v'] d IH]; [done|]. csimpl.
  rewrite not_elem_of_cons. intros [Hne Hd].
  rewrite filter_cons, decide_True by done. by rewrite IH.
Qed.

(** *** A property of every item *)

Definition pd_Forall (P : K → V → Prop) d : Prop :=
  ∀ k v, pd_get k d = Some v → P k v.

Lemma pd_Forall_nil P : pd_Forall P [].
Proof. by intros k v. Qed.

Lemma pd_Forall_set P k v d : pd_Forall P d → P k v → pd_Forall P (pd_set k v d).
Proof.
  intros Hd Hv k' v'. rewrite pd_get_set.
  case_decide as E; [by intros [= <-]; subst | apply Hd].
Qed.

Lemma pd_Forall_del P k d : pd_Forall P d → pd_Forall P (pd_del k d).
Proof.
  intros Hd k' v'. destruct (decide (k = k')) as [->|Hne];
    [by rewrite pd_get_del_eq | rewrite pd_get_del_ne by done; apply Hd].
Qed.

Lemma pd_Forall_impl (P Q : K → V → Prop) d :
  pd_Forall P d → (∀ k v, P k v → Q k v) → pd_Forall Q d.
Proof. intros Hd HPQ k v Hk. by apply HPQ, Hd. Qed.

(** An assignment to a key that is present does not change a view of the
    items on which the old value and the new one agree. *)
Lemma pd_set_fmap_same {B} (f : K * V → B) k v v0 d :
  pd_get k d = Some v0 → f (k, v) = f (k, v0) → f <$> pd_set k v d = f <$> d.
Proof.
  induction d as [|[k' v'] d IH]; [done|]. rewrite pd_get_cons. simpl.
  case_decide as Hk.
  - subst k'. intros [= ->] Hf. csimpl. by rewrite Hf.
  - intros Hget Hf. csimpl. by rewrite IH.
Qed.

(** *** A measure of the values, summed *)

Definition pd_sum (f : V → nat) d : nat := sum_list (f <$> pd_values d).

(** An assignment replaces the measure of the old value, when there was one,
    by the measure of the new. *)
Lemma pd_sum_set f k v d :
  pd_sum f (pd_set k v d) + from_option f 0 (pd_get k d) = pd_sum f d + f v.
Proof.
  unfold pd_sum, pd_values. induction d as [|[k' v'] d IH]; csimpl; [lia|].
  case_decide; csimpl; lia.
Qed.

(** When only the value under [k0] has a measure, the sum is that
    measure. *)
Lemma pd_sum_one_key f k0 b d :
  pd_wf d →
  pd_Forall (λ k v, f v ≤ if decide (k = k0) then b else 0) d →
  pd_sum f d ≤ if decide (k0 ∈ pd_keys d) then b else 0.
Proof.
  unfold pd_sum, pd_wf, pd_keys, pd_values.
  induction d as [|[k v] d IH]; csimpl; [lia|].
  intros [Hk Hd]%NoDup_cons Hf.
  pose proof (Hf k v) as Hv. rewrite pd_get_cons, decide_True in Hv by done.
  specialize (Hv eq_refl). specialize (IH Hd).
  assert (pd_Forall (λ k v, f v ≤ if decide (k = k0) then b else 0) d) as Hf'.
  { intros k' v' Hget. apply Hf. rewrite pd_get_cons, decide_False; [done|].
    intros ->. apply Hk, dec_stable. intros Hnot%pd_get_None_keys.
    congruence. }
  specialize (IH Hf'). repeat case_decide; set_solver by lia.
Qed.

Lemma pd_length_set k v d :
  length (pd_set k v d) = if pd_mem k d then length d else S (length d).
Proof.
  rewrite <- !(length_fmap fst). change (fst <$> ?x) with (pd_keys x).
  rewrite pd_keys_set. destruct (pd_mem k d); [done|].
  rewrite length_app. simpl. lia.
Qed.

End pydict.

(** ** The order-free view: a dictionary is a finite map *)

Section pydict_abs.
Context {K V : Type} `{Countable K}.
Implicit Types (k : K) (v : V) (d : pydict K V).

Definition pd_abs d : gmap K V := list_to_map d.

Lemma pd_abs_lookup k d : pd_abs d !! k = pd_get k d.
Proof.
  unfold pd_abs. induction d as [|[k' v'] d IH]; simpl; [done|].
  destruct (decide (k = k')) as [->|Hne].
  - by rewrite lookup_insert_eq.
  - by rewrite lookup_insert_ne.
Qed.

Lemma pd_abs_set k v d : pd_abs (pd_set k v d) = <[k:=v]> (pd_abs d).
Proof.
  apply map_eq. intros k'. rewrite lookup_insert, !pd_abs_lookup.
  apply pd_get_set.
Qed.

Lemma pd_abs_del k d : pd_abs (pd_del k d) = delete k (pd_abs d).
Proof.
  apply map_eq. intros k'. rewrite lookup_delete, !pd_abs_lookup.
  case_decide as E; [subst; apply pd_get_del_eq | by apply pd_get_del_ne].
Qed.

Lemma pd_abs_dom d : dom (pd_abs d) = list_to_set (pd_keys d).
Proof.
  apply set_eq. intros k.
  rewrite elem_of_dom, pd_abs_lookup, elem_of_list_to_set.
  rewrite <- pd_mem_spec. apply pd_mem_keys.
Qed.

End pydict_abs.

(** ** Dictionaries up to the order of their keys

    Two dictionaries are equivalent when they answer every lookup alike: the
    order of their keys is all they can differ in.  Lookup, membership,
    assignment and deletion respect the equivalence, so what a dictionary
    holds can be rewritten along it. *)

Section pydict_equiv.
Context {K V : Type} `{!EqDecision K}.
Implicit Types (k : K) (v : V) (d : pydict K V).

Record pd_equiv (d d' : pydict K V) : Prop := PdEquiv {
  pd_equiv_get k : pd_get k d = pd_get k d';
}.

#[export] Instance pd_equiv_equivalence : Equivalence pd_equiv.
Proof.
  split; [by intros d | by intros d d' [H] |].
  intros d1 d2 d3 [H1] [H2]. split. intros k. by rewrite H1.
Qed.

#[export] Instance pd_get_proper k : Proper (pd_equiv ==> eq) (pd_get k).
Proof. intros d d' [H]. apply H. Qed.

#[export] Instance pd_mem_proper k : Proper (pd_equiv ==> eq) (pd_mem k).
Proof. intros d d' [H]. unfold pd_mem. by rewrite (H k). Qed.

#[export] Instance pd_set_proper k v : Proper (pd_equiv ==> pd_equiv) (pd_set k v).
Proof. intros d d' [H]. split. intros k'. by rewrite !pd_get_set, (H k'). Qed.

Lemma pd_get_del k k' d :
  pd_get k' (pd_del k d) = if decide (k = k') then None else pd_get k' d.
Proof.
  case_decide as E; [subst; apply pd_get_del_eq | by apply pd_get_del_ne].
Qed.

#[export] Instance pd_del_proper k : Proper (pd_equiv ==> pd_equiv) (pd_del k).
Proof. intros d d' [H]. split. intros k'. by rewrite !pd_get_del, (H k'). Qed.

(** Assignments to different keys commute, up to the order of the keys. *)
Lemma pd_set_comm k k' v v' d :
  k ≠ k' → pd_equiv (pd_set k v (pd_set k' v' d)) (pd_set k' v' (pd_set k v d)).
Proof.
  intros Hne. split. intros k''. rewrite !pd_get_set.
  repeat case_decide; congruence.
Qed.

(** Well-formed equivalent dictionaries have the same keys and the same
    items, in some order. *)
Lemma pd_equiv_items d d' :
  pd_wf d → pd_wf d' → pd_equiv d d' → d ≡ₚ d'.
Proof.
  intros Hd Hd' [H]. apply NoDup_Permutation.
  - by apply (NoDup_fmap_1 fst).
  - by apply (NoDup_fmap_1 fst).
  - intros [k v]. split; intros Hin.
    + apply pd_get_elem_of. rewrite <- (H k). by apply pd_elem_of_get.
    + apply pd_get_elem_of. rewrite (H k). by apply pd_elem_of_get.
Qed.

End pydict_equiv.

(** Equivalent dictionaries are the same finite map. *)
Lemma pd_equiv_abs {K V} `{Countable K} (d d' : pydict K V) :
  pd_equiv d d' ↔ pd_abs d = pd_abs d'.
Proof.
  split.
  - intros [Hd]. apply map_eq. intros k. by rewrite !pd_abs_lookup.
  - intros Hd. split. intros k. by rewrite <- !pd_abs_lookup, Hd.
Qed.

(** ** A run of assignments *)

Section pd_update.
Context {K V : Type} `{!EqDecision K}.
Implicit Types (k : K) (d : pydict K V) (kvs : list (K * V)).

(** [for k, v in kvs: d[k] = v] *)
Definition pd_update d kvs : pydict K V :=
  foldl (λ d kv, pd_set kv.1 kv.2 d) d kvs.

Lemma pd_update_app d kvs1 kvs2 :
  pd_update d (kvs1 ++ kvs2) = pd_update (pd_update d kvs1) kvs2.
Proof. apply foldl_app. Qed.

(** The last assignment to a key wins. *)
Lemma pd_get_update k d kvs :
  pd_get k (pd_update d kvs) =
  match last (filter (λ kv, kv.1 = k) kvs) with
  | Some kv => Some kv.2
  | None => pd_get k d
  end.
Proof.
  induction kvs as [|[k' v'] kvs IH] using rev_ind; [done|].
  rewrite pd_update_app. simpl. rewrite pd_get_set, filter_app.
  rewrite filter_cons, filter_nil. simpl.
  destruct (decide (k' = k)) as [->|Hne].
  - by rewrite last_snoc.
  - by rewrite app_nil_r.
Qed.

(** Updating with a dictionary: its values win over the ones of [d]. *)
Lemma pd_get_update_wf k kvs : ∀ d,
  pd_wf kvs →
  pd_get k (pd_update d kvs) = from_option Some (pd_get k d) (pd_get k kvs).
Proof.
  induction kvs as [|[k' v'] kvs IH]; intros d Hwf; [done|].
  apply NoDup_cons in Hwf as [Hk' Hwf].
  change (pd_update d ((k', v') :: kvs)) with (pd_update (pd_set k' v' d) kvs).
  rewrite IH, pd_get_cons by done. destruct (decide (k = k')) as [->|Hne].
  - apply (pd_get_None_keys k' kvs) in Hk'. by rewrite Hk', pd_get_set_eq.
  - by rewrite pd_get_set_ne.
Qed.

(** Assignments to one key, into an empty dictionary, leave the last one. *)
Lemma pd_update_one_key k kvs :
  Forall (λ kv, kv.1 = k) kvs →
  pd_update [] kvs = match last kvs with Some kv => [(k, kv.2)] | None => [] end.
Proof.
  induction kvs as [|[k' v'] kvs IH] using rev_ind; [done|].
  intros [Hkvs Hk]%Forall_app. rewrite Forall_singleton in Hk.
  assert (k' = k) as -> by done.
  rewrite pd_update_app, last_snoc, IH by done. simpl.
  destruct (last kvs); simpl; [by rewrite decide_True | done].
Qed.

Lemma pd_update_wf d kvs : pd_wf d → pd_wf (pd_update d kvs).
Proof.
  revert d. induction kvs as [|[k v] kvs IH]; intros d Hd; [done|].
  apply IH. by apply pd_set_wf.
Qed.

End pd_update.

#[export] Hint Resolve pd_set_wf pd_del_wf pd_update_wf : ww.
#[export] Hint Rewrite @pd_get_set_eq @pd_get_del_eq : ww_rw.
