(* ===== verification/PyStr.v ===== *)
(** * Python strings and values

    The [str] methods the program calls ([upper], [title], slices, [join],
    [replace] of one character, [startswith], [endswith]) on strings of ASCII
    characters, and the dynamically typed values of a YAML document or a JSON
    body ([pyval]).  A character outside ASCII is left as it is by [upper] and
    [title] and counts as uncased.  Floats are IEEE 754 binary64, the kernel's
    primitive floats, so comparisons behave as Python's do, NaN included. *)

From Stdlib Require Export Floats.
From Stdlib Require Export Ascii.
From S2P Require Import Prelude PyDict.

Definition is_lower (c : ascii) : bool :=
  let n := Ascii.N_of_ascii c in ((97 <=? n) && (n <=? 122))%N.

Definition is_upper (c : ascii) : bool :=
  let n := Ascii.N_of_ascii c in ((65 <=? n) && (n <=? 90))%N.

Definition to_upper (c : ascii) : ascii :=
  if is_lower c then Ascii.ascii_of_N (Ascii.N_of_ascii c - 32) else c.

Definition to_lower (c : ascii) : ascii :=
  if is_upper c then Ascii.ascii_of_N (Ascii.N_of_ascii c + 32) else c.

(** [s.upper()] *)
Fixpoint py_upper (s : string) : string :=
  match s with
  | EmptyString => EmptyString
  | String c s' => String (to_upper c) (py_upper s')
  end.

(** [s.lower()] *)
Fixpoint py_lower (s : string) : string :=
  match s with
  | EmptyString => EmptyString
  | String c s' => String (to_lower c) (py_lower s')
  end.

(** [needle in s] *)
Fixpoint str_contains (needle s : string) : bool :=
  String.prefix needle s ||
  match s with
  | EmptyString => false
  | String _ s' => str_contains needle s'
  end.

(** [s.title()]: a cased character that follows an uncased one (or starts the
    string) is upper-cased, every other cased character is lower-cased. *)
Fixpoint py_title_from (prev_cased : bool) (s : string) : string :=
  match s with
  | EmptyString => EmptyString
  | String c s' =>
      if is_lower c then
        String (if prev_cased then c else to_upper c) (py_title_from true s')
      else if is_upper c then
        String (if prev_cased then to_lower c else c) (py_title_from true s')
      else String c (py_title_from false s')
  end.

Definition py_title (s : string) : string := py_title_from false s.

(** [s[:n]] *)
Definition py_prefix (n : nat) (s : string) : string := String.substring 0 n s.

(** [sep.join(l)] *)
Definition py_join (sep : string) (l : list string) : string :=
  String.concat sep l.

(** [s.replace(c, new)] for a one-character [c]. *)
Fixpoint py_replace (c : ascii) (new : string) (s : string) : string :=
  match s with
  | EmptyString => EmptyString
  | String c' s' =>
      if decide (c' = c) then new +:+ py_replace c new s'
      else String c' (py_replace c new s')
  end.

(** [bool(s)]: a string is true when it is not empty. *)
Definition str_truthy (s : string) : bool :=
  match s with EmptyString => false | _ => true end.

(** [a or b] on strings *)
Definition str_or (a b : string) : string := if str_truthy a then a else b.

(** The newline character. *)
Definition nl : string := String (Ascii.ascii_of_nat 10) EmptyString.

(** [bool(x)] of a float: every float but the two zeros is true, NaN included. *)
Definition float_truthy (x : float) : bool := negb (PrimFloat.eqb x 0%float).

(** [float(z)] of an integer: the nearest binary64, ties to even; an integer
    beyond the largest float becomes an infinity here, where Python raises
    [OverflowError] (see [float_of_int]). *)
Definition Z_to_float (z : Z) : float :=
  SF2Prim (SpecFloat.binary_normalize FloatOps.prec FloatOps.emax z 0 false).

Definition float_of_int (z : Z) : result float :=
  let x := Z_to_float z in
  if PrimFloat.is_infinity x
  then Raise (Exn OverflowError "int too large to convert to float")
  else Ok x.

(** The values a decoded YAML or JSON document holds. *)
#[warnings="-register-all"] Inductive pyval :=
| PNone
| PBool (b : bool)
| PInt (z : Z)
| PFloat (x : float)
| PStr (s : string)
| PList (l : list pyval)
| PDict (d : list (string * pyval)).

(** [type(v).__name__] *)
Definition type_name (v : pyval) : string :=
  match v with
  | PNone => "NoneType" | PBool _ => "bool" | PInt _ => "int"
  | PFloat _ => "float" | PStr _ => "str" | PList _ => "list"
  | PDict _ => "dict"
  end.

(** [v.get(key, dflt)]: only a dictionary has the method. *)
Definition py_get (key : string) (dflt v : pyval) : result pyval :=
  match v with
  | PDict d => Ok (default dflt (pd_get key d))
  | _ => Raise (Exn AttributeError
                  ("'" +:+ type_name v +:+ "' object has no attribute 'get'"))
  end.

(** [v / y] for a float [y]: an integer or a boolean is converted first,
    a float is divided, anything else is a [TypeError]. *)
Definition py_div_float (v : pyval) (y : float) : result float :=
  match v with
  | PInt z => x ← float_of_int z; Ok (x / y)%float
  | PBool b => Ok ((if b then 1 else 0) / y)%float
  | PFloat x => Ok (x / y)%float
  | _ => Raise (Exn TypeError
                  ("unsupported operand type(s) for /: '" +:+ type_name v
                   +:+ "' and 'float'"))
  end.

(** [c.isspace()] for an ASCII character *)
Definition is_space (c : ascii) : bool :=
  let n := Ascii.N_of_ascii c in
  (((9 <=? n) && (n <=? 13)) || ((28 <=? n) && (n <=? 32)))%N.

(** [s.rstrip()]: the white space at the end is removed. *)
Fixpoint py_rstrip (s : string) : string :=
  match s with
  | EmptyString => EmptyString
  | String c s' =>
      match py_rstrip s' with
      | EmptyString => if is_space c then EmptyString else String c EmptyString
      | r => String c r
      end
  end.

(** [s.startswith(p)], [s.endswith(p)] *)
Definition py_startswith (p s : string) : bool := String.prefix p s.

(** [s[n:]] *)
Fixpoint py_drop (n : nat) (s : string) : string :=
  match n, s with
  | S n', String _ s' => py_drop n' s'
  | _, _ => s
  end.

(** [s.endswith(p)]: [p] is not longer than [s] and is its tail. *)
Definition py_endswith (p s : string) : bool :=
  bool_decide (String.length p ≤ String.length s)
  && bool_decide (py_drop (String.length s - String.length p) s = p).

(** [s[i:-j]] for [j] at least one. *)
Definition py_slice (i j : nat) (s : string) : string :=
  String.substring i (String.length s - j - i) s.

(** [s.split(sep, 1)] when [sep in s]: the text before the first occurrence
    of [sep] and the text after it; [None] when [sep] does not occur. *)
Fixpoint split_once (sep s : string) : option (string * string) :=
  if String.prefix sep s then Some (EmptyString, py_drop (String.length sep) s)
  else match s with
       | EmptyString => None
       | String c s' =>
           match split_once sep s' with
           | Some (before, after) => Some (String c before, after)
           | None => None
           end
       end.

(** ** Lemmas *)

Lemma str_truthy_length s : str_truthy s = true ↔ String.length s ≠ 0.
Proof. by destruct s. Qed.

Lemma str_or_truthy a b : str_truthy a = true → str_or a b = a.
Proof. unfold str_or. by intros ->. Qed.

Lemma str_or_empty b : str_or "" b = b.
Proof. done. Qed.

Lemma py_upper_length s : String.length (py_upper s) = String.length s.
Proof. induction s; simpl; congruence. Qed.

Lemma to_upper_not_lower c : is_lower (to_upper c) = false.
Proof.
  unfold to_upper. destruct (is_lower c) eqn:E; [|done].
  revert E. destruct c as [[] [] [] [] [] [] [] []]; by vm_compute.
Qed.

(** After [upper] no lower-case letter is left. *)
Lemma py_upper_no_lower s c :
  c ∈ String.list_ascii_of_string (py_upper s) → is_lower c = false.
Proof.
  induction s as [|c' s IH]; simpl; [by intros ?%elem_of_nil|].
  intros [->|?]%elem_of_cons; [apply to_upper_not_lower | auto].
Qed.

Lemma py_upper_idemp s : py_upper (py_upper s) = py_upper s.
Proof.
  induction s as [|c s IH]; simpl; [done|]. rewrite IH. f_equal.
  unfold to_upper at 1. by rewrite to_upper_not_lower.
Qed.

Lemma py_title_from_length b s :
  String.length (py_title_from b s) = String.length s.
Proof.
  revert b. induction s as [|c s IH]; intros b; simpl; [done|].
  destruct (is_lower c), (is_upper c); simpl; by rewrite IH.
Qed.

Lemma py_prefix_length n s : String.length (py_prefix n s) ≤ n.
Proof.
  unfold py_prefix. revert s. induction n as [|n IH]; intros [|c s]; simpl;
    try lia. specialize (IH s). lia.
Qed.

Lemma py_prefix_short n s : String.length s ≤ n → py_prefix n s = s.
Proof.
  unfold py_prefix. revert s. induction n as [|n IH]; intros [|c s]; simpl;
    try done; try lia. intros ?. rewrite IH; [done | lia].
Qed.

(** [x.replace(c, new)] leaves no [c] when [new] has none. *)
Lemma py_replace_fresh c new s :
  c ∉ String.list_ascii_of_string new →
  c ∉ String.list_ascii_of_string (py_replace c new s).
Proof.
  intros Hnew. induction s as [|c' s IH]; simpl; [apply not_elem_of_nil|].
  destruct (decide (c' = c)) as [->|Hne]; simpl.
  - revert IH. generalize (py_replace c new s). intros t Ht.
    induction new as [|a new IHn]; simpl in *; [done|].
    apply not_elem_of_cons in Hnew as [? ?]. apply not_elem_of_cons. auto.
  - apply not_elem_of_cons. auto.
Qed.

(** *** Concatenation, prefixes and splitting *)

Lemma str_app_cons c s t : String c s +:+ t = String c (s +:+ t).
Proof. done. Qed.

Lemma str_app_nil t : "" +:+ t = t.
Proof. done. Qed.

Lemma str_app_assoc s t u : s +:+ (t +:+ u) = (s +:+ t) +:+ u.
Proof. induction s; rewrite ?str_app_cons; [done | congruence]. Qed.

Lemma str_app_nil_r s : s +:+ "" = s.
Proof. induction s; rewrite ?str_app_cons; [done | congruence]. Qed.

(** Characters of a concatenation. *)
Lemma str_chars_app s t :
  String.list_ascii_of_string (s +:+ t) =
  String.list_ascii_of_string s ++ String.list_ascii_of_string t.
Proof. induction s; rewrite ?str_app_cons; simpl; [done | congruence]. Qed.

(** [sep.join] of a list that is not empty starts with the first string and
    goes on with the separator and the rest. *)
Lemma py_join_cons sep x l :
  py_join sep (x :: l) =
  x +:+ match l with [] => "" | _ => sep +:+ py_join sep l end.
Proof. destruct l; [by rewrite str_app_nil_r | done]. Qed.

Lemma py_join_app sep l x l' :
  ∃ before after, py_join sep (l ++ x :: l') = before +:+ x +:+ after.
Proof.
  induction l as [|y l [before [after IH]]].
  - exists "", (match l' with [] => "" | _ => sep +:+ py_join sep l' end).
    by rewrite app_nil_l, py_join_cons.
  - exists (y +:+ sep +:+ before), after.
    rewrite <- app_comm_cons, py_join_cons, IH.
    destruct l; cbn [app]; by rewrite <- !str_app_assoc.
Qed.

Lemma str_length_app s t :
  String.length (s +:+ t) = String.length s + String.length t.
Proof. induction s; rewrite ?str_app_cons; simpl; [done | congruence]. Qed.

Lemma py_drop_app s t : py_drop (String.length s) (s +:+ t) = t.
Proof. induction s; rewrite ?str_app_cons; simpl; [by destruct t | done]. Qed.

Lemma prefix_app p s : String.prefix p (p +:+ s) = true.
Proof.
  induction p as [|c p IH]; rewrite ?str_app_cons; simpl; [by destruct s|].
  by destruct (Ascii.ascii_dec c c).
Qed.

Lemma py_endswith_app p s : py_endswith p (s +:+ p) = true.
Proof.
  unfold py_endswith. rewrite str_length_app.
  replace (_ + _ - _) with (String.length s) by lia.
  rewrite py_drop_app, !bool_decide_eq_true_2; [done..|lia].
Qed.

Lemma substring_app_l s t : String.substring 0 (String.length s) (s +:+ t) = s.
Proof.
  induction s; rewrite ?str_app_cons; simpl; [by destruct t | congruence].
Qed.

Lemma substring_app_r s n t :
  String.substring (String.length s) n (s +:+ t) = String.substring 0 n t.
Proof. induction s; rewrite ?str_app_cons; simpl; done. Qed.

(** [(a + s + b)[len(a):-len(b)]] is [s]. *)
Lemma py_slice_app a s b :
  py_slice (String.length a) (String.length b) (a +:+ s +:+ b) = s.
Proof.
  unfold py_slice. rewrite !str_length_app, substring_app_r.
  replace (_ - _ - _) with (String.length s) by lia. apply substring_app_l.
Qed.

Lemma prefix_drop p s :
  String.prefix p s = true → s = p +:+ py_drop (String.length p) s.
Proof.
  revert s. induction p as [|c p IH]; intros [|c' s]; simpl; try done.
  destruct (Ascii.ascii_dec c c') as [->|]; [|done].
  intros ?. change (String c' p +:+ ?x) with (String c' (p +:+ x)).
  f_equal. by apply IH.
Qed.

Lemma prefix_spec p s : String.prefix p s = true ↔ ∃ t, s = p +:+ t.
Proof.
  split; [intros ?%prefix_drop; by eexists | intros [t ->]; apply prefix_app].
Qed.

Lemma split_once_unfold sep s :
  split_once sep s =
  if String.prefix sep s then Some (EmptyString, py_drop (String.length sep) s)
  else match s with
       | EmptyString => None
       | String c s' =>
           match split_once sep s' with
           | Some (before, after) => Some (String c before, after)
           | None => None
           end
       end.
Proof. by destruct s. Qed.

Lemma split_once_Some sep s before after :
  split_once sep s = Some (before, after) → s = before +:+ sep +:+ after.
Proof.
  revert before. induction s as [|c s IH]; intros before;
    rewrite split_once_unfold; destruct (String.prefix sep _) eqn:E;
    try (by intros [= <- <-]; apply prefix_drop).
  destruct (split_once sep s) as [[b a]|]; [|done].
  intros [= <- <-]. change (String c b +:+ ?x) with (String c (b +:+ x)).
  f_equal. by apply IH.
Qed.

Lemma str_contains_unfold sep s :
  str_contains sep s =
  String.prefix sep s
  || match s with EmptyString => false | String _ s' => str_contains sep s' end.
Proof. by destruct s. Qed.

Lemma split_once_None sep s :
  split_once sep s = None ↔ str_contains sep s = false.
Proof.
  induction s as [|c s IH]; rewrite split_once_unfold, str_contains_unfold;
    destruct (String.prefix sep _); simpl; try (by split).
  rewrite <- IH. by destruct (split_once sep s) as [[]|].
Qed.

(** *** Comparisons with NaN *)

Lemma SFcompare_refl f :
  f ≠ SpecFloat.S754_nan → SpecFloat.SFcompare f f = Some Eq.
Proof.
  destruct f as [[]|[]| |[] m e]; simpl; try done; intros _;
    by rewrite Z.compare_refl, Pos.compare_cont_refl.
Qed.

(** NaN is below nothing: [x < y] is false when [x] is NaN. *)
Lemma is_nan_ltb x y : PrimFloat.is_nan x = true → PrimFloat.ltb x y = false.
Proof.
  unfold PrimFloat.is_nan. rewrite FloatAxioms.ltb_spec, FloatAxioms.eqb_spec.
  unfold SpecFloat.SFeqb, SpecFloat.SFltb.
  destruct (Prim2SF x) eqn:E; try (by rewrite SFcompare_refl); done.
Qed.

(** *** White space at the end *)

Lemma py_rstrip_elem s c :
  c ∈ String.list_ascii_of_string (py_rstrip s) →
  c ∈ String.list_ascii_of_string s.
Proof.
  induction s as [|c' s IH]; simpl; [done|].
  destruct (py_rstrip s) as [|c'' r] eqn:E.
  - destruct (is_space c'); simpl; [by intros ?%elem_of_nil|].
    intros [->|?%elem_of_nil]%elem_of_cons; [left | done].
  - simpl. intros [->|?]%elem_of_cons; [left | right; auto].
Qed.

Lemma py_rstrip_app_space s c :
  is_space c = true → py_rstrip (s +:+ String c "") = py_rstrip s.
Proof.
  intros Hc. induction s as [|c' s IH]; rewrite ?str_app_cons, ?str_app_nil; simpl.
  - by rewrite Hc.
  - by rewrite IH.
Qed.

Lemma py_rstrip_idemp s : py_rstrip (py_rstrip s) = py_rstrip s.
Proof.
  induction s as [|c s IH]; simpl; [done|].
  destruct (py_rstrip s) as [|c' r] eqn:E.
  - destruct (is_space c) eqn:Hc; simpl; [done | by rewrite Hc].
  - simpl in *. by rewrite IH.
Qed.

Lemma py_rstrip_length s : String.length (py_rstrip s) ≤ String.length s.
Proof.
  induction s as [|c s IH]; simpl; [done|].
  destruct (py_rstrip s); [destruct (is_space c)|]; simpl in *; lia.
Qed.

(** ** Induction on values

    A value nests through lists and dictionaries; the induction hypothesis
    holds for every element. *)
Lemma pyval_ind_nested (P : pyval → Prop) :
  P PNone → (∀ b, P (PBool b)) → (∀ z, P (PInt z)) → (∀ x, P (PFloat x)) →
  (∀ s, P (PStr s)) →
  (∀ l, Forall P l → P (PList l)) →
  (∀ d, Forall (λ kv, P kv.2) d → P (PDict d)) →
  ∀ v, P v.
Proof.
  intros HN HB HI HF HS HL HD. fix IH 1. intros [ |b|z|x|s|l|d].
  - exact HN.
  - apply HB.
  - apply HI.
  - apply HF.
  - apply HS.
  - apply HL. induction l as [|v l IHl]; constructor; [apply IH | exact IHl].
  - apply HD.
    induction d as [|[k v] d IHd]; constructor; [apply IH | exact IHd].
Qed.

#[export] Hint Rewrite py_upper_length py_title_from_length : ww_rw.
