(* ===== verification/Models.v ===== *)
(** * The event model and the configuration

    [Transaction] and [to_message] of models.py, the configuration classes of
    config.py, and the shape of the provider's webhook events.  A record's
    fields have the types the source annotates them with.

    The webhook body is decoded JSON.  The model gives an event the fields the
    provider code reads, each optional because the code reads it with
    [dict.get] and a default; a body whose fields have other JSON types than
    the ones given here (a number where a string is read) is outside the
    model. *)

From S2P Require Import Prelude PyDict PyStr.

(** ** Webhook events (the [dict] a Helius enhanced webhook delivers) *)

Record AccountData := mkAccountData {
  account : option string;
}.

Record Transfer := mkTransfer {
  fromUserAccount : option string;
  toUserAccount : option string;
}.

Record HeliusEvent := mkEvent {
  ev_signature : option string;
  ev_description : option string;
  ev_type : option string;
  ev_timestamp : option Z;
  ev_accountData : option (list AccountData);
  ev_nativeTransfers : option (list Transfer);
  ev_tokenTransfers : option (list Transfer);
}.

(** [bool(d)] of the event as a dict: false only when it has no key at all. *)
Definition event_truthy (ev : HeliusEvent) : bool :=
  bool_decide (is_Some (ev_signature ev)) || bool_decide (is_Some (ev_description ev))
  || bool_decide (is_Some (ev_type ev)) || bool_decide (is_Some (ev_timestamp ev))
  || bool_decide (is_Some (ev_accountData ev))
  || bool_decide (is_Some (ev_nativeTransfers ev))
  || bool_decide (is_Some (ev_tokenTransfers ev)).

(** ** models.py *)

Record Transaction := mkTransaction {
  signature : string;
  chain : string;
  address : string;
  tx_type : string;
  description : string;
  amount_usd : option float;
  timestamp : option Z;
  raw : option HeliusEvent;
}.

(** Python's format specification [,.2f], which [to_message] applies to the
    amount.  Its digits are not modelled: the theorems hold for any rendering. *)
Class UsdFormat := format_usd : float → string.

Section to_message.
Context `{!UsdFormat}.

(** [if self.amount_usd:] is true for an amount that is present and not zero. *)
Definition amount_truthy (a : option float) : bool :=
  match a with Some x => float_truthy x | None => false end.

Definition explorer_lines (tx : Transaction) : list string :=
  if decide (chain tx = "solana") then
    [nl +:+ "<a href='" +:+ ("https://solscan.io/tx/" +:+ signature tx)
        +:+ "'>View on Solscan</a>"]
  else if decide (chain tx = "ethereum") then
    [nl +:+ "<a href='" +:+ ("https://etherscan.io/tx/" +:+ signature tx)
        +:+ "'>View on Etherscan</a>"]
  else [].

Definition to_message (tx : Transaction) (label : string) : string :=
  let wallet_name := str_or label (py_prefix 8 (address tx) +:+ "...") in
  let lines :=
    ["<b>" +:+ py_upper (tx_type tx) +:+ "</b> on " +:+ py_title (chain tx);
     "Wallet: " +:+ wallet_name]
    ++ (if str_truthy (description tx) then [nl +:+ description tx] else [])
    ++ (match amount_usd tx with
        | Some a => if float_truthy a
                    then ["Value: <b>$" +:+ format_usd a +:+ "</b>"] else []
        | None => []
        end)
    ++ explorer_lines tx in
  py_join nl lines.

End to_message.

(** ** config.py *)

Record ChainConfig := mkChainConfig {
  cc_name : string;
  cc_provider : string;
  cc_api_key : string;
  cc_rpc_url : string;
  cc_webhook_url : string;
  cc_webhook_id : string;
  cc_webhook_secret : string;
}.

Record NotifierConfig := mkNotifierConfig {
  nc_type : string;
  nc_bot_token : string;
  nc_webhook_url : string;
  nc_chat_id : string;
}.

Record WatchConfig := mkWatchConfig {
  w_address : string;
  w_chain : string;
  w_label : string;
  w_notify : list string;
  w_filters : pydict string pyval;
}.

Record FilterConfig := mkFilterConfig {
  min_usd_value : float;
  tx_types : list string;
}.

Record StorageConfig := mkStorageConfig {
  sc_type : string;
  sc_path : string;
  sc_url : string;
}.

Record ServerConfig := mkServerConfig {
  srv_port : Z;
  srv_host : string;
  srv_secret : string;
}.

Record Config := mkConfig {
  chains : list ChainConfig;
  notifiers : list NotifierConfig;
  watches : list WatchConfig;
  filters : FilterConfig;
  storage : StorageConfig;
  server : ServerConfig;
}.

(** The field defaults of the classes. *)
Definition default_FilterConfig : FilterConfig :=
  {| min_usd_value := 0%float; tx_types := [] |}.

Definition default_StorageConfig : StorageConfig :=
  {| sc_type := "sqlite"; sc_path := "./data/wallet_watch.db"; sc_url := "" |}.

Definition default_ServerConfig (env_port : Z) : ServerConfig :=
  {| srv_port := env_port; srv_host := "0.0.0.0"; srv_secret := "" |}.

(** ** Lemmas on [to_message] *)

Section to_message_lemmas.
Context `{!UsdFormat}.

(** With a label, the wallet's address does not appear in the wallet line. *)
Lemma to_message_label tx label :
  str_truthy label = true →
  to_message tx label = to_message
    {| signature := signature tx; chain := chain tx; address := "";
       tx_type := tx_type tx; description := description tx;
       amount_usd := amount_usd tx; timestamp := timestamp tx; raw := raw tx |}
    label.
Proof. intros Hl. unfold to_message, explorer_lines. simpl. by rewrite !str_or_truthy. Qed.

(** The description and the label are in the message as they are: between
    the tags [to_message] writes, nothing of them is escaped.  The message
    is sent to Telegram as HTML, and the description is the text of the
    provider's event. *)
Theorem to_message_verbatim tx label :
  (str_truthy (description tx) = true →
   ∃ before after, to_message tx label = before +:+ description tx +:+ after)
  ∧ (str_truthy label = true →
     ∃ before after, to_message tx label = before +:+ label +:+ after).
Proof.
  unfold to_message. split; intros Ht; rewrite ?Ht, ?(str_or_truthy _ _ Ht).
  - destruct (py_join_app nl
                ["<b>" +:+ py_upper (tx_type tx) +:+ "</b> on " +:+ py_title (chain tx);
                 "Wallet: " +:+ str_or label (py_prefix 8 (address tx) +:+ "...")]
                (nl +:+ description tx)
                (match amount_usd tx with
                 | Some a => if float_truthy a
                             then ["Value: <b>$" +:+ format_usd a +:+ "</b>"] else []
                 | None => []
                 end ++ explorer_lines tx)) as (before & after & Hj).
    exists (before +:+ nl), after.
    etrans; [exact Hj | by rewrite <- !str_app_assoc].
  - destruct (py_join_app nl
                ["<b>" +:+ py_upper (tx_type tx) +:+ "</b> on " +:+ py_title (chain tx)]
                ("Wallet: " +:+ label)
                ((if str_truthy (description tx) then [nl +:+ description tx] else [])
                 ++ match amount_usd tx with
                    | Some a => if float_truthy a
                                then ["Value: <b>$" +:+ format_usd a +:+ "</b>"] else []
                    | None => []
                    end ++ explorer_lines tx)) as (before & after & Hj).
    exists (before +:+ "Wallet: "), after.
    etrans; [exact Hj | by rewrite <- !str_app_assoc].
Qed.


End to_message_lemmas.

(** An event whose description is a link. *)
Definition link_tx : Transaction :=
  {| signature := "sig1"; chain := "solana";
     address := "So11111111111111111111111111111111111111112";
     tx_type := "transfer";
     description := "<a href='https://example.org/claim'>Claim your airdrop</a>";
     amount_usd := None; timestamp := None; raw := None |}.

