(* ===== verification/Config.v ===== *)
(** * Loading the configuration (config.py)

    [expand_env_vars] walks a decoded YAML document and replaces the strings
    of the form [${VAR}] and [${VAR:-default}] by the value of the
    environment variable; [load_config] reads the file, decodes it, expands
    it and hands the mapping to the [Config] class; [get_default_config] is
    the configuration [start] falls back on.

    Three things are given to this code from outside and are parameters
    here: the process environment ([Environ], what [os.getenv] reads), the
    YAML decoder ([Yaml], [yaml.safe_load] on the text of a file) and the
    validation pydantic performs when [Config] is built from the mapping
    ([Pydantic]).
    The file system is a finite map from paths to the text of the files.
    The keys of a mapping are strings, and a path is printed as it was
    given. *)

From stdpp Require Import gmap.
From S2P Require Import Prelude PyDict PyStr Models.

(** [os.environ] *)
Class Environ := getenv : string → option string.

(** [yaml.safe_load] on the text of a file: the decoded document, or the
    error the decoder raises. *)
Class Yaml := safe_load : string → result pyval.

(** [Config] called with the mapping as its keyword arguments: the validated
    configuration, or pydantic's error. *)
Class Pydantic := Config_validate : pydict string pyval → result Config.

(** The files of the working directory, by path. *)
Abbreviation Files := (gmap string string).

Section config.
Context {environ : Environ}.

(** [os.getenv(name, dflt)] *)
Definition os_getenv (name dflt : string) : string := default dflt (getenv name).

(** [value.startswith("${") and value.endswith("}")] *)
Definition is_placeholder (value : string) : bool :=
  py_startswith "${" value && py_endswith "}" value.

(** The [str] branch of [expand_env_vars]. *)
Definition expand_str (value : string) : string :=
  if is_placeholder value then
    let inner := py_slice 2 1 value in
    match split_once ":-" inner with
    | Some (env_var, dflt) => os_getenv env_var dflt
    | None => os_getenv inner ""
    end
  else value.

Fixpoint expand_env_vars (value : pyval) : pyval :=
  match value with
  | PStr s => PStr (expand_str s)
  | PDict d => PDict (map (λ '(k, v), (k, expand_env_vars v)) d)
  | PList l => PList (map expand_env_vars l)
  | _ => value
  end.

(** What unpacking the keyword arguments raises when the document is not a
    mapping. *)
Definition not_a_mapping (v : pyval) : exn :=
  Exn TypeError ("wallet_watch.config.Config() argument after ** must be a "
                 +:+ "mapping, not " +:+ type_name v).

Definition config_not_found (config_path : string) : exn :=
  Exn FileNotFoundError ("Config file not found: " +:+ config_path).

Definition load_config {yaml : Yaml} {pydantic : Pydantic} (files : Files)
    (config_path : string) : result Config :=
  match files !! config_path with
  | None => Raise (config_not_found config_path)
  | Some text =>
      raw_config ← safe_load text;
      match expand_env_vars raw_config with
      | PDict expanded_config => Config_validate expanded_config
      | other => Raise (not_a_mapping other)
      end
  end.

(** [get_default_config]; [port] is the default of [ServerConfig.port], which
    was read from [PORT] when the module was imported. *)
Definition get_default_config (port : Z) : Config :=
  {| chains :=
       [{| cc_name := "solana"; cc_provider := "helius";
           cc_api_key := os_getenv "HELIUS_API_KEY" "";
           cc_rpc_url := "";
           cc_webhook_url := os_getenv "WEBHOOK_URL" "";
           cc_webhook_id := os_getenv "HELIUS_WEBHOOK_ID" "";
           cc_webhook_secret := os_getenv "WEBHOOK_SECRET" "" |}];
     notifiers :=
       [{| nc_type := "telegram";
           nc_bot_token := os_getenv "TELEGRAM_BOT_TOKEN" "";
           nc_webhook_url := ""; nc_chat_id := "" |}];
     watches := [];
     filters := default_FilterConfig;
     storage := default_StorageConfig;
     server := default_ServerConfig port |}.

(** ** What a document is made of *)

(** The strings that occur as values in a document. *)
Fixpoint strings_of (v : pyval) : list string :=
  match v with
  | PStr s => [s]
  | PList l => concat (map strings_of l)
  | PDict d => concat (map (λ '(_, v), strings_of v) d)
  | _ => []
  end.

(** The document with every string value blanked: its keys, its nesting and
    its other scalars. *)
Fixpoint shape (v : pyval) : pyval :=
  match v with
  | PStr _ => PStr ""
  | PList l => PList (map shape l)
  | PDict d => PDict (map (λ '(k, v), (k, shape v)) d)
  | _ => v
  end.

(** The placeholder for a variable, without and with a default. *)
Definition placeholder (var : string) : string := "${" +:+ var +:+ "}".

Definition placeholder_default (var dflt : string) : string :=
  placeholder (var +:+ ":-" +:+ dflt).

End config.

(** ** Properties of the expansion *)

Section config_lemmas.
Context {environ : Environ}.
Implicit Types (v : pyval) (var dflt value : string).

Lemma expand_str_plain value :
  is_placeholder value = false → expand_str value = value.
Proof. unfold expand_str. by intros ->. Qed.

Lemma is_placeholder_placeholder var : is_placeholder (placeholder var) = true.
Proof.
  unfold is_placeholder, placeholder, py_startswith.
  rewrite prefix_app. simpl. rewrite str_app_assoc. apply py_endswith_app.
Qed.

Lemma expand_str_placeholder var :
  expand_str (placeholder var) =
  match split_once ":-" var with
  | Some (env_var, dflt) => os_getenv env_var dflt
  | None => os_getenv var ""
  end.
Proof.
  unfold expand_str. rewrite is_placeholder_placeholder.
  cbv zeta.
  by replace (py_slice 2 1 (placeholder var)) with var
    by (symmetry; apply (py_slice_app "${" var "}")).
Qed.

(** The first [:-] of [var:-dflt] is the one written, when [var] has none. *)
Lemma split_once_default var dflt :
  str_contains ":-" var = false →
  split_once ":-" (var +:+ ":-" +:+ dflt) = Some (var, dflt).
Proof.
  induction var as [|c var IH]; [by destruct dflt|].
  rewrite str_contains_unfold. intros [Hp Hc]%orb_false_elim.
  rewrite str_app_cons, split_once_unfold, IH by done.
  assert (String.prefix ":-" (String c (var +:+ ":-" +:+ dflt)) = false) as ->;
    [|done].
  apply not_true_is_false. intros [t Ht]%prefix_spec.
  apply not_true_iff_false in Hp. apply Hp, prefix_spec.
  destruct var as [|c' var]; vm_compute in Ht; [by injection Ht|].
  injection Ht as -> -> _. by exists var.
Qed.

(** The expansion only replaces strings: every scalar that is not a
    string, every key and the nesting of the document are kept. *)
Theorem expand_env_vars_shape v : shape (expand_env_vars v) = shape v.
Proof.
  induction v as [| | | | |l IH|d IH] using pyval_ind_nested; simpl; try done.
  - f_equal. induction IH; simpl; [done | congruence].
  - f_equal. induction IH as [|[k v] d Hv _ IHd]; simpl in *; [done | congruence].
Qed.

(** A document without placeholders is left as it is. *)
Lemma expand_env_vars_plain v :
  Forall (λ s, is_placeholder s = false) (strings_of v) → expand_env_vars v = v.
Proof.
  induction v as [| | | | |l IH|d IH] using pyval_ind_nested; simpl; try done.
  - rewrite Forall_singleton. intros Hs. by rewrite expand_str_plain.
  - intros Hl. f_equal. induction IH as [|v l Hv _ IHl]; simpl in *; [done|].
    apply Forall_app in Hl as [? ?]. f_equal; auto.
  - intros Hd. f_equal. induction IH as [|[k v] d Hv _ IHd]; simpl in *; [done|].
    apply Forall_app in Hd as [? ?]. f_equal; [f_equal|]; auto.
Qed.

(** [${VAR}] becomes the value of the variable, and the empty string when
    the variable is not set: a missing variable is not an error. *)
Theorem expand_placeholder_variable var :
  str_contains ":-" var = false →
  expand_str (placeholder var) = default "" (getenv var).
Proof.
  intros Hv%split_once_None. by rewrite expand_str_placeholder, Hv.
Qed.

(** C36: [${VAR:-default}] becomes the value of the variable whenever it is
    set, the empty string included, and the default only when it is not
    set. *)
Theorem expand_placeholder_with_default var dflt :
  str_contains ":-" var = false →
  expand_str (placeholder_default var dflt) = default dflt (getenv var).
Proof.
  intros Hv. unfold placeholder_default.
  by rewrite expand_str_placeholder, split_once_default.
Qed.

(** Expanding twice changes nothing more when no expanded string is itself a
    placeholder. *)
Lemma expand_env_vars_twice v :
  Forall (λ s, is_placeholder s = false) (strings_of (expand_env_vars v)) →
  expand_env_vars (expand_env_vars v) = expand_env_vars v.
Proof. apply expand_env_vars_plain. Qed.

(** *** [load_config] *)

Context {yaml : Yaml} {pydantic : Pydantic}.
Implicit Types (files : Files) (cfg : Config).

Lemma load_config_missing files config_path :
  files !! config_path = None →
  load_config files config_path = Raise (config_not_found config_path).
Proof. unfold load_config. by intros ->. Qed.

(** A configuration is loaded exactly when the file exists, decodes to a
    mapping and the expanded mapping validates. *)
Lemma load_config_Ok files config_path cfg :
  load_config files config_path = Ok cfg ↔
  ∃ text raw d, files !! config_path = Some text ∧ safe_load text = Ok raw
                ∧ expand_env_vars raw = PDict d ∧ Config_validate d = Ok cfg.
Proof.
  unfold load_config. split.
  - destruct (files !! config_path) as [text|]; [|done].
    destruct (safe_load text) as [raw|] eqn:Hl; [|done]. simpl.
    destruct (expand_env_vars raw) eqn:E; try done.
    intros Hv. by exists text, raw, d.
  - intros (text & raw & d & -> & -> & E & Hv). simpl. by rewrite E.
Qed.

End config_lemmas.

(** ** Validation of a typed document

    An instance of [Pydantic] for the documents whose values already have
    the types the classes declare: a field that is absent takes its
    default, a required field that is absent and a value of another type
    are errors, a key that no class declares is ignored.  (Pydantic also
    converts some values of other types; such documents are rejected here.)
    The examples use this instance; the theorems hold for any. *)

Section typed_validate.
Context (default_port : Z).
Implicit Types (d : pydict string pyval) (field : string) (v : pyval).

Definition field_required field : exn :=
  Exn ValueError (field +:+ ": Field required").

Definition field_type field (expected : string) : exn :=
  Exn ValueError (field +:+ ": Input should be a valid " +:+ expected).

Definition as_str field v : result string :=
  match v with PStr s => Ok s | _ => Raise (field_type field "string") end.

Definition as_dict field v : result (pydict string pyval) :=
  match v with PDict d => Ok d | _ => Raise (field_type field "dictionary") end.

Fixpoint result_mapM {A B} (f : A → result B) (l : list A) : result (list B) :=
  match l with
  | [] => Ok []
  | x :: l' => y ← f x; ys ← result_mapM f l'; Ok (y :: ys)
  end.

Definition as_list {A} field (item : pyval → result A) v : result (list A) :=
  match v with
  | PList l => result_mapM item l
  | _ => Raise (field_type field "list")
  end.

Definition as_float field v : result float :=
  match v with
  | PFloat x => Ok x
  | PInt z => float_of_int z
  | _ => Raise (field_type field "number")
  end.

Definition as_int field v : result Z :=
  match v with PInt z => Ok z | _ => Raise (field_type field "integer") end.

(** A field with a default, and a required one. *)
Definition optional {A} d field (parse : string → pyval → result A) (dflt : A)
    : result A :=
  match pd_get field d with Some v => parse field v | None => Ok dflt end.

Definition required {A} d field (parse : string → pyval → result A) : result A :=
  match pd_get field d with
  | Some v => parse field v
  | None => Raise (field_required field)
  end.

Definition ChainConfig_of (_ : string) v : result ChainConfig :=
  d ← as_dict "chains" v;
  name ← required d "name" as_str;
  provider ← required d "provider" as_str;
  api_key ← optional d "api_key" as_str "";
  rpc_url ← optional d "rpc_url" as_str "";
  webhook_url ← optional d "webhook_url" as_str "";
  webhook_id ← optional d "webhook_id" as_str "";
  webhook_secret ← optional d "webhook_secret" as_str "";
  Ok (mkChainConfig name provider api_key rpc_url webhook_url webhook_id
        webhook_secret).

Definition NotifierConfig_of (_ : string) v : result NotifierConfig :=
  d ← as_dict "notifiers" v;
  type ← required d "type" as_str;
  bot_token ← optional d "bot_token" as_str "";
  webhook_url ← optional d "webhook_url" as_str "";
  chat_id ← optional d "chat_id" as_str "";
  Ok (mkNotifierConfig type bot_token webhook_url chat_id).

Definition WatchConfig_of (_ : string) v : result WatchConfig :=
  d ← as_dict "watches" v;
  address ← required d "address" as_str;
  chain ← required d "chain" as_str;
  label ← optional d "label" as_str "";
  notify ← optional d "notify" (λ f, as_list f (as_str f)) [];
  filters ← optional d "filters" as_dict [];
  Ok (mkWatchConfig address chain label notify filters).

Definition FilterConfig_of field v : result FilterConfig :=
  d ← as_dict field v;
  min_usd_value ← optional d "min_usd_value" as_float 0%float;
  tx_types ← optional d "tx_types" (λ f, as_list f (as_str f)) [];
  Ok (mkFilterConfig min_usd_value tx_types).

Definition StorageConfig_of field v : result StorageConfig :=
  d ← as_dict field v;
  type ← optional d "type" as_str "sqlite";
  path ← optional d "path" as_str "./data/wallet_watch.db";
  url ← optional d "url" as_str "";
  Ok (mkStorageConfig type path url).

Definition ServerConfig_of field v : result ServerConfig :=
  d ← as_dict field v;
  port ← optional d "port" as_int default_port;
  host ← optional d "host" as_str "0.0.0.0";
  secret ← optional d "secret" as_str "";
  Ok (mkServerConfig port host secret).

Definition typed_validate : Pydantic := λ d,
  chains ← optional d "chains" (λ f, as_list f (ChainConfig_of f)) [];
  notifiers ← optional d "notifiers" (λ f, as_list f (NotifierConfig_of f)) [];
  watches ← optional d "watches" (λ f, as_list f (WatchConfig_of f)) [];
  filters ← optional d "filters" FilterConfig_of default_FilterConfig;
  storage ← optional d "storage" StorageConfig_of default_StorageConfig;
  server ← optional d "server" ServerConfig_of (default_ServerConfig default_port);
  Ok (mkConfig chains notifiers watches filters storage server).

(** The empty mapping validates to the defaults. *)
Lemma typed_validate_empty :
  typed_validate [] =
  Ok (mkConfig [] [] [] default_FilterConfig default_StorageConfig
        (default_ServerConfig default_port)).
Proof. done. Qed.

End typed_validate.

(** ** The theorems at concrete inputs *)

(** An environment with the API key set, a variable set to the empty
    string and one whose value is itself a placeholder. *)
Definition example_environ : Environ := λ name,
  if decide (name = "HELIUS_API_KEY") then Some "key"
  else if decide (name = "EMPTY") then Some ""
  else if decide (name = "INDIRECT") then Some "${HELIUS_API_KEY}"
  else None.

(** A configuration file and the document it decodes to. *)
Definition example_text : string :=
  "chains: [{name: solana, provider: helius, api_key: ${HELIUS_API_KEY}, ...}]".

Definition example_document : pyval :=
  PDict
    [("chains",
      PList [PDict [("name", PStr "solana"); ("provider", PStr "helius");
                    ("api_key", PStr "${HELIUS_API_KEY}");
                    ("webhook_id", PStr "wh-1");
                    ("webhook_url", PStr "https://example.org/webhook");
                    ("webhook_secret", PStr "${WEBHOOK_SECRET:-s3cret}")]]);
     ("notifiers",
      PList [PDict [("type", PStr "webhook");
                    ("webhook_url", PStr "https://hooks.example.org/notify")]]);
     ("watches",
      PList [PDict [("address", PStr "11111111111111111111111111111111");
                    ("chain", PStr "solana"); ("label", PStr "Treasury");
                    ("notify", PList [PStr "webhook"; PStr "pager"])]]);
     ("filters", PDict [("min_usd_value", PInt 0)])].

Definition example_yaml : Yaml := λ text,
  if decide (text = example_text) then Ok example_document
  else Raise (Exn OtherException "could not decode the document").

Definition example_files : Files := {[ "config.yaml" := example_text ]}.

Lemma expand_placeholder_variable_witness :
  expand_str (environ:=example_environ) (placeholder "TELEGRAM_BOT_TOKEN")
  = default "" (getenv (Environ:=example_environ) "TELEGRAM_BOT_TOKEN").
Proof.
  by apply (expand_placeholder_variable (environ:=example_environ) "TELEGRAM_BOT_TOKEN").
Defined.

Lemma expand_placeholder_with_default_witness :
  expand_str (environ:=example_environ) (placeholder_default "EMPTY" "changeme")
  = default "changeme" (getenv (Environ:=example_environ) "EMPTY").
Proof.
  by apply (expand_placeholder_with_default (environ:=example_environ) "EMPTY" "changeme").
Defined.

Lemma expand_env_vars_plain_witness :
  expand_env_vars (environ:=example_environ) (PList [PStr "solana"; PInt 8080])
  = PList [PStr "solana"; PInt 8080].
Proof.
  apply (expand_env_vars_plain (environ:=example_environ)). repeat constructor.
Defined.

(** What the expansion does with values that are not one whole reference,
    in [example_environ]: a reference inside a longer value is not expanded;
    a value made of two references is looked up as one name and becomes
    the empty string; the value of a variable is not expanded again; a
    variable set to the empty string wins over the default. *)
Example expand_str_corner_cases :
  expand_str (environ:=example_environ) "https://rpc.example.org/?key=${HELIUS_API_KEY}"
  = "https://rpc.example.org/?key=${HELIUS_API_KEY}"
  ∧ expand_str (environ:=example_environ) "${HELIUS_API_KEY}:${HELIUS_API_KEY}" = ""
  ∧ expand_str (environ:=example_environ) "${INDIRECT}" = "${HELIUS_API_KEY}"
  ∧ expand_str (environ:=example_environ) "${EMPTY:-changeme}" = "".
Proof. by vm_compute. Qed.

(** The example file loads: the key comes from the environment, the secret
    from its default, and the sections that are absent take their defaults. *)
Example load_config_example :
  load_config (environ:=example_environ) (yaml:=example_yaml)
    (pydantic:=typed_validate 8080) example_files "config.yaml"
  = Ok {| chains := [mkChainConfig "solana" "helius" "key" ""
                       "https://example.org/webhook" "wh-1" "s3cret"];
          notifiers := [mkNotifierConfig "webhook" ""
                          "https://hooks.example.org/notify" ""];
          watches := [mkWatchConfig "11111111111111111111111111111111" "solana"
                        "Treasury" ["webhook"; "pager"] []];
          filters := default_FilterConfig;
          storage := default_StorageConfig;
          server := default_ServerConfig 8080 |}.
Proof. by vm_compute. Qed.
