(* ===== verification/Registry.v ===== *)
(** * The subscription registry (chains/base.py, class ChainBase)

    A provider keeps [subscriptions], a dictionary from an address to the list
    of callbacks registered for it.  A callback is a Python callable; the model
    leaves its type [C] open and takes what calling it does as [invoke], a
    computation on the state [W] the callbacks act on.  The callbacks of the
    orchestrator (Core.v) do not touch the registry they are called from, so
    the registry is not part of [W].

    [Module RegistrySpec] is the registry's contract on a finite map;
    the refinement lemmas show that the dictionary implements it.
    [registry_equiv] relates registries that differ in the order of their
    addresses only.  The abstract methods of the class are the interface
    [ChainProvider], with the laws the orchestrator relies on. *)

From stdpp Require Import gmap.
From S2P Require Import Prelude PyDict PyStr Models.

(** ** State *)

Record ChainBase (C : Type) := mkChainBase {
  api_key : string;
  rpc_url : string;
  subscriptions : pydict string (list C);
}.
Arguments mkChainBase {C} _ _ _.
Arguments api_key {C} _.
Arguments rpc_url {C} _.
Arguments subscriptions {C} _.

Section ChainBase.
Context {C : Type}.
Implicit Types (self : ChainBase C) (address : string) (callback : C).

(** [ChainBase.__init__] *)
Definition ChainBase_init (api_key rpc_url : string) : ChainBase C :=
  {| api_key := api_key; rpc_url := rpc_url; subscriptions := [] |}.

Definition set_subscriptions self (s : pydict string (list C)) : ChainBase C :=
  {| api_key := api_key self; rpc_url := rpc_url self; subscriptions := s |}.

(** [add_callback]: creates the address's list when it is missing, then
    appends to it. *)
Definition add_callback address callback self : ChainBase C :=
  let subs := subscriptions self in
  let subs := if pd_mem address subs then subs else pd_set address [] subs in
  match pd_get address subs with
  | Some l => set_subscriptions self (pd_set address (l ++ [callback]) subs)
  | None => set_subscriptions self subs
  end.

(** [remove_callbacks] *)
Definition remove_callbacks address self : ChainBase C :=
  if pd_mem address (subscriptions self)
  then set_subscriptions self (pd_del address (subscriptions self))
  else self.

(** The callbacks registered for an address, in the order they fire. *)
Definition callbacks_of address self : list C :=
  default [] (pd_get address (subscriptions self)).

Section notify.
Context {W : Type} `{!HasEnv W}.
Variable invoke : C → Transaction → M W unit.

(** One iteration of the loop of [notify_callbacks]: the call, and the
    [except Exception] that logs and goes on. *)
Definition guarded_call (tx : Transaction) callback : M W unit :=
  try: invoke callback tx
  except: λ e, log ERROR ("Callback error: " +:+ exn_msg e).

(** [notify_callbacks] *)
Definition notify_callbacks address (tx : Transaction) self : M W unit :=
  if pd_mem address (subscriptions self) then
    for: callback in callbacks_of address self do: guarded_call tx callback
  else mret tt.

End notify.
End ChainBase.

(** ** The registry's contract *)

Module RegistrySpec.
Section spec.
Context {C : Type}.
Implicit Types (m : gmap string (list C)).

Definition register (a : string) (c : C) m : gmap string (list C) :=
  <[a := default [] (m !! a) ++ [c]]> m.

Definition unregister (a : string) m : gmap string (list C) := delete a m.

Definition registered (a : string) m : list C := default [] (m !! a).

Lemma registered_register a b c m :
  registered b (register a c m) =
  if decide (a = b) then registered a m ++ [c] else registered b m.
Proof. unfold registered, register. rewrite lookup_insert. by case_decide; subst. Qed.

Lemma registered_unregister a b m :
  registered b (unregister a m) = if decide (a = b) then [] else registered b m.
Proof. unfold registered, unregister. rewrite lookup_delete. by case_decide. Qed.

End spec.
End RegistrySpec.

(** ** Properties *)

Section ChainBase_lemmas.
Context {C : Type}.
Implicit Types (self : ChainBase C) (address : string) (callback : C).

(** The registry as a finite map. *)
Definition registry_abs self : gmap string (list C) := pd_abs (subscriptions self).

(** The representation invariant. *)
Definition registry_wf self : Prop := pd_wf (subscriptions self).

Lemma subscriptions_add_callback address callback self :
  subscriptions (add_callback address callback self) =
  pd_set address (callbacks_of address self ++ [callback]) (subscriptions self).
Proof.
  unfold add_callback, callbacks_of, pd_mem.
  destruct (pd_get address (subscriptions self)) as [l|] eqn:E; simpl.
  - by rewrite E.
  - rewrite pd_get_set_eq. simpl. clear E.
    induction (subscriptions self) as [|[k v] d IH]; simpl.
    + by rewrite decide_True.
    + destruct (decide (address = k)); simpl;
        [by rewrite decide_True | rewrite decide_False by done; by rewrite IH].
Qed.

Lemma callbacks_of_add_callback address address' callback self :
  callbacks_of address' (add_callback address callback self) =
  if decide (address = address') then callbacks_of address self ++ [callback]
  else callbacks_of address' self.
Proof.
  unfold callbacks_of at 1. rewrite subscriptions_add_callback, pd_get_set.
  by case_decide; subst.
Qed.

Lemma subscriptions_remove_callbacks address self :
  subscriptions (remove_callbacks address self) = pd_del address (subscriptions self).
Proof.
  unfold remove_callbacks. destruct (pd_mem _ _) eqn:E; [done|].
  by rewrite pd_del_absent.
Qed.

Lemma callbacks_of_remove_callbacks address address' self :
  callbacks_of address' (remove_callbacks address self) =
  if decide (address = address') then [] else callbacks_of address' self.
Proof.
  unfold callbacks_of. rewrite subscriptions_remove_callbacks.
  case_decide; subst; [by rewrite pd_get_del_eq | by rewrite pd_get_del_ne].
Qed.

Lemma add_callback_wf address callback self :
  registry_wf self → registry_wf (add_callback address callback self).
Proof. unfold registry_wf. rewrite subscriptions_add_callback. apply pd_set_wf. Qed.

Lemma remove_callbacks_wf address self :
  registry_wf self → registry_wf (remove_callbacks address self).
Proof. unfold registry_wf. rewrite subscriptions_remove_callbacks. apply pd_del_wf. Qed.

Lemma ChainBase_init_wf k u : registry_wf (ChainBase_init k u : ChainBase C).
Proof. apply NoDup_nil_2. Qed.

(** The addresses of interest keep their order of first subscription. *)
Lemma keys_add_callback address callback self :
  pd_keys (subscriptions (add_callback address callback self)) =
  if pd_mem address (subscriptions self) then pd_keys (subscriptions self)
  else pd_keys (subscriptions self) ++ [address].
Proof. by rewrite subscriptions_add_callback, pd_keys_set. Qed.

(** *** Refinement of the contract *)

Lemma callbacks_of_abs address self :
  callbacks_of address self = RegistrySpec.registered address (registry_abs self).
Proof.
  unfold callbacks_of, RegistrySpec.registered, registry_abs.
  by rewrite pd_abs_lookup.
Qed.

Lemma add_callback_abs address callback self :
  registry_abs (add_callback address callback self) =
  RegistrySpec.register address callback (registry_abs self).
Proof.
  unfold registry_abs, RegistrySpec.register.
  rewrite subscriptions_add_callback, pd_abs_set. unfold callbacks_of.
  by rewrite pd_abs_lookup.
Qed.

Lemma remove_callbacks_abs address self :
  registry_abs (remove_callbacks address self) =
  RegistrySpec.unregister address (registry_abs self).
Proof.
  unfold registry_abs, RegistrySpec.unregister.
  by rewrite subscriptions_remove_callbacks, pd_abs_del.
Qed.

(** *** Delivery *)

Section notify_lemmas.
Context {W : Type} `{!HasEnv W}.
Variable invoke : C → Transaction → M W unit.

Lemma guarded_call_no_raise tx callback :
  no_raise (guarded_call invoke tx callback).
Proof. apply no_raise_try. intros e. apply no_raise_log. Qed.

Lemma notify_callbacks_no_raise address tx self :
  no_raise (notify_callbacks invoke address tx self).
Proof.
  unfold notify_callbacks. destruct (pd_mem _ _); [|apply no_raise_ret].
  apply no_raise_for. intros ? _. apply guarded_call_no_raise.
Qed.

(** Delivery runs every callback of the address, in registration order,
    whether or not an earlier one raised. *)
Lemma notify_callbacks_run address tx self w :
  notify_callbacks invoke address tx self w =
  (Ok tt, foldl (λ w c, exec (guarded_call invoke tx c) w) w
            (callbacks_of address self)).
Proof.
  unfold notify_callbacks, callbacks_of, pd_mem.
  destruct (pd_get address (subscriptions self)) as [l|]; [|done].
  apply m_for_exec_foldl. intros ? _. apply guarded_call_no_raise.
Qed.

Lemma guarded_call_ok tx callback w w' :
  invoke callback tx w = (Ok tt, w') →
  exec (guarded_call invoke tx callback) w = w'.
Proof. unfold guarded_call, exec. intros E. by rewrite (m_try_ok _ _ _ _ _ E). Qed.

Lemma guarded_call_raise tx callback w e w' :
  invoke callback tx w = (Raise e, w') →
  exec (guarded_call invoke tx callback) w =
  exec (log ERROR ("Callback error: " +:+ exn_msg e)) w'.
Proof. unfold guarded_call, exec. intros E. by rewrite (m_try_raise _ _ _ _ _ E). Qed.

(** A preorder on states that logging and the callbacks preserve is
    preserved by delivery. *)
Lemma notify_callbacks_preserves (R : relation W) `{!PreOrder R} address tx self :
  (∀ lvl msg, preserves R (log lvl msg)) →
  (∀ c, preserves R (invoke c tx)) →
  preserves R (notify_callbacks invoke address tx self).
Proof.
  intros Hlog Hc. unfold notify_callbacks, guarded_call.
  destruct (pd_mem _ _); [|apply preserves_ret, _].
  apply preserves_for; [done|]. intros c.
  apply preserves_try; [done | apply Hc | intros x; apply Hlog].
Qed.

End notify_lemmas.
End ChainBase_lemmas.

#[export] Hint Resolve add_callback_wf remove_callbacks_wf ChainBase_init_wf
  guarded_call_no_raise notify_callbacks_no_raise : ww.
#[export] Hint Rewrite @callbacks_of_add_callback @callbacks_of_remove_callbacks
  @subscriptions_remove_callbacks : ww_rw.

(** ** Registries up to the order of the addresses

    Two registries are equivalent when they hold the same callbacks for every
    address; the order in which the addresses were first subscribed is all
    they can differ in.  The operations respect the equivalence, and delivery
    does not see the difference. *)

Section registry_equiv.
Context {C : Type}.
Implicit Types (self : ChainBase C) (address : string) (callback : C).

Record registry_equiv self self' : Prop := RegistryEquiv {
  registry_equiv_subscriptions : pd_equiv (subscriptions self) (subscriptions self');
}.

#[export] Instance registry_equiv_equivalence : Equivalence registry_equiv.
Proof.
  split; [by intros ? | by intros ? ? [H] |].
  intros s1 s2 s3 [H1] [H2]. split. by rewrite H1.
Qed.

#[export] Instance subscriptions_proper :
  Proper (registry_equiv ==> pd_equiv) (subscriptions (C:=C)).
Proof. by intros self self' [H]. Qed.

#[export] Instance callbacks_of_proper address :
  Proper (registry_equiv ==> eq) (callbacks_of address).
Proof. intros self self' [H]. unfold callbacks_of. by rewrite H. Qed.

#[export] Instance add_callback_proper address callback :
  Proper (registry_equiv ==> registry_equiv) (add_callback address callback).
Proof.
  intros self self' H. split.
  rewrite !subscriptions_add_callback, (callbacks_of_proper address _ _ H).
  by rewrite H.
Qed.

#[export] Instance remove_callbacks_proper address :
  Proper (registry_equiv ==> registry_equiv) (remove_callbacks address).
Proof.
  intros self self' H. split. by rewrite !subscriptions_remove_callbacks, H.
Qed.

Lemma registry_equiv_abs self self' :
  registry_equiv self self' ↔ registry_abs self = registry_abs self'.
Proof.
  split; [intros [H]; by apply pd_equiv_abs | intros H; split; by apply pd_equiv_abs].
Qed.

(** Subscribing two different addresses in either order gives the same
    registry, up to the order of the addresses. *)
Lemma add_callback_comm address address' callback callback' self :
  address ≠ address' →
  registry_equiv
    (add_callback address callback (add_callback address' callback' self))
    (add_callback address' callback' (add_callback address callback self)).
Proof.
  intros Hne. apply registry_equiv_abs. rewrite !add_callback_abs.
  unfold RegistrySpec.register.
  rewrite !lookup_insert_ne by done. by apply insert_insert_ne.
Qed.

(** Delivery is the same on equivalent registries. *)
Lemma notify_callbacks_equiv {W} `{!HasEnv W} (invoke : C → Transaction → M W unit)
    address tx self self' :
  registry_equiv self self' →
  notify_callbacks invoke address tx self = notify_callbacks invoke address tx self'.
Proof.
  intros H. unfold notify_callbacks.
  by rewrite (callbacks_of_proper address _ _ H), H.
Qed.

End registry_equiv.

(** ** Sequences of registry operations *)

Inductive registry_op (C : Type) :=
| OpSubscribe (address : string) (callback : C)
| OpUnsubscribe (address : string).
Arguments OpSubscribe {C} _ _.
Arguments OpUnsubscribe {C} _.

Definition run_op {C} (self : ChainBase C) (op : registry_op C) : ChainBase C :=
  match op with
  | OpSubscribe a c => add_callback a c self
  | OpUnsubscribe a => remove_callbacks a self
  end.

Definition spec_op {C} (m : gmap string (list C)) (op : registry_op C)
    : gmap string (list C) :=
  match op with
  | OpSubscribe a c => RegistrySpec.register a c m
  | OpUnsubscribe a => RegistrySpec.unregister a m
  end.

Lemma run_op_abs {C} (self : ChainBase C) op :
  registry_abs (run_op self op) = spec_op (registry_abs self) op.
Proof. destruct op; [apply add_callback_abs | apply remove_callbacks_abs]. Qed.

Lemma run_op_wf {C} (self : ChainBase C) op :
  registry_wf self → registry_wf (run_op self op).
Proof. destruct op; [apply add_callback_wf | apply remove_callbacks_wf]. Qed.

(** ** The provider interface (the abstract methods of ChainBase)

    A provider is a state [P] with the methods the orchestrator calls on it:
    [validate_address] reads nothing but the address and the provider,
    [subscribe], [unsubscribe] and [get_balance] act on the provider and the
    environment.  The fifth abstract method, [run], is the provider's server:
    it calls the registered callbacks, which belong to the orchestrator, and is
    modelled with it (Core.v). *)

Class ChainProvider (P C : Type) := {
  cp_validate_address : P → string → bool;
  cp_subscribe : string → C → M (P * Env) unit;
  cp_unsubscribe : string → M (P * Env) unit;
  cp_get_balance : string → M (P * Env) float;
}.

(** What the orchestrator relies on.  Its loop over the watches has no [try]:
    it checks the address first and subscribes only an address the provider
    accepts, so [subscribe] must succeed on those; and nothing a provider does
    may take back a log line or a network call. *)
Class ChainProviderLaws (P C : Type) `{!ChainProvider P C} := {
  cp_subscribe_accepted address callback p e :
    cp_validate_address p address = true →
    is_ok (cp_subscribe address callback (p, e)).1 = true;
  cp_subscribe_env_mono address callback : env_mono (cp_subscribe address callback);
  cp_unsubscribe_no_raise address : no_raise (cp_unsubscribe address);
  cp_unsubscribe_env_mono address : env_mono (cp_unsubscribe address);
  cp_get_balance_no_raise address : no_raise (cp_get_balance address);
  cp_get_balance_env_mono address : env_mono (cp_get_balance address);
}.

(** The orchestrator's use of a provider, as the loop of [WalletWatch.run]
    does it for a watch of a configured chain: it subscribes what the
    provider accepts and reports the rest; the result says which. *)
Definition subscribe_checked {P C} `{!ChainProvider P C}
    (chain_name label address : string) (callback : C) : M (P * Env) bool :=
  p ← st_get;
  if negb (cp_validate_address p address) then
    log ERROR ("Invalid address for " +:+ chain_name +:+ ": " +:+ address);;
    mret false
  else
    log INFO ("Watching " +:+ str_or label address +:+ " on " +:+ chain_name);;
    cp_subscribe address callback;;
    mret true.

Section ChainProvider_lemmas.
Context {P C : Type} `{!ChainProvider P C} `{!ChainProviderLaws P C}.
Implicit Types (p : P) (e : Env) (callback : C).

(** With a provider that keeps the laws the loop's body never raises. *)
Lemma subscribe_checked_no_raise chain_name label address callback :
  no_raise (subscribe_checked chain_name label address callback).
Proof.
  intros [p e]. unfold subscribe_checked. rewrite m_bind_run. simpl.
  destruct (cp_validate_address p address) eqn:Hv; cbn [negb];
    rewrite m_bind_run, log_run; [|done].
  rewrite m_bind_run.
  match goal with
  | |- context [cp_subscribe address callback (p, ?e')] =>
      pose proof (cp_subscribe_accepted address callback p e' Hv) as Hok
  end.
  by destruct (cp_subscribe address callback _) as [[[]|] ?].
Qed.

Lemma subscribe_checked_env_mono chain_name label address callback :
  env_mono (subscribe_checked chain_name label address callback).
Proof.
  unfold subscribe_checked.
  pose proof (cp_subscribe_env_mono address callback). solve_preserves.
Qed.

(** It answers [false] exactly for the addresses the provider refuses, and
    then the provider is as it was. *)
Lemma subscribe_checked_refused chain_name label address callback p e :
  cp_validate_address p address = false →
  subscribe_checked chain_name label address callback (p, e) =
  (Ok false, (p, env_after e [] [(ERROR, "Invalid address for " +:+ chain_name
                                          +:+ ": " +:+ address)])).
Proof.
  intros Hv. unfold subscribe_checked. rewrite m_bind_run. simpl. rewrite Hv.
  cbn [negb]. by rewrite m_bind_run, log_run.
Qed.

Lemma subscribe_checked_accepted chain_name label address callback p e :
  cp_validate_address p address = true →
  ∃ w, subscribe_checked chain_name label address callback (p, e) = (Ok true, w).
Proof.
  intros Hv.
  pose proof (subscribe_checked_no_raise chain_name label address callback (p, e))
    as Hok.
  revert Hok. unfold subscribe_checked. rewrite m_bind_run. simpl. rewrite Hv.
  cbn [negb]. rewrite m_bind_run, log_run, m_bind_run.
  destruct (cp_subscribe address callback _) as [[[]|] ?]; [by eexists|done].
Qed.

End ChainProvider_lemmas.

(** ** Theorems *)

Section ChainBase_theorems.
Context {C W : Type} `{!HasEnv W}.
Variable invoke : C → Transaction → M W unit.
Implicit Types (self : ChainBase C) (address : string) (callback : C) (w : W).

(** C9: the registry implements its contract: after any sequence of
    subscriptions and removals from the empty registry, the dictionary has
    no duplicate address and, read as a finite map, is what the same
    sequence gives on the contract's map. *)
Theorem registry_refines_spec (k u : string) (ops : list (registry_op C)) :
  let self := foldl run_op (ChainBase_init k u) ops in
  registry_wf self ∧ registry_abs self = foldl spec_op ∅ ops.
Proof.
  simpl. induction ops as [|op ops IH] using rev_ind; [split; [apply NoDup_nil_2|done]|].
  rewrite !foldl_app. simpl. destruct IH as [Hwf Habs].
  split; [by apply run_op_wf | by rewrite run_op_abs, Habs].
Qed.

(** A callback added for an address fires after the ones the address
    already has: delivering after [add_callback] is delivering before it,
    followed by the new callback. *)
Theorem add_callback_fires_last address callback tx self w :
  notify_callbacks invoke address tx (add_callback address callback self) w =
  (Ok tt, exec (guarded_call invoke tx callback)
            (exec (notify_callbacks invoke address tx self) w)).
Proof.
  unfold exec at 2. rewrite !notify_callbacks_run. simpl.
  by rewrite callbacks_of_add_callback, decide_True, foldl_app.
Qed.

(** C3: a callback that raises does not keep the later callbacks of the
    address from running: the exception is logged and delivery goes on from
    the state the raise left. *)
Theorem raising_callback_is_isolated address tx self w before callback after x w' :
  callbacks_of address self = before ++ callback :: after →
  invoke callback tx
    (foldl (λ w c, exec (guarded_call invoke tx c) w) w before) = (Raise x, w') →
  notify_callbacks invoke address tx self w =
  (Ok tt, foldl (λ w c, exec (guarded_call invoke tx c) w)
            (exec (log ERROR ("Callback error: " +:+ exn_msg x)) w') after).
Proof.
  intros Hcs Hraise. rewrite notify_callbacks_run, Hcs, foldl_app. simpl.
  by rewrite (guarded_call_raise _ _ _ _ _ _ Hraise).
Qed.

(** After [remove_callbacks], delivering to the address does nothing,
    and delivering to any other address does what it did before. *)
Theorem remove_callbacks_silences address address' tx self w :
  notify_callbacks invoke address' tx (remove_callbacks address self) w =
  if decide (address = address') then (Ok tt, w)
  else notify_callbacks invoke address' tx self w.
Proof.
  rewrite !notify_callbacks_run, callbacks_of_remove_callbacks.
  by case_decide.
Qed.

End ChainBase_theorems.

(** ** The theorems at concrete inputs *)

(** A callback that writes its name to the log, or raises when its name is
    [boom]. *)
Definition shout (c : string) (tx : Transaction) : M Env unit :=
  if decide (c = "boom") then m_raise (Exn OtherException "boom")
  else log INFO (c +:+ " " +:+ signature tx).

Definition three_callbacks : ChainBase string :=
  add_callback "A" "third"
    (add_callback "A" "boom" (add_callback "A" "first" (ChainBase_init "" ""))).

Definition some_tx : Transaction :=
  {| signature := "sig1"; chain := "solana"; address := "A"; tx_type := "TRANSFER";
     description := ""; amount_usd := None; timestamp := None; raw := None |}.

Lemma raising_callback_is_isolated_witness :
  notify_callbacks shout "A" some_tx three_callbacks (env0 (λ _, ReplyOk) 0) =
  (Ok tt, env_after (env0 (λ _, ReplyOk) 0) []
            [(INFO, "first sig1"); (ERROR, "Callback error: boom");
             (INFO, "third sig1")]).
Proof.
  rewrite (raising_callback_is_isolated shout "A" some_tx three_callbacks
             (env0 (λ _, ReplyOk) 0) ["first"] "boom" ["third"]
             (Exn OtherException "boom")
             (env_after (env0 (λ _, ReplyOk) 0) [] [(INFO, "first sig1")]));
    by vm_compute.
Defined.
