(* ===== verification/Storage.v ===== *)
(** * The storage engine (storage/sqlite.py, class SQLiteStorage)

    The database is two tables.  A table is the list of its rows in rowid
    order; [AUTOINCREMENT] gives a new row the successor of the largest rowid
    the table ever had, so a new row goes last.  The statements the methods
    execute are modelled by their effect on the tables:

    - [INSERT OR REPLACE INTO watches]: the row whose [address] (UNIQUE)
      conflicts is deleted, then the new row is inserted;
    - [INSERT OR IGNORE INTO transactions]: nothing happens when a row with
      the [signature] (UNIQUE) exists;
    - [DELETE FROM watches WHERE address = ?] with its [rowcount];
    - [SELECT ... ORDER BY created_at DESC LIMIT ?]: the rows sorted by
      [created_at], largest first; SQL leaves the order of rows with equal
      [created_at] open and the model keeps the one [merge_sort] gives, so
      the theorems on the order only use that the result is sorted.  A
      negative [LIMIT] is no limit.

    [created_at] is [CURRENT_TIMESTAMP], the environment's clock in seconds.
    A float that is NaN is stored as NULL.  Every method body is in a [try]
    whose [except Exception] logs and returns [False] or [[]]; the failure the
    model has is the use of a closed connection.  Other I/O faults (a full
    disk, a locked file) are not modelled.

    The abstract class of storage/base.py is the interface [StorageBase];
    [StorageSafe] states what its callers rely on, and the engine is an
    instance of both. *)

From stdpp Require Import sorting gmap.
From S2P Require Import Prelude PyDict PyStr Models.

(** ** Tables *)

Record WatchRow := mkWatchRow {
  wr_id : nat;
  wr_address : string;
  wr_chain : string;
  wr_label : string;
  wr_notify : list string;
  wr_filters : pydict string pyval;
  wr_created_at : Z;
}.

Record TxRow := mkTxRow {
  tr_id : nat;
  tr_signature : string;
  tr_chain : string;
  tr_address : string;
  tr_tx_type : string;
  tr_description : string;
  tr_amount_usd : option float;
  tr_raw : option HeliusEvent;
  tr_created_at : Z;
}.

Record SQLiteStorage := mkSQLiteStorage {
  path : string;
  watches_tbl : list WatchRow;
  transactions_tbl : list TxRow;
  watches_seq : nat;
  transactions_seq : nat;
  closed : bool;
}.

(** [__init__] and [_init_tables] on a new database file. *)
Definition SQLiteStorage_init (path : string) : SQLiteStorage :=
  {| path := path; watches_tbl := []; transactions_tbl := [];
     watches_seq := 0; transactions_seq := 0; closed := false |}.

(** ** The statements *)

(** How sqlite3 binds a Python float: NaN becomes NULL. *)
Definition bind_real (x : option float) : option float :=
  match x with
  | Some a => if PrimFloat.is_nan a then None else Some a
  | None => None
  end.

(** [json.dumps(transaction.raw) if transaction.raw else None] *)
Definition bind_raw (r : option HeliusEvent) : option HeliusEvent :=
  match r with
  | Some ev => if event_truthy ev then Some ev else None
  | None => None
  end.

Definition insert_or_replace_watch (t : Z) (address chain label : string)
    (notify : list string) (filters : pydict string pyval)
    (db : SQLiteStorage) : SQLiteStorage :=
  let id := S (watches_seq db) in
  {| path := path db;
     watches_tbl :=
       filter (λ r, wr_address r ≠ address) (watches_tbl db)
       ++ [mkWatchRow id address chain label notify filters t];
     transactions_tbl := transactions_tbl db;
     watches_seq := id;
     transactions_seq := transactions_seq db;
     closed := closed db |}.

Definition has_signature (s : string) (db : SQLiteStorage) : bool :=
  bool_decide (s ∈ tr_signature <$> transactions_tbl db).

Definition insert_or_ignore_transaction (t : Z) (tx : Transaction)
    (db : SQLiteStorage) : SQLiteStorage :=
  if has_signature (signature tx) db then db else
  let id := S (transactions_seq db) in
  {| path := path db;
     watches_tbl := watches_tbl db;
     transactions_tbl :=
       transactions_tbl db
       ++ [mkTxRow id (signature tx) (chain tx) (address tx) (tx_type tx)
             (description tx) (bind_real (amount_usd tx)) (bind_raw (raw tx)) t];
     watches_seq := watches_seq db;
     transactions_seq := id;
     closed := closed db |}.

(** The rows a [DELETE FROM watches WHERE address = ?] removes, and the
    table it leaves. *)
Definition delete_from_watches (address : string) (db : SQLiteStorage)
    : nat * SQLiteStorage :=
  (length (filter (λ r, wr_address r = address) (watches_tbl db)),
   {| path := path db;
      watches_tbl := filter (λ r, wr_address r ≠ address) (watches_tbl db);
      transactions_tbl := transactions_tbl db;
      watches_seq := watches_seq db;
      transactions_seq := transactions_seq db;
      closed := closed db |}).

(** [LIMIT n] *)
Definition sql_limit {A} (n : Z) (l : list A) : list A :=
  if (n <? 0)%Z then l else take (Z.to_nat n) l.

(** [ORDER BY created_at DESC] *)
Definition newer_first (r1 r2 : TxRow) : Prop :=
  (tr_created_at r2 ≤ tr_created_at r1)%Z.

#[export] Instance newer_first_dec : RelDecision newer_first.
Proof. intros r1 r2. unfold newer_first. apply _. Defined.

Definition order_by_created_at_desc (l : list TxRow) : list TxRow :=
  merge_sort newer_first l.

Definition select_transactions (address : option string) (limit : Z)
    (db : SQLiteStorage) : list TxRow :=
  let rows :=
    match address with
    | Some a =>
        if str_truthy a
        then filter (λ r, tr_address r = a) (transactions_tbl db)
        else transactions_tbl db
    | None => transactions_tbl db
    end in
  sql_limit limit (order_by_created_at_desc rows).

Definition select_watches (chain : option string) (db : SQLiteStorage)
    : list WatchRow :=
  match chain with
  | Some c =>
      if str_truthy c then filter (λ r, wr_chain r = c) (watches_tbl db)
      else watches_tbl db
  | None => watches_tbl db
  end.

Definition close_connection (db : SQLiteStorage) : SQLiteStorage :=
  {| path := path db; watches_tbl := watches_tbl db;
     transactions_tbl := transactions_tbl db;
     watches_seq := watches_seq db; transactions_seq := transactions_seq db;
     closed := true |}.

(** ** The methods *)

Abbreviation StorageM := (M (SQLiteStorage * Env)).

Definition closed_error : exn :=
  Exn ProgrammingError "Cannot operate on a closed database.".

(** [self.conn.cursor()]: raises on a closed connection. *)
Definition cursor : StorageM unit :=
  λ w, if closed w.1 then (Raise closed_error, w) else (Ok tt, w).

Definition save_watch (address chain label : string)
    (notify : option (list string)) (filters : option (pydict string pyval))
    : StorageM bool :=
  try: (cursor;;
        t ← wall_clock;
        st_modify (insert_or_replace_watch t address chain label
                     (default [] notify) (default [] filters));;
        log DEBUG ("Saved watch: " +:+ address);;
        mret true)
  except: λ e, log ERROR ("Failed to save watch: " +:+ exn_msg e);; mret false.

Definition get_watches (chain : option string) : StorageM (list WatchRow) :=
  try: (cursor;;
        db ← st_get;
        mret (select_watches chain db))
  except: λ e, log ERROR ("Failed to get watches: " +:+ exn_msg e);; mret [].

Definition delete_watch (address : string) : StorageM bool :=
  try: (cursor;;
        db ← st_get;
        let '(rowcount, db') := delete_from_watches address db in
        st_modify (λ _, db');;
        log DEBUG ("Deleted watch: " +:+ address);;
        mret (bool_decide (0 < rowcount)))
  except: λ e, log ERROR ("Failed to delete watch: " +:+ exn_msg e);; mret false.

Definition save_transaction (transaction : Transaction) : StorageM bool :=
  try: (cursor;;
        t ← wall_clock;
        st_modify (insert_or_ignore_transaction t transaction);;
        mret true)
  except: λ e, log ERROR ("Failed to save transaction: " +:+ exn_msg e);;
               mret false.

Definition get_transactions (address : option string) (limit : Z)
    : StorageM (list TxRow) :=
  try: (cursor;;
        db ← st_get;
        mret (select_transactions address limit db))
  except: λ e, log ERROR ("Failed to get transactions: " +:+ exn_msg e);;
               mret [].

(** [close]: [self.conn] is a connection object, which is always true, and
    closing a closed connection is allowed. *)
Definition close : StorageM unit :=
  st_modify close_connection;;
  log DEBUG "SQLite connection closed".

(** [STORAGE_PROVIDERS] and [get_storage] of storage/__init__.py.  The
    PostgreSQL provider is not in the repository, so its import fails and
    [sqlite] is the one registered type.  The constructor opens a new
    database and logs; the two branches after the [sqlite] one are never
    reached with this registry.  The path is logged as the configuration
    writes it, and creating the directory and the file always succeeds. *)
Definition STORAGE_PROVIDERS : list string := ["sqlite"].

Definition get_storage {W} `{!HasEnv W} (config : StorageConfig)
    : M W SQLiteStorage :=
  let storage_type := sc_type config in
  if decide (storage_type ∉ STORAGE_PROVIDERS) then
    m_raise (Exn ValueError ("Unknown storage type: " +:+ storage_type
                             +:+ ". Available: ['sqlite']"))
  else if decide (storage_type = "sqlite") then
    log INFO ("SQLite storage initialized at " +:+ sc_path config);;
    mret (SQLiteStorage_init (sc_path config))
  else m_raise (Exn KeyError storage_type).

(** ** Tables with a unique key and increasing rowids *)

Section table.
Context {R : Type} (key : R → string) (id : R → nat).
Implicit Types (t : list R) (r : R) (seq : nat).

(** No key twice, rowids strictly increasing and at most the sequence. *)
Definition table_wf seq t : Prop :=
  NoDup (key <$> t) ∧ StronglySorted lt (id <$> t) ∧ Forall (λ r, id r ≤ seq) t.

Lemma table_wf_nil seq : table_wf seq [].
Proof. split_and!; constructor. Qed.

Lemma table_wf_sublist seq t t' :
  t' `sublist_of` t → table_wf seq t → table_wf seq t'.
Proof.
  intros Hs (Hk & Hi & Hb). split_and!.
  - by eapply NoDup_fmap_sublist.
  - eapply StronglySorted_sublist; [|done]. by apply fmap_sublist.
  - by eapply Forall_sublist.
Qed.

Lemma table_wf_filter (P : R → Prop) `{!∀ r, Decision (P r)} seq t :
  table_wf seq t → table_wf seq (filter P t).
Proof. apply table_wf_sublist, sublist_filter. Qed.

Lemma table_wf_snoc seq t r :
  table_wf seq t → key r ∉ key <$> t → id r = S seq →
  table_wf (S seq) (t ++ [r]).
Proof.
  intros (Hk & Hi & Hb) Hr Hid. split_and!.
  - rewrite fmap_app. apply NoDup_app. split_and!; [done| |apply NoDup_singleton].
    by intros k Hin ->%list_elem_of_singleton.
  - rewrite fmap_app. apply StronglySorted_snoc; [done|].
    apply Forall_fmap. eapply Forall_impl; [done|]. simpl. lia.
  - apply Forall_app. split; [|apply Forall_singleton; lia].
    eapply Forall_impl; [done|]. simpl. lia.
Qed.

(** The rows with a given key: at most one. *)
Lemma table_wf_key_unique seq t k :
  table_wf seq t → length (filter (λ r, key r = k) t) ≤ 1.
Proof.
  intros (Hk & _ & _). induction t as [|r t IH]; simpl; [lia|].
  apply NoDup_cons in Hk as [Hr Hk]. rewrite filter_cons.
  destruct (decide (key r = k)) as [<-|]; [|auto].
  rewrite filter_none; [simpl; lia|].
  intros r' Hin Heq. apply Hr. rewrite <- Heq. apply list_elem_of_fmap. eauto.
Qed.

(** The table as a finite map from the key to the row. *)
Definition table_abs t : gmap string R := pd_abs ((λ r, (key r, r)) <$> t).

Lemma table_abs_keys t : ((λ r, (key r, r)) <$> t).*1 = key <$> t.
Proof. rewrite <- list_fmap_compose. by apply list_fmap_ext. Qed.

Lemma table_abs_None t k : table_abs t !! k = None ↔ k ∉ key <$> t.
Proof.
  unfold table_abs. rewrite pd_abs_lookup, pd_get_None_keys.
  unfold pd_keys. by rewrite table_abs_keys.
Qed.

Lemma table_abs_snoc t r :
  key r ∉ key <$> t → table_abs (t ++ [r]) = <[key r := r]> (table_abs t).
Proof.
  intros Hr. unfold table_abs, pd_abs. rewrite fmap_app. simpl.
  apply list_to_map_snoc. by rewrite table_abs_keys.
Qed.

Lemma table_abs_filter_ne t k :
  table_abs (filter (λ r, key r ≠ k) t) = delete k (table_abs t).
Proof.
  unfold table_abs. rewrite <- pd_abs_del. f_equal. unfold pd_del.
  induction t as [|r t IH]; [done|]. csimpl. rewrite !filter_cons. simpl.
  destruct (decide (key r ≠ k)); csimpl; by rewrite IH.
Qed.

Lemma table_abs_elem_of seq t r :
  table_wf seq t → r ∈ t → table_abs t !! key r = Some r.
Proof.
  intros (Hk & _ & _) Hr. unfold table_abs. rewrite pd_abs_lookup.
  apply pd_elem_of_get.
  - unfold pd_wf, pd_keys. by rewrite table_abs_keys.
  - apply list_elem_of_fmap. eauto.
Qed.

End table.

(** ** The database invariant *)

Definition db_wf (db : SQLiteStorage) : Prop :=
  table_wf wr_address wr_id (watches_seq db) (watches_tbl db)
  ∧ table_wf tr_signature tr_id (transactions_seq db) (transactions_tbl db).

Lemma SQLiteStorage_init_wf p : db_wf (SQLiteStorage_init p).
Proof. split; apply table_wf_nil. Qed.

Lemma has_signature_spec s db :
  has_signature s db = true ↔ s ∈ tr_signature <$> transactions_tbl db.
Proof. unfold has_signature. apply bool_decide_eq_true. Qed.

Lemma insert_or_ignore_transaction_wf t tx db :
  db_wf db → db_wf (insert_or_ignore_transaction t tx db).
Proof.
  intros [Hw Ht]. unfold insert_or_ignore_transaction.
  destruct (has_signature _ _) eqn:E; [done|]. split; [done|]. simpl.
  apply table_wf_snoc; [done| |done]. simpl.
  intros Hin%has_signature_spec. congruence.
Qed.

(** The insert leaves a row with the signature, keeps the rows there were,
    and does not touch the connection. *)
Lemma has_signature_insert t tx db :
  has_signature (signature tx) (insert_or_ignore_transaction t tx db) = true.
Proof.
  unfold insert_or_ignore_transaction.
  destruct (has_signature (signature tx) db) eqn:E; [done|].
  apply has_signature_spec. simpl. rewrite fmap_app. set_solver.
Qed.

Lemma has_signature_insert_mono s t tx db :
  has_signature s db = true →
  has_signature s (insert_or_ignore_transaction t tx db) = true.
Proof.
  unfold insert_or_ignore_transaction.
  destruct (has_signature (signature tx) db); [done|].
  rewrite !has_signature_spec. simpl. rewrite fmap_app. set_solver.
Qed.

Lemma insert_or_ignore_transaction_closed t tx db :
  closed (insert_or_ignore_transaction t tx db) = closed db.
Proof. unfold insert_or_ignore_transaction. by case_match. Qed.

Lemma insert_or_replace_watch_wf t a c l n f db :
  db_wf db → db_wf (insert_or_replace_watch t a c l n f db).
Proof.
  intros [Hw Ht]. split; [|done]. simpl.
  apply table_wf_snoc; [by apply table_wf_filter| |done]. simpl.
  intros (r & -> & [? _]%list_elem_of_filter)%list_elem_of_fmap. done.
Qed.

Lemma delete_from_watches_wf a db :
  db_wf db → db_wf (delete_from_watches a db).2.
Proof. intros [Hw Ht]. split; [|done]. simpl. by apply table_wf_filter. Qed.

Lemma close_connection_wf db : db_wf db → db_wf (close_connection db).
Proof. done. Qed.

#[export] Hint Resolve SQLiteStorage_init_wf insert_or_ignore_transaction_wf
  insert_or_replace_watch_wf delete_from_watches_wf close_connection_wf : ww.

(** ** The methods, branch by branch *)

Section methods.
Implicit Types (db : SQLiteStorage) (e : Env).

(** Unfolds a method on a state whose [closed] flag is known. *)
Ltac run_method db H := destruct db; simpl in H; subst; reflexivity.

Lemma save_transaction_open tx db e :
  closed db = false →
  save_transaction tx (db, e) =
  (Ok true, (insert_or_ignore_transaction (now e) tx db, e)).
Proof. intros H. run_method db H. Qed.

Lemma save_transaction_closed tx db e :
  closed db = true →
  save_transaction tx (db, e) =
  (Ok false,
   (db, env_log ERROR ("Failed to save transaction: " +:+ exn_msg closed_error) e)).
Proof. intros H. run_method db H. Qed.

Lemma save_watch_open a c l n f db e :
  closed db = false →
  save_watch a c l n f (db, e) =
  (Ok true,
   (insert_or_replace_watch (now e) a c l (default [] n) (default [] f) db,
    env_log DEBUG ("Saved watch: " +:+ a) e)).
Proof. intros H. run_method db H. Qed.

Lemma save_watch_closed a c l n f db e :
  closed db = true →
  save_watch a c l n f (db, e) =
  (Ok false,
   (db, env_log ERROR ("Failed to save watch: " +:+ exn_msg closed_error) e)).
Proof. intros H. run_method db H. Qed.

Lemma delete_watch_open a db e :
  closed db = false →
  delete_watch a (db, e) =
  (Ok (bool_decide (0 < (delete_from_watches a db).1)),
   ((delete_from_watches a db).2, env_log DEBUG ("Deleted watch: " +:+ a) e)).
Proof. intros H. run_method db H. Qed.

Lemma delete_watch_closed a db e :
  closed db = true →
  delete_watch a (db, e) =
  (Ok false,
   (db, env_log ERROR ("Failed to delete watch: " +:+ exn_msg closed_error) e)).
Proof. intros H. run_method db H. Qed.

Lemma get_watches_open c db e :
  closed db = false →
  get_watches c (db, e) = (Ok (select_watches c db), (db, e)).
Proof. intros H. run_method db H. Qed.

Lemma get_watches_closed c db e :
  closed db = true →
  get_watches c (db, e) =
  (Ok [], (db, env_log ERROR ("Failed to get watches: " +:+ exn_msg closed_error) e)).
Proof. intros H. run_method db H. Qed.

Lemma get_transactions_open a n db e :
  closed db = false →
  get_transactions a n (db, e) = (Ok (select_transactions a n db), (db, e)).
Proof. intros H. run_method db H. Qed.

Lemma get_transactions_closed a n db e :
  closed db = true →
  get_transactions a n (db, e) =
  (Ok [],
   (db, env_log ERROR ("Failed to get transactions: " +:+ exn_msg closed_error) e)).
Proof. intros H. run_method db H. Qed.

Lemma close_run db e :
  close (db, e) =
  (Ok tt, (close_connection db, env_log DEBUG "SQLite connection closed" e)).
Proof. done. Qed.

End methods.

(** ** Queries *)

#[export] Instance newer_first_trans : Transitive newer_first.
Proof. unfold newer_first. intros x y z. lia. Qed.

#[export] Instance newer_first_total : Total newer_first.
Proof. unfold newer_first. intros x y. lia. Qed.

Lemma sql_limit_sublist {A} n (l : list A) : sql_limit n l `sublist_of` l.
Proof. unfold sql_limit. case_match; [done | apply sublist_take]. Qed.

Lemma sql_limit_length {A} n (l : list A) :
  (0 ≤ n)%Z → length (sql_limit n l) ≤ Z.to_nat n.
Proof.
  intros Hn. unfold sql_limit. rewrite (proj2 (Z.ltb_ge n 0)) by done.
  apply take_length_le.
Qed.

Lemma sql_limit_all {A} n (l : list A) :
  (n < 0 ∨ Z.of_nat (length l) ≤ n)%Z → sql_limit n l = l.
Proof.
  unfold sql_limit. intros [Hn|Hn].
  - by rewrite (proj2 (Z.ltb_lt n 0)).
  - case_match; [done|]. apply take_ge. lia.
Qed.

(** The rows a query selects before ordering. *)
Definition matching_rows (address : option string) (db : SQLiteStorage)
    : list TxRow :=
  match address with
  | Some a =>
      if str_truthy a
      then filter (λ r, tr_address r = a) (transactions_tbl db)
      else transactions_tbl db
  | None => transactions_tbl db
  end.

Lemma select_transactions_unfold a n db :
  select_transactions a n db =
  sql_limit n (order_by_created_at_desc (matching_rows a db)).
Proof. done. Qed.

Lemma order_by_sorted l : StronglySorted newer_first (order_by_created_at_desc l).
Proof. apply StronglySorted_merge_sort; apply _. Qed.

Lemma order_by_perm l : order_by_created_at_desc l ≡ₚ l.
Proof. apply merge_sort_Permutation. Qed.

Lemma select_transactions_sorted a n db :
  StronglySorted newer_first (select_transactions a n db).
Proof.
  rewrite select_transactions_unfold.
  eapply StronglySorted_sublist; [apply sql_limit_sublist | apply order_by_sorted].
Qed.

Lemma matching_rows_sublist a db : matching_rows a db `sublist_of` transactions_tbl db.
Proof.
  unfold matching_rows. destruct a as [a|]; [|done].
  case_match; [apply sublist_filter | done].
Qed.

Lemma select_transactions_elem_of a n db r :
  r ∈ select_transactions a n db → r ∈ matching_rows a db.
Proof.
  rewrite select_transactions_unfold. intros Hr.
  eapply elem_of_sublist in Hr; [|apply sql_limit_sublist].
  by rewrite order_by_perm in Hr.
Qed.

(** When no two rows have the same [created_at], there is one order a
    query can return: the newest row first. *)
Lemma order_by_reverse l :
  StronglySorted (λ r1 r2, (tr_created_at r1 < tr_created_at r2)%Z) l →
  order_by_created_at_desc l = reverse l.
Proof.
  intros Hl. apply (StronglySorted_unique_strong newer_first).
  - intros x1 x2 H1 H2 Hle1 Hle2. unfold newer_first in *.
    rewrite order_by_perm in H1. rewrite elem_of_reverse in H2.
    eapply (StronglySorted_key_inj tr_created_at); [done..|lia].
  - apply order_by_sorted.
  - clear -Hl. induction Hl as [|r l Hl IH Hr]; [constructor|].
    rewrite reverse_cons. apply StronglySorted_snoc; [done|].
    rewrite Forall_forall in *. intros y Hy. rewrite elem_of_reverse in Hy.
    unfold newer_first. specialize (Hr y Hy). lia.
  - by rewrite order_by_perm, reverse_Permutation.
Qed.

#[export] Hint Rewrite save_transaction_open save_transaction_closed
  save_watch_open save_watch_closed delete_watch_open delete_watch_closed
  get_watches_open get_watches_closed get_transactions_open
  get_transactions_closed using done : ww_rw.

(** ** The contract of the storage engine, on finite maps *)

Module StorageSpec.
Section spec.
Context {V : Type}.
Implicit Types (m : gmap string V).

(** Insert-if-absent, keyed by the signature. *)
Definition insert_if_absent (k : string) (v : V) m : gmap string V :=
  match m !! k with Some _ => m | None => <[k:=v]> m end.

(** Upsert, keyed by the address. *)
Definition upsert (k : string) (v : V) m : gmap string V := <[k:=v]> m.

(** Removal, and whether a record was there. *)
Definition remove (k : string) m : bool * gmap string V :=
  (bool_decide (is_Some (m !! k)), delete k m).

Lemma insert_if_absent_idemp k v v' m :
  insert_if_absent k v' (insert_if_absent k v m) = insert_if_absent k v m.
Proof.
  unfold insert_if_absent. destruct (m !! k) eqn:E; [by rewrite E|].
  by rewrite lookup_insert_eq.
Qed.

End spec.
End StorageSpec.

Definition transactions_abs (db : SQLiteStorage) : gmap string TxRow :=
  table_abs tr_signature (transactions_tbl db).

Definition watches_abs (db : SQLiteStorage) : gmap string WatchRow :=
  table_abs wr_address (watches_tbl db).

(** The row an insert writes. *)
Definition new_tx_row (t : Z) (tx : Transaction) (db : SQLiteStorage) : TxRow :=
  mkTxRow (S (transactions_seq db)) (signature tx) (chain tx) (address tx)
    (tx_type tx) (description tx) (bind_real (amount_usd tx))
    (bind_raw (raw tx)) t.

Definition new_watch_row (t : Z) (a c l : string) (n : list string)
    (f : pydict string pyval) (db : SQLiteStorage) : WatchRow :=
  mkWatchRow (S (watches_seq db)) a c l n f t.

Section refinement.
Implicit Types (db : SQLiteStorage) (e : Env).

Lemma insert_or_ignore_transaction_abs t tx db :
  transactions_abs (insert_or_ignore_transaction t tx db) =
  StorageSpec.insert_if_absent (signature tx) (new_tx_row t tx db)
    (transactions_abs db).
Proof.
  unfold transactions_abs, insert_or_ignore_transaction,
    StorageSpec.insert_if_absent.
  destruct (has_signature _ _) eqn:E.
  - apply has_signature_spec in E.
    destruct (table_abs _ _ !! _) eqn:E'; [done|].
    by apply table_abs_None in E'.
  - assert (signature tx ∉ tr_signature <$> transactions_tbl db) as Hn.
    { intros ?%has_signature_spec. congruence. }
    rewrite (proj2 (table_abs_None _ _ _) Hn). simpl.
    by rewrite table_abs_snoc.
Qed.

Lemma insert_or_replace_watch_abs t a c l n f db :
  watches_abs (insert_or_replace_watch t a c l n f db) =
  StorageSpec.upsert a (new_watch_row t a c l n f db) (watches_abs db).
Proof.
  unfold watches_abs, StorageSpec.upsert. simpl.
  rewrite table_abs_snoc; simpl.
  - by rewrite table_abs_filter_ne, insert_delete_eq.
  - intros (r & -> & [? _]%list_elem_of_filter)%list_elem_of_fmap. done.
Qed.

Lemma delete_from_watches_abs a db :
  db_wf db →
  (bool_decide (0 < (delete_from_watches a db).1),
   watches_abs (delete_from_watches a db).2) =
  StorageSpec.remove a (watches_abs db).
Proof.
  intros [Hw _]. unfold watches_abs, StorageSpec.remove. simpl.
  rewrite table_abs_filter_ne. f_equal. apply bool_decide_ext.
  rewrite <- not_eq_None_Some, table_abs_None.
  split.
  - intros Hlen Hn. rewrite filter_none in Hlen; [simpl in Hlen; lia|].
    intros r Hr Heq. apply Hn. apply list_elem_of_fmap. eauto.
  - intros Hin. apply dec_stable in Hin.
    apply list_elem_of_fmap in Hin as (r & -> & Hr).
    assert (r ∈ filter (λ r', wr_address r' = wr_address r) (watches_tbl db)) as Hf
      by by apply list_elem_of_filter.
    destruct (filter _ _); [by apply elem_of_nil in Hf | simpl; lia].
Qed.

End refinement.

(** ** The engine as a state machine *)

Inductive storage_call :=
| CallSaveWatch (address chain label : string) (notify : option (list string))
    (filters : option (pydict string pyval))
| CallGetWatches (chain : option string)
| CallDeleteWatch (address : string)
| CallSaveTransaction (transaction : Transaction)
| CallGetTransactions (address : option string) (limit : Z)
| CallClose.

Definition run_call (c : storage_call) : StorageM unit :=
  match c with
  | CallSaveWatch a c l n f => save_watch a c l n f ≫= λ _, mret tt
  | CallGetWatches c => get_watches c ≫= λ _, mret tt
  | CallDeleteWatch a => delete_watch a ≫= λ _, mret tt
  | CallSaveTransaction tx => save_transaction tx ≫= λ _, mret tt
  | CallGetTransactions a n => get_transactions a n ≫= λ _, mret tt
  | CallClose => close
  end.

(** A step is a call of a method, or a change of the environment between two
    calls (the clock advances, another component logs or uses the network). *)
Inductive storage_step : relation (SQLiteStorage * Env) :=
| step_call c w : storage_step w (exec (run_call c) w)
| step_env db e e' : storage_step (db, e) (db, e').

Definition storage_reachable (w : SQLiteStorage * Env) : Prop :=
  ∃ p e0, rtc storage_step (SQLiteStorage_init p, e0) w.

Lemma run_call_db c db e :
  (exec (run_call c) (db, e)).1 =
  if closed db then
    match c with CallClose => close_connection db | _ => db end
  else
    match c with
    | CallSaveWatch a c l n f =>
        insert_or_replace_watch (now e) a c l (default [] n) (default [] f) db
    | CallDeleteWatch a => (delete_from_watches a db).2
    | CallSaveTransaction tx => insert_or_ignore_transaction (now e) tx db
    | CallClose => close_connection db
    | _ => db
    end.
Proof.
  destruct (closed db) eqn:E, c; simpl; unfold exec;
    rewrite ?m_bind_assoc; unfold mbind, M_bind, m_bind;
    autorewrite with ww_rw; done.
Qed.

Lemma run_call_no_raise c : no_raise (run_call c).
Proof.
  intros [db e]. destruct (closed db) eqn:E, c; simpl;
    unfold mbind, M_bind, m_bind; autorewrite with ww_rw; done.
Qed.

Lemma storage_step_wf w w' : storage_step w w' → db_wf w.1 → db_wf w'.1.
Proof.
  destruct 1 as [c [db e]|db e e']; [|done]. simpl. rewrite run_call_db.
  intros Hwf. destruct (closed db), c; auto with ww.
Qed.

#[export] Instance table_wf_dec {R} (key : R → string) (id : R → nat) seq t :
  Decision (table_wf key id seq t).
Proof. unfold table_wf. apply _. Defined.

#[export] Instance db_wf_dec db : Decision (db_wf db).
Proof. unfold db_wf. apply _. Defined.

(** ** The interface (storage/base.py, class StorageBase)

    A storage is a state [S] with the six abstract methods, each a computation
    on the storage and the environment.  The rows are the dictionaries the
    methods document.  The orchestrator calls [save_transaction] outside any
    [try], from the callback a webhook request runs: [StorageSafe] is what it
    relies on, that no method raises and that none takes back a log line or a
    network call. *)

Class StorageBase (S : Type) := {
  sb_save_watch : string → string → string → option (list string) →
                  option (pydict string pyval) → M (S * Env) bool;
  sb_get_watches : option string → M (S * Env) (list WatchRow);
  sb_delete_watch : string → M (S * Env) bool;
  sb_save_transaction : Transaction → M (S * Env) bool;
  sb_get_transactions : option string → Z → M (S * Env) (list TxRow);
  sb_close : M (S * Env) unit;
}.

(** A call of a method of the interface, its result dropped. *)
Definition sb_call {S} `{!StorageBase S} (c : storage_call) : M (S * Env) unit :=
  match c with
  | CallSaveWatch a c l n f => sb_save_watch a c l n f ≫= λ _, mret tt
  | CallGetWatches c => sb_get_watches c ≫= λ _, mret tt
  | CallDeleteWatch a => sb_delete_watch a ≫= λ _, mret tt
  | CallSaveTransaction tx => sb_save_transaction tx ≫= λ _, mret tt
  | CallGetTransactions a n => sb_get_transactions a n ≫= λ _, mret tt
  | CallClose => sb_close
  end.

Class StorageSafe (S : Type) `{!StorageBase S} := {
  sb_call_no_raise c : no_raise (sb_call c);
  sb_call_env_mono c : env_mono (sb_call c);
}.

#[export] Instance SQLiteStorage_base : StorageBase SQLiteStorage := {|
  sb_save_watch := save_watch;
  sb_get_watches := get_watches;
  sb_delete_watch := delete_watch;
  sb_save_transaction := save_transaction;
  sb_get_transactions := get_transactions;
  sb_close := close;
|}.

Lemma cursor_env_mono : env_mono cursor.
Proof. intros [db e]. unfold cursor. simpl. by destruct (closed db). Qed.

Lemma run_call_env_mono c : env_mono (run_call c).
Proof.
  pose proof cursor_env_mono.
  destruct c; unfold run_call, save_watch, get_watches, delete_watch,
    save_transaction, get_transactions, close; solve_preserves.
Qed.

#[export] Instance SQLiteStorage_safe : StorageSafe SQLiteStorage.
Proof.
  split; intros c.
  - replace (sb_call c) with (run_call c) by (by destruct c).
    apply run_call_no_raise.
  - replace (sb_call c) with (run_call c) by (by destruct c).
    apply run_call_env_mono.
Qed.

(** Any sequence of calls on a safe storage runs to its end, and what the
    environment recorded before it is still there after it. *)
Lemma sb_calls_safe {S} `{!StorageBase S} `{!StorageSafe S} (cs : list storage_call) :
  no_raise (m_for cs sb_call) ∧ env_mono (m_for cs sb_call).
Proof.
  split.
  - apply no_raise_for. intros c _. apply sb_call_no_raise.
  - apply preserves_for; [tc_solve|]. intros c. apply sb_call_env_mono.
Qed.

(** ** Theorems *)

(** Example data for the witnesses. *)
Definition tx_sig1 : Transaction :=
  {| signature := "SIG1"; chain := "solana";
     address := "So11111111111111111111111111111111111111112";
     tx_type := "transfer"; description := "received 1 SOL";
     amount_usd := Some 100%float; timestamp := Some 1700000000%Z;
     raw := None |}.

Definition tx_sig1_again : Transaction :=
  {| signature := "SIG1"; chain := "solana";
     address := "11111111111111111111111111111111";
     tx_type := "swap"; description := "";
     amount_usd := None; timestamp := None; raw := None |}.

Definition env_ok (t : Z) : Env := env0 (λ _, ReplyOk) t.

Definition db_one : SQLiteStorage :=
  (exec (save_transaction tx_sig1) (SQLiteStorage_init "w.db", env_ok 10)).1.

(** C7: every state the engine reaches from a new database by calls of its
    methods, whatever the environment does between them, satisfies the
    invariant: no two transaction rows share a signature, no two watch rows
    share an address, and rowids increase and are bounded by the table's
    sequence. *)
Theorem storage_reachable_wf w : storage_reachable w → db_wf w.1.
Proof.
  intros (p & e0 & Hr).
  eapply (rtc_ind_r (λ w, db_wf w.1)); [| |exact Hr]; simpl.
  - apply SQLiteStorage_init_wf.
  - intros y z _ Hs Hy. by eapply storage_step_wf.
Qed.

Lemma storage_reachable_wf_witness :
  storage_reachable (db_one, env_ok 10) ∧ db_wf db_one.
Proof.
  assert (storage_reachable (db_one, env_ok 10)) as H.
  { exists "w.db", (env_ok 10). apply rtc_once.
    apply (step_call (CallSaveTransaction tx_sig1)). }
  split; [exact H | exact (storage_reachable_wf _ H)].
Defined.

(** C2: saving a transaction is idempotent on its signature.  On an open
    database, after [save_transaction tx] a second delivery with the same
    signature (at any later time, with any other fields) returns [True],
    changes nothing, and the table holds exactly one row with that
    signature. *)
Theorem save_transaction_idempotent tx tx' db e e' :
  db_wf db → closed db = false → signature tx' = signature tx →
  let db1 := (exec (save_transaction tx) (db, e)).1 in
  save_transaction tx' (db1, e') = (Ok true, (db1, e'))
  ∧ length (filter (λ r, tr_signature r = signature tx) (transactions_tbl db1)) = 1.
Proof.
  intros Hwf Hopen Hsig db1. subst db1. unfold exec.
  rewrite (save_transaction_open tx db e) by done. simpl.
  pose proof (insert_or_ignore_transaction_wf (now e) tx db Hwf) as [_ Hwf1].
  assert (has_signature (signature tx) (insert_or_ignore_transaction (now e) tx db) = true)
    as Hhas.
  { unfold insert_or_ignore_transaction.
    destruct (has_signature _ db) eqn:E; [done|]. apply has_signature_spec.
    simpl. rewrite fmap_app. set_solver. }
  split.
  - rewrite save_transaction_open
      by (unfold insert_or_ignore_transaction; by case_match).
    do 2 f_equal. unfold insert_or_ignore_transaction at 1.
    by rewrite Hsig, Hhas.
  - apply Nat.le_antisymm; [by eapply table_wf_key_unique|].
    apply has_signature_spec, list_elem_of_fmap in Hhas as (r & Hr & Hin).
    assert (r ∈ filter (λ r, tr_signature r = signature tx)
              (transactions_tbl (insert_or_ignore_transaction (now e) tx db))) as Hf
      by by apply list_elem_of_filter.
    destruct (filter _ _); [by apply elem_of_nil in Hf | simpl; lia].
Qed.

Lemma save_transaction_idempotent_witness :
  save_transaction tx_sig1_again (db_one, env_ok 99) = (Ok true, (db_one, env_ok 99))
  ∧ length (filter (λ r, tr_signature r = "SIG1") (transactions_tbl db_one)) = 1.
Proof.
  apply (save_transaction_idempotent tx_sig1 tx_sig1_again
           (SQLiteStorage_init "w.db") (env_ok 10) (env_ok 99));
    [apply (bool_decide_unpack (db_wf _)); by vm_compute | done | done].
Defined.

(** [save_transaction] implements insert-if-absent: on an open database
    it returns [True] and the table, read as a map from signatures to rows,
    gains the new row exactly when the signature was not there. *)
Theorem save_transaction_refines tx db e :
  closed db = false →
  eval (save_transaction tx) (db, e) = Ok true
  ∧ transactions_abs (exec (save_transaction tx) (db, e)).1 =
    StorageSpec.insert_if_absent (signature tx) (new_tx_row (now e) tx db)
      (transactions_abs db).
Proof.
  intros Hopen. unfold eval, exec. rewrite save_transaction_open by done.
  split; [done | apply insert_or_ignore_transaction_abs].
Qed.

Lemma save_transaction_refines_witness :
  eval (save_transaction tx_sig1) (SQLiteStorage_init "w.db", env_ok 10) = Ok true
  ∧ transactions_abs db_one =
    StorageSpec.insert_if_absent "SIG1"
      (new_tx_row 10 tx_sig1 (SQLiteStorage_init "w.db")) ∅.
Proof.
  exact (save_transaction_refines tx_sig1 (SQLiteStorage_init "w.db") (env_ok 10)
           eq_refl).
Defined.

(** [save_watch] is an upsert keyed by the address: on an open database
    it returns [True], afterwards exactly one row has the address, it holds
    the values of this call, and the rows of the other addresses are the ones
    that were there. *)
Theorem save_watch_upsert a c l n f db e :
  closed db = false →
  let db1 := (exec (save_watch a c l n f) (db, e)).1 in
  eval (save_watch a c l n f) (db, e) = Ok true
  ∧ filter (λ r, wr_address r = a) (watches_tbl db1) =
    [new_watch_row (now e) a c l (default [] n) (default [] f) db]
  ∧ filter (λ r, wr_address r ≠ a) (watches_tbl db1) =
    filter (λ r, wr_address r ≠ a) (watches_tbl db).
Proof.
  intros Hopen db1. subst db1. unfold eval, exec.
  rewrite save_watch_open by done. simpl. split_and!; [done|..].
  - rewrite filter_app, filter_none.
    + by rewrite filter_cons, decide_True.
    + by intros r [? _]%list_elem_of_filter.
  - rewrite filter_app, filter_all.
    + rewrite filter_cons, decide_False by (simpl; tauto). simpl.
      by rewrite app_nil_r.
    + by intros r [? _]%list_elem_of_filter.
Qed.

Lemma save_watch_upsert_witness :
  let db0 := (exec (save_watch "addr1" "solana" "old" None None)
                (SQLiteStorage_init "w.db", env_ok 5)).1 in
  let db1 := (exec (save_watch "addr1" "solana" "new" (Some ["telegram"]) None)
                (db0, env_ok 7)).1 in
  eval (save_watch "addr1" "solana" "new" (Some ["telegram"]) None) (db0, env_ok 7)
    = Ok true
  ∧ filter (λ r, wr_address r = "addr1") (watches_tbl db1) =
    [mkWatchRow 2 "addr1" "solana" "new" ["telegram"] [] 7]
  ∧ filter (λ r, wr_address r ≠ "addr1") (watches_tbl db1) = [].
Proof.
  exact (save_watch_upsert "addr1" "solana" "new" (Some ["telegram"]) None
           (exec (save_watch "addr1" "solana" "old" None None)
              (SQLiteStorage_init "w.db", env_ok 5)).1 (env_ok 7) eq_refl).
Defined.

(** [delete_watch] on an open database returns whether a row had the
    address, and afterwards no row has it; the other rows are kept. *)
Theorem delete_watch_spec a db e :
  closed db = false →
  let db1 := (exec (delete_watch a) (db, e)).1 in
  eval (delete_watch a) (db, e) =
    Ok (bool_decide (a ∈ wr_address <$> watches_tbl db))
  ∧ (a ∉ wr_address <$> watches_tbl db1)
  ∧ watches_tbl db1 = filter (λ r, wr_address r ≠ a) (watches_tbl db).
Proof.
  intros Hopen db1. subst db1. unfold eval, exec.
  rewrite delete_watch_open by done. simpl. split_and!; [|..|done].
  - f_equal. apply bool_decide_ext. split.
    + intros Hlen. destruct (filter _ _) as [|r t] eqn:E; [simpl in *; lia|].
      assert (r ∈ filter (λ r, wr_address r = a) (watches_tbl db)) as Hr
        by (rewrite E; left).
      apply list_elem_of_filter in Hr as [<- ?]. apply list_elem_of_fmap. eauto.
    + intros (r & -> & Hr)%list_elem_of_fmap.
      assert (r ∈ filter (λ r', wr_address r' = wr_address r) (watches_tbl db)) as Hf
        by by apply list_elem_of_filter.
      destruct (filter _ _); [by apply elem_of_nil in Hf | simpl; lia].
  - intros (r & -> & [? _]%list_elem_of_filter)%list_elem_of_fmap. done.
Qed.

(** C30: a query returns rows of the table, newest first by [created_at], all
    of the requested address when one is given, and at most [limit] of them
    when [limit] is not negative; on a closed connection it returns the
    empty list.  It never raises. *)
Theorem get_transactions_sorted_bounded a n db e :
  ∃ rows, eval (get_transactions a n) (db, e) = Ok rows
  ∧ StronglySorted newer_first rows
  ∧ ((0 ≤ n)%Z → length rows ≤ Z.to_nat n)
  ∧ ∀ r, r ∈ rows →
      r ∈ transactions_tbl db
      ∧ ∀ a', a = Some a' → str_truthy a' = true → tr_address r = a'.
Proof.
  unfold eval. destruct (closed db) eqn:E.
  - rewrite get_transactions_closed by done. exists []. simpl.
    split_and!; [done|constructor|lia|by intros ? ?%elem_of_nil].
  - rewrite get_transactions_open by done. eexists. split_and!; [done|..].
    + apply select_transactions_sorted.
    + apply sql_limit_length.
    + intros r Hr%select_transactions_elem_of. split.
      * eapply elem_of_sublist; [done | apply matching_rows_sublist].
      * intros a' -> Ha. unfold matching_rows in Hr. rewrite Ha in Hr.
        by apply list_elem_of_filter in Hr as [? _].
Qed.

(** When the rows of the table have increasing [created_at] (no two
    transactions were stored in the same second), a query returns the
    matching rows most recent first: the reverse of their insertion order,
    cut at [limit]. *)
Theorem get_transactions_most_recent_first a n db :
  StronglySorted (λ r1 r2, (tr_created_at r1 < tr_created_at r2)%Z)
    (transactions_tbl db) →
  select_transactions a n db = sql_limit n (reverse (matching_rows a db)).
Proof.
  intros Hs. rewrite select_transactions_unfold, order_by_reverse; [done|].
  eapply StronglySorted_sublist; [apply matching_rows_sublist | done].
Qed.

Definition db_two : SQLiteStorage :=
  (exec (save_transaction tx_sig1;;
         save_transaction
           {| signature := "SIG2"; chain := "solana"; address := "addr2";
              tx_type := "swap"; description := ""; amount_usd := None;
              timestamp := None; raw := None |})
     (SQLiteStorage_init "w.db", env_ok 10)).1.

Definition db_three : SQLiteStorage :=
  insert_or_ignore_transaction 12
    {| signature := "SIG3"; chain := "solana"; address := "addr2";
       tx_type := "swap"; description := ""; amount_usd := None;
       timestamp := None; raw := None |}
    (insert_or_ignore_transaction 11
       {| signature := "SIG2"; chain := "solana"; address := "addr2";
          tx_type := "swap"; description := ""; amount_usd := None;
          timestamp := None; raw := None |} db_one).

Lemma get_transactions_most_recent_first_witness :
  StronglySorted (λ r1 r2, (tr_created_at r1 < tr_created_at r2)%Z)
    (transactions_tbl db_three)
  ∧ tr_signature <$> select_transactions None 2 db_three = ["SIG3"; "SIG2"].
Proof.
  assert (StronglySorted (λ r1 r2, (tr_created_at r1 < tr_created_at r2)%Z)
            (transactions_tbl db_three)) as H.
  { apply (bool_decide_unpack (StronglySorted _ _)). by vm_compute. }
  split; [exact H|].
  rewrite (get_transactions_most_recent_first None 2 db_three H). done.
Defined.



(** Two transactions stored in the same second have the same
    [created_at], so ordering by it does not order them by insertion: here
    the older row comes first. *)
Example get_transactions_same_second :
  tr_signature <$> select_transactions None 100 db_two = ["SIG1"; "SIG2"].
Proof. by vm_compute. Qed.

(** [close] can be called any number of times, and after it every method
    returns its failure value ([False], the empty list), leaves the tables as
    they are and does not raise. *)
Theorem closed_storage_inert c db e :
  let w := exec close (db, e) in
  exec close w = (close_connection db, (exec close w).2)
  ∧ is_ok (eval (run_call c) w) = true
  ∧ (exec (run_call c) w).1 = close_connection db
  ∧ (eval (save_transaction tx_sig1) w = Ok false
     ∧ eval (get_transactions None 100) w = Ok []
     ∧ eval (get_watches None) w = Ok []).
Proof.
  intros w.
  assert (w = (close_connection db, env_log DEBUG "SQLite connection closed" e))
    as -> by done.
  split_and!; [done|apply run_call_no_raise| |done..].
  rewrite run_call_db. simpl. by destruct c.
Qed.

Lemma delete_watch_spec_witness :
  let db0 := (exec (save_watch "addr1" "solana" "" None None)
                (SQLiteStorage_init "w.db", env_ok 5)).1 in
  let db1 := (exec (delete_watch "addr1") (db0, env_ok 6)).1 in
  eval (delete_watch "addr1") (db0, env_ok 6) = Ok true
  ∧ ("addr1" ∉ wr_address <$> watches_tbl db1)
  ∧ watches_tbl db1 = [].
Proof.
  exact (delete_watch_spec "addr1"
           (exec (save_watch "addr1" "solana" "" None None)
              (SQLiteStorage_init "w.db", env_ok 5)).1 (env_ok 6) eq_refl).
Defined.
