(* ===== verification/Persistence.v ===== *)
(** * What the storage is given is what it gives back

    The round trips of storage/sqlite.py: a method that writes, followed by
    the method that reads.  The theorems say which row comes back and where:

    - a watch that was saved is the last row [get_watches] returns, with the
      fields it was saved with, and the row the address had before is gone;
    - a watch that was deleted is not returned again;
    - a transaction with a new signature comes back with its fields, except
      that an amount that is not a number comes back as no amount, and an
      event without keys as no event;
    - a transaction whose signature is stored comes back as it was stored
      first.

    The columns [notify], [filters] and [raw] hold JSON text, and the methods
    that read return the text: nothing in the repository decodes it.  The
    model keeps the value the text encodes. *)

From stdpp Require Import sorting.
From S2P Require Import Prelude PyDict PyStr Models Storage.

Section persistence.
Implicit Types (db : SQLiteStorage) (e : Env) (tx : Transaction).

(** The rows of the other addresses. *)
Definition other_watches (a : string) db : list WatchRow :=
  filter (λ r, wr_address r ≠ a) (watches_tbl db).

Lemma save_watch_get_watches a c l n f chain db e :
  closed db = false →
  eval (save_watch a c l n f ≫= λ _, get_watches chain) (db, e) =
  Ok (select_watches chain
        (insert_or_replace_watch (now e) a c l (default [] n) (default [] f) db)).
Proof.
  intros Hopen. unfold eval.
  by rewrite m_bind_run, save_watch_open, get_watches_open.
Qed.

Lemma delete_watch_get_watches a chain db e :
  closed db = false →
  eval (delete_watch a ≫= λ _, get_watches chain) (db, e) =
  Ok (select_watches chain (delete_from_watches a db).2).
Proof.
  intros Hopen. unfold eval.
  by rewrite m_bind_run, delete_watch_open, get_watches_open.
Qed.

Lemma save_transaction_get_transactions tx a n db e :
  closed db = false →
  eval (save_transaction tx ≫= λ _, get_transactions a n) (db, e) =
  Ok (select_transactions a n (insert_or_ignore_transaction (now e) tx db)).
Proof.
  intros Hopen. unfold eval.
  rewrite m_bind_run, save_transaction_open by done.
  rewrite get_transactions_open; [done|].
  unfold insert_or_ignore_transaction. by case_match.
Qed.

(** A query without a bound that cuts returns the rows that match, in some
    order. *)
Lemma select_transactions_all a n db r :
  (n < 0 ∨ Z.of_nat (length (transactions_tbl db)) ≤ n)%Z →
  r ∈ select_transactions a n db ↔ r ∈ matching_rows a db.
Proof.
  intros Hn. rewrite select_transactions_unfold, sql_limit_all.
  - by rewrite order_by_perm.
  - destruct Hn as [Hn|Hn]; [by left|right].
    rewrite order_by_perm. etrans; [|exact Hn]. apply inj_le.
    unfold matching_rows. repeat case_match; try done; apply filter_length_le.
Qed.

End persistence.

(** ** Theorems *)

Section persistence_theorems.
Implicit Types (db : SQLiteStorage) (e : Env) (tx : Transaction).

(** C29: a watch that was saved is the last row [get_watches] returns, with the
    address, chain, label, notifier names and filters it was saved with;
    before it come the rows of the other addresses, in the order they had. *)
Theorem save_watch_read_back a c l n f db e :
  closed db = false →
  eval (save_watch a c l n f ≫= λ _, get_watches None) (db, e) =
  Ok (other_watches a db
      ++ [new_watch_row (now e) a c l (default [] n) (default [] f) db]).
Proof. intros Hopen. by rewrite save_watch_get_watches. Qed.

(** The same through the query by chain: the saved watch is the last row of
    its chain. *)
Theorem save_watch_read_back_by_chain a c l n f db e :
  closed db = false → str_truthy c = true →
  eval (save_watch a c l n f ≫= λ _, get_watches (Some c)) (db, e) =
  Ok (filter (λ r, wr_chain r = c) (other_watches a db)
      ++ [new_watch_row (now e) a c l (default [] n) (default [] f) db]).
Proof.
  intros Hopen Hc. rewrite save_watch_get_watches by done. simpl. rewrite Hc.
  f_equal. rewrite filter_app. f_equal.
  by rewrite filter_cons, decide_True.
Qed.

(** A watch that was deleted is not returned again, and the other rows are
    returned as they were. *)
Theorem delete_watch_read_back a db e :
  closed db = false →
  eval (delete_watch a ≫= λ _, get_watches None) (db, e)
  = Ok (other_watches a db).
Proof. intros Hopen. by rewrite delete_watch_get_watches. Qed.

(** C28: a transaction with a new signature comes back from a query that is not
    cut short: the row has the fields of the transaction, with the amount
    and the event as sqlite3 binds them. *)
Theorem save_transaction_read_back tx n db e :
  closed db = false →
  signature tx ∉ tr_signature <$> transactions_tbl db →
  (n < 0 ∨ Z.of_nat (length (transactions_tbl db)) < n)%Z →
  ∃ rows, eval (save_transaction tx ≫= λ _, get_transactions None n) (db, e)
          = Ok rows
          ∧ new_tx_row (now e) tx db ∈ rows
          ∧ rows ≡ₚ transactions_tbl db ++ [new_tx_row (now e) tx db].
Proof.
  intros Hopen Hnew Hn. rewrite save_transaction_get_transactions by done.
  eexists. split; [done|].
  assert (transactions_tbl (insert_or_ignore_transaction (now e) tx db)
          = transactions_tbl db ++ [new_tx_row (now e) tx db]) as Htbl.
  { unfold insert_or_ignore_transaction, has_signature.
    by rewrite bool_decide_eq_false_2. }
  assert (select_transactions None n
            (insert_or_ignore_transaction (now e) tx db)
          ≡ₚ transactions_tbl db ++ [new_tx_row (now e) tx db]) as Hperm.
  { rewrite select_transactions_unfold, sql_limit_all.
    - by rewrite order_by_perm; simpl; rewrite Htbl.
    - destruct Hn as [Hn|Hn]; [by left|right]. rewrite order_by_perm. simpl.
      rewrite Htbl, length_app. simpl. lia. }
  split; [|done]. rewrite Hperm. set_solver.
Qed.

(** A transaction whose signature is stored reads back as the row that was
    stored first: the second write changes nothing that can be read. *)
Theorem save_transaction_known_read_back tx a n db e :
  closed db = false →
  signature tx ∈ tr_signature <$> transactions_tbl db →
  eval (save_transaction tx ≫= λ _, get_transactions a n) (db, e)
  = eval (get_transactions a n) (db, e).
Proof.
  intros Hopen Hold. rewrite save_transaction_get_transactions by done.
  unfold eval. rewrite get_transactions_open by done. simpl. f_equal. f_equal.
  unfold insert_or_ignore_transaction, has_signature.
  by rewrite bool_decide_eq_true_2.
Qed.

End persistence_theorems.

(** ** Examples *)

Definition db_watched : SQLiteStorage :=
  (exec (save_watch "addr2" "solana" "cold" None None;;
         save_watch "addr1" "solana" "old" None None)
     (SQLiteStorage_init "w.db", env_ok 5)).1.

Definition tx_sig2 : Transaction :=
  {| signature := "SIG2"; chain := "solana"; address := "addr2";
     tx_type := "swap"; description := ""; amount_usd := None;
     timestamp := None; raw := None |}.

Lemma save_watch_read_back_witness :
  eval (save_watch "addr1" "solana" "hot" (Some ["telegram"]) None ≫= λ _,
        get_watches None) (db_watched, env_ok 7)
  = Ok [mkWatchRow 1 "addr2" "solana" "cold" [] [] 5;
        mkWatchRow 3 "addr1" "solana" "hot" ["telegram"] [] 7].
Proof.
  exact (save_watch_read_back "addr1" "solana" "hot" (Some ["telegram"]) None
           db_watched (env_ok 7) eq_refl).
Defined.

Lemma delete_watch_read_back_witness :
  eval (delete_watch "addr1" ≫= λ _, get_watches None) (db_watched, env_ok 7)
  = Ok [mkWatchRow 1 "addr2" "solana" "cold" [] [] 5].
Proof. exact (delete_watch_read_back "addr1" db_watched (env_ok 7) eq_refl). Defined.

Lemma save_transaction_read_back_witness :
  ∃ rows,
    eval (save_transaction tx_sig2 ≫= λ _, get_transactions None 10)
      (db_one, env_ok 11) = Ok rows
    ∧ new_tx_row 11 tx_sig2 db_one ∈ rows
    ∧ rows ≡ₚ transactions_tbl db_one ++ [new_tx_row 11 tx_sig2 db_one].
Proof.
  apply (save_transaction_read_back tx_sig2 10 db_one (env_ok 11));
    [done | by apply (bool_decide_unpack _); vm_compute | right; by vm_compute].
Defined.
