(* ===== verification/Notifiers.v ===== *)
(** * Notifiers (notifiers/base.py, telegram.py, webhook.py, __init__.py)

    [NotifierBase] is the interface the orchestrator calls: [send],
    [send_to], [format_message].  Its two implementations are the Telegram
    bot, which keeps a set of subscribers and broadcasts to it, and the
    generic HTTP webhook.  The transports ([telebot], [requests]) are the
    environment: a call is recorded in [calls] and its outcome is the
    oracle's reply.

    A Python [set] of strings is modelled as a list without duplicates whose
    order is the order a [for] loop visits the elements in.  CPython raises
    [RuntimeError] when a [for] loop over a set fetches the next element
    after the set's size changed; [tg_send_loop] models that check, because
    [send_to] discards a subscriber while [send] iterates over the set.

    The orchestrator passes no keyboard, so [tg_send_to] is [send_to] without
    one; [tg_send_to_keyboard] is [send_to] with the keyword argument, and
    [_build_keyboard] the markup it sends.  [start_polling] hands the process
    to the library's polling loop and is not modelled: nothing calls it. *)

From S2P Require Import Prelude PyDict PyStr.

(** ** Python sets of strings *)

Definition pyset_add (x : string) (s : list string) : list string :=
  if decide (x ∈ s) then s else s ++ [x].

Definition pyset_discard (x : string) (s : list string) : list string :=
  filter (λ y, y ≠ x) s.

(** ** The interface *)

Class NotifierBase (N : Type) := {
  send : string → M (N * Env) bool;
  send_to : string → string → M (N * Env) bool;
  format_message : N → string → string;
}.

(** What the interface promises: a transport failure is a [False], never an
    exception. *)
Class NotifierNoRaise (N : Type) `{!NotifierBase N} := {
  send_no_raise message : no_raise (send (N:=N) message);
  send_to_no_raise recipient message : no_raise (send_to (N:=N) recipient message);
}.

(** ** The Telegram bot *)

Record TelegramNotifier := mkTelegramNotifier {
  tg_config : pydict string string;
  bot_token : string;
  default_chat_id : string;
  subscribers : list string;
}.

(** [TelegramNotifier.__init__] *)
Definition TelegramNotifier_init (bot_token chat_id : string)
    (kwargs : pydict string string) : result TelegramNotifier :=
  if str_truthy bot_token then
    Ok {| tg_config := kwargs; bot_token := bot_token;
          default_chat_id := chat_id;
          subscribers := if str_truthy chat_id then pyset_add chat_id [] else [] |}
  else Raise (Exn ValueError "Telegram bot_token is required").

Definition set_subscribers (s : list string) (self : TelegramNotifier)
    : TelegramNotifier :=
  {| tg_config := tg_config self; bot_token := bot_token self;
     default_chat_id := default_chat_id self; subscribers := s |}.

(** [add_subscriber], [remove_subscriber] *)
Definition add_subscriber (chat_id : string) : M (TelegramNotifier * Env) unit :=
  st_modify (λ self, set_subscribers (pyset_add chat_id (subscribers self)) self);;
  log INFO ("Added Telegram subscriber: " +:+ chat_id).

Definition remove_subscriber (chat_id : string) : M (TelegramNotifier * Env) unit :=
  st_modify (λ self, set_subscribers (pyset_discard chat_id (subscribers self)) self);;
  log INFO ("Removed Telegram subscriber: " +:+ chat_id).

(** ["blocked" in str(e).lower()] *)
Definition is_blocked (e : exn) : bool :=
  str_contains "blocked" (py_lower (exn_msg e)).

(** [send_to] without a keyboard. *)
Definition tg_send_to (recipient message : string)
    : M (TelegramNotifier * Env) bool :=
  reply ← net (TgSendMessage recipient message);
  match reply with
  | ReplyOk =>
      log DEBUG ("Sent Telegram message to " +:+ recipient);; mret true
  | ReplyRaise e =>
      if decide (exn_kind_of e = ApiTelegramException) then
        (if is_blocked e then
           log WARNING ("Bot blocked by user " +:+ recipient);;
           st_modify (λ self,
             set_subscribers (pyset_discard recipient (subscribers self)) self)
         else log ERROR ("Telegram API error: " +:+ exn_msg e));;
        mret false
      else
        log ERROR ("Failed to send Telegram message: " +:+ exn_msg e);;
        mret false
  end.

Definition set_changed_size : exn :=
  Exn RuntimeError "Set changed size during iteration".

(** The loop [for chat_id in self.subscribers] of [send]: [size] is the size
    of the set when the loop started, [todo] the elements not visited yet.
    Fetching the next element, or finding that there is none, first checks
    that the set still has that size. *)
Fixpoint tg_send_loop (size : nat) (todo : list string) (message : string)
    (success : bool) : M (TelegramNotifier * Env) bool :=
  self ← st_get;
  if decide (length (subscribers self) = size) then
    match todo with
    | [] => mret success
    | chat_id :: rest =>
        tg_send_to chat_id message ≫= λ ok : bool,
        tg_send_loop size rest message (if ok then success else false)
    end
  else m_raise set_changed_size.

(** [send] *)
Definition tg_send (message : string) : M (TelegramNotifier * Env) bool :=
  self ← st_get;
  match subscribers self with
  | [] => log WARNING "No Telegram subscribers configured";; mret false
  | _ => tg_send_loop (length (subscribers self)) (subscribers self) message true
  end.

(** [format_message]: escapes the characters of Telegram's HTML. *)
Definition tg_format_message (message : string) : string :=
  let message := py_replace "&"%char "&amp;" message in
  let message := py_replace "<"%char "&lt;" message in
  let message := py_replace ">"%char "&gt;" message in
  message.

(** *** Inline keyboards

    A keyboard is a list of rows, a row a list of dictionaries.  A dictionary
    with the key [url] is a link, one with [callback] (and no [url]) sends a
    token back, any other is skipped; [btn["text"]] raises [KeyError] when the
    text is missing.  [InlineKeyboardMarkup.row] is the library's: it adds the
    buttons as rows of at most [max_row_keys] buttons each. *)

Abbreviation Markup := (list (list tg_button)).

Definition getitem (key : string) (d : pydict string string) : result string :=
  match pd_get key d with
  | Some v => Ok v
  | None => Raise (Exn KeyError ("'" +:+ key +:+ "'"))
  end.

Definition build_button (btn : pydict string string) : result (list tg_button) :=
  if pd_mem "url" btn then
    text ← getitem "text" btn; url ← getitem "url" btn;
    mret [UrlButton text url]
  else if pd_mem "callback" btn then
    text ← getitem "text" btn; data ← getitem "callback" btn;
    mret [CallbackButton text data]
  else mret [].

Fixpoint build_row (row : list (pydict string string)) : result (list tg_button) :=
  match row with
  | [] => mret []
  | btn :: row' =>
      b ← build_button btn; buttons ← build_row row'; mret (b ++ buttons)
  end.

(** [chunks(lst, n)] of the library: consecutive slices of [n] elements; a
    list has no more slices than elements, which is the fuel. *)
Fixpoint chunks_fuel {A} (fuel n : nat) (l : list A) : list (list A) :=
  match fuel, l with
  | S fuel', _ :: _ => take n l :: chunks_fuel fuel' n (drop n l)
  | _, _ => []
  end.

Definition chunks {A} (n : nat) (l : list A) : list (list A) :=
  chunks_fuel (length l) n l.

Definition max_row_keys : nat := 8.

Definition markup_row (buttons : list tg_button) (markup : Markup) : Markup :=
  markup ++ chunks max_row_keys buttons.

Fixpoint build_rows (markup : Markup) (keyboard : list (list (pydict string string)))
    : result Markup :=
  match keyboard with
  | [] => mret markup
  | row :: keyboard' =>
      buttons ← build_row row;
      build_rows (if buttons is [] then markup else markup_row buttons markup)
        keyboard'
  end.

(** [_build_keyboard] *)
Definition _build_keyboard (keyboard : list (list (pydict string string)))
    : result Markup :=
  build_rows [] keyboard.

(** What [send_to] does with the outcome of [bot.send_message]. *)
Definition tg_sent (recipient : string) (reply : net_reply)
    : M (TelegramNotifier * Env) bool :=
  match reply with
  | ReplyOk =>
      log DEBUG ("Sent Telegram message to " +:+ recipient);; mret true
  | ReplyRaise e =>
      if decide (exn_kind_of e = ApiTelegramException) then
        (if is_blocked e then
           log WARNING ("Bot blocked by user " +:+ recipient);;
           st_modify (λ self,
             set_subscribers (pyset_discard recipient (subscribers self)) self)
         else log ERROR ("Telegram API error: " +:+ exn_msg e));;
        mret false
      else
        log ERROR ("Failed to send Telegram message: " +:+ exn_msg e);;
        mret false
  end.

(** [send_to] with its keyword argument [keyboard]: [None] when the caller
    passes none.  An empty keyboard is false, so no markup is built for it; an
    exception of [_build_keyboard] is caught by the [except Exception] of
    [send_to] before anything is sent. *)
Definition tg_send_to_keyboard (recipient message : string)
    (keyboard : option (list (list (pydict string string))))
    : M (TelegramNotifier * Env) bool :=
  match keyboard with
  | None | Some [] => net (TgSendMessage recipient message) ≫= tg_sent recipient
  | Some keyboard =>
      match _build_keyboard keyboard with
      | Ok reply_markup =>
          net (TgSendMarkup recipient message reply_markup) ≫= tg_sent recipient
      | Raise e =>
          log ERROR ("Failed to send Telegram message: " +:+ exn_msg e);;
          mret false
      end
  end.

#[export] Instance TelegramNotifier_base : NotifierBase TelegramNotifier :=
  {| send := tg_send; send_to := tg_send_to;
     format_message := λ _, tg_format_message |}.

(** ** The HTTP webhook *)

Record WebhookNotifier := mkWebhookNotifier {
  wh_config : pydict string string;
  webhook_url : string;
  headers : pydict string string;
  method : string;
}.

(** [WebhookNotifier.__init__]: [headers] and [method] come from the keyword
    arguments, with their defaults. *)
Definition WebhookNotifier_init (webhook_url : string)
    (headers : option (pydict string string)) (method : option string)
    (kwargs : pydict string string) : result WebhookNotifier :=
  if str_truthy webhook_url then
    Ok {| wh_config := kwargs; webhook_url := webhook_url;
          headers := default [("Content-Type", "application/json")] headers;
          method := py_upper (default "POST" method) |}
  else Raise (Exn ValueError "webhook_url is required").

(** The request of [send_to], [raise_for_status], and the three [except]
    clauses, which all log and return [False]. *)
Definition wh_request (recipient : string) (c : net_call)
    : M (WebhookNotifier * Env) bool :=
  reply ← net c;
  match reply with
  | ReplyOk =>
      log DEBUG ("Webhook notification sent to " +:+ recipient);; mret true
  | ReplyRaise e =>
      (if decide (exn_kind_of e = RequestTimeout) then
         log ERROR ("Webhook request timed out: " +:+ recipient)
       else if decide (exn_kind_of e = RequestException) then
         log ERROR ("Webhook request failed: " +:+ exn_msg e)
       else log ERROR ("Failed to send webhook notification: " +:+ exn_msg e));;
      mret false
  end.

(** [send_to] *)
Definition wh_send_to (recipient message : string)
    : M (WebhookNotifier * Env) bool :=
  self ← st_get;
  if decide (method self = "POST") then
    wh_request recipient (HttpPost recipient message)
  else if decide (method self = "GET") then
    wh_request recipient (HttpGet recipient message)
  else
    log ERROR ("Unsupported HTTP method: " +:+ method self);; mret false.

(** [send] *)
Definition wh_send (message : string) : M (WebhookNotifier * Env) bool :=
  self ← st_get;
  wh_send_to (webhook_url self) message.

#[export] Instance WebhookNotifier_base : NotifierBase WebhookNotifier :=
  {| send := wh_send; send_to := wh_send_to; format_message := λ _ m, m |}.

(** ** The registry of notifier classes (notifiers/__init__.py) *)

Inductive Notifier :=
| NTelegram (n : TelegramNotifier)
| NWebhook (n : WebhookNotifier).

Definition NOTIFIERS : list string := ["telegram"; "webhook"].

(** [get_notifier(name, bot_token=..., webhook_url=..., chat_id=...)] as the
    orchestrator calls it: each class takes the keyword arguments it names
    and keeps the others in [config]. *)
Definition get_notifier (name bot_token webhook_url chat_id : string)
    : result Notifier :=
  if decide (name = "telegram") then
    match TelegramNotifier_init bot_token chat_id [("webhook_url", webhook_url)] with
    | Ok n => Ok (NTelegram n)
    | Raise e => Raise e
    end
  else if decide (name = "webhook") then
    match WebhookNotifier_init webhook_url None None
            [("bot_token", bot_token); ("chat_id", chat_id)] with
    | Ok n => Ok (NWebhook n)
    | Raise e => Raise e
    end
  else
    Raise (Exn ValueError
             ("Unknown notifier: " +:+ name
              +:+ ". Available: ['telegram', 'webhook']")).

(** Calling a method of a notifier object: the dispatch on its class. *)
Definition on_telegram {A} (m : M (TelegramNotifier * Env) A) (n : TelegramNotifier)
    : M (Notifier * Env) A :=
  λ w, match m (n, w.2) with (r, (n', e)) => (r, (NTelegram n', e)) end.

Definition on_webhook {A} (m : M (WebhookNotifier * Env) A) (n : WebhookNotifier)
    : M (Notifier * Env) A :=
  λ w, match m (n, w.2) with (r, (n', e)) => (r, (NWebhook n', e)) end.

Definition notifier_send (message : string) : M (Notifier * Env) bool :=
  λ w, match w.1 with
       | NTelegram n => on_telegram (send message) n w
       | NWebhook n => on_webhook (send message) n w
       end.

Definition notifier_send_to (recipient message : string) : M (Notifier * Env) bool :=
  λ w, match w.1 with
       | NTelegram n => on_telegram (send_to recipient message) n w
       | NWebhook n => on_webhook (send_to recipient message) n w
       end.

#[export] Instance Notifier_base : NotifierBase Notifier :=
  {| send := notifier_send; send_to := notifier_send_to;
     format_message := λ n m,
       match n with
       | NTelegram n => format_message n m
       | NWebhook n => format_message n m
       end |}.

(** ** Sets *)

Lemma pyset_add_NoDup x s : NoDup s → NoDup (pyset_add x s).
Proof.
  unfold pyset_add. case_decide; [done|]. intros Hs.
  apply NoDup_app. split_and!; [done| |apply NoDup_singleton].
  by intros y Hy ->%list_elem_of_singleton.
Qed.

Lemma pyset_discard_NoDup x s : NoDup s → NoDup (pyset_discard x s).
Proof. apply NoDup_filter. Qed.

Lemma elem_of_pyset_add x y s : y ∈ pyset_add x s ↔ y = x ∨ y ∈ s.
Proof. unfold pyset_add. case_decide; set_solver. Qed.

Lemma elem_of_pyset_discard x y s : y ∈ pyset_discard x s ↔ y ≠ x ∧ y ∈ s.
Proof. unfold pyset_discard. by rewrite list_elem_of_filter. Qed.

Lemma pyset_discard_length_lt x s :
  x ∈ s → length (pyset_discard x s) < length s.
Proof. intros Hx. eapply length_filter_lt; [done|]. by intros []. Qed.

Lemma pyset_discard_absent x s : x ∉ s → pyset_discard x s = s.
Proof. intros Hx. apply filter_all. intros y Hy ->. done. Qed.

(** ** One message to one chat *)

(** The reply that makes [send_to] drop the recipient. *)
Definition blocked_reply (r : net_reply) : bool :=
  match r with
  | ReplyOk => false
  | ReplyRaise e =>
      bool_decide (exn_kind_of e = ApiTelegramException) && is_blocked e
  end.

Definition is_reply_ok (r : net_reply) : bool :=
  match r with ReplyOk => true | ReplyRaise _ => false end.

(** Whether the next [n] requests, counted from the [from]-th, all succeed. *)
Fixpoint replies_ok (e : Env) (from n : nat) : bool :=
  match n with
  | 0 => true
  | S n' => is_reply_ok (reply_at e from) && replies_ok e (S from) n'
  end.

Lemma replies_ok_after e cs ls from n :
  replies_ok (env_after e cs ls) from n = replies_ok e (length cs + from) n.
Proof.
  revert from. induction n as [|n IH]; intros from; cbn [replies_ok]; [done|].
  by rewrite reply_at_after, IH, Nat.add_succ_r.
Qed.

Lemma replies_ok_true e from n :
  (∀ i, i < n → reply_at e (from + i) = ReplyOk) → replies_ok e from n = true.
Proof.
  revert from. induction n as [|n IH]; intros from Hok; simpl; [done|].
  rewrite <- (Nat.add_0_r from) at 1. rewrite Hok by lia. simpl.
  apply IH. intros i Hi. replace (S from + i) with (from + S i) by lia.
  apply Hok. lia.
Qed.

(** What [send_to] does, whatever the reply: one request, the result is
    whether it succeeded, and the recipient is dropped on a blocked reply. *)
Lemma tg_send_to_spec recipient message self e :
  ∃ ls, tg_send_to recipient message (self, e) =
    (Ok (is_reply_ok (reply_at e 0)),
     (if blocked_reply (reply_at e 0)
      then set_subscribers (pyset_discard recipient (subscribers self)) self
      else self,
      env_after e [TgSendMessage recipient message] ls)).
Proof.
  unfold reply_at. rewrite Nat.add_0_r.
  unfold tg_send_to, net, mbind, M_bind, m_bind, env_call. simpl.
  destruct (oracle e (length (calls e))) as [|ex]; simpl.
  - by eexists [_].
  - destruct (decide (exn_kind_of ex = ApiTelegramException)) as [Hk|Hk].
    + rewrite bool_decide_eq_true_2 by done. simpl.
      destruct (is_blocked ex); by eexists [_].
    + rewrite bool_decide_eq_false_2 by done. by eexists [_].
Qed.

Lemma tg_send_to_no_raise recipient message :
  no_raise (tg_send_to recipient message).
Proof.
  intros [self e]. destruct (tg_send_to_spec recipient message self e) as [ls ->].
  done.
Qed.

(** ** The broadcast loop *)

Section tg_send_loop.
Variable (size : nat) (message : string).

Definition tg_calls (chats : list string) : list net_call :=
  (λ c, TgSendMessage c message) <$> chats.

(** No reply is a blocked one: every subscriber is tried, the set is kept,
    and the result is whether every request succeeded. *)
Lemma tg_send_loop_unblocked todo : ∀ self e success,
  length (subscribers self) = size →
  (∀ i, i < length todo → blocked_reply (reply_at e i) = false) →
  ∃ ls, tg_send_loop size todo message success (self, e) =
    (Ok (success && replies_ok e 0 (length todo)),
     (self, env_after e (tg_calls todo) ls)).
Proof.
  induction todo as [|c todo IH]; intros self e success Hsize Hnb; simpl.
  - unfold mbind, M_bind, m_bind, st_get. simpl.
    rewrite decide_True by done. exists []. unfold mret, M_ret, m_ret.
    by rewrite andb_true_r, env_after_nil.
  - unfold mbind, M_bind, m_bind, st_get. simpl. rewrite decide_True by done.
    destruct (tg_send_to_spec c message self e) as [ls ->].
    rewrite (Hnb 0) by (simpl; lia).
    destruct (IH self (env_after e [TgSendMessage c message] ls)
                (if is_reply_ok (reply_at e 0) then success else false) Hsize)
      as [ls' ->].
    { intros i Hi. rewrite reply_at_after. apply Hnb. simpl. lia. }
    exists (ls ++ ls'). rewrite env_after_after, replies_ok_after. simpl.
    by destruct (is_reply_ok (reply_at e 0)), success.
Qed.

(** The [k]-th reply is the first blocked one: the loop stops there with
    [RuntimeError], the subscribers after the [k]-th get no message. *)
Lemma tg_send_loop_blocked todo : ∀ k c self e success,
  length (subscribers self) = size →
  todo !! k = Some c → c ∈ subscribers self →
  (∀ i, i < k → blocked_reply (reply_at e i) = false) →
  blocked_reply (reply_at e k) = true →
  ∃ ls, tg_send_loop size todo message success (self, e) =
    (Raise set_changed_size,
     (set_subscribers (pyset_discard c (subscribers self)) self,
      env_after e (tg_calls (take (S k) todo)) ls)).
Proof.
  induction todo as [|c' todo IH]; intros k c self e success Hsize Hk Hc Hnb Hb;
    [done|]. simpl.
  unfold mbind, M_bind, m_bind, st_get. simpl. rewrite decide_True by done.
  destruct (tg_send_to_spec c' message self e) as [ls ->].
  destruct k as [|k]; simpl in Hk.
  - injection Hk as ->. rewrite Hb. simpl.
    destruct todo; simpl; unfold mbind, M_bind, m_bind, st_get; simpl;
      (rewrite decide_False
        by (pose proof (pyset_discard_length_lt c _ Hc); simpl; lia));
      by exists ls.
  - rewrite (Hnb 0) by lia.
    destruct (IH k c self (env_after e [TgSendMessage c' message] ls)
                (if is_reply_ok (reply_at e 0) then success else false)
                Hsize Hk Hc) as [ls' ->].
    + intros i Hi. rewrite reply_at_after. apply Hnb. simpl. lia.
    + by rewrite reply_at_after.
    + exists (ls ++ ls'). by rewrite env_after_after.
Qed.

End tg_send_loop.

(** ** Inline keyboards *)

Lemma chunks_fuel_rows {A} n fuel (l : list A) :
  0 < n → Forall (λ c, 0 < length c ≤ n) (chunks_fuel fuel n l).
Proof.
  intros Hn. revert l.
  induction fuel as [|fuel IH]; intros [|x l]; simpl; try by constructor.
  constructor; [|apply IH]. rewrite length_take. simpl. lia.
Qed.

Lemma chunks_concat {A} n (l : list A) : 0 < n → concat (chunks n l) = l.
Proof.
  intros Hn. unfold chunks. generalize (le_n (length l)).
  generalize (length l) at 2 3 as fuel. intros fuel. revert l.
  induction fuel as [|fuel IH]; intros [|x l] Hl; simpl in *; try done; try lia.
  rewrite IH; [apply (take_drop n (x :: l))|]. rewrite length_drop. simpl. lia.
Qed.

(** The buttons of a keyboard in reading order: what [_build_keyboard] has to
    put on the markup. *)
Fixpoint keyboard_buttons (keyboard : list (list (pydict string string)))
    : result (list tg_button) :=
  match keyboard with
  | [] => mret []
  | row :: keyboard' =>
      b ← build_row row; buttons ← keyboard_buttons keyboard'; mret (b ++ buttons)
  end.

Lemma build_rows_buttons keyboard : ∀ markup : Markup,
  ((λ m, concat m) <$> build_rows markup keyboard) =
  ((λ buttons, concat markup ++ buttons) <$> keyboard_buttons keyboard).
Proof.
  induction keyboard as [|row keyboard IH]; intros markup; simpl.
  - by rewrite app_nil_r.
  - destruct (build_row row) as [buttons|]; simpl; [|done]. rewrite IH.
    destruct (keyboard_buttons keyboard) as [rest|]; simpl; [|done].
    destruct buttons; simpl; [done|]. unfold markup_row.
    by rewrite concat_app, chunks_concat, <- app_assoc by (unfold max_row_keys; lia).
Qed.

Lemma build_rows_rows keyboard : ∀ markup markup',
  Forall (λ c, 0 < length c ≤ max_row_keys) markup →
  build_rows markup keyboard = Ok markup' →
  Forall (λ c, 0 < length c ≤ max_row_keys) markup'.
Proof.
  induction keyboard as [|row keyboard IH]; intros markup markup' Hm; simpl.
  - by intros [= <-].
  - destruct (build_row row) as [buttons|]; simpl; [|done].
    apply IH. destruct buttons; [done|]. apply Forall_app. split; [done|].
    apply chunks_fuel_rows. unfold max_row_keys. lia.
Qed.

(** A button the keyboard names by [url] or [callback] needs its [text]. *)
Lemma build_button_missing_text btn :
  pd_mem "url" btn || pd_mem "callback" btn = true →
  pd_get "text" btn = None →
  build_button btn = Raise (Exn KeyError "'text'").
Proof.
  intros Hk Ht. unfold build_button, getitem. rewrite Ht.
  destruct (pd_mem "url" btn); [done|]. by destruct (pd_mem "callback" btn).
Qed.

(** The request [send_to] makes for a keyboard, when there is one to make. *)
Definition tg_request (recipient message : string)
    (keyboard : option (list (list (pydict string string)))) : result net_call :=
  match keyboard with
  | None | Some [] => Ok (TgSendMessage recipient message)
  | Some keyboard => TgSendMarkup recipient message <$> _build_keyboard keyboard
  end.

Lemma tg_sent_spec recipient c self e :
  ∃ ls, (net c ≫= tg_sent recipient) (self, e) =
    (Ok (is_reply_ok (reply_at e 0)),
     (if blocked_reply (reply_at e 0)
      then set_subscribers (pyset_discard recipient (subscribers self)) self
      else self,
      env_after e [c] ls)).
Proof.
  unfold reply_at. rewrite Nat.add_0_r.
  unfold tg_sent, net, mbind, M_bind, m_bind, env_call. simpl.
  destruct (oracle e (length (calls e))) as [|ex]; simpl.
  - by eexists [_].
  - destruct (decide (exn_kind_of ex = ApiTelegramException)) as [Hk|Hk].
    + rewrite bool_decide_eq_true_2 by done. simpl.
      destruct (is_blocked ex); by eexists [_].
    + rewrite bool_decide_eq_false_2 by done. by eexists [_].
Qed.

Lemma tg_send_to_keyboard_run recipient message keyboard self e :
  ∃ ls, tg_send_to_keyboard recipient message keyboard (self, e) =
    match tg_request recipient message keyboard with
    | Ok c =>
        (Ok (is_reply_ok (reply_at e 0)),
         (if blocked_reply (reply_at e 0)
          then set_subscribers (pyset_discard recipient (subscribers self)) self
          else self,
          env_after e [c] ls))
    | Raise x =>
        (Ok false,
         (self, env_after e []
                  [(ERROR, "Failed to send Telegram message: " +:+ exn_msg x)]))
    end.
Proof.
  unfold tg_send_to_keyboard, tg_request.
  destruct keyboard as [[|row keyboard]|]; try apply tg_sent_spec.
  destruct (_build_keyboard (row :: keyboard)) as [markup|x]; simpl;
    [apply tg_sent_spec|].
  exists []. by rewrite m_bind_run, log_run.
Qed.

(** ** The webhook *)

Lemma wh_request_spec recipient c self e :
  ∃ ls, wh_request recipient c (self, e) =
    (Ok (is_reply_ok (reply_at e 0)), (self, env_after e [c] ls)).
Proof.
  unfold reply_at. rewrite Nat.add_0_r.
  unfold wh_request, net, mbind, M_bind, m_bind, env_call. simpl.
  destruct (oracle e (length (calls e))) as [|ex]; simpl; [by eexists [_]|].
  repeat case_decide; by eexists [_].
Qed.

Lemma wh_request_no_raise recipient c : no_raise (wh_request recipient c).
Proof. intros [self e]. by destruct (wh_request_spec recipient c self e) as [ls ->]. Qed.

Lemma wh_send_to_no_raise recipient message :
  no_raise (wh_send_to recipient message).
Proof.
  unfold wh_send_to. apply no_raise_bind; [done|]. intros self.
  repeat case_decide; try apply wh_request_no_raise.
  apply no_raise_bind; [apply no_raise_log | done].
Qed.

Lemma wh_send_no_raise message : no_raise (wh_send message).
Proof.
  unfold wh_send. apply no_raise_bind; [done|]. intros self.
  apply wh_send_to_no_raise.
Qed.

(** The webhook keeps the promise of the interface. *)
#[export] Instance WebhookNotifier_no_raise : NotifierNoRaise WebhookNotifier.
Proof. split; [apply wh_send_no_raise | apply wh_send_to_no_raise]. Qed.

#[export] Hint Resolve tg_send_to_no_raise wh_send_to_no_raise wh_send_no_raise
  pyset_add_NoDup pyset_discard_NoDup : ww.

(** Escaping: a replacement keeps a character out when the replacement text
    does not contain it. *)
Lemma py_replace_keeps_out c d new s :
  d ∉ String.list_ascii_of_string new →
  d ∉ String.list_ascii_of_string s →
  d ∉ String.list_ascii_of_string (py_replace c new s).
Proof.
  intros Hnew. induction s as [|c' s IH]; simpl; [done|].
  rewrite not_elem_of_cons. intros [Hne Hs].
  destruct (decide (c' = c)) as [->|_]; simpl.
  - specialize (IH Hs). revert IH. generalize (py_replace c new s). intros t Ht.
    clear -Hnew Ht. induction new as [|a new IHn]; simpl in *; [done|].
    apply not_elem_of_cons in Hnew as [? ?]. apply not_elem_of_cons. auto.
  - apply not_elem_of_cons. auto.
Qed.

(** ** What a notifier does to the environment *)

(** Every method of a notifier only logs and sends requests. *)
Class NotifierEnv (N : Type) `{!NotifierBase N} := {
  send_env_mono message : env_mono (send (N:=N) message);
  send_to_env_mono recipient message :
    env_mono (send_to (N:=N) recipient message);
}.

Lemma tg_send_to_env_mono recipient message :
  env_mono (tg_send_to recipient message).
Proof. unfold tg_send_to. solve_preserves. Qed.

Lemma tg_send_loop_env_mono size todo message success :
  env_mono (tg_send_loop size todo message success).
Proof.
  revert success. induction todo as [|c todo IH]; intros success; simpl;
    solve_preserves; try apply tg_send_to_env_mono.
Qed.

Lemma tg_send_env_mono message : env_mono (tg_send message).
Proof. unfold tg_send. solve_preserves; try apply tg_send_loop_env_mono. Qed.

Lemma wh_send_to_env_mono recipient message :
  env_mono (wh_send_to recipient message).
Proof. unfold wh_send_to, wh_request. solve_preserves. Qed.

Lemma wh_send_env_mono message : env_mono (wh_send message).
Proof. unfold wh_send. solve_preserves; try apply wh_send_to_env_mono. Qed.

#[export] Instance TelegramNotifier_env : NotifierEnv TelegramNotifier.
Proof. split; [apply tg_send_env_mono | apply tg_send_to_env_mono]. Qed.

#[export] Instance WebhookNotifier_env : NotifierEnv WebhookNotifier.
Proof. split; [apply wh_send_env_mono | apply wh_send_to_env_mono]. Qed.

Lemma on_telegram_env_mono {A} (m : M (TelegramNotifier * Env) A) n s e :
  env_mono m → env_extends e (on_telegram m n (s, e)).2.2.
Proof.
  intros Hm. pose proof (env_mono_run m n e Hm) as He. unfold on_telegram.
  simpl. by destruct (m (n, e)) as [r [n' e']].
Qed.

Lemma on_webhook_env_mono {A} (m : M (WebhookNotifier * Env) A) n s e :
  env_mono m → env_extends e (on_webhook m n (s, e)).2.2.
Proof.
  intros Hm. pose proof (env_mono_run m n e Hm) as He. unfold on_webhook.
  simpl. by destruct (m (n, e)) as [r [n' e']].
Qed.

#[export] Instance Notifier_env : NotifierEnv Notifier.
Proof.
  split.
  - intros message [[n|n] e].
    + apply (on_telegram_env_mono (send message)), send_env_mono.
    + apply (on_webhook_env_mono (send message)), send_env_mono.
  - intros recipient message [[n|n] e].
    + apply (on_telegram_env_mono (send_to recipient message)), send_to_env_mono.
    + apply (on_webhook_env_mono (send_to recipient message)), send_to_env_mono.
Qed.

(** A character is not in a string literal. *)
Ltac solve_notin :=
  simpl; rewrite ?not_elem_of_cons; split_and?; try done; apply not_elem_of_nil.

(** ** Theorems *)

(** Example data for the witnesses. *)
Definition blocked_exn : exn :=
  Exn ApiTelegramException "Forbidden: bot was blocked by the user".

Definition oracle_blocked_at (k : nat) : nat → net_reply :=
  λ n, if decide (n = k) then ReplyRaise blocked_exn else ReplyOk.

Definition tg_three : TelegramNotifier :=
  {| tg_config := []; bot_token := "T"; default_chat_id := "100";
     subscribers := ["100"; "200"; "300"] |}.

(** C4: [send] of the Telegram notifier raises when a subscriber has blocked
    the bot.  If the [k]-th subscriber the loop visits is the first whose
    request is answered by a blocked error, [send_to] drops it from the set
    the loop iterates over, and the loop's next step raises [RuntimeError]:
    [send] does not return [False], and the subscribers after the [k]-th
    get no message. *)
Theorem tg_send_raises_when_blocked message self e k c :
  subscribers self !! k = Some c →
  (∀ i, i < k → blocked_reply (reply_at e i) = false) →
  blocked_reply (reply_at e k) = true →
  ∃ ls, tg_send message (self, e) =
    (Raise set_changed_size,
     (set_subscribers (pyset_discard c (subscribers self)) self,
      env_after e (tg_calls message (take (S k) (subscribers self))) ls)).
Proof.
  intros Hk Hnb Hb. unfold tg_send, mbind, M_bind, m_bind, st_get. simpl.
  destruct (subscribers self) as [|c0 s] eqn:E; [done|]. rewrite <- E in *.
  eapply tg_send_loop_blocked; eauto. by eapply list_elem_of_lookup_2.
Qed.

Lemma tg_send_raises_when_blocked_witness :
  ∃ ls, tg_send "hello" (tg_three, env0 (oracle_blocked_at 1) 0) =
    (Raise set_changed_size,
     (set_subscribers ["100"; "300"] tg_three,
      env_after (env0 (oracle_blocked_at 1) 0)
        [TgSendMessage "100" "hello"; TgSendMessage "200" "hello"] ls)).
Proof.
  apply (tg_send_raises_when_blocked "hello" tg_three
           (env0 (oracle_blocked_at 1) 0) 1 "200");
    [done | intros [|i] Hi; [done | lia] | done].
Defined.

(** When no request is answered by a blocked error, [send] of the
    Telegram notifier sends the message once to every subscriber, in the
    set's order, keeps the set, does not raise, and returns whether there is
    a subscriber and every request succeeded. *)
Theorem tg_send_unblocked message self e :
  (∀ i, i < length (subscribers self) → blocked_reply (reply_at e i) = false) →
  ∃ ls, tg_send message (self, e) =
    (Ok (bool_decide (subscribers self ≠ [])
         && replies_ok e 0 (length (subscribers self))),
     (self, env_after e (tg_calls message (subscribers self)) ls)).
Proof.
  intros Hnb. unfold tg_send, mbind, M_bind, m_bind, st_get. simpl.
  destruct (subscribers self) as [|c0 s] eqn:E.
  - exists [(WARNING, "No Telegram subscribers configured")].
    by rewrite env_log_after.
  - rewrite <- E in *.
    destruct (tg_send_loop_unblocked (length (subscribers self)) message
                (subscribers self) self e true eq_refl Hnb) as [ls ->].
    exists ls. rewrite bool_decide_eq_true_2; [done|]. by rewrite E.
Qed.

Lemma tg_send_unblocked_witness :
  ∃ ls, tg_send "hello" (tg_three, env0 (λ _, ReplyOk) 0) =
    (Ok true,
     (tg_three,
      env_after (env0 (λ _, ReplyOk) 0)
        [TgSendMessage "100" "hello"; TgSendMessage "200" "hello";
         TgSendMessage "300" "hello"] ls)).
Proof.
  apply (tg_send_unblocked "hello" tg_three (env0 (λ _, ReplyOk) 0)). done.
Defined.

(** [send_to] of the Telegram notifier never raises; it makes one
    request, returns whether it succeeded, and on a blocked error drops the
    recipient from the subscribers and nobody else. *)
Theorem tg_send_to_drops_blocked recipient message self e :
  let w := exec (tg_send_to recipient message) (self, e) in
  eval (tg_send_to recipient message) (self, e) = Ok (is_reply_ok (reply_at e 0))
  ∧ calls w.2 = calls e ++ [TgSendMessage recipient message]
  ∧ ∀ c, c ∈ subscribers w.1 ↔
      c ∈ subscribers self ∧ (blocked_reply (reply_at e 0) = true → c ≠ recipient).
Proof.
  intros w. subst w. unfold eval, exec.
  destruct (tg_send_to_spec recipient message self e) as [ls ->]. simpl.
  split_and!; [done..|]. intros c.
  destruct (blocked_reply (reply_at e 0)); simpl.
  - rewrite elem_of_pyset_discard. naive_solver.
  - naive_solver.
Qed.

(** The webhook notifier keeps the interface's promise: [send] makes at
    most one request, returns [True] exactly when the method is POST or GET
    and the request succeeded, and never raises. *)
Theorem wh_send_spec message self e :
  let supported := bool_decide (method self = "POST" ∨ method self = "GET") in
  eval (wh_send message) (self, e) =
    Ok (supported && is_reply_ok (reply_at e 0))
  ∧ (exec (wh_send message) (self, e)).1 = self
  ∧ calls (exec (wh_send message) (self, e)).2 =
    calls e ++
    (if decide (method self = "POST") then [HttpPost (webhook_url self) message]
     else if decide (method self = "GET") then [HttpGet (webhook_url self) message]
     else []).
Proof.
  unfold eval, exec, wh_send, wh_send_to, mbind, M_bind, m_bind, st_get; simpl.
  destruct (decide (method self = "POST")) as [HP|HP];
    [|destruct (decide (method self = "GET")) as [HG|HG]].
  - destruct (wh_request_spec (webhook_url self)
                (HttpPost (webhook_url self) message) self e) as [ls ->].
    by rewrite bool_decide_eq_true_2 by auto.
  - destruct (wh_request_spec (webhook_url self)
                (HttpGet (webhook_url self) message) self e) as [ls ->].
    by rewrite bool_decide_eq_true_2 by auto.
  - rewrite bool_decide_eq_false_2 by tauto. simpl. by rewrite app_nil_r.
Qed.

(** [format_message] of the Telegram notifier leaves no [<] and no [>]
    in the text. *)
Theorem tg_format_message_escapes message :
  ("<"%char ∉ String.list_ascii_of_string (tg_format_message message))
  ∧ ">"%char ∉ String.list_ascii_of_string (tg_format_message message).
Proof.
  unfold tg_format_message. split.
  - apply py_replace_keeps_out; [solve_notin|]. apply py_replace_fresh. solve_notin.
  - apply py_replace_fresh. solve_notin.
Qed.

(** [get_notifier] raises [ValueError] for a name that is not a
    registered notifier, and the message names the value and the available
    names; for a registered name it builds the notifier or raises the
    [ValueError] of the class for a missing token or URL. *)
Theorem get_notifier_spec name bot_token webhook_url chat_id :
  match get_notifier name bot_token webhook_url chat_id with
  | Ok (NTelegram n) =>
      name = "telegram" ∧ str_truthy bot_token = true
      ∧ subscribers n = (if str_truthy chat_id then [chat_id] else [])
  | Ok (NWebhook n) =>
      name = "webhook" ∧ str_truthy webhook_url = true
      ∧ Notifiers.webhook_url n = webhook_url ∧ method n = "POST"
  | Raise e =>
      exn_kind_of e = ValueError
      ∧ (name ∉ NOTIFIERS →
         exn_msg e = "Unknown notifier: " +:+ name
                     +:+ ". Available: ['telegram', 'webhook']")
      ∧ (name = "telegram" → str_truthy bot_token = false)
      ∧ (name = "webhook" → str_truthy webhook_url = false)
  end.
Proof.
  unfold get_notifier, TelegramNotifier_init, WebhookNotifier_init, NOTIFIERS.
  destruct (decide (name = "telegram")) as [->|Ht];
    [|destruct (decide (name = "webhook")) as [->|Hw]].
  - destruct (str_truthy bot_token) eqn:E; simpl.
    + split_and!; [done..|]. by destruct (str_truthy chat_id).
    + split_and!; [done| |done..]. intros H. exfalso. apply H. set_solver.
  - destruct (str_truthy webhook_url) eqn:E; simpl; [done|].
    split_and!; [done| |done..]. intros H. exfalso. apply H. set_solver.
  - simpl. split_and!; done.
Qed.

(** *** Inline keyboards *)

(** [_build_keyboard] puts the buttons of the keyboard on the markup in
    reading order, none lost and none added, and fails exactly when a button
    cannot be built. *)
Theorem build_keyboard_buttons keyboard :
  (λ m, concat m) <$> _build_keyboard keyboard = keyboard_buttons keyboard.
Proof.
  unfold _build_keyboard. rewrite build_rows_buttons. simpl.
  by destruct (keyboard_buttons keyboard).
Qed.

(** No row of the markup is empty and none has more buttons than Telegram
    shows in a row. *)
Theorem build_keyboard_rows keyboard markup :
  _build_keyboard keyboard = Ok markup →
  Forall (λ row, 0 < length row ≤ max_row_keys) markup.
Proof. by apply build_rows_rows. Qed.

(** A button without a text makes [send_to] give up before it sends
    anything: the result is [False] and the one trace is the log line with
    the name of the missing key. *)
Theorem send_to_keyboard_missing_text recipient message btn row keyboard self e :
  pd_mem "url" btn || pd_mem "callback" btn = true →
  pd_get "text" btn = None →
  tg_send_to_keyboard recipient message (Some ((btn :: row) :: keyboard)) (self, e)
  = (Ok false,
     (self, env_after e [] [(ERROR, "Failed to send Telegram message: 'text'")])).
Proof.
  intros Hk Ht.
  destruct (tg_send_to_keyboard_run recipient message
              (Some ((btn :: row) :: keyboard)) self e) as [ls ->].
  unfold tg_request, _build_keyboard. simpl.
  by rewrite (build_button_missing_text btn Hk Ht).
Qed.

(** Without a keyword argument [send_to] is the [send_to] the orchestrator
    calls, and so it is with an empty keyboard. *)
Theorem send_to_no_keyboard recipient message :
  tg_send_to_keyboard recipient message None = tg_send_to recipient message
  ∧ tg_send_to_keyboard recipient message (Some []) = tg_send_to recipient message.
Proof. done. Qed.

Definition link_button : pydict string string :=
  [("text", "Explorer"); ("url", "https://solscan.io/tx/sig1")].

Definition mute_button : pydict string string :=
  [("text", "Mute"); ("callback", "mute:treasury")].

Definition nameless_button : pydict string string :=
  [("url", "https://solscan.io/tx/sig1")].

(** A keyboard with a row of ten links, a row of dictionaries that are no
    buttons, and a row with one button of each kind. *)
Definition example_keyboard : list (list (pydict string string)) :=
  [replicate 10 link_button; [[("label", "ignored")]]; [mute_button; link_button]].

Lemma build_keyboard_rows_witness :
  Forall (λ row, 0 < length row ≤ max_row_keys)
    [replicate 8 (UrlButton "Explorer" "https://solscan.io/tx/sig1");
     replicate 2 (UrlButton "Explorer" "https://solscan.io/tx/sig1");
     [CallbackButton "Mute" "mute:treasury";
      UrlButton "Explorer" "https://solscan.io/tx/sig1"]].
Proof. by apply (build_keyboard_rows example_keyboard). Defined.

Lemma send_to_keyboard_missing_text_witness :
  tg_send_to_keyboard "42" "hello" (Some [[nameless_button; link_button]])
    (tg_three, env0 (λ _, ReplyOk) 0)
  = (Ok false,
     (tg_three, env_after (env0 (λ _, ReplyOk) 0) []
                  [(ERROR, "Failed to send Telegram message: 'text'")])).
Proof. by apply (send_to_keyboard_missing_text "42" "hello" nameless_button). Defined.
