(* ===== verification/Keywords.v ===== *)
(** * The keyword arguments of the notifiers

    [send] and [send_to] of both notifiers take keyword arguments that the
    orchestrator never passes: [keyboard] for Telegram, [timestamp] and
    [extra] for the webhook.  This file models the methods with them, and
    [start_polling], and shows that without keyword arguments they are the
    methods of Notifiers.v.

    - [tg_send_kwargs] is [TelegramNotifier.send] (telegram.py): the loop
      hands the keyboard to every [send_to].
    - [start_polling] logs and enters [bot.infinity_polling], a call of the
      library that returns when the bot is stopped.
    - [wh_payload] is the dictionary display of [WebhookNotifier.send_to]
      (webhook.py): the entries of [extra] are unpacked last, so they
      overwrite [message] and [timestamp]; unpacking a value that is not a
      mapping raises [TypeError], which the method catches before any
      request.  The body of the POST is the JSON text of the payload;
      [json_dumps] is the encoder of the library. *)

From S2P Require Import Prelude PyDict PyStr Notifiers.

Abbreviation Keyboard := (list (list (pydict string string))).

(** [json.dumps], as [requests] applies it to the [json=] argument. *)
Class JsonDumps := json_dumps : pyval → string.

(** ** Telegram *)

(** The loop of [send], with [**kwargs] handed on. *)
Fixpoint tg_send_loop_kwargs (size : nat) (todo : list string) (message : string)
    (keyboard : option Keyboard) (success : bool)
    : M (TelegramNotifier * Env) bool :=
  self ← st_get;
  if decide (length (subscribers self) = size) then
    match todo with
    | [] => mret success
    | chat_id :: rest =>
        tg_send_to_keyboard chat_id message keyboard ≫= λ ok : bool,
        tg_send_loop_kwargs size rest message keyboard
          (if ok then success else false)
    end
  else m_raise set_changed_size.

(** [send(message, keyboard=...)] *)
Definition tg_send_kwargs (message : string) (keyboard : option Keyboard)
    : M (TelegramNotifier * Env) bool :=
  self ← st_get;
  match subscribers self with
  | [] => log WARNING "No Telegram subscribers configured";; mret false
  | _ => tg_send_loop_kwargs (length (subscribers self)) (subscribers self)
           message keyboard true
  end.

(** [start_polling]: what [infinity_polling] raises is the caller's. *)
Definition start_polling : M (TelegramNotifier * Env) unit :=
  log INFO "Starting Telegram bot polling...";;
  reply ← net (TgPolling 10 5);
  match reply with
  | ReplyOk => mret tt
  | ReplyRaise e => m_raise e
  end.

(** ** The webhook *)

(** [{"message": message, "timestamp": kwargs.get("timestamp"),
     **kwargs.get("extra", {})}] *)
Definition wh_payload (message : string) (timestamp extra : option pyval)
    : result (pydict string pyval) :=
  match default (PDict []) extra with
  | PDict d =>
      Ok (pd_update [("message", PStr message);
                     ("timestamp", default PNone timestamp)] d)
  | v => Raise (Exn TypeError
                  ("'" +:+ type_name v +:+ "' object is not a mapping"))
  end.

Section webhook.
Context {json : JsonDumps}.

(** [send_to(recipient, message, timestamp=..., extra=...)] *)
Definition wh_send_to_kwargs (recipient message : string)
    (timestamp extra : option pyval) : M (WebhookNotifier * Env) bool :=
  match wh_payload message timestamp extra with
  | Ok payload =>
      self ← st_get;
      if decide (method self = "POST") then
        wh_request recipient
          (HttpPostJson recipient (json_dumps (PDict payload)))
      else if decide (method self = "GET") then
        wh_request recipient (HttpGet recipient message)
      else
        log ERROR ("Unsupported HTTP method: " +:+ method self);; mret false
  | Raise e =>
      log ERROR ("Failed to send webhook notification: " +:+ exn_msg e);;
      mret false
  end.

(** [send(message, timestamp=..., extra=...)] *)
Definition wh_send_kwargs (message : string) (timestamp extra : option pyval)
    : M (WebhookNotifier * Env) bool :=
  self ← st_get;
  wh_send_to_kwargs (webhook_url self) message timestamp extra.

End webhook.

(** ** Lemmas *)

Section telegram_lemmas.
Implicit Types (self : TelegramNotifier) (e : Env) (message : string).

Lemma tg_send_loop_kwargs_None size message todo : ∀ success w,
  tg_send_loop_kwargs size todo message None success w
  = tg_send_loop size todo message success w.
Proof.
  induction todo as [|c todo IH]; intros success w; [done|].
  cbn [tg_send_loop_kwargs tg_send_loop]. rewrite !(m_bind_run st_get).
  unfold st_get. cbv beta iota. case_decide; [|done].
  change (tg_send_to_keyboard c message None) with (tg_send_to c message).
  rewrite !(m_bind_run (tg_send_to c message)).
  destruct (tg_send_to c message w) as [[ok|x] w']; [apply IH | done].
Qed.

Lemma tg_send_kwargs_None message w :
  tg_send_kwargs message None w = tg_send message w.
Proof.
  unfold tg_send_kwargs, tg_send. rewrite !m_bind_run. simpl.
  destruct (subscribers w.1); [done|]. apply tg_send_loop_kwargs_None.
Qed.

Lemma tg_send_to_keyboard_no_raise recipient message keyboard :
  no_raise (tg_send_to_keyboard recipient message keyboard).
Proof.
  intros [self e].
  destruct (tg_send_to_keyboard_run recipient message keyboard self e)
    as [ls ->]. by case_match.
Qed.

Lemma tg_send_to_keyboard_env_mono recipient message keyboard :
  env_mono (tg_send_to_keyboard recipient message keyboard).
Proof. unfold tg_send_to_keyboard, tg_sent. solve_preserves. Qed.

Lemma tg_send_loop_kwargs_env_mono size todo message keyboard success :
  env_mono (tg_send_loop_kwargs size todo message keyboard success).
Proof.
  revert success. induction todo as [|c todo IH]; intros success; simpl;
    solve_preserves; try apply tg_send_to_keyboard_env_mono.
Qed.

Lemma tg_send_kwargs_env_mono message keyboard :
  env_mono (tg_send_kwargs message keyboard).
Proof.
  pose proof tg_send_loop_kwargs_env_mono.
  pose proof tg_send_to_keyboard_env_mono.
  unfold tg_send_kwargs. solve_preserves.
Qed.

Lemma start_polling_run self e :
  start_polling (self, e) =
  (match reply_at e 0 with ReplyOk => Ok tt | ReplyRaise x => Raise x end,
   (self, env_after e [TgPolling 10 5]
            [(INFO, "Starting Telegram bot polling...")])).
Proof.
  unfold start_polling. rewrite m_bind_run, log_run, m_bind_run, net_run.
  unfold reply_at, env_after. simpl. rewrite !app_nil_r.
  by destruct (oracle e _).
Qed.

End telegram_lemmas.

Section webhook_lemmas.
Context {json : JsonDumps}.
Implicit Types (self : WebhookNotifier) (e : Env) (message : string).

Lemma wh_payload_dict message timestamp d :
  wh_payload message timestamp (Some (PDict d)) =
  Ok (pd_update [("message", PStr message);
                 ("timestamp", default PNone timestamp)] d).
Proof. done. Qed.

Lemma wh_send_to_kwargs_no_raise recipient message timestamp extra :
  no_raise (wh_send_to_kwargs recipient message timestamp extra).
Proof.
  unfold wh_send_to_kwargs. case_match.
  - apply no_raise_bind; [done|]. intros self.
    repeat case_decide; try apply wh_request_no_raise.
    apply no_raise_bind; [apply no_raise_log | done].
  - apply no_raise_bind; [apply no_raise_log | done].
Qed.

Lemma wh_send_kwargs_no_raise message timestamp extra :
  no_raise (wh_send_kwargs message timestamp extra).
Proof.
  unfold wh_send_kwargs. apply no_raise_bind; [done|]. intros self.
  apply wh_send_to_kwargs_no_raise.
Qed.

Lemma wh_send_to_kwargs_env_mono recipient message timestamp extra :
  env_mono (wh_send_to_kwargs recipient message timestamp extra).
Proof. unfold wh_send_to_kwargs, wh_request. solve_preserves. Qed.

(** The outcome of a request does not depend on what is sent. *)
Lemma wh_request_outcome recipient c c' self e :
  (wh_request recipient c (self, e)).1 = (wh_request recipient c' (self, e)).1
  ∧ logs (wh_request recipient c (self, e)).2.2
    = logs (wh_request recipient c' (self, e)).2.2.
Proof.
  unfold wh_request. rewrite !m_bind_run, !net_run.
  destruct (reply_at e 0) as [|x]; [by rewrite !m_bind_run, !log_run|].
  repeat case_decide; by rewrite !m_bind_run, !log_run.
Qed.

End webhook_lemmas.

(** ** Theorems *)

(** Without a keyboard [send] is the broadcast the orchestrator calls: the
    same outcome, the same subscribers, the same requests and log lines. *)
Theorem tg_send_kwargs_plain message w :
  tg_send_kwargs message None w = tg_send message w.
Proof. apply tg_send_kwargs_None. Qed.

(** [start_polling] writes one line, makes one call of the library and
    leaves the notifier as it was; what the call raises reaches the
    caller. *)
Theorem start_polling_spec self e :
  start_polling (self, e) =
  (match reply_at e 0 with ReplyOk => Ok tt | ReplyRaise x => Raise x end,
   (self, env_after e [TgPolling 10 5]
            [(INFO, "Starting Telegram bot polling...")])).
Proof. apply start_polling_run. Qed.

(** Without keyword arguments the payload has the message and no
    timestamp. *)
Theorem wh_payload_plain message :
  wh_payload message None None
  = Ok [("message", PStr message); ("timestamp", PNone)].
Proof. done. Qed.

(** C38: an entry of [extra] is an entry of the payload, also under the keys
    [message] and [timestamp]: the message the caller passed is then not the
    one that is sent. *)
Theorem wh_payload_extra_wins message timestamp d key v :
  pd_wf d → pd_get key d = Some v →
  ∃ payload, wh_payload message timestamp (Some (PDict d)) = Ok payload
             ∧ pd_get key payload = Some v.
Proof.
  intros Hd Hkey. eexists. split; [apply wh_payload_dict|].
  by rewrite pd_get_update_wf, Hkey.
Qed.

(** The message is in the payload when [extra] has no entry of that name. *)
Theorem wh_payload_message message timestamp d :
  pd_wf d → pd_get "message" d = None →
  ∃ payload, wh_payload message timestamp (Some (PDict d)) = Ok payload
             ∧ pd_get "message" payload = Some (PStr message).
Proof.
  intros Hd Hkey. eexists. split; [apply wh_payload_dict|].
  by rewrite pd_get_update_wf, Hkey.
Qed.

Section webhook_theorems.
Context {json : JsonDumps}.
Implicit Types (self : WebhookNotifier) (e : Env) (message : string).

(** An [extra] that is not a mapping: nothing is sent, the error is logged
    and the method returns [False]. *)
Theorem wh_send_to_kwargs_not_mapping recipient message timestamp v self e :
  (∀ d, v ≠ PDict d) →
  wh_send_to_kwargs recipient message timestamp (Some v) (self, e) =
  (Ok false,
   (self, env_after e []
            [(ERROR, "Failed to send webhook notification: '"
                     +:+ type_name v +:+ "' object is not a mapping")])).
Proof.
  intros Hv. unfold wh_send_to_kwargs, wh_payload. simpl.
  destruct v; try (by rewrite m_bind_run, log_run). by destruct (Hv d).
Qed.

(** A POST sends the JSON text of the payload, once. *)
Theorem wh_send_to_kwargs_post recipient message timestamp extra payload self e :
  method self = "POST" →
  wh_payload message timestamp extra = Ok payload →
  ∃ ls, wh_send_to_kwargs recipient message timestamp extra (self, e) =
    (Ok (is_reply_ok (reply_at e 0)),
     (self, env_after e
              [HttpPostJson recipient (json_dumps (PDict payload))] ls)).
Proof.
  intros Hpost Hpayload. unfold wh_send_to_kwargs. rewrite Hpayload.
  rewrite m_bind_run. simpl. rewrite decide_True by done.
  apply wh_request_spec.
Qed.

(** Without keyword arguments the method returns what [send_to] of
    Notifiers.v returns and logs what it logs. *)
Theorem wh_send_to_kwargs_plain recipient message self e :
  (wh_send_to_kwargs recipient message None None (self, e)).1
  = (wh_send_to recipient message (self, e)).1
  ∧ logs (wh_send_to_kwargs recipient message None None (self, e)).2.2
    = logs (wh_send_to recipient message (self, e)).2.2.
Proof.
  unfold wh_send_to_kwargs, wh_send_to. rewrite wh_payload_plain.
  rewrite !m_bind_run. simpl. repeat case_decide; try done.
  apply wh_request_outcome.
Qed.

End webhook_theorems.

(** ** Examples *)

Definition extra_message : pydict string pyval :=
  [("source", PStr "wallet-watch"); ("message", PStr "another text")].

Lemma wh_payload_extra_wins_witness :
  ∃ payload,
    wh_payload "Sent 1 SOL" None (Some (PDict extra_message)) = Ok payload
    ∧ pd_get "message" payload = Some (PStr "another text").
Proof.
  apply (wh_payload_extra_wins "Sent 1 SOL" None extra_message "message");
    [by apply (bool_decide_unpack (NoDup (pd_keys extra_message))) | done].
Defined.

Example wh_payload_order :
  wh_payload "Sent 1 SOL" (Some (PInt 1700000000))
    (Some (PDict extra_message))
  = Ok [("message", PStr "another text"); ("timestamp", PInt 1700000000);
        ("source", PStr "wallet-watch")].
Proof. reflexivity. Qed.
