(* ===== verification/Escape.v ===== *)
(** * Escaping for Telegram's HTML ([format_message] of notifiers/telegram.py)

    [format_message] makes three passes over the message, one [str.replace]
    for each of [&], [<] and [>].  The order matters: the ampersand goes
    first, so the ampersands the later passes write are not escaped again.

    [html_escape] is the reference: one pass that writes the entity of each
    character.  [html_unescape] is the reader's side, the decoding of the
    three entities as an HTML parser does it, from left to right.  The
    theorems show that the three passes are the one pass, and that decoding
    gives the message back: the escaping loses nothing and two messages
    never escape to the same text.

    [html_unescape] consumes at least one character for each character it
    writes, so the length of its input is fuel enough. *)

From S2P Require Import Prelude PyDict PyStr Notifiers.

(** ** The reference *)

Definition escape_char (c : ascii) : string :=
  if decide (c = "&"%char) then "&amp;"
  else if decide (c = "<"%char) then "&lt;"
  else if decide (c = ">"%char) then "&gt;"
  else String c "".

Fixpoint html_escape (s : string) : string :=
  match s with
  | EmptyString => EmptyString
  | String c s' => escape_char c +:+ html_escape s'
  end.

Fixpoint html_unescape_fuel (fuel : nat) (s : string) : string :=
  match fuel with
  | O => s
  | S fuel' =>
      if py_startswith "&amp;" s then
        String "&" (html_unescape_fuel fuel' (py_drop 5 s))
      else if py_startswith "&lt;" s then
        String "<" (html_unescape_fuel fuel' (py_drop 4 s))
      else if py_startswith "&gt;" s then
        String ">" (html_unescape_fuel fuel' (py_drop 4 s))
      else
        match s with
        | EmptyString => EmptyString
        | String c s' => String c (html_unescape_fuel fuel' s')
        end
  end.

Definition html_unescape (s : string) : string :=
  html_unescape_fuel (String.length s) s.

(** ** The three passes are one pass *)

Lemma py_replace_app c new s t :
  py_replace c new (s +:+ t) = py_replace c new s +:+ py_replace c new t.
Proof.
  induction s as [|c' s IH]; [done|]. rewrite str_app_cons. simpl.
  rewrite IH. case_decide; [apply str_app_assoc | by rewrite str_app_cons].
Qed.

Lemma tg_format_message_app s t :
  tg_format_message (s +:+ t) = tg_format_message s +:+ tg_format_message t.
Proof. unfold tg_format_message. by rewrite !py_replace_app. Qed.

Lemma tg_format_message_char c :
  tg_format_message (String c "") = escape_char c.
Proof.
  unfold tg_format_message, escape_char.
  destruct (decide (c = "&"%char)) as [->|Hamp]; [done|].
  destruct (decide (c = "<"%char)) as [->|Hlt]; [done|].
  destruct (decide (c = ">"%char)) as [->|Hgt]; [done|].
  do 3 (simpl; rewrite decide_False by done). done.
Qed.

Lemma format_message_escape message :
  tg_format_message message = html_escape message.
Proof.
  induction message as [|c s IH]; [done|].
  change (String c s) with (String c "" +:+ s).
  by rewrite tg_format_message_app, tg_format_message_char, IH.
Qed.

(** ** Decoding *)

Lemma escape_char_length c : 0 < String.length (escape_char c).
Proof. unfold escape_char. repeat case_decide; simpl; lia. Qed.

Lemma startswith_other c c' p s :
  c ≠ c' → py_startswith (String c' p) (String c s) = false.
Proof.
  intros Hc. unfold py_startswith. simpl.
  destruct (ascii_dec c' c) as [<-|]; done.
Qed.

(** One step of the decoder reads the entity of one character. *)
Lemma html_unescape_step fuel c rest :
  html_unescape_fuel (S fuel) (escape_char c +:+ rest)
  = String c (html_unescape_fuel fuel rest).
Proof.
  unfold escape_char. cbn [html_unescape_fuel]. unfold py_startswith.
  destruct (decide (c = "&"%char)) as [->|Hamp];
    [by rewrite prefix_app, (py_drop_app "&amp;")|].
  destruct (decide (c = "<"%char)) as [->|Hlt].
  { replace (String.prefix "&amp;" ("&lt;" +:+ rest)) with false
      by (by vm_compute).
    by rewrite prefix_app, (py_drop_app "&lt;"). }
  destruct (decide (c = ">"%char)) as [->|Hgt].
  { replace (String.prefix "&amp;" ("&gt;" +:+ rest)) with false
      by (by vm_compute).
    replace (String.prefix "&lt;" ("&gt;" +:+ rest)) with false
      by (by vm_compute).
    by rewrite prefix_app, (py_drop_app "&gt;"). }
  rewrite str_app_cons, str_app_nil. fold (py_startswith "&amp;" (String c rest)).
  fold (py_startswith "&lt;" (String c rest)).
  fold (py_startswith "&gt;" (String c rest)).
  by rewrite !startswith_other.
Qed.

Lemma html_unescape_escape message : ∀ fuel,
  String.length (html_escape message) ≤ fuel →
  html_unescape_fuel fuel (html_escape message) = message.
Proof.
  induction message as [|c s IH]; intros fuel Hfuel; [by destruct fuel|].
  simpl in *. rewrite str_length_app in Hfuel.
  pose proof (escape_char_length c). destruct fuel as [|fuel]; [lia|].
  rewrite html_unescape_step, IH; [done|lia].
Qed.

Lemma unescape_format_message message :
  html_unescape (tg_format_message message) = message.
Proof.
  unfold html_unescape. rewrite format_message_escape.
  by apply html_unescape_escape.
Qed.

(** ** Theorems *)

(** [format_message] is the one-pass escaping: the order of its three
    replacements keeps the ampersands of the entities it writes. *)
Theorem format_message_is_html_escape message :
  tg_format_message message = html_escape message.
Proof. apply format_message_escape. Qed.

(** C33: decoding the entities gives the message back, whatever the message:
    the reader of an escaped message sees the text that was escaped. *)
Theorem format_message_roundtrip message :
  html_unescape (tg_format_message message) = message.
Proof. apply unescape_format_message. Qed.

(** Two messages never escape to the same text. *)
Corollary format_message_injective m1 m2 :
  tg_format_message m1 = tg_format_message m2 → m1 = m2.
Proof.
  intros Heq. rewrite <- (unescape_format_message m1).
  rewrite <- (unescape_format_message m2). by rewrite Heq.
Qed.

(** Escaping twice is not escaping once: a message that was escaped shows
    its entities when it is escaped again. *)
Example format_message_twice :
  tg_format_message (tg_format_message "a < b") = "a &amp;lt; b".
Proof. reflexivity. Qed.
