(* ===== verification/Base58.v ===== *)
(** * Base58 and address validation (chains/solana.py, validate_address)

    [validate_address] decodes the address with [base58.b58decode] and
    accepts it when the result has 32 bytes; any exception of the decoder
    makes it answer [False].

    The decoder is the [base58] package, which is not part of the
    repository.  It is modelled from its documented behaviour with the
    Bitcoin alphabet: every character must be a digit of the alphabet, the
    digits are read as a number in base 58, most significant first, and the
    result is one zero byte for each leading [1] followed by the number's
    big-endian bytes.  The decoder first removes the white space at the end
    of its input ([rstrip]); white space is ASCII white space here, and a
    text is a [str], never [bytes]. *)

From S2P Require Import Prelude PyStr.

Definition b58_alphabet : string :=
  "123456789ABCDEFGHJKLMNPQRSTUVWXYZabcdefghijkmnopqrstuvwxyz".

(** The value of a digit: its position in the alphabet. *)
Fixpoint index_of (c : ascii) (s : string) (i : N) : option N :=
  match s with
  | EmptyString => None
  | String c' s' => if decide (c = c') then Some i else index_of c s' (i + 1)%N
  end.

Definition b58_digit (c : ascii) : option N := index_of c b58_alphabet 0.

(** [b58decode_int]: the digits as a number; [None] stands for the
    [ValueError] an invalid character raises. *)
Fixpoint b58decode_int (s : string) (acc : N) : option N :=
  match s with
  | EmptyString => Some acc
  | String c s' =>
      match b58_digit c with
      | Some d => b58decode_int s' (acc * 58 + d)%N
      | None => None
      end
  end.

(** [len(v) - len(v.lstrip('1'))] and [v.lstrip('1')] *)
Fixpoint lstrip_ones (s : string) : nat * string :=
  match s with
  | String "1" s' => let '(n, r) := lstrip_ones s' in (S n, r)
  | _ => (0, s)
  end.

(** [(acc.bit_length() + 7) // 8] *)
Definition byte_length (n : N) : nat := (N.to_nat (N.size n) + 7) / 8.

(** The big-endian bytes of a number, [len] of them. *)
Fixpoint to_bytes (len : nat) (n : N) : list N :=
  match len with
  | 0 => []
  | S len' => to_bytes len' (n / 256)%N ++ [(n mod 256)%N]
  end.

Definition invalid_character : exn := Exn ValueError "Invalid character".

(** [base58.b58decode] *)
Definition b58decode (v : string) : result (list N) :=
  let v := py_rstrip v in
  let '(zeros, rest) := lstrip_ones v in
  match b58decode_int rest 0 with
  | Some acc => Ok (replicate zeros 0%N ++ to_bytes (byte_length acc) acc)
  | None => Raise invalid_character
  end.

(** [SolanaProvider.validate_address] *)
Definition validate_address (address : string) : bool :=
  match b58decode address with
  | Ok decoded => bool_decide (length decoded = 32)
  | Raise _ => false
  end.

(** ** Properties *)

Lemma to_bytes_length len n : length (to_bytes len n) = len.
Proof.
  revert n. induction len as [|len IH]; intros n; simpl; [done|].
  rewrite length_app, IH. simpl. lia.
Qed.

Lemma b58decode_length v :
  match b58decode v with
  | Ok decoded =>
      ∃ acc, b58decode_int (lstrip_ones (py_rstrip v)).2 0 = Some acc
             ∧ length decoded
               = (lstrip_ones (py_rstrip v)).1 + byte_length acc
  | Raise _ => b58decode_int (lstrip_ones (py_rstrip v)).2 0 = None
  end.
Proof.
  unfold b58decode. cbv zeta.
  destruct (lstrip_ones (py_rstrip v)) as [zeros rest]. simpl.
  destruct (b58decode_int rest 0) as [acc|]; [|done].
  exists acc. by rewrite length_app, length_replicate, to_bytes_length.
Qed.

Lemma index_of_Some c s i d : index_of c s i = Some d → (i ≤ d)%N.
Proof.
  revert i. induction s as [|c' s IH]; intros i; simpl; [done|].
  case_decide; [intros [= ->]; lia|]. intros Hd%IH. lia.
Qed.

Lemma index_of_elem c s i d :
  index_of c s i = Some d → c ∈ String.list_ascii_of_string s.
Proof.
  revert i. induction s as [|c' s IH]; intros i; simpl; [done|].
  case_decide; [subst; left | right; eauto].
Qed.

Lemma index_of_None c s i :
  index_of c s i = None ↔ c ∉ String.list_ascii_of_string s.
Proof.
  revert i. induction s as [|c' s IH]; intros i; simpl.
  - split; [intros _; apply not_elem_of_nil | done].
  - rewrite not_elem_of_cons. case_decide; [naive_solver|]. rewrite IH. naive_solver.
Qed.

(** Decoding fails exactly when a character is not in the alphabet. *)
Lemma b58decode_int_None s acc :
  b58decode_int s acc = None ↔
  ∃ c, c ∈ String.list_ascii_of_string s
       ∧ c ∉ String.list_ascii_of_string b58_alphabet.
Proof.
  revert acc. induction s as [|c s IH]; intros acc; simpl.
  - split; [done | by intros (c & ?%elem_of_nil & _)].
  - destruct (b58_digit c) as [d|] eqn:E.
    + rewrite IH. apply index_of_elem in E. split.
      * intros (c' & ? & ?). exists c'. split; [by right | done].
      * intros (c' & [->|?]%elem_of_cons & ?); [done | eauto].
    + apply index_of_None in E. split; [|done]. intros _. exists c.
      split; [left | done].
Qed.

Lemma lstrip_ones_other c s :
  c ≠ "1"%char → lstrip_ones (String c s) = (0, String c s).
Proof. intros ?. simpl. by destruct c as [[] [] [] [] [] [] [] []]. Qed.

(** Stripping the leading [1]s keeps every other character. *)
Lemma lstrip_ones_keeps s c :
  c ≠ "1"%char →
  c ∈ String.list_ascii_of_string s →
  c ∈ String.list_ascii_of_string (lstrip_ones s).2.
Proof.
  intros Hc. induction s as [|c' s IH]; [done|].
  destruct (decide (c' = "1"%char)) as [->|Hne].
  - simpl. intros [->|Hin]%elem_of_cons; [done|].
    destruct (lstrip_ones s) as [n r]. auto.
  - by rewrite lstrip_ones_other.
Qed.

Lemma one_in_alphabet : "1"%char ∈ String.list_ascii_of_string b58_alphabet.
Proof. simpl. left. Qed.

Lemma lstrip_ones_length s :
  (lstrip_ones s).1 + String.length (lstrip_ones s).2 = String.length s.
Proof.
  induction s as [|c s IH]; [done|].
  destruct (decide (c = "1"%char)) as [->|Hne].
  - simpl. destruct (lstrip_ones s) as [n r]. simpl in *. lia.
  - by rewrite lstrip_ones_other.
Qed.

(** What is left after stripping does not start with [1]. *)
Lemma lstrip_ones_head s c r :
  (lstrip_ones s).2 = String c r → c ≠ "1"%char.
Proof.
  induction s as [|c' s IH]; [done|].
  destruct (decide (c' = "1"%char)) as [->|Hne].
  - simpl. destruct (lstrip_ones s) as [n r']. auto.
  - rewrite lstrip_ones_other by done. by intros [= -> ->].
Qed.

Lemma index_of_lt c s i d :
  index_of c s i = Some d → (d < i + N.of_nat (String.length s))%N.
Proof.
  revert i. induction s as [|c' s IH]; intros i; simpl; [done|].
  case_decide; [intros [= ->]; lia|]. intros Hd%IH. lia.
Qed.

Lemma b58_digit_lt c d : b58_digit c = Some d → (d < 58)%N.
Proof. intros Hd%index_of_lt. simpl in Hd. lia. Qed.

Lemma index_of_cons c c' s i :
  index_of c (String c' s) i =
  if decide (c = c') then Some i else index_of c s (i + 1)%N.
Proof. done. Qed.

Lemma b58_digit_zero c : b58_digit c = Some 0%N → c = "1"%char.
Proof.
  unfold b58_digit, b58_alphabet. rewrite index_of_cons. case_decide; [done|].
  intros Hd%index_of_Some. lia.
Qed.

(** The number the digits denote, between the bounds its length gives. *)
Lemma b58decode_int_bounds s acc v :
  b58decode_int s acc = Some v →
  (acc * 58 ^ N.of_nat (String.length s) ≤ v
   < (acc + 1) * 58 ^ N.of_nat (String.length s))%N.
Proof.
  revert acc. induction s as [|c s IH]; intros acc; simpl String.length.
  - intros [= ->]. simpl. lia.
  - simpl. destruct (b58_digit c) as [d|] eqn:Hd; [|done].
    intros [Hlo Hhi]%IH. apply b58_digit_lt in Hd.
    rewrite Nat2N.inj_succ, N.pow_succ_r'. nia.
Qed.

Lemma b58decode_int_lower c s v :
  c ≠ "1"%char → b58decode_int (String c s) 0 = Some v →
  (58 ^ N.of_nat (String.length s) ≤ v)%N.
Proof.
  intros Hc. simpl. destruct (b58_digit c) as [d|] eqn:Hd; [|done].
  intros [Hlo _]%b58decode_int_bounds.
  assert (d ≠ 0%N) by (intros ->; by apply Hc, b58_digit_zero). nia.
Qed.

(** [byte_length] is the least number of bytes that hold the number. *)
Lemma byte_length_upper n : (n < 256 ^ N.of_nat (byte_length n))%N.
Proof.
  unfold byte_length. pose proof (N.size_gt n) as Hn.
  eapply N.lt_le_trans; [exact Hn|].
  change 256%N with (2 ^ 8)%N. rewrite <- N.pow_mul_r.
  apply N.pow_le_mono_r; [done|].
  pose proof (Nat.div_mod_eq (N.to_nat (N.size n) + 7) 8).
  pose proof (Nat.mod_upper_bound (N.to_nat (N.size n) + 7) 8). lia.
Qed.

Lemma byte_length_lower n :
  byte_length n ≠ 0 → (256 ^ N.of_nat (byte_length n - 1) ≤ n)%N.
Proof.
  unfold byte_length. intros Hb.
  assert (n ≠ 0%N) as Hn by (intros ->; by apply Hb).
  pose proof (N.size_log2 n Hn) as Hs.
  pose proof (N.log2_spec n ltac:(lia)) as [Hlo _].
  eapply N.le_trans; [|exact Hlo].
  change 256%N with (2 ^ 8)%N. rewrite <- N.pow_mul_r.
  apply N.pow_le_mono_r; [done|].
  pose proof (Nat.div_mod_eq (N.to_nat (N.size n) + 7) 8).
  pose proof (Nat.mod_upper_bound (N.to_nat (N.size n) + 7) 8). lia.
Qed.

Lemma byte_length_zero : byte_length 0 = 0.
Proof. done. Qed.

(** Thirty-two bytes need at most forty-four digits. *)
Lemma pow_256_58 b : b ≤ 32 → (256 ^ N.of_nat b ≤ 58 ^ N.of_nat (b + 12))%N.
Proof.
  intros Hb. do 33 (destruct b as [|b]; [by vm_compute|]). lia.
Qed.

(** The text of thirty-two decoded bytes has between 32 and 44 characters. *)
Lemma b58_text_length zeros rest acc :
  (∀ c r, rest = String c r → c ≠ "1"%char) →
  b58decode_int rest 0 = Some acc →
  zeros + byte_length acc = 32 →
  32 ≤ zeros + String.length rest ≤ 44.
Proof.
  intros Hhead Hacc Hlen. destruct rest as [|c r].
  - injection Hacc as <-. rewrite byte_length_zero in Hlen. simpl. lia.
  - pose proof (b58decode_int_lower c r acc (Hhead c r eq_refl) Hacc) as Hlo.
    pose proof (b58decode_int_bounds _ _ _ Hacc) as [_ Hhi].
    pose proof (byte_length_upper acc) as Hup.
    pose proof (N.pow_nonzero 58 (N.of_nat (String.length r)) ltac:(done)).
    assert (byte_length acc ≠ 0) as Hb.
    { intros Hb. rewrite Hb in Hup. simpl in Hup. lia. }
    pose proof (byte_length_lower acc Hb) as Hlow.
    simpl String.length in *. split.
    + destruct (decide (byte_length acc ≤ S (String.length r))); [lia|].
      exfalso.
      assert (58 ^ N.of_nat (S (String.length r))
              ≤ 256 ^ N.of_nat (byte_length acc - 1))%N; [|lia].
      etrans; [apply (N.pow_le_mono_r _ _ (N.of_nat (byte_length acc - 1))); lia|].
      apply N.pow_le_mono_l. lia.
    + destruct (decide (S (String.length r) ≤ byte_length acc + 12)); [lia|].
      exfalso. pose proof (pow_256_58 (byte_length acc) ltac:(lia)).
      assert (58 ^ N.of_nat (byte_length acc + 12)
              ≤ 58 ^ N.of_nat (String.length r))%N; [|lia].
      apply N.pow_le_mono_r; lia.
Qed.

(** ** Theorems *)

(** [validate_address] accepts the addresses the repository's tests
    list as valid and rejects the ones they list as invalid. *)
Theorem validate_address_tests :
  Forall (λ a, validate_address a = true)
    ["11111111111111111111111111111111";
     "TokenkegQfeZyiNwAJbNbGKPFXCWuBvf9Ss623VQ5DA";
     "So11111111111111111111111111111111111111112"]
  ∧ Forall (λ a, validate_address a = false)
    [""; "not-a-valid-address"; "0x1234567890abcdef"; "too-short";
     "!!!invalid!!!"].
Proof. split; repeat constructor; by vm_compute. Qed.

(** An address with a character outside the Base58 alphabet, white
    space at the end apart, is not valid: the decoder's exception becomes
    [False]. *)
Theorem validate_address_bad_character address c :
  c ∈ String.list_ascii_of_string (py_rstrip address) →
  c ∉ String.list_ascii_of_string b58_alphabet →
  validate_address address = false.
Proof.
  intros Hc Hbad. unfold validate_address.
  pose proof (b58decode_length address) as Hlen.
  destruct (b58decode address) as [decoded|e]; [|done].
  destruct Hlen as (acc & Hacc & _).
  assert (b58decode_int (lstrip_ones (py_rstrip address)).2 0 = None);
    [|congruence].
  apply b58decode_int_None. exists c. split; [|done].
  apply lstrip_ones_keeps; [|done]. intros ->. apply Hbad, one_in_alphabet.
Qed.

Lemma validate_address_bad_character_witness :
  validate_address "0x1234567890abcdef" = false.
Proof.
  apply (validate_address_bad_character "0x1234567890abcdef" "0"%char);
    [simpl; left | solve [vm_compute; repeat (apply not_elem_of_cons; split; [done|]);
                          apply not_elem_of_nil]].
Defined.

(** C35: a valid address has between 32 and 44 characters, white space at
    the end not counted: thirty-two bytes need at least 32 and at most 44
    digits in base 58. *)
Theorem validate_address_length address :
  validate_address address = true →
  32 ≤ String.length (py_rstrip address) ≤ 44.
Proof.
  unfold validate_address. pose proof (b58decode_length address) as Hlen.
  destruct (b58decode address) as [decoded|]; [|done].
  destruct Hlen as (acc & Hacc & Hl). intros Hd%bool_decide_eq_true.
  rewrite <- (lstrip_ones_length (py_rstrip address)).
  eapply b58_text_length; [|exact Hacc|congruence].
  intros c r. apply lstrip_ones_head.
Qed.

Lemma validate_address_length_witness :
  32 ≤ String.length (py_rstrip "So11111111111111111111111111111111111111112")
  ≤ 44.
Proof.
  apply (validate_address_length "So11111111111111111111111111111111111111112").
  by vm_compute.
Defined.


