(* ===== verification/Solana.v ===== *)
(** * The Solana provider (chains/solana.py, chains/__init__.py)

    [SolanaProvider] extends the registry of Registry.v with the settings of
    the Helius webhook.  [subscribe] and [unsubscribe] change the registry
    and push the list of addresses to Helius ([_update_webhook]);
    [handle_webhook] is the handler of the POST route, which checks the
    Authorization header and hands the body to [_process_webhook_data];
    that one finds the addresses an event involves and delivers a
    [Transaction] to the callbacks of each subscribed one.

    The callbacks act on a state [W] that holds the notifiers and the
    storage and that they reach through [invoke]; the provider itself is an
    argument, because no callback changes it.

    [addresses_involved] is a Python set, and the order in which a loop
    visits a set is not fixed by the language: [SetOrder] stands for it, and
    the theorems hold for every order. *)

From stdpp Require Import pretty.
From S2P Require Import Prelude PyDict PyStr Models Registry Base58.

(** The order in which a [for] loop visits a set whose elements are the
    given ones. *)
Class SetOrder := {
  set_order : list string → list string;
  set_order_perm l : set_order l ≡ₚ l;
}.

(** [response.json()] for the response to the [n]-th request of the process:
    the decoded body, or the error the decoder raises. *)
Class RpcBodies := response_json : nat → result pyval.

(** ** State *)

Record SolanaProvider (C : Type) := mkSolanaProvider {
  base : ChainBase C;
  helius_api_key : string;
  base_url : string;
  webhook_id : string;
  webhook_secret : string;
  webhook_url : string;
}.
Arguments mkSolanaProvider {C} _ _ _ _ _ _.
Arguments base {C} _.
Arguments helius_api_key {C} _.
Arguments base_url {C} _.
Arguments webhook_id {C} _.
Arguments webhook_secret {C} _.
Arguments webhook_url {C} _.

(** What the POST route reads of a request: the Authorization header and
    the decoded body ([get_json] raises on a body that is not JSON). *)
Inductive payload :=
| BodyDict (tx_data : HeliusEvent)
| BodyList (data : list HeliusEvent)
| BodyNull.

Record Request := mkRequest {
  req_authorization : option string;
  req_json : result payload;
}.

Record Response := mkResponse {
  status : Z;
  body : list (string * string);
}.

#[export] Instance Response_eq_dec : EqDecision Response.
Proof. solve_decision. Defined.

Section SolanaProvider.
Context {C : Type}.
Implicit Types (self : SolanaProvider C) (address : string) (callback : C).

(** [SolanaProvider.__init__] with the keyword arguments the orchestrator
    passes. *)
Definition SolanaProvider_init
    (api_key rpc_url webhook_id webhook_url webhook_secret : string)
    : SolanaProvider C :=
  {| base := ChainBase_init api_key rpc_url;
     helius_api_key := api_key;
     base_url :=
       str_or rpc_url ("https://mainnet.helius-rpc.com/?api-key=" +:+ api_key);
     webhook_id := webhook_id;
     webhook_secret := webhook_secret;
     webhook_url := webhook_url |}.

(** The class attribute [name]. *)
Definition provider_name self : string := "solana".

Definition set_base (b : ChainBase C) self : SolanaProvider C :=
  {| base := b; helius_api_key := helius_api_key self;
     base_url := base_url self; webhook_id := webhook_id self;
     webhook_secret := webhook_secret self; webhook_url := webhook_url self |}.

(** The request [_update_webhook] sends. *)
Definition webhook_update self : net_call :=
  HeliusPut
    ("https://api.helius.xyz/v0/webhooks/" +:+ webhook_id self
       +:+ "?api-key=" +:+ helius_api_key self)
    (webhook_url self)
    (pd_keys (subscriptions (base self)))
    (if str_truthy (webhook_secret self) then Some (webhook_secret self)
     else None).

(** [_update_webhook] *)
Definition _update_webhook : M (SolanaProvider C * Env) unit :=
  self ← st_get;
  if negb (str_truthy (webhook_id self))
     || negb (str_truthy (helius_api_key self)) then
    log WARNING "Webhook ID or API key not configured, skipping webhook update"
  else
    let addresses := pd_keys (subscriptions (base self)) in
    r ← net (webhook_update self);
    match r with
    | ReplyOk =>
        log INFO ("Helius webhook updated with " +:+ pretty (length addresses)
                  +:+ " addresses")
    | ReplyRaise e => log ERROR ("Failed to update Helius webhook: " +:+ exn_msg e)
    end.

(** [subscribe] *)
Definition subscribe address callback : M (SolanaProvider C * Env) unit :=
  if negb (validate_address address) then
    m_raise (Exn ValueError ("Invalid Solana address: " +:+ address))
  else
    st_modify (λ self, set_base (add_callback address callback (base self)) self);;
    log INFO ("Subscribed to Solana address: " +:+ address);;
    _update_webhook.

(** [unsubscribe] *)
Definition unsubscribe address : M (SolanaProvider C * Env) unit :=
  st_modify (λ self, set_base (remove_callbacks address (base self)) self);;
  log INFO ("Unsubscribed from Solana address: " +:+ address);;
  _update_webhook.

(** ** JSON-RPC reads *)

Section rpc.
Context {bodies : RpcBodies}.

(** [requests.post(self.base_url, json=payload)] and [response.json()]: the
    status of the response is not looked at. *)
Definition rpc_post (method address : string) (limit : option Z)
    : M (SolanaProvider C * Env) pyval :=
  self ← st_get;
  n ← calls_made;
  reply ← net (JsonRpc (base_url self) method address limit);
  match reply with
  | ReplyOk => m_lift (response_json n)
  | ReplyRaise e => m_raise e
  end.

(** [result.get("result", {}).get("value", 0) / 1e9] *)
Definition lamports_to_sol (result : pyval) : Prelude.result float :=
  inner ← py_get "result" (PDict []) result;
  lamports ← py_get "value" (PInt 0) inner;
  py_div_float lamports 1e9.

(** [get_balance] *)
Definition get_balance address : M (SolanaProvider C * Env) float :=
  try: (result ← rpc_post "getBalance" address None;
        m_lift (lamports_to_sol result))
  except: λ e, log ERROR ("Failed to get balance: " +:+ exn_msg e);;
               mret 0%float.

(** [get_recent_transactions] *)
Definition get_recent_transactions address (limit : Z)
    : M (SolanaProvider C * Env) pyval :=
  try: (result ← rpc_post "getSignaturesForAddress" address (Some limit);
        m_lift (py_get "result" (PList []) result))
  except: λ e, log ERROR ("Failed to get transactions: " +:+ exn_msg e);;
               mret (PList []).

End rpc.

(** ** Webhook events *)

Definition transfer_accounts (t : Transfer) : list string :=
  [default "" (fromUserAccount t); default "" (toUserAccount t)].

(** The elements added to [addresses_involved], in the order of the adds. *)
Definition addresses_added (tx_data : HeliusEvent) : list string :=
  ((λ acc, default "" (account acc)) <$> default [] (ev_accountData tx_data))
  ++ (default [] (ev_nativeTransfers tx_data) ≫= transfer_accounts)
  ++ (default [] (ev_tokenTransfers tx_data) ≫= transfer_accounts).

(** The set [addresses_involved], as the loop over it visits it. *)
Definition addresses_involved {order : SetOrder} (tx_data : HeliusEvent) : list string :=
  set_order (remove_dups (addresses_added tx_data)).

(** [datetime.fromtimestamp] accepts the seconds of the years 1 to 9999. *)
Definition min_timestamp : Z := (-62135596800)%Z.
Definition max_timestamp : Z := 253402300799%Z.

Definition fromtimestamp (t : Z) : result Z :=
  if decide (min_timestamp ≤ t ≤ max_timestamp)%Z then Ok t
  else Raise (Exn ValueError "year is out of range").

(** The [Transaction] built for a subscribed address; building it raises
    when the event's time stamp is out of range.  A time stamp of zero is
    false and gives [None]. *)
Definition event_transaction (tx_data : HeliusEvent) address : result Transaction :=
  let mk ts :=
    {| signature := default "" (ev_signature tx_data);
       chain := "solana";
       address := address;
       tx_type := default "unknown" (ev_type tx_data);
       description := default "" (ev_description tx_data);
       amount_usd := None;
       timestamp := ts;
       raw := Some tx_data |} in
  match ev_timestamp tx_data with
  | Some t =>
      if decide (t = 0%Z) then Ok (mk None)
      else match fromtimestamp t with
           | Ok d => Ok (mk (Some d))
           | Raise e => Raise e
           end
  | None => Ok (mk None)
  end.

Section delivery.
Context {W : Type} `{!HasEnv W} {order : SetOrder}.
Variable invoke : C → Transaction → M W unit.

(** The body of the inner loop of [_process_webhook_data]. *)
Definition notify_address self (tx_data : HeliusEvent) address : M W unit :=
  if pd_mem address (subscriptions (base self)) then
    tx ← m_lift (event_transaction tx_data address);
    notify_callbacks invoke address tx (base self)
  else mret tt.

(** The body of its outer loop: one event, with the [except Exception]
    around it. *)
Definition process_event self (tx_data : HeliusEvent) : M W unit :=
  try: (for: address in addresses_involved tx_data do:
          notify_address self tx_data address)
  except: λ e, log ERROR ("Error processing transaction: " +:+ exn_msg e).

(** [_process_webhook_data]: a body that is neither a dict nor a list
    cannot be iterated. *)
Definition _process_webhook_data self (data : payload) : M W unit :=
  match data with
  | BodyDict tx_data => for: tx_data in [tx_data] do: process_event self tx_data
  | BodyList data => for: tx_data in data do: process_event self tx_data
  | BodyNull => m_raise (Exn TypeError "'NoneType' object is not iterable")
  end.

Definition unauthorized : Response := mkResponse 401%Z [("error", "Unauthorized")].
Definition status_ok : Response := mkResponse 200%Z [("status", "ok")].
Definition server_error (e : exn) : Response := mkResponse 500%Z [("error", exn_msg e)].

(** [handle_webhook], the handler of [POST /webhook] *)
Definition handle_webhook self (request : Request) : M W Response :=
  if str_truthy (webhook_secret self)
     && negb (bool_decide (default "" (req_authorization request)
                           = webhook_secret self))
  then mret unauthorized
  else
    try: (data ← m_lift (req_json request);
          _process_webhook_data self data;;
          mret status_ok)
    except: λ e, log ERROR ("Webhook processing error: " +:+ exn_msg e);;
                 mret (server_error e).

(** [health], the handler of [GET /health] *)
Definition health : Response := mkResponse 200%Z [("status", "healthy")].

End delivery.

(** [PROVIDERS] and [get_chain_provider] of chains/__init__.py *)
Definition PROVIDERS : list string := ["solana"].

Definition get_chain_provider
    (name api_key rpc_url webhook_id webhook_url webhook_secret : string)
    : result (SolanaProvider C) :=
  if decide (name ∈ PROVIDERS) then
    Ok (SolanaProvider_init api_key rpc_url webhook_id webhook_url webhook_secret)
  else
    Raise (Exn ValueError ("Unknown chain provider: " +:+ name
                           +:+ ". Available: ['solana']")).

End SolanaProvider.

(** ** Properties *)

Section SolanaProvider_lemmas.
Context {C : Type}.
Implicit Types (self : SolanaProvider C) (address : string) (callback : C).

(** The provider can reach Helius: the webhook's id and the API key are set. *)
Definition webhook_configured self : bool :=
  str_truthy (webhook_id self) && str_truthy (helius_api_key self).

(** The line [_update_webhook] logs after the request. *)
Definition update_line self (r : net_reply) : log_level * string :=
  match r with
  | ReplyOk =>
      (INFO, "Helius webhook updated with "
             +:+ pretty (length (pd_keys (subscriptions (base self))))
             +:+ " addresses")
  | ReplyRaise e => (ERROR, "Failed to update Helius webhook: " +:+ exn_msg e)
  end.

Definition skipped_line : log_level * string :=
  (WARNING, "Webhook ID or API key not configured, skipping webhook update").

(** What [_update_webhook] does to the environment. *)
Definition update_env self (e : Env) : Env :=
  if webhook_configured self
  then env_after e [webhook_update self] [update_line self (reply_at e 0)]
  else env_after e [] [skipped_line].

Lemma update_webhook_run self e :
  _update_webhook (self, e) = (Ok tt, (self, update_env self e)).
Proof.
  unfold _update_webhook, update_env, webhook_configured.
  unfold mbind at 1, M_bind, m_bind, st_get. simpl.
  destruct (str_truthy (webhook_id self)), (str_truthy (helius_api_key self));
    simpl; try apply log_run.
  unfold mbind, M_bind, m_bind. rewrite net_run.
  destruct (reply_at e 0); rewrite log_run; by autorewrite with ww_rw.
Qed.

Lemma update_webhook_no_raise : no_raise (_update_webhook (C:=C)).
Proof. intros [self e]. by rewrite update_webhook_run. Qed.

(** The provider after [subscribe] and after [unsubscribe]. *)
Definition subscribed address callback self : SolanaProvider C :=
  set_base (add_callback address callback (base self)) self.

Definition unsubscribed address self : SolanaProvider C :=
  set_base (remove_callbacks address (base self)) self.

Lemma subscribe_valid address callback self e :
  validate_address address = true →
  subscribe address callback (self, e) =
  (Ok tt, (subscribed address callback self,
           update_env (subscribed address callback self)
             (env_log INFO ("Subscribed to Solana address: " +:+ address) e))).
Proof.
  intros Hv. unfold subscribe. rewrite Hv. simpl.
  unfold mbind at 1, M_bind, m_bind. simpl.
  unfold mbind at 1, M_bind, m_bind. simpl.
  by rewrite update_webhook_run.
Qed.

Lemma subscribe_invalid address callback w :
  validate_address address = false →
  subscribe address callback w =
  (Raise (Exn ValueError ("Invalid Solana address: " +:+ address)), w).
Proof. intros Hv. unfold subscribe. by rewrite Hv. Qed.

Lemma unsubscribe_run address self e :
  unsubscribe address (self, e) =
  (Ok tt, (unsubscribed address self,
           update_env (unsubscribed address self)
             (env_log INFO ("Unsubscribed from Solana address: " +:+ address) e))).
Proof.
  unfold unsubscribe.
  unfold mbind at 1, M_bind, m_bind. simpl.
  unfold mbind at 1, M_bind, m_bind. simpl.
  by rewrite update_webhook_run.
Qed.

Lemma webhook_configured_subscribed address callback self :
  webhook_configured (subscribed address callback self) = webhook_configured self.
Proof. done. Qed.

Lemma webhook_configured_unsubscribed address self :
  webhook_configured (unsubscribed address self) = webhook_configured self.
Proof. done. Qed.

Lemma base_subscribed address callback self :
  base (subscribed address callback self) = add_callback address callback (base self).
Proof. done. Qed.

Lemma base_unsubscribed address self :
  base (unsubscribed address self) = remove_callbacks address (base self).
Proof. done. Qed.

Lemma update_env_calls self e :
  calls (update_env self e) =
  calls e ++ (if webhook_configured self then [webhook_update self] else []).
Proof. unfold update_env. by destruct (webhook_configured self). Qed.

End SolanaProvider_lemmas.

(** ** JSON-RPC reads *)

Section rpc_lemmas.
Context {C : Type} {bodies : RpcBodies}.
Implicit Types (self : SolanaProvider C) (address : string) (e : Env).

(** The outcome of the exchange a read starts in [e]: the decoded body, or
    what the transport or the decoder raised. *)
Definition rpc_exchange e : result pyval :=
  match reply_at e 0 with
  | ReplyOk => response_json (length (calls e))
  | ReplyRaise x => Raise x
  end.

Definition balance_request self address : net_call :=
  JsonRpc (base_url self) "getBalance" address None.

Definition signatures_request self address (limit : Z) : net_call :=
  JsonRpc (base_url self) "getSignaturesForAddress" address (Some limit).

Lemma rpc_post_run method address limit self e :
  rpc_post method address limit (self, e) =
  (rpc_exchange e,
   (self, env_after e [JsonRpc (base_url self) method address limit] [])).
Proof.
  unfold rpc_post, rpc_exchange. rewrite m_bind_run. unfold st_get at 1. simpl.
  rewrite m_bind_run. unfold calls_made at 1. simpl.
  rewrite m_bind_run, net_run. by destruct (reply_at e 0).
Qed.

Lemma get_balance_run address self e :
  get_balance address (self, e) =
  match rpc_exchange e ≫= lamports_to_sol with
  | Ok x => (Ok x, (self, env_after e [balance_request self address] []))
  | Raise x =>
      (Ok 0%float,
       (self, env_after e [balance_request self address]
                [(ERROR, "Failed to get balance: " +:+ exn_msg x)]))
  end.
Proof.
  unfold get_balance. rewrite m_try_bind, rpc_post_run.
  destruct (rpc_exchange e) as [result|x]; simpl.
  - unfold m_try, m_lift. destruct (lamports_to_sol result); [done|].
    by rewrite m_bind_run, log_run, env_after_after.
  - by rewrite m_bind_run, log_run, env_after_after.
Qed.

Lemma get_recent_transactions_run address limit self e :
  get_recent_transactions address limit (self, e) =
  match rpc_exchange e ≫= py_get "result" (PList []) with
  | Ok v => (Ok v, (self, env_after e [signatures_request self address limit] []))
  | Raise x =>
      (Ok (PList []),
       (self, env_after e [signatures_request self address limit]
                [(ERROR, "Failed to get transactions: " +:+ exn_msg x)]))
  end.
Proof.
  unfold get_recent_transactions. rewrite m_try_bind, rpc_post_run.
  destruct (rpc_exchange e) as [result|x]; simpl.
  - unfold m_try, m_lift. destruct (py_get _ _ result); [done|].
    by rewrite m_bind_run, log_run, env_after_after.
  - by rewrite m_bind_run, log_run, env_after_after.
Qed.

(** [get_balance] never raises: it makes one request, leaves the
    provider as it is, and returns a float whatever the transport and the
    body of the reply are. *)
Theorem get_balance_total address self e :
  ∃ x e', get_balance address (self, e) = (Ok x, (self, e'))
          ∧ calls e' = calls e ++ [balance_request self address].
Proof.
  rewrite get_balance_run. destruct (_ ≫= _); by eexists _, _.
Qed.

(** On a reply whose body is [{"result": {"value": z}}], [get_balance]
    returns [z] lamports in SOL, the integer converted to the nearest float
    and divided by [1e9], and logs nothing. *)
Theorem get_balance_lamports address self e d inner z x :
  rpc_exchange e = Ok (PDict d) →
  pd_get "result" d = Some (PDict inner) →
  pd_get "value" inner = Some (PInt z) →
  float_of_int z = Ok x →
  get_balance address (self, e) =
  (Ok (x / 1e9)%float, (self, env_after e [balance_request self address] [])).
Proof.
  intros He Hd Hi Hz. rewrite get_balance_run, He. simpl.
  unfold lamports_to_sol. simpl. rewrite Hd. simpl. rewrite Hi. simpl.
  by rewrite Hz.
Qed.

(** C37: a reply without a result, such as the error object of JSON-RPC,
    gives the balance 0.0 and no log line: the caller cannot tell it from
    an empty account.  Every failure gives 0.0 as well. *)
Theorem get_balance_error_is_zero address self e d :
  rpc_exchange e = Ok (PDict d) →
  pd_get "result" d = None →
  get_balance address (self, e) =
  (Ok 0%float, (self, env_after e [balance_request self address] [])).
Proof.
  intros He Hd. rewrite get_balance_run, He. simpl.
  unfold lamports_to_sol. simpl. by rewrite Hd.
Qed.

(** [get_recent_transactions] never raises and makes one request. *)
Theorem get_recent_transactions_total address limit self e :
  ∃ v e', get_recent_transactions address limit (self, e) = (Ok v, (self, e'))
          ∧ calls e' = calls e ++ [signatures_request self address limit].
Proof.
  rewrite get_recent_transactions_run. destruct (_ ≫= _); by eexists _, _.
Qed.

End rpc_lemmas.

(** ** The provider implements the interface of chains/base.py *)

#[export] Instance SolanaProvider_provider {C} {bodies : RpcBodies}
    : ChainProvider (SolanaProvider C) C := {|
  cp_validate_address _ := validate_address;
  cp_subscribe := subscribe;
  cp_unsubscribe := unsubscribe;
  cp_get_balance := get_balance;
|}.

Section interface.
Context {C : Type} {bodies : RpcBodies}.
Implicit Types (self : SolanaProvider C) (address : string) (e : Env).

Lemma update_env_extends self e : env_extends e (update_env self e).
Proof. unfold update_env. case_match; apply env_extends_after. Qed.

Lemma update_webhook_env_mono : env_mono (_update_webhook (C:=C)).
Proof. intros [self e]. rewrite update_webhook_run. apply update_env_extends. Qed.

Lemma subscribe_env_mono address (callback : C) :
  env_mono (subscribe address callback).
Proof.
  pose proof update_webhook_env_mono. unfold subscribe. solve_preserves.
Qed.

Lemma unsubscribe_env_mono address : env_mono (unsubscribe (C:=C) address).
Proof.
  pose proof update_webhook_env_mono. unfold unsubscribe. solve_preserves.
Qed.

Lemma get_balance_ok address self e :
  is_ok (get_balance address (self, e)).1 = true
  ∧ env_extends e (get_balance address (self, e)).2.2.
Proof.
  rewrite get_balance_run. destruct (_ ≫= _); split; try done;
    apply env_extends_after.
Qed.

#[export] Instance SolanaProvider_laws : ChainProviderLaws (SolanaProvider C) C.
Proof.
  split; simpl.
  - intros address callback self e Hv. by rewrite subscribe_valid.
  - apply subscribe_env_mono.
  - intros address [self e]. by rewrite unsubscribe_run.
  - apply unsubscribe_env_mono.
  - intros address [self e]. apply get_balance_ok.
  - intros address [self e]. apply get_balance_ok.
Qed.

End interface.

Section delivery_lemmas.
Context {C W : Type} `{!HasEnv W} {order : SetOrder}.
Variable invoke : C → Transaction → M W unit.
Implicit Types (self : SolanaProvider C) (address : string) (w : W).

Definition is_subscribed self address : bool :=
  pd_mem address (subscriptions (base self)).

(** The event's time stamp can be converted. *)
Definition timestamp_ok (tx_data : HeliusEvent) : bool :=
  match ev_timestamp tx_data with
  | Some t => bool_decide (t = 0 ∨ min_timestamp ≤ t ≤ max_timestamp)%Z
  | None => true
  end.

(** The transaction delivered for an address of the event. *)
Definition delivered (tx_data : HeliusEvent) address : Transaction :=
  {| signature := default "" (ev_signature tx_data);
     chain := "solana";
     address := address;
     tx_type := default "unknown" (ev_type tx_data);
     description := default "" (ev_description tx_data);
     amount_usd := None;
     timestamp := match ev_timestamp tx_data with
                  | Some t => if decide (t = 0%Z) then None else Some t
                  | None => None
                  end;
     raw := Some tx_data |}.

Definition out_of_range : exn := Exn ValueError "year is out of range".

Lemma event_transaction_spec tx_data address :
  event_transaction tx_data address =
  if timestamp_ok tx_data then Ok (delivered tx_data address)
  else Raise out_of_range.
Proof.
  unfold event_transaction, timestamp_ok, delivered, fromtimestamp.
  destruct (ev_timestamp tx_data) as [t|]; [|done].
  destruct (decide (t = 0%Z)) as [->|?]; [done|].
  case_decide; case_bool_decide; try done; naive_solver.
Qed.

(** What the callbacks of one address do to the state. *)
Definition deliver self (tx_data : HeliusEvent) w address : W :=
  if is_subscribed self address then
    foldl (λ w c, exec (guarded_call invoke (delivered tx_data address) c) w) w
      (callbacks_of address (base self))
  else w.

Lemma notify_address_ok self tx_data address w :
  timestamp_ok tx_data = true →
  notify_address invoke self tx_data address w =
  (Ok tt, deliver self tx_data w address).
Proof.
  intros Hts. unfold notify_address, deliver, is_subscribed.
  destruct (pd_mem _ _) eqn:E; [|done].
  unfold mbind, M_bind, m_bind, m_lift. rewrite event_transaction_spec, Hts.
  apply notify_callbacks_run.
Qed.

Lemma notify_address_unsubscribed self tx_data address w :
  is_subscribed self address = false →
  notify_address invoke self tx_data address w = (Ok tt, w).
Proof. unfold notify_address, is_subscribed. by intros ->. Qed.

Lemma notify_address_bad_timestamp self tx_data address w :
  timestamp_ok tx_data = false → is_subscribed self address = true →
  notify_address invoke self tx_data address w = (Raise out_of_range, w).
Proof.
  unfold notify_address, is_subscribed. intros Hts ->.
  unfold mbind, M_bind, m_bind, m_lift. by rewrite event_transaction_spec, Hts.
Qed.

Lemma addresses_involved_elem tx_data address :
  address ∈ addresses_involved tx_data ↔ address ∈ addresses_added tx_data.
Proof.
  unfold addresses_involved. by rewrite set_order_perm, elem_of_remove_dups.
Qed.

Lemma addresses_involved_NoDup tx_data : NoDup (addresses_involved tx_data).
Proof.
  unfold addresses_involved. rewrite set_order_perm. apply NoDup_remove_dups.
Qed.

Lemma process_event_no_raise self tx_data :
  no_raise (process_event invoke self tx_data).
Proof. apply no_raise_try. intros e. apply no_raise_log. Qed.

(** An event with a time stamp that converts: every involved address gets
    its delivery, in the order the set is visited. *)
Lemma process_event_ok self tx_data w :
  timestamp_ok tx_data = true →
  process_event invoke self tx_data w =
  (Ok tt, foldl (deliver self tx_data) w (addresses_involved tx_data)).
Proof.
  intros Hts. unfold process_event.
  assert (∀ l w, m_for l (notify_address invoke self tx_data) w =
                 (Ok tt, foldl (deliver self tx_data) w l)) as Hfor.
  { induction l as [|a l IH]; intros w'; [done|]. simpl.
    unfold m_bind. by rewrite notify_address_ok. }
  by rewrite (m_try_ok _ _ _ _ _ (Hfor _ _)).
Qed.

(** An event with a time stamp that does not convert: the loop stops at the
    first subscribed address, before any callback. *)
Lemma notify_loop_bad_timestamp self tx_data (l : list string) w :
  timestamp_ok tx_data = false →
  m_for l (notify_address invoke self tx_data) w =
  if existsb (is_subscribed self) l then (Raise out_of_range, w) else (Ok tt, w).
Proof.
  intros Hts. induction l as [|a l IH]; [done|]. simpl. unfold m_bind.
  destruct (is_subscribed self a) eqn:E; simpl.
  - by rewrite notify_address_bad_timestamp.
  - by rewrite notify_address_unsubscribed.
Qed.

Lemma process_webhook_data_list self (data : list HeliusEvent) w :
  _process_webhook_data invoke self (BodyList data) w =
  (Ok tt, foldl (λ w tx_data, exec (process_event invoke self tx_data) w) w data).
Proof.
  simpl. apply m_for_exec_foldl. intros ? _. apply process_event_no_raise.
Qed.

Lemma process_webhook_data_dict self (tx_data : HeliusEvent) w :
  _process_webhook_data invoke self (BodyDict tx_data) w =
  _process_webhook_data invoke self (BodyList [tx_data]) w.
Proof. done. Qed.

Definition authorized self (request : Request) : bool :=
  negb (str_truthy (webhook_secret self))
  || bool_decide (default "" (req_authorization request) = webhook_secret self).

Lemma handle_webhook_authorized self request w :
  authorized self request = true →
  handle_webhook invoke self request w =
  match req_json request with
  | Ok data =>
      match _process_webhook_data invoke self data w with
      | (Ok _, w') => (Ok status_ok, w')
      | (Raise e, w') =>
          (Ok (server_error e),
           exec (log ERROR ("Webhook processing error: " +:+ exn_msg e)) w')
      end
  | Raise e =>
      (Ok (server_error e),
       exec (log ERROR ("Webhook processing error: " +:+ exn_msg e)) w)
  end.
Proof.
  unfold handle_webhook, authorized. intros Ha.
  destruct (str_truthy _); simpl in *; [rewrite Ha; simpl|];
    (m_unfold; destruct (req_json request) as [data|e]; [|done];
     by destruct (_process_webhook_data invoke self data w) as [[[]|e] w']).
Qed.

Lemma handle_webhook_rejected self request w :
  authorized self request = false →
  handle_webhook invoke self request w = (Ok unauthorized, w).
Proof.
  unfold handle_webhook, authorized. intros Ha.
  destruct (str_truthy _); simpl in *; [|done]. by rewrite Ha.
Qed.

Lemma handle_webhook_no_raise self request :
  no_raise (handle_webhook invoke self request).
Proof.
  intros w. destruct (authorized self request) eqn:Ha.
  - rewrite handle_webhook_authorized by done.
    destruct (req_json request) as [data|x]; [|done].
    by destruct (_process_webhook_data invoke self data w) as [[[]|x] w'].
  - by rewrite handle_webhook_rejected.
Qed.

(** What every transaction the provider builds looks like: it is on Solana
    and has no amount. *)
Definition provider_tx (tx : Transaction) : Prop :=
  chain tx = "solana" ∧ amount_usd tx = None.

Lemma event_transaction_provider_tx tx_data address tx :
  event_transaction tx_data address = Ok tx →
  provider_tx tx ∧ Models.address tx = address.
Proof.
  rewrite event_transaction_spec. destruct (timestamp_ok tx_data); [|done].
  by intros [= <-].
Qed.

(** A preorder on states that logging and the callbacks, called on the
    transactions the provider builds, preserve is preserved by the handling
    of a request. *)
Section preserved.
Context (R : relation W) `{!PreOrder R}.
Hypothesis log_preserves : ∀ lvl msg, preserves R (log lvl msg).
Hypothesis invoke_preserves : ∀ c tx, provider_tx tx → preserves R (invoke c tx).

Lemma process_event_preserves self tx_data :
  preserves R (process_event invoke self tx_data).
Proof.
  unfold process_event, notify_address.
  apply preserves_try; [done| |auto]. apply preserves_for; [done|]. intros a.
  destruct (pd_mem _ _); [|apply preserves_ret, _].
  apply preserves_lift_bind; [done|]. intros tx [Htx _]%event_transaction_provider_tx.
  apply notify_callbacks_preserves; auto.
Qed.

Lemma process_webhook_data_preserves self data :
  preserves R (_process_webhook_data invoke self data).
Proof.
  destruct data as [tx_data|data|]; simpl.
  - apply (preserves_for R [tx_data]). intros ?. apply process_event_preserves.
  - apply preserves_for; [done|]. intros ?. apply process_event_preserves.
  - apply preserves_raise, _.
Qed.

Lemma handle_webhook_preserves self request :
  preserves R (handle_webhook invoke self request).
Proof.
  unfold handle_webhook. case_match; [apply preserves_ret, _|].
  apply preserves_try; [done| |].
  - apply preserves_bind; [done|apply preserves_lift, _|]. intros data.
    apply preserves_bind; [done|apply process_webhook_data_preserves|].
    intros _. apply preserves_ret, _.
  - intros x. apply preserves_bind; [done|auto|]. intros _. apply preserves_ret, _.
Qed.

End preserved.

Lemma deliver_unsubscribed self tx_data w address :
  is_subscribed self address = false → deliver self tx_data w address = w.
Proof. unfold deliver. by intros ->. Qed.

Lemma existsb_subscribed self tx_data :
  existsb (is_subscribed self) (addresses_involved tx_data) = true ↔
  ∃ a, a ∈ addresses_added tx_data ∧ is_subscribed self a = true.
Proof.
  rewrite existsb_exists. setoid_rewrite <-list_elem_of_In.
  by setoid_rewrite addresses_involved_elem.
Qed.

End delivery_lemmas.

(** The status the POST route answers with. *)
Definition expected_status {C} (self : SolanaProvider C) (request : Request) : Z :=
  if negb (authorized self request) then 401
  else match req_json request with
       | Ok (BodyDict _) | Ok (BodyList _) => 200
       | Ok BodyNull | Raise _ => 500
       end.

#[export] Hint Resolve update_webhook_no_raise : ww.

(** ** Theorems *)

Section SolanaProvider_theorems.
Context {C : Type}.
Implicit Types (self : SolanaProvider C) (address : string) (callback : C).

(** [subscribe] on an address that does not validate raises
    [ValueError] naming the address, and changes nothing: no callback is
    registered, nothing is logged, no request is made. *)
Theorem subscribe_invalid_address address callback (w : SolanaProvider C * Env) :
  validate_address address = false →
  subscribe address callback w =
  (Raise (Exn ValueError ("Invalid Solana address: " +:+ address)), w).
Proof. intros Hv. unfold subscribe. by rewrite Hv. Qed.

(** C31: [subscribe] on a valid address, with the webhook configured:
    the callback is added after the ones the address already has, the other
    addresses keep theirs, and one request pushes the whole list of
    addresses, the new one included, to Helius; the call returns whatever
    Helius answers. *)
Theorem subscribe_registers_and_pushes address callback self e :
  validate_address address = true →
  webhook_configured self = true →
  ∃ self' e',
    subscribe address callback (self, e) = (Ok tt, (self', e'))
    ∧ callbacks_of address (base self')
      = callbacks_of address (base self) ++ [callback]
    ∧ (∀ a, a ≠ address →
         callbacks_of a (base self') = callbacks_of a (base self))
    ∧ calls e' = calls e ++ [webhook_update self']
    ∧ address ∈ pd_keys (subscriptions (base self')).
Proof.
  intros Hv Hc. eexists _, _. split; [by apply subscribe_valid|].
  rewrite update_env_calls, webhook_configured_subscribed, Hc.
  rewrite !base_subscribed, callbacks_of_add_callback, decide_True by done.
  split_and!; try done.
  - intros a Ha. by rewrite callbacks_of_add_callback, decide_False.
  - apply pd_mem_keys, pd_mem_spec. rewrite subscriptions_add_callback.
    rewrite pd_get_set_eq. eauto.
Qed.

(** Without a webhook id or without an API key, [subscribe] still
    registers the callback but makes no request: it logs a warning. *)
Theorem subscribe_unconfigured_is_local address callback self e :
  validate_address address = true →
  webhook_configured self = false →
  ∃ self' e',
    subscribe address callback (self, e) = (Ok tt, (self', e'))
    ∧ callbacks_of address (base self')
      = callbacks_of address (base self) ++ [callback]
    ∧ calls e' = calls e
    ∧ last (logs e') = Some skipped_line.
Proof.
  intros Hv Hc. eexists _, _. split; [by apply subscribe_valid|].
  unfold update_env. rewrite webhook_configured_subscribed, Hc.
  rewrite base_subscribed, callbacks_of_add_callback, decide_True by done.
  split_and!; [done | apply app_nil_r | apply last_snoc].
Qed.

(** [unsubscribe] removes every callback of the address and the
    address itself, leaves the other addresses alone, never raises, and
    pushes the remaining addresses when the webhook is configured. *)
Theorem unsubscribe_removes_all address self e :
  ∃ self' e',
    unsubscribe address (self, e) = (Ok tt, (self', e'))
    ∧ callbacks_of address (base self') = []
    ∧ (address ∉ pd_keys (subscriptions (base self')))
    ∧ (∀ a, a ≠ address →
         callbacks_of a (base self') = callbacks_of a (base self))
    ∧ calls e' = calls e ++
        (if webhook_configured self then [webhook_update self'] else []).
Proof.
  eexists _, _. split; [apply unsubscribe_run|].
  rewrite update_env_calls, webhook_configured_unsubscribed.
  rewrite !base_unsubscribed, callbacks_of_remove_callbacks, decide_True by done.
  split_and!; try done.
  - rewrite subscriptions_remove_callbacks, <-pd_mem_keys.
    apply not_true_iff_false, pd_mem_false, pd_get_del_eq.
  - intros a Ha. by rewrite callbacks_of_remove_callbacks, decide_False.
Qed.

Section delivery_theorems.
Context {W : Type} `{!HasEnv W} {order : SetOrder}.
Variable invoke : C → Transaction → M W unit.
Implicit Types (w : W) (tx_data : HeliusEvent).

(** C6: an event that involves one subscribed address runs the callbacks
    of that address, all of them, in the order they were registered, each
    on the transaction built from the event, whatever order the set of
    addresses is visited in and whatever the other addresses are. *)
Theorem process_event_one_address self tx_data address w :
  timestamp_ok tx_data = true →
  address ∈ addresses_added tx_data →
  (∀ a, a ∈ addresses_added tx_data → a ≠ address → is_subscribed self a = false) →
  process_event invoke self tx_data w =
  (Ok tt, foldl (λ w c, exec (guarded_call invoke (delivered tx_data address) c) w)
            w (callbacks_of address (base self))).
Proof.
  intros Hts Ha Hothers. rewrite process_event_ok by done. f_equal.
  rewrite (foldl_only _ _ address).
  - unfold deliver, is_subscribed, callbacks_of, pd_mem.
    by destruct (pd_get address _).
  - apply addresses_involved_NoDup.
  - by apply addresses_involved_elem.
  - intros a w' Hin%addresses_involved_elem Hne.
    apply deliver_unsubscribed. auto.
Qed.

(** An event none of whose addresses is subscribed changes nothing,
    whatever its time stamp. *)
Theorem process_event_not_subscribed self tx_data w :
  (∀ a, a ∈ addresses_added tx_data → is_subscribed self a = false) →
  process_event invoke self tx_data w = (Ok tt, w).
Proof.
  intros Hnone. destruct (timestamp_ok tx_data) eqn:Hts.
  - rewrite process_event_ok by done. f_equal. apply foldl_none.
    intros a w' Hin%addresses_involved_elem. apply deliver_unsubscribed. auto.
  - unfold process_event.
    assert (existsb (is_subscribed self) (addresses_involved tx_data) = false) as Hex.
    { apply not_true_iff_false. rewrite existsb_subscribed.
      intros (a & Hin & Hs). rewrite Hnone in Hs; done. }
    pose proof (notify_loop_bad_timestamp invoke self tx_data
                  (addresses_involved tx_data) w Hts) as Hloop.
    rewrite Hex in Hloop. by rewrite (m_try_ok _ _ _ _ _ Hloop).
Qed.

(** C32: an event whose time stamp is out of range and that involves a
    subscribed address reaches no callback: the only effect is the error
    line in the log. *)
Theorem process_event_bad_timestamp self tx_data address w :
  timestamp_ok tx_data = false →
  address ∈ addresses_added tx_data →
  is_subscribed self address = true →
  process_event invoke self tx_data w =
  (Ok tt, exec (log ERROR "Error processing transaction: year is out of range") w).
Proof.
  intros Hts Hin Hs. unfold process_event.
  assert (existsb (is_subscribed self) (addresses_involved tx_data) = true) as Hex.
  { apply existsb_subscribed. eauto. }
  pose proof (notify_loop_bad_timestamp invoke self tx_data
                (addresses_involved tx_data) w Hts) as Hloop.
  rewrite Hex in Hloop. by rewrite (m_try_raise _ _ _ _ _ Hloop).
Qed.

(** The events of a body are processed one after the other and none
    stops the ones after it: a list of events does what its two halves do in
    sequence, and never raises. *)
Theorem process_webhook_data_batch self (d1 d2 : list HeliusEvent) w :
  _process_webhook_data invoke self (BodyList (d1 ++ d2)) w =
  (Ok tt, exec (_process_webhook_data invoke self (BodyList d2))
            (exec (_process_webhook_data invoke self (BodyList d1)) w)).
Proof.
  unfold exec. rewrite !process_webhook_data_list. simpl.
  by rewrite foldl_app.
Qed.

(** C10: with a secret configured, a request whose Authorization header is
    missing or differs from it is answered 401 and has no effect at all. *)
Theorem handle_webhook_unauthorized self request w :
  str_truthy (webhook_secret self) = true →
  default "" (req_authorization request) ≠ webhook_secret self →
  handle_webhook invoke self request w = (Ok unauthorized, w).
Proof.
  intros Hs Hne. apply handle_webhook_rejected. unfold authorized.
  rewrite Hs. simpl. by apply bool_decide_eq_false.
Qed.

(** The POST route always answers: 401 when the request is not
    authorized, 200 when the body is a dict or a list of events, 500 when
    the body cannot be decoded or iterated; it never raises. *)
Lemma handle_webhook_status self request w :
  ∃ r w', handle_webhook invoke self request w = (Ok r, w')
          ∧ status r = expected_status self request.
Proof.
  unfold expected_status. destruct (authorized self request) eqn:Ha; simpl.
  - rewrite handle_webhook_authorized by done.
    destruct (req_json request) as [[ev|data|]|e]; [| |by eauto..].
    + rewrite process_webhook_data_dict, process_webhook_data_list. eauto.
    + rewrite process_webhook_data_list. eauto.
  - rewrite handle_webhook_rejected by done. eauto.
Qed.

End delivery_theorems.
End SolanaProvider_theorems.

(** [get_chain_provider] builds a provider with an empty registry for
    the one name of [PROVIDERS], and raises [ValueError] naming the value
    for any other. *)
Theorem get_chain_provider_spec (name k u i wu s : string) :
  get_chain_provider (C:=string) name k u i wu s =
  if decide (name = "solana") then Ok (SolanaProvider_init k u i wu s)
  else Raise (Exn ValueError ("Unknown chain provider: " +:+ name
                              +:+ ". Available: ['solana']")).
Proof.
  unfold get_chain_provider, PROVIDERS.
  destruct (decide (name = "solana")) as [->|Hne].
  - rewrite decide_True; [done | left].
  - rewrite decide_False; [done|]. by intros ->%list_elem_of_singleton.
Qed.

(** ** The theorems at concrete inputs *)

(** The order of insertion is one of the orders a set can be visited in. *)
Definition insertion_order : SetOrder :=
  {| set_order l := l; set_order_perm l := Permutation_refl l |}.

Definition system_program : string := "11111111111111111111111111111111".
Definition wrapped_sol : string := "So11111111111111111111111111111111111111112".

(** A provider with the webhook configured and a secret, and one without
    the webhook's id. *)
Definition provider0 : SolanaProvider string :=
  SolanaProvider_init "key" "" "wh-1" "https://example.org/webhook" "s3cret".

Definition provider_local : SolanaProvider string :=
  SolanaProvider_init "key" "" "" "" "".

(** [provider0] with two callbacks on one address. *)
Definition provider2 : SolanaProvider string :=
  subscribed system_program "second" (subscribed system_program "first" provider0).

(** A callback that writes its name and the signature to the log, or raises
    when its name is [boom]. *)
Definition echo (c : string) (tx : Transaction) : M Env unit :=
  if decide (c = "boom") then m_raise (Exn OtherException "boom")
  else log INFO (c +:+ " " +:+ signature tx).

Definition transfer_event (t : Z) : HeliusEvent :=
  mkEvent (Some "sig1") (Some "A sent 1 SOL to B") (Some "TRANSFER") (Some t)
    None (Some [mkTransfer (Some system_program) (Some wrapped_sol)]) None.

Definition quiet : Env := env0 (λ _, ReplyOk) 0.

Lemma subscribe_invalid_address_witness :
  subscribe "not-a-valid-address" "first" (provider0, quiet) =
  (Raise (Exn ValueError "Invalid Solana address: not-a-valid-address"),
   (provider0, quiet)).
Proof.
  apply (subscribe_invalid_address "not-a-valid-address" "first" (provider0, quiet)).
  by vm_compute.
Defined.

Lemma subscribe_registers_and_pushes_witness :
  ∃ self' e',
    subscribe system_program "second"
      (subscribed system_program "first" provider0, quiet) = (Ok tt, (self', e'))
    ∧ callbacks_of system_program (base self') = ["first"] ++ ["second"]
    ∧ (∀ a, a ≠ system_program →
         callbacks_of a (base self')
         = callbacks_of a (base (subscribed system_program "first" provider0)))
    ∧ calls e' = [] ++ [webhook_update self']
    ∧ system_program ∈ pd_keys (subscriptions (base self')).
Proof.
  apply (subscribe_registers_and_pushes system_program "second"
           (subscribed system_program "first" provider0) quiet); by vm_compute.
Defined.

Lemma subscribe_unconfigured_is_local_witness :
  ∃ self' e',
    subscribe system_program "first" (provider_local, quiet) = (Ok tt, (self', e'))
    ∧ callbacks_of system_program (base self') = [] ++ ["first"]
    ∧ calls e' = []
    ∧ last (logs e') = Some skipped_line.
Proof.
  apply (subscribe_unconfigured_is_local system_program "first" provider_local quiet);
    by vm_compute.
Defined.

Lemma process_event_one_address_witness :
  process_event (order:=insertion_order) echo provider2
    (transfer_event 1700000000) quiet =
  (Ok tt, env_after quiet [] [(INFO, "first sig1"); (INFO, "second sig1")]).
Proof.
  rewrite (process_event_one_address (order:=insertion_order) echo provider2
             (transfer_event 1700000000) system_program quiet);
    [by vm_compute | done | by left |].
  intros a Hin Hne. cbv in Hin.
  apply elem_of_cons in Hin as [->|Hin]; [done|].
  apply elem_of_cons in Hin as [->|Hin]; [by vm_compute|].
  by apply elem_of_nil in Hin.
Defined.

Lemma process_event_not_subscribed_witness :
  process_event (order:=insertion_order) echo provider0
    (transfer_event 1700000000) quiet = (Ok tt, quiet).
Proof.
  apply (process_event_not_subscribed (order:=insertion_order) echo provider0
           (transfer_event 1700000000) quiet).
  intros a Hin. by vm_compute.
Defined.

Lemma process_event_bad_timestamp_witness :
  process_event (order:=insertion_order) echo provider2
    (transfer_event 99999999999999) quiet =
  (Ok tt, env_after quiet []
            [(ERROR, "Error processing transaction: year is out of range")]).
Proof.
  rewrite (process_event_bad_timestamp (order:=insertion_order) echo provider2
             (transfer_event 99999999999999) system_program quiet); try done.
  simpl. left.
Defined.

Lemma handle_webhook_unauthorized_witness :
  handle_webhook (order:=insertion_order) echo provider2
    (mkRequest None (Ok (BodyList [transfer_event 1700000000]))) quiet =
  (Ok unauthorized, quiet).
Proof.
  by apply (handle_webhook_unauthorized (order:=insertion_order) echo provider2
              (mkRequest None (Ok (BodyList [transfer_event 1700000000]))) quiet).
Defined.

(** The reply of the node to [getBalance] for an account with 1.5 SOL, and
    the error it answers to a request it rejects. *)
Definition balance_body : pydict string pyval :=
  [("jsonrpc", PStr "2.0");
   ("result", PDict [("context", PDict [("slot", PInt 1)]);
                     ("value", PInt 1500000000)]);
   ("id", PInt 1)].

Definition error_body : pydict string pyval :=
  [("jsonrpc", PStr "2.0");
   ("error", PDict [("code", PInt (-32602)); ("message", PStr "Invalid param")]);
   ("id", PInt 1)].

Definition balance_bodies : RpcBodies := λ _, Ok (PDict balance_body).
Definition error_bodies : RpcBodies := λ _, Ok (PDict error_body).

Lemma get_balance_lamports_witness :
  get_balance (bodies:=balance_bodies) system_program (provider0, quiet) =
  (Ok 1.5%float,
   (provider0, env_after quiet [balance_request provider0 system_program] [])).
Proof.
  by apply (get_balance_lamports (bodies:=balance_bodies) system_program
              provider0 quiet balance_body
              [("context", PDict [("slot", PInt 1)]); ("value", PInt 1500000000)]
              1500000000 (Z_to_float 1500000000)).
Defined.

Lemma get_balance_error_is_zero_witness :
  get_balance (bodies:=error_bodies) system_program (provider0, quiet) =
  (Ok 0%float,
   (provider0, env_after quiet [balance_request provider0 system_program] [])).
Proof.
  by apply (get_balance_error_is_zero (bodies:=error_bodies) system_program
              provider0 quiet error_body).
Defined.
