(* ===== verification/Tests.v ===== *)
(** * The repository's tests (tests/test_chains.py)

    Each test function of [TestSolanaProvider] as a boolean: [true] when every
    assertion of the test holds of the model.  The tests construct the
    provider with [api_key="test"] and nothing else, so the other arguments
    are the defaults of [SolanaProvider.__init__]; [validate_address] does
    not read the provider, and the tests register no callback, so the type
    of callbacks is immaterial.  [pytest.raises] with
    [match] searches the pattern in the text of the exception; the pattern of
    the test has no special character, so the search is a substring test.

    The address vectors exercise the Base58 decoder, the one part of the
    model written from the library's documentation: the tests are the
    repository's own evidence that it agrees with the library. *)

From S2P Require Import Prelude PyDict PyStr Models Registry Base58 Solana.

Definition valid_addresses : list string :=
  ["11111111111111111111111111111111";
   "TokenkegQfeZyiNwAJbNbGKPFXCWuBvf9Ss623VQ5DA";
   "So11111111111111111111111111111111111111112"].

Definition invalid_addresses : list string :=
  [""; "not-a-valid-address"; "0x1234567890abcdef"; "too-short"; "!!!invalid!!!"].

Definition test_validate_address_valid : bool :=
  forallb validate_address valid_addresses.

Definition test_validate_address_invalid : bool :=
  forallb (λ addr, negb (validate_address addr)) invalid_addresses.

(** [isinstance(provider, SolanaProvider)] holds of whatever the model's
    [get_chain_provider] returns, by its type; the assertion left is the one
    on [name]. *)
Definition test_get_chain_provider : bool :=
  match get_chain_provider (C:=unit) "solana" "test" "" "" "" "" with
  | Ok p => bool_decide (provider_name p = "solana")
  | Raise _ => false
  end.

Definition test_get_chain_provider_unknown : bool :=
  match get_chain_provider (C:=unit) "unknown-chain" "" "" "" "" "" with
  | Ok _ => false
  | Raise e => bool_decide (exn_kind_of e = ValueError)
               && str_contains "Unknown chain provider" (exn_msg e)
  end.

Definition test_chains : list bool :=
  [test_validate_address_valid; test_validate_address_invalid;
   test_get_chain_provider; test_get_chain_provider_unknown].

(** Every test of tests/test_chains.py passes on the model. *)
Theorem test_chains_pass : Forall (λ t, t = true) test_chains.
Proof. repeat constructor; by vm_compute. Qed.

(** The valid vectors decode to exactly 32 bytes, as the test's comment says,
    and none of the invalid vectors decodes at all or to 32 bytes. *)
Theorem test_vectors_decoded :
  Forall (λ a, length <$> b58decode a = Ok 32%nat) valid_addresses
  ∧ Forall (λ a, length <$> b58decode a ≠ Ok 32%nat) invalid_addresses.
Proof. split; repeat constructor; by vm_compute. Qed.
