(* ===== verification/Core.v ===== *)
(** * The orchestrator (core.py, class WalletWatch)

    [WalletWatch] owns the providers, the notifiers and the storage, built
    from the configuration by [_setup].  [run] subscribes every watch with a
    callback that binds the watch, [lambda tx, w=watch:
    self._handle_transaction(tx, w)]; the model represents that closure by
    the watch itself, and calling it is [_handle_transaction].  Then [run]
    starts the first provider's server, which here handles a given list of
    requests one after the other.

    The state the callbacks act on is the orchestrator paired with the
    process environment.  A method of a notifier or of the storage runs on
    the object held in the orchestrator and leaves its new state there
    ([on_notifier], [on_storage], [on_chain]). *)

From stdpp Require Import pretty.
From S2P Require Import Prelude PyDict PyStr Models Registry Storage.
From S2P Require Import Notifiers Base58 Solana.

(** ** State *)

Record WalletWatch := mkWalletWatch {
  ww_config : Config;
  ww_chains : pydict string (SolanaProvider WatchConfig);
  ww_notifiers : pydict string Notifier;
  ww_storage : option SQLiteStorage;
}.

Abbreviation World := (WalletWatch * Env)%type.

Definition set_chains (c : pydict string (SolanaProvider WatchConfig))
    (self : WalletWatch) : WalletWatch :=
  {| ww_config := ww_config self; ww_chains := c;
     ww_notifiers := ww_notifiers self; ww_storage := ww_storage self |}.

Definition set_notifiers (n : pydict string Notifier) (self : WalletWatch)
    : WalletWatch :=
  {| ww_config := ww_config self; ww_chains := ww_chains self;
     ww_notifiers := n; ww_storage := ww_storage self |}.

Definition set_storage (s : option SQLiteStorage) (self : WalletWatch)
    : WalletWatch :=
  {| ww_config := ww_config self; ww_chains := ww_chains self;
     ww_notifiers := ww_notifiers self; ww_storage := s |}.

(** Calling a method of an object the orchestrator holds: the method runs on
    the object and the environment, and the object keeps its new state. *)
Definition on_notifier {A} (name : string) (n : Notifier)
    (m : M (Notifier * Env) A) : M World A :=
  λ w, match m (n, w.2) with
       | (r, (n', e)) => (r, (set_notifiers (pd_set name n' (ww_notifiers w.1)) w.1, e))
       end.

Definition on_storage {A} (db : SQLiteStorage) (m : M (SQLiteStorage * Env) A)
    : M World A :=
  λ w, match m (db, w.2) with
       | (r, (db', e)) => (r, (set_storage (Some db') w.1, e))
       end.

Definition on_chain {A} (name : string) (c : SolanaProvider WatchConfig)
    (m : M (SolanaProvider WatchConfig * Env) A) : M World A :=
  λ w, match m (c, w.2) with
       | (r, (c', e)) => (r, (set_chains (pd_set name c' (ww_chains w.1)) w.1, e))
       end.

Section WalletWatch.
Context `{!UsdFormat} {order : SetOrder}.

(** ** [_setup] *)

(** The body of the loop over [config.chains]. *)
Definition setup_chain (chain_config : ChainConfig) : M World unit :=
  try: (provider ← m_lift (get_chain_provider (cc_name chain_config)
                             (cc_api_key chain_config) (cc_rpc_url chain_config)
                             (cc_webhook_id chain_config)
                             (cc_webhook_url chain_config)
                             (cc_webhook_secret chain_config));
        st_modify (λ self, set_chains
                     (pd_set (cc_name chain_config) provider (ww_chains self)) self);;
        log INFO ("Chain provider initialized: " +:+ cc_name chain_config))
  except: λ e, log ERROR ("Failed to initialize chain " +:+ cc_name chain_config
                          +:+ ": " +:+ exn_msg e).

(** The body of the loop over [config.notifiers]. *)
Definition setup_notifier (notifier_config : NotifierConfig) : M World unit :=
  try: (notifier ← m_lift (get_notifier (nc_type notifier_config)
                             (nc_bot_token notifier_config)
                             (nc_webhook_url notifier_config)
                             (nc_chat_id notifier_config));
        st_modify (λ self, set_notifiers
                     (pd_set (nc_type notifier_config) notifier (ww_notifiers self))
                     self);;
        log INFO ("Notifier initialized: " +:+ nc_type notifier_config))
  except: λ e, log ERROR ("Failed to initialize notifier "
                          +:+ nc_type notifier_config +:+ ": " +:+ exn_msg e).

Definition _setup : M World unit :=
  self ← st_get;
  db ← get_storage (storage (ww_config self));
  st_modify (set_storage (Some db));;
  log INFO ("Storage initialized: " +:+ sc_type (storage (ww_config self)));;
  (for: chain_config in chains (ww_config self) do: setup_chain chain_config);;
  for: notifier_config in notifiers (ww_config self) do:
    setup_notifier notifier_config.

(** [WalletWatch.__init__] *)
Definition WalletWatch_init (config : Config) : M Env WalletWatch :=
  λ e, match _setup ({| ww_config := config; ww_chains := [];
                        ww_notifiers := []; ww_storage := None |}, e) with
       | (Ok _, (self, e')) => (Ok self, e')
       | (Raise x, (_, e')) => (Raise x, e')
       end.

(** ** [_should_notify] *)

Definition _should_notify (self : WalletWatch) (tx : Transaction) : bool :=
  let filters := filters (ww_config self) in
  if PrimFloat.ltb 0 (min_usd_value filters)
     && match amount_usd tx with
        | None => true
        | Some a => PrimFloat.ltb a (min_usd_value filters)
        end
  then false
  else if negb (bool_decide (tx_types filters = []))
          && negb (bool_decide (tx_type tx ∈ tx_types filters))
  then false
  else true.

(** ** [_handle_transaction] *)

(** The body of the loop over [watch_config.notify]. *)
Definition notify_via (message notifier_name : string) : M World unit :=
  self ← st_get;
  match pd_get notifier_name (ww_notifiers self) with
  | Some n =>
      try: (on_notifier notifier_name n (send message);;
            log INFO ("Notification sent via " +:+ notifier_name))
      except: λ e, log ERROR ("Failed to send notification via "
                              +:+ notifier_name +:+ ": " +:+ exn_msg e)
  | None => mret tt
  end.

Definition _handle_transaction (tx : Transaction) (watch_config : WatchConfig)
    : M World unit :=
  log INFO ("New transaction: " +:+ py_prefix 16 (signature tx) +:+ "... on "
            +:+ chain tx);;
  self ← st_get;
  if negb (_should_notify self tx) then
    log DEBUG ("Transaction filtered out: " +:+ py_prefix 16 (signature tx)
               +:+ "...")
  else
    let message := to_message tx (w_label watch_config) in
    (for: notifier_name in w_notify watch_config do:
       notify_via message notifier_name);;
    self ← st_get;
    match ww_storage self with
    | Some db => on_storage db (save_transaction tx);; mret tt
    | None => mret tt
    end.

(** Calling a registered callback. *)
Definition invoke (callback : WatchConfig) (tx : Transaction) : M World unit :=
  _handle_transaction tx callback.

(** ** [run] *)

(** The body of the loop over [config.watches]. *)
Definition run_watch (watch : WatchConfig) : M World unit :=
  let chain_name := w_chain watch in
  self ← st_get;
  match pd_get chain_name (ww_chains self) with
  | None => log ERROR ("Chain not configured: " +:+ chain_name)
  | Some chain =>
      if negb (validate_address (w_address watch)) then
        log ERROR ("Invalid address for " +:+ chain_name +:+ ": "
                   +:+ w_address watch)
      else
        log INFO ("Watching " +:+ str_or (w_label watch) (w_address watch)
                  +:+ " on " +:+ chain_name);;
        on_chain chain_name chain (subscribe (w_address watch) watch)
  end.

(** The first provider's server ([SolanaProvider.run]): it handles the
    requests that arrive, one at a time, with the provider as it is then. *)
Fixpoint serve (name : string) (requests : list Request) : M World (list Response) :=
  match requests with
  | [] => mret []
  | request :: requests' =>
      self ← st_get;
      match pd_get name (ww_chains self) with
      | Some chain =>
          r ← handle_webhook invoke chain request;
          rs ← serve name requests';
          mret (r :: rs)
      | None => mret []
      end
  end.

Definition provider_run (name host : string) (port : Z) (requests : list Request)
    : M World (list Response) :=
  log INFO ("Starting Solana webhook server on " +:+ host +:+ ":" +:+ pretty port);;
  serve name requests.

Definition run (requests : list Request) : M World (list Response) :=
  self ← st_get;
  (if bool_decide (watches (ww_config self) = []) then
     log WARNING "No watches configured. Add watches to config.yaml"
   else mret tt);;
  (for: watch in watches (ww_config self) do: run_watch watch);;
  log INFO ("Watching " +:+ pretty (length (watches (ww_config self)))
            +:+ " addresses...");;
  self ← st_get;
  match pd_keys (ww_chains self) with
  | first_chain :: _ =>
      provider_run first_chain (srv_host (server (ww_config self)))
        (srv_port (server (ww_config self))) requests
  | [] => mret []
  end.

(** ** The [start] command of cli.py, from a loaded configuration *)

(** Running a method of the orchestrator that was just built. *)
Definition with_watcher {A} (watcher : WalletWatch) (m : M World A)
    : M Env (A * WalletWatch) :=
  λ e, match m (watcher, e) with
       | (Ok a, (watcher', e')) => (Ok (a, watcher'), e')
       | (Raise x, (_, e')) => (Raise x, e')
       end.

(** [watcher = WalletWatch(cfg); watcher.run()] *)
Definition session (cfg : Config) (requests : list Request)
    : M Env (list Response * WalletWatch) :=
  watcher ← WalletWatch_init cfg;
  log INFO "Starting Wallet Watch...";;
  with_watcher watcher (run requests).

(** [start] from a configuration in memory, when the server returns after
    the requests: the [try] around the session and the handler of
    [Exception].  The whole command, with the loading of the file and the
    keyboard interrupt, is [start_command] of Cli.v. *)
Definition start (cfg : Config) (requests : list Request) : M Env Z :=
  try: (session cfg requests;; mret 0%Z)
  except: λ e, log ERROR ("Fatal error: " +:+ exn_msg e);; mret 1%Z.

End WalletWatch.

(** ** What delivery leaves alone *)

(** Handling a transaction never touches the configuration or the
    providers, and only adds to the environment. *)
Definition delivery_frame : relation World := λ w w',
  ww_config w'.1 = ww_config w.1 ∧ ww_chains w'.1 = ww_chains w.1
  ∧ env_extends w.2 w'.2.

(** Sending the notifications leaves the storage alone as well. *)
Definition notify_frame : relation World := λ w w',
  delivery_frame w w' ∧ ww_storage w'.1 = ww_storage w.1.

#[export] Instance delivery_frame_preorder : PreOrder delivery_frame.
Proof.
  split; [by intros w|].
  intros w1 w2 w3 (? & ? & ?) (? & ? & ?). split_and!; [congruence..|by etrans].
Qed.

#[export] Instance notify_frame_preorder : PreOrder notify_frame.
Proof.
  split; [by intros w|].
  intros w1 w2 w3 [? ?] [? ?]. split; [by etrans | congruence].
Qed.

Lemma log_notify_frame lvl msg : preserves notify_frame (log lvl msg).
Proof.
  intros [self e]. rewrite log_run. split; [|done].
  split_and!; [done..|apply env_extends_after].
Qed.

Lemma on_notifier_frame {A} name n (m : M (Notifier * Env) A) :
  env_mono m → preserves notify_frame (on_notifier name n m).
Proof.
  intros Hm [self e]. pose proof (env_mono_run m n e Hm) as He.
  unfold on_notifier. simpl. by destruct (m (n, e)) as [r [n' e']].
Qed.

Lemma on_storage_frame {A} db (m : M (SQLiteStorage * Env) A) :
  env_mono m → preserves delivery_frame (on_storage db m).
Proof.
  intros Hm [self e]. pose proof (env_mono_run m db e Hm) as He.
  unfold on_storage. simpl. by destruct (m (db, e)) as [r [db' e']].
Qed.

Lemma notify_frame_delivery {A} (m : M World A) :
  preserves notify_frame m → preserves delivery_frame m.
Proof. intros Hm w. apply Hm. Qed.

#[export] Hint Resolve log_notify_frame : ww.

(** Whether the storage handle is open is never changed: nothing the
    orchestrator runs calls [close]. *)
Definition keeps_open : relation World := λ w w',
  closed <$> ww_storage w'.1 = closed <$> ww_storage w.1.

#[export] Instance keeps_open_preorder : PreOrder keeps_open.
Proof.
  split; [by intros w|].
  intros w1 w2 w3. unfold keeps_open. congruence.
Qed.

Lemma same_storage_keeps_open w w' :
  ww_storage w'.1 = ww_storage w.1 → keeps_open w w'.
Proof. unfold keeps_open. by intros ->. Qed.

Lemma log_keeps_open lvl msg : preserves keeps_open (log lvl msg).
Proof. intros [self e]. by rewrite log_run. Qed.

Section WalletWatch_lemmas.
Context `{!UsdFormat} {order : SetOrder}.
Implicit Types (self : WalletWatch) (e : Env) (w : World) (tx : Transaction).

(** *** The filter *)

Lemma should_notify_no_amount self tx :
  PrimFloat.ltb 0 (min_usd_value (filters (ww_config self))) = true →
  amount_usd tx = None →
  _should_notify self tx = false.
Proof. unfold _should_notify. by intros -> ->. Qed.

(** *** Notifications *)

Lemma notify_via_frame message name :
  preserves notify_frame (notify_via message name).
Proof.
  intros [self e]. unfold notify_via, mbind at 1, M_bind, m_bind, st_get. simpl.
  destruct (pd_get name (ww_notifiers self)) as [n|]; [|done].
  match goal with |- notify_frame _ (?m _).2 => cut (preserves notify_frame m) end;
    [intros Hp; apply Hp|].
  solve_preserves. apply on_notifier_frame.
  exact (send_env_mono (N:=Notifier) message).
Qed.

Lemma notify_via_no_raise message name : no_raise (notify_via message name).
Proof.
  intros [self e]. unfold notify_via, mbind at 1, M_bind, m_bind, st_get. simpl.
  destruct (pd_get name (ww_notifiers self)) as [n|]; [|done].
  apply no_raise_try. intros x. apply no_raise_log.
Qed.

Lemma notify_loop_frame message names :
  preserves notify_frame (m_for names (notify_via message)).
Proof. apply preserves_for; [tc_solve|]. apply notify_via_frame. Qed.

Lemma notify_loop_run message names w :
  m_for names (notify_via message) w =
  (Ok tt, foldl (λ w name, exec (notify_via message name) w) w names).
Proof. apply m_for_exec_foldl. intros ? _. apply notify_via_no_raise. Qed.

(** A name that is not a key of [notifiers] is passed over. *)
Lemma notify_via_unknown message name self e :
  pd_get name (ww_notifiers self) = None →
  notify_via message name (self, e) = (Ok tt, (self, e)).
Proof.
  intros Hn. unfold notify_via, mbind, M_bind, m_bind, st_get. simpl.
  by rewrite Hn.
Qed.

(** *** Storing *)

(** The last step of [_handle_transaction]. *)
Definition store (tx : Transaction) : M World unit :=
  self ← st_get;
  match ww_storage self with
  | Some db => on_storage db (save_transaction tx);; mret tt
  | None => mret tt
  end.

Lemma store_run tx self e :
  store tx (self, e) =
  match ww_storage self with
  | Some db =>
      if closed db then
        (Ok tt, (set_storage (Some db) self,
                 env_log ERROR ("Failed to save transaction: "
                                +:+ exn_msg closed_error) e))
      else
        (Ok tt, (set_storage (Some (insert_or_ignore_transaction (now e) tx db))
                   self, e))
  | None => (Ok tt, (self, e))
  end.
Proof.
  unfold store, mbind at 1, M_bind, m_bind, st_get. simpl.
  destruct (ww_storage self) as [db|]; [|done].
  unfold mbind, M_bind, m_bind, on_storage. simpl.
  destruct (closed db) eqn:Hc;
    [by rewrite save_transaction_closed | by rewrite save_transaction_open].
Qed.

Lemma store_no_raise tx : no_raise (store tx).
Proof.
  intros [self e]. rewrite store_run.
  destruct (ww_storage self) as [db|]; [by destruct (closed db) | done].
Qed.

Lemma store_frame tx : preserves delivery_frame (store tx).
Proof.
  intros [self e]. rewrite store_run.
  destruct (ww_storage self) as [db|]; [|done].
  destruct (closed db); split_and!; try done.
  rewrite env_log_after. apply env_extends_after.
Qed.

(** *** [_handle_transaction] by cases *)

Definition arrival_line tx : log_level * string :=
  (INFO, "New transaction: " +:+ py_prefix 16 (signature tx) +:+ "... on "
         +:+ chain tx).

Definition filtered_line tx : log_level * string :=
  (DEBUG, "Transaction filtered out: " +:+ py_prefix 16 (signature tx) +:+ "...").

Lemma handle_transaction_filtered tx watch self e :
  _should_notify self tx = false →
  _handle_transaction tx watch (self, e) =
  (Ok tt, (self, env_after e [] [arrival_line tx; filtered_line tx])).
Proof.
  intros Hf. unfold _handle_transaction.
  unfold mbind at 1, M_bind, m_bind. rewrite log_run.
  unfold mbind at 1, M_bind, m_bind, st_get. simpl. rewrite Hf. simpl.
  rewrite log_run. by autorewrite with ww_rw.
Qed.

Lemma handle_transaction_passed tx watch self e :
  _should_notify self tx = true →
  _handle_transaction tx watch (self, e) =
  store tx (foldl (λ w name,
                     exec (notify_via (to_message tx (w_label watch)) name) w)
              (self, env_after e [] [arrival_line tx]) (w_notify watch)).
Proof.
  intros Hf. unfold _handle_transaction.
  unfold mbind at 1, M_bind, m_bind. rewrite log_run.
  unfold mbind at 1, M_bind, m_bind, st_get. simpl. rewrite Hf. simpl.
  unfold mbind at 1, M_bind, m_bind. by rewrite notify_loop_run.
Qed.

Lemma handle_transaction_no_raise tx watch :
  no_raise (_handle_transaction tx watch).
Proof.
  intros [self e]. destruct (_should_notify self tx) eqn:Hf.
  - rewrite handle_transaction_passed by done. apply store_no_raise.
  - by rewrite handle_transaction_filtered.
Qed.

Lemma handle_transaction_frame tx watch :
  preserves delivery_frame (_handle_transaction tx watch).
Proof.
  intros [self e]. destruct (_should_notify self tx) eqn:Hf.
  - rewrite handle_transaction_passed by done.
    etrans; [|apply store_frame].
    pose proof (notify_loop_frame (to_message tx (w_label watch)) (w_notify watch)
                  (self, env_after e [] [arrival_line tx])) as Hl.
    rewrite notify_loop_run in Hl. etrans; [|apply Hl].
    split_and!; [done..|apply env_extends_after].
  - rewrite handle_transaction_filtered by done.
    split_and!; [done..|apply env_extends_after].
Qed.

(** *** A threshold on the amount *)

(** [filters.min_usd_value > 0] *)
Definition threshold_on self : bool :=
  PrimFloat.ltb 0 (min_usd_value (filters (ww_config self))).

(** With the threshold on, a step is silent when it changes nothing in the
    orchestrator and makes no request. *)
Definition silent : relation World := λ w w',
  threshold_on w.1 = true → w'.1 = w.1 ∧ calls w'.2 = calls w.2.

#[export] Instance silent_preorder : PreOrder silent.
Proof.
  split; [by intros w|].
  intros [s1 e1] [s2 e2] [s3 e3] H12 H23 Hth. unfold silent in *. simpl in *.
  destruct (H12 Hth) as [Hs Hc]. subst s2. destruct (H23 Hth) as [Hs' Hc'].
  split; congruence.
Qed.

Lemma log_silent lvl msg : preserves silent (log lvl msg).
Proof.
  intros [self e] Hth. rewrite log_run. split; [done | apply app_nil_r].
Qed.

Lemma invoke_silent c tx : provider_tx tx → preserves silent (invoke c tx).
Proof.
  intros [_ Ha] [self e] Hth. unfold invoke.
  rewrite handle_transaction_filtered by by apply should_notify_no_amount.
  split; [done | apply app_nil_r].
Qed.

Lemma log_delivery_frame lvl msg : preserves delivery_frame (log lvl msg).
Proof. apply notify_frame_delivery, log_notify_frame. Qed.

(** *** The subscription loop of [run] *)

Definition watching_line (watch : WatchConfig) : log_level * string :=
  (INFO, "Watching " +:+ str_or (w_label watch) (w_address watch) +:+ " on "
         +:+ w_chain watch).

Definition subscribed_line (watch : WatchConfig) : log_level * string :=
  (INFO, "Subscribed to Solana address: " +:+ w_address watch).

Lemma run_watch_unknown_chain watch self e :
  pd_get (w_chain watch) (ww_chains self) = None →
  run_watch watch (self, e) =
  (Ok tt, (self, env_after e []
                   [(ERROR, "Chain not configured: " +:+ w_chain watch)])).
Proof.
  intros Hc. unfold run_watch, mbind, M_bind, m_bind, st_get. simpl.
  rewrite Hc. apply log_run.
Qed.

Lemma run_watch_invalid watch self e chain :
  pd_get (w_chain watch) (ww_chains self) = Some chain →
  validate_address (w_address watch) = false →
  run_watch watch (self, e) =
  (Ok tt, (self, env_after e []
                   [(ERROR, "Invalid address for " +:+ w_chain watch +:+ ": "
                            +:+ w_address watch)])).
Proof.
  intros Hc Hv. unfold run_watch, mbind, M_bind, m_bind, st_get. simpl.
  rewrite Hc, Hv. apply log_run.
Qed.

(** The orchestrator after a watch was subscribed on its chain. *)
Definition watch_subscribed (watch : WatchConfig)
    (chain : SolanaProvider WatchConfig) self : WalletWatch :=
  set_chains (pd_set (w_chain watch) (subscribed (w_address watch) watch chain)
                (ww_chains self)) self.

Lemma run_watch_valid watch self e chain :
  pd_get (w_chain watch) (ww_chains self) = Some chain →
  validate_address (w_address watch) = true →
  run_watch watch (self, e) =
  (Ok tt, (watch_subscribed watch chain self,
           update_env (subscribed (w_address watch) watch chain)
             (env_after e [] [watching_line watch; subscribed_line watch]))).
Proof.
  intros Hc Hv. unfold run_watch, mbind at 1, M_bind, m_bind, st_get. simpl.
  rewrite Hc, Hv. simpl. unfold mbind, M_bind, m_bind. rewrite log_run.
  unfold on_chain. simpl. rewrite subscribe_valid by done.
  by rewrite env_log_after, env_after_after.
Qed.

(** On a configured chain the body of the loop is [subscribe_checked] of the
    provider interface (Registry.v), run on that chain: the orchestrator puts
    the provider back among its chains when it subscribed. *)
Lemma run_watch_subscribe_checked {bodies : RpcBodies} watch self e chain :
  pd_get (w_chain watch) (ww_chains self) = Some chain →
  run_watch watch (self, e) =
  match subscribe_checked (w_chain watch) (w_label watch) (w_address watch)
          watch (chain, e) with
  | (Ok true, (chain', e')) =>
      (Ok tt, (set_chains (pd_set (w_chain watch) chain' (ww_chains self)) self, e'))
  | (Ok false, (_, e')) => (Ok tt, (self, e'))
  | (Raise x, (_, e')) => (Raise x, (self, e'))
  end.
Proof.
  intros Hc. destruct (validate_address (w_address watch)) eqn:Hv.
  - rewrite (run_watch_valid _ _ _ _ Hc Hv). unfold subscribe_checked.
    rewrite m_bind_run. simpl. rewrite Hv. cbn [negb].
    rewrite m_bind_run, log_run, m_bind_run, subscribe_valid by done.
    by rewrite env_log_after, env_after_after.
  - rewrite (run_watch_invalid _ _ _ _ Hc Hv).
    by rewrite subscribe_checked_refused.
Qed.

(** A watch is accepted for an address of a chain when it names them and
    the address validates. *)
Definition accepts (name a : string) (watch : WatchConfig) : Prop :=
  w_chain watch = name ∧ w_address watch = a ∧ validate_address a = true.

#[export] Instance accepts_dec name a watch : Decision (accepts name a watch).
Proof. unfold accepts. apply _. Defined.

(** A provider after the loop ran over the watches [ws]: its settings are
    the same, and the callbacks of each address are extended by the accepted
    watches for it, in order. *)
Definition grown (name : string) (ws : list WatchConfig)
    (chain chain' : SolanaProvider WatchConfig) : Prop :=
  webhook_secret chain' = webhook_secret chain
  ∧ ∀ a, callbacks_of a (base chain') =
         callbacks_of a (base chain) ++ filter (accepts name a) ws.

Lemma grown_nil name chain : grown name [] chain chain.
Proof. split; [done|]. intros a. by rewrite app_nil_r. Qed.

Lemma grown_skip name watch chain :
  (∀ a, ¬ accepts name a watch) → grown name [watch] chain chain.
Proof.
  intros Hno. split; [done|]. intros a.
  by rewrite filter_cons_False, app_nil_r by apply Hno.
Qed.

Lemma grown_cons name watch ws chain chain1 chain' :
  grown name [watch] chain chain1 → grown name ws chain1 chain' →
  grown name (watch :: ws) chain chain'.
Proof.
  intros [Hs1 Hcb1] [Hs Hcb]. split; [congruence|]. intros a.
  rewrite Hcb, Hcb1, <-app_assoc. f_equal. by rewrite <-filter_app.
Qed.

Lemma grown_subscribed watch chain :
  validate_address (w_address watch) = true →
  grown (w_chain watch) [watch] chain (subscribed (w_address watch) watch chain).
Proof.
  intros Hv. split; [done|]. intros a.
  rewrite base_subscribed, callbacks_of_add_callback.
  case_decide as Ha; [subst a; by rewrite filter_cons_True|].
  rewrite filter_cons_False, app_nil_r; [done | by intros (_ & ? & _)].
Qed.

(** What one round of the loop does to the provider of a chain. *)
Lemma run_watch_callbacks watch self e name chain :
  pd_get name (ww_chains self) = Some chain →
  ∃ self' e' chain',
    run_watch watch (self, e) = (Ok tt, (self', e'))
    ∧ pd_get name (ww_chains self') = Some chain'
    ∧ grown name [watch] chain chain'.
Proof.
  intros Hn. destruct (pd_get (w_chain watch) (ww_chains self)) as [c|] eqn:Hc;
    [destruct (validate_address (w_address watch)) eqn:Hv|].
  - rewrite (run_watch_valid _ _ _ _ Hc Hv).
    destruct (decide (w_chain watch = name)) as [<-|Hne].
    + eexists _, _, _. split; [done|]. simpl. rewrite pd_get_set_eq.
      split; [done|]. assert (c = chain) as -> by congruence.
      by apply grown_subscribed.
    + eexists _, _, chain. split; [done|]. simpl.
      rewrite pd_get_set_ne by done. split; [done|].
      apply grown_skip. by intros a (? & _).
  - rewrite (run_watch_invalid _ _ _ _ Hc Hv). eexists _, _, chain.
    split_and!; [done..|]. apply grown_skip. intros a (_ & <- & ?). congruence.
  - rewrite (run_watch_unknown_chain _ _ _ Hc). eexists _, _, chain.
    split_and!; [done..|]. apply grown_skip. intros a (<- & _). congruence.
Qed.

(** The whole loop. *)
Lemma subscribe_loop_callbacks ws : ∀ self e name chain,
  pd_get name (ww_chains self) = Some chain →
  ∃ self' e' chain',
    m_for ws run_watch (self, e) = (Ok tt, (self', e'))
    ∧ pd_get name (ww_chains self') = Some chain'
    ∧ grown name ws chain chain'.
Proof.
  induction ws as [|watch ws IH]; intros self e name chain Hn.
  - eexists _, _, chain. split_and!; [done..|]. apply grown_nil.
  - destruct (run_watch_callbacks watch self e name chain Hn)
      as (self1 & e1 & chain1 & Hrun & Hn1 & Hg1).
    destruct (IH self1 e1 name chain1 Hn1) as (self' & e' & chain' & Hloop & Hn' & Hg).
    exists self', e', chain'. split_and!; [|done|by eapply grown_cons].
    simpl. unfold m_bind. by rewrite Hrun.
Qed.

Lemma run_watch_no_raise watch : no_raise (run_watch watch).
Proof.
  intros [self e].
  destruct (pd_get (w_chain watch) (ww_chains self)) as [c|] eqn:Hc;
    [destruct (validate_address (w_address watch)) eqn:Hv|].
  - by rewrite (run_watch_valid _ _ _ _ Hc Hv).
  - by rewrite (run_watch_invalid _ _ _ _ Hc Hv).
  - by rewrite (run_watch_unknown_chain _ _ _ Hc).
Qed.

(** The loop leaves the rest of the orchestrator alone and keeps the
    names of the chains in their order. *)
Definition run_frame : relation World := λ w w',
  ww_config w'.1 = ww_config w.1
  ∧ pd_keys (ww_chains w'.1) = pd_keys (ww_chains w.1)
  ∧ ww_notifiers w'.1 = ww_notifiers w.1
  ∧ ww_storage w'.1 = ww_storage w.1
  ∧ env_extends w.2 w'.2.

#[export] Instance run_frame_preorder : PreOrder run_frame.
Proof.
  split; [by intros w|].
  intros w1 w2 w3 (? & ? & ? & ? & ?) (? & ? & ? & ? & ?).
  split_and!; [congruence..|by etrans].
Qed.

Lemma run_watch_frame watch : preserves run_frame (run_watch watch).
Proof.
  intros [self e].
  destruct (pd_get (w_chain watch) (ww_chains self)) as [c|] eqn:Hc;
    [destruct (validate_address (w_address watch)) eqn:Hv|].
  - rewrite (run_watch_valid _ _ _ _ Hc Hv). split_and!; try done.
    + simpl. rewrite pd_keys_set. by rewrite (proj2 (pd_mem_spec _ _)) by eauto.
    + unfold update_env. case_match; rewrite env_after_after;
        apply env_extends_after.
  - rewrite (run_watch_invalid _ _ _ _ Hc Hv).
    split_and!; [done..|apply env_extends_after].
  - rewrite (run_watch_unknown_chain _ _ _ Hc).
    split_and!; [done..|apply env_extends_after].
Qed.

Lemma handle_webhook_frame chain request :
  preserves delivery_frame (handle_webhook invoke chain request).
Proof.
  apply handle_webhook_preserves; [tc_solve|apply log_delivery_frame|].
  intros c tx _. apply handle_transaction_frame.
Qed.

Lemma subscribe_loop_frame ws : preserves run_frame (m_for ws run_watch).
Proof. apply preserves_for; [tc_solve|]. apply run_watch_frame. Qed.

(** *** [_setup] *)

(** What a chain configuration and a notifier configuration add to the
    dictionaries: an entry when the constructor returns, nothing when it
    raises. *)
Definition built_chain (cc : ChainConfig)
    : list (string * SolanaProvider WatchConfig) :=
  match get_chain_provider (cc_name cc) (cc_api_key cc) (cc_rpc_url cc)
          (cc_webhook_id cc) (cc_webhook_url cc) (cc_webhook_secret cc) with
  | Ok provider => [(cc_name cc, provider)]
  | Raise _ => []
  end.

Definition built_notifier (nc : NotifierConfig) : list (string * Notifier) :=
  match get_notifier (nc_type nc) (nc_bot_token nc) (nc_webhook_url nc)
          (nc_chat_id nc) with
  | Ok notifier => [(nc_type nc, notifier)]
  | Raise _ => []
  end.

(** The provider built from a chain configuration named [solana]. *)
Definition provider_of (cc : ChainConfig) : SolanaProvider WatchConfig :=
  SolanaProvider_init (cc_api_key cc) (cc_rpc_url cc) (cc_webhook_id cc)
    (cc_webhook_url cc) (cc_webhook_secret cc).

Lemma built_chains_solana (ccs : list ChainConfig) :
  ccs ≫= built_chain =
  (λ cc, ("solana", provider_of cc)) <$> filter (λ cc, cc_name cc = "solana") ccs.
Proof.
  induction ccs as [|cc ccs IH]; [done|]. csimpl. rewrite IH, filter_cons.
  unfold built_chain, get_chain_provider, PROVIDERS.
  destruct (decide (cc_name cc = "solana")) as [Hn|Hn].
  - rewrite decide_True by (rewrite Hn; left). by rewrite Hn.
  - rewrite decide_False; [done|]. by intros ?%list_elem_of_singleton.
Qed.

Lemma setup_chain_run cc self e :
  ∃ l, setup_chain cc (self, e) =
       (Ok tt, (set_chains (pd_update (ww_chains self) (built_chain cc)) self,
                env_after e [] [l])).
Proof.
  unfold setup_chain, built_chain, m_try, mbind, M_bind, m_bind, m_lift.
  destruct (get_chain_provider _ _ _ _ _ _) as [p|x]; simpl;
    [rewrite env_log_after | rewrite log_run; destruct self]; by eexists.
Qed.

Lemma setup_notifier_run nc self e :
  ∃ l, setup_notifier nc (self, e) =
       (Ok tt, (set_notifiers (pd_update (ww_notifiers self) (built_notifier nc))
                  self,
                env_after e [] [l])).
Proof.
  unfold setup_notifier, built_notifier, m_try, mbind, M_bind, m_bind, m_lift.
  destruct (get_notifier _ _ _ _) as [n|x]; simpl;
    [rewrite env_log_after | rewrite log_run; destruct self]; by eexists.
Qed.

Lemma setup_chains_run ccs : ∀ self e,
  ∃ ls, m_for ccs setup_chain (self, e) =
        (Ok tt, (set_chains (pd_update (ww_chains self) (ccs ≫= built_chain)) self,
                 env_after e [] ls)).
Proof.
  induction ccs as [|cc ccs IH]; intros self e.
  - exists []. rewrite env_after_nil. by destruct self.
  - simpl. unfold m_bind. destruct (setup_chain_run cc self e) as [l ->].
    destruct (IH (set_chains (pd_update (ww_chains self) (built_chain cc)) self)
                (env_after e [] [l])) as [ls ->].
    exists (l :: ls). rewrite env_after_after. csimpl. by rewrite pd_update_app.
Qed.

Lemma setup_notifiers_run ncs : ∀ self e,
  ∃ ls, m_for ncs setup_notifier (self, e) =
        (Ok tt, (set_notifiers
                   (pd_update (ww_notifiers self) (ncs ≫= built_notifier)) self,
                 env_after e [] ls)).
Proof.
  induction ncs as [|nc ncs IH]; intros self e.
  - exists []. rewrite env_after_nil. by destruct self.
  - simpl. unfold m_bind. destruct (setup_notifier_run nc self e) as [l ->].
    destruct (IH (set_notifiers
                    (pd_update (ww_notifiers self) (built_notifier nc)) self)
                (env_after e [] [l])) as [ls ->].
    exists (l :: ls). rewrite env_after_after. csimpl. by rewrite pd_update_app.
Qed.

Definition unknown_storage (config : Config) : exn :=
  Exn ValueError ("Unknown storage type: " +:+ sc_type (storage config)
                  +:+ ". Available: ['sqlite']").

Lemma get_storage_run (config : StorageConfig) self e :
  get_storage config (self, e) =
  if decide (sc_type config = "sqlite") then
    (Ok (SQLiteStorage_init (sc_path config)),
     (self, env_after e []
              [(INFO, "SQLite storage initialized at " +:+ sc_path config)]))
  else (Raise (Exn ValueError ("Unknown storage type: " +:+ sc_type config
                               +:+ ". Available: ['sqlite']")), (self, e)).
Proof.
  unfold get_storage, STORAGE_PROVIDERS. cbv zeta.
  destruct (decide (sc_type config = "sqlite")) as [Hs|Hs].
  - rewrite Hs, decide_False by (intros Hn; apply Hn; left).
    unfold mbind, M_bind, m_bind. by rewrite log_run.
  - rewrite decide_True; [done|]. by intros ?%list_elem_of_singleton.
Qed.

(** The orchestrator [_setup] builds. *)
Definition set_up self : WalletWatch :=
  {| ww_config := ww_config self;
     ww_chains := pd_update (ww_chains self)
                    (chains (ww_config self) ≫= built_chain);
     ww_notifiers := pd_update (ww_notifiers self)
                       (notifiers (ww_config self) ≫= built_notifier);
     ww_storage := Some (SQLiteStorage_init (sc_path (storage (ww_config self)))) |}.

Lemma setup_run self e :
  sc_type (storage (ww_config self)) = "sqlite" →
  ∃ ls, _setup (self, e) = (Ok tt, (set_up self, env_after e [] ls)).
Proof.
  intros Hs. unfold _setup. unfold mbind at 1, M_bind, m_bind, st_get. simpl.
  unfold mbind at 1, M_bind, m_bind. rewrite get_storage_run, decide_True by done.
  unfold mbind at 1, M_bind, m_bind, st_modify. simpl.
  unfold mbind at 1, M_bind, m_bind. rewrite log_run.
  unfold mbind at 1, M_bind, m_bind.
  change (m_for ?l (λ x, setup_chain x)) with (m_for l setup_chain).
  change (m_for ?l (λ x, setup_notifier x)) with (m_for l setup_notifier).
  edestruct setup_chains_run as [ls1 ->]. edestruct setup_notifiers_run as [ls2 ->].
  eexists. by rewrite !env_after_after.
Qed.

Lemma setup_unknown_storage self e :
  sc_type (storage (ww_config self)) ≠ "sqlite" →
  _setup (self, e) = (Raise (unknown_storage (ww_config self)), (self, e)).
Proof.
  intros Hs. unfold _setup. unfold mbind at 1, M_bind, m_bind, st_get. simpl.
  unfold mbind at 1, M_bind, m_bind. by rewrite get_storage_run, decide_False.
Qed.

(** The warning [run] starts with when nothing is watched. *)
Lemma no_watches_warning self e :
  ∃ e1, (if bool_decide (watches (ww_config self) = [])
         then log WARNING "No watches configured. Add watches to config.yaml"
         else mret tt) (self, e) = (Ok tt, (self, e1))
        ∧ env_extends e e1.
Proof.
  case_bool_decide; [rewrite log_run|]; eexists; (split; [done|]);
    [apply env_extends_after | reflexivity].
Qed.

(** *** The server and [run] as a whole *)

(** The server answers every request, in order, and never raises; the
    configuration and the subscriptions are the same afterwards. *)
Lemma serve_spec name chain requests : ∀ w,
  pd_get name (ww_chains w.1) = Some chain →
  ∃ rs w', serve name requests w = (Ok rs, w')
           ∧ status <$> rs = expected_status chain <$> requests
           ∧ delivery_frame w w'.
Proof.
  induction requests as [|request requests IH]; intros [self e] Hn; [by eexists _, _|].
  simpl in Hn. simpl. unfold mbind at 1, M_bind, m_bind, st_get. simpl. rewrite Hn.
  destruct (handle_webhook_status invoke chain request (self, e)) as (r & w1 & Hr & Hs).
  pose proof (handle_webhook_frame chain request (self, e)) as Hfr.
  unfold mbind at 1, M_bind, m_bind. rewrite Hr in *. simpl in Hfr.
  destruct (IH w1) as (rs & w' & Hrs & Hst & Hfr');
    [by rewrite (proj1 (proj2 Hfr))|].
  unfold mbind, M_bind, m_bind. rewrite Hrs. eexists _, _. split; [done|].
  csimpl. rewrite Hs, Hst. split; [done | by etrans].
Qed.

Definition watching_total (self : WalletWatch) : log_level * string :=
  (INFO, "Watching " +:+ pretty (length (watches (ww_config self)))
         +:+ " addresses...").

Definition starting_line (self : WalletWatch) : log_level * string :=
  (INFO, "Starting Solana webhook server on "
         +:+ srv_host (server (ww_config self)) +:+ ":"
         +:+ pretty (srv_port (server (ww_config self)))).

(** [run] is the subscription loop followed by the first provider's server. *)
Lemma run_decompose requests self e :
  ∃ e1 self' e',
    env_extends e e1
    ∧ m_for (watches (ww_config self)) run_watch (self, e1) = (Ok tt, (self', e'))
    ∧ run requests (self, e) =
      match pd_keys (ww_chains self') with
      | [] => (Ok [], (self', env_after e' [] [watching_total self]))
      | first :: _ =>
          serve first requests
            (self', env_after e' [] [watching_total self; starting_line self'])
      end.
Proof.
  unfold run. unfold mbind at 1, M_bind, m_bind, st_get. simpl.
  unfold mbind at 1, M_bind, m_bind.
  destruct (no_watches_warning self e) as (e1 & -> & He1). exists e1.
  pose proof (m_for_exec_foldl (watches (ww_config self)) run_watch (self, e1)
                (λ x _, run_watch_no_raise x)) as Hloop.
  destruct (foldl _ _ _) as [self' e']. exists self', e'.
  split_and!; [done..|]. unfold mbind at 1, M_bind, m_bind.
  change (m_for ?l (λ x, run_watch x)) with (m_for l run_watch). rewrite Hloop.
  unfold mbind at 1, M_bind, m_bind. rewrite log_run.
  unfold mbind at 1, M_bind, m_bind, st_get. simpl.
  destruct (pd_keys (ww_chains self')) as [|first rest]; [done|].
  unfold provider_run, mbind, M_bind, m_bind. rewrite log_run.
  by rewrite env_after_after.
Qed.

Lemma run_no_raise requests : no_raise (run requests).
Proof.
  intros [self e].
  destruct (run_decompose requests self e) as (e1 & self' & e' & _ & _ & ->).
  destruct (pd_keys (ww_chains self')) as [|first rest] eqn:Hk; [done|].
  assert (is_Some (pd_get first (ww_chains self'))) as [chain Hc].
  { apply pd_mem_spec, pd_mem_keys. rewrite Hk. left. }
  by destruct (serve_spec first chain requests
                 (self', env_after e' [] [watching_total self; starting_line self'])
                 Hc) as (rs & w' & -> & _).
Qed.

(** *** The storage stays open *)

Lemma store_keeps_open tx : preserves keeps_open (store tx).
Proof.
  intros [self e]. rewrite store_run. unfold keeps_open.
  destruct (ww_storage self) as [db|] eqn:Hdb; [|done].
  destruct (closed db) eqn:Hc; simpl; rewrite Hdb; simpl; [by rewrite Hc|].
  unfold insert_or_ignore_transaction. case_match; simpl; by rewrite Hc.
Qed.

Lemma handle_transaction_keeps_open tx watch :
  preserves keeps_open (_handle_transaction tx watch).
Proof.
  intros [self e]. destruct (_should_notify self tx) eqn:Hf.
  - rewrite handle_transaction_passed by done.
    etrans; [|apply store_keeps_open].
    pose proof (notify_loop_frame (to_message tx (w_label watch)) (w_notify watch)
                  (self, env_after e [] [arrival_line tx])) as [_ Hl].
    rewrite notify_loop_run in Hl. by apply same_storage_keeps_open.
  - by rewrite handle_transaction_filtered.
Qed.

Lemma handle_webhook_keeps_open chain request :
  preserves keeps_open (handle_webhook invoke chain request).
Proof.
  apply handle_webhook_preserves; [tc_solve|apply log_keeps_open|].
  intros c tx _. apply handle_transaction_keeps_open.
Qed.

Lemma serve_keeps_open name requests : preserves keeps_open (serve name requests).
Proof.
  induction requests as [|request requests IH]; [apply preserves_ret, _|]. simpl.
  apply preserves_bind; [tc_solve|apply preserves_st_get, _|]. intros self.
  destruct (pd_get name (ww_chains self)); [|apply preserves_ret, _].
  apply preserves_bind; [tc_solve|apply handle_webhook_keeps_open|]. intros r.
  apply preserves_bind; [tc_solve|exact IH|]. intros rs. apply preserves_ret, _.
Qed.

Lemma run_keeps_open requests : preserves keeps_open (run requests).
Proof.
  intros [self e].
  destruct (run_decompose requests self e) as (e1 & self' & e' & _ & Hloop & ->).
  pose proof (subscribe_loop_frame (watches (ww_config self)) (self, e1))
    as (_ & _ & _ & Hst & _).
  rewrite Hloop in Hst. simpl in Hst.
  destruct (pd_keys (ww_chains self')); [by apply same_storage_keeps_open|].
  etrans; [|apply serve_keeps_open]. by apply same_storage_keeps_open.
Qed.

End WalletWatch_lemmas.

(** ** Theorems *)

Section WalletWatch_theorems.
Context `{!UsdFormat} {order : SetOrder}.
Implicit Types (self : WalletWatch) (e : Env) (w : World) (tx : Transaction).

(** C26: [_should_notify] accepts a transaction exactly when it passes
    both filters: with a positive threshold it has an amount that is not
    below the threshold, and with a list of types its type is in the list. *)
Theorem should_notify_spec self tx :
  _should_notify self tx = true ↔
  (threshold_on self = true →
   ∃ a, amount_usd tx = Some a
        ∧ PrimFloat.ltb a (min_usd_value (filters (ww_config self))) = false)
  ∧ (tx_types (filters (ww_config self)) ≠ [] →
     tx_type tx ∈ tx_types (filters (ww_config self))).
Proof.
  unfold _should_notify, threshold_on.
  destruct (PrimFloat.ltb 0 _); simpl.
  - destruct (amount_usd tx) as [a|]; [destruct (PrimFloat.ltb a _) eqn:Ea|]; simpl.
    + split; [done|]. intros [Ha _]. destruct Ha as (a' & [= <-] & ?); congruence.
    + repeat case_bool_decide; simpl; naive_solver.
    + split; [done|]. intros [Ha _]. by destruct Ha as (a' & ? & ?).
  - repeat case_bool_decide; simpl; naive_solver.
Qed.

(** With a positive threshold, no transaction the Solana provider
    builds passes the filter, because the provider never sets an amount. *)
Theorem solana_events_fail_threshold self tx :
  threshold_on self = true → provider_tx tx → _should_notify self tx = false.
Proof. intros Hth [_ Ha]. by apply should_notify_no_amount. Qed.

(** An amount that is not a number passes every threshold, because
    [amount < min] is false for NaN. *)
Theorem nan_amount_passes_threshold self tx a :
  amount_usd tx = Some a →
  PrimFloat.is_nan a = true →
  tx_types (filters (ww_config self)) = [] →
  _should_notify self tx = true.
Proof.
  intros Ha Hnan Hty. unfold _should_notify.
  rewrite Ha, (is_nan_ltb a) by done. rewrite andb_false_r. by rewrite Hty.
Qed.

(** C27: a transaction that does not pass the filter is neither notified
    nor stored: the orchestrator is unchanged, no request is made, and the
    log gets the arrival line and the filtered line. *)
Theorem handle_transaction_filtered_silent tx watch self e :
  _should_notify self tx = false →
  ∃ e', _handle_transaction tx watch (self, e) = (Ok tt, (self, e'))
        ∧ calls e' = calls e
        ∧ logs e' = logs e ++ [arrival_line tx; filtered_line tx].
Proof.
  intros Hf. eexists. rewrite handle_transaction_filtered by done.
  split_and!; [done | apply app_nil_r | done].
Qed.

(** C1: a transaction that passes the filter is stored after the
    notifications, whatever the notifiers did: the storage ends as the
    insert-or-ignore of the transaction, stamped with the clock, into the
    storage it started from. *)
Theorem handle_transaction_stores tx watch self e db :
  _should_notify self tx = true →
  ww_storage self = Some db → closed db = false →
  ∃ self' e',
    _handle_transaction tx watch (self, e) = (Ok tt, (self', e'))
    ∧ ww_storage self' = Some (insert_or_ignore_transaction (now e) tx db)
    ∧ env_extends e e'.
Proof.
  intros Hf Hs Hc. rewrite handle_transaction_passed by done.
  pose proof (notify_loop_frame (to_message tx (w_label watch)) (w_notify watch)
                (self, env_after e [] [arrival_line tx])) as Hl.
  rewrite notify_loop_run in Hl. simpl in Hl.
  destruct (foldl _ _ _) as [self1 e1]. destruct Hl as [(_ & _ & He) Hst].
  simpl in *. rewrite store_run, Hst, Hs, Hc. eexists _, _. split; [done|].
  split; [by rewrite (env_extends_now _ _ He)|].
  etrans; [apply env_extends_after | exact He].
Qed.

(** [_handle_transaction] never raises, whatever the notifiers and
    the storage do, and it leaves the configuration and the providers as
    they were. *)
Theorem handle_transaction_total tx watch w :
  ∃ w', _handle_transaction tx watch w = (Ok tt, w') ∧ delivery_frame w w'.
Proof.
  pose proof (handle_transaction_no_raise tx watch w) as Hn.
  pose proof (handle_transaction_frame tx watch w) as Hfr.
  destruct (_handle_transaction tx watch w) as [[[]|x] w']; [eauto | done].
Qed.

(** C5: with a positive threshold, a request to the webhook route has no
    effect beyond the log, whatever its body: no notifier is called, nothing
    is stored. *)
Theorem threshold_silences_webhook chain request self e :
  threshold_on self = true →
  ∃ r e', handle_webhook invoke chain request (self, e) = (Ok r, (self, e'))
          ∧ calls e' = calls e.
Proof.
  intros Hth.
  pose proof (handle_webhook_no_raise invoke chain request (self, e)) as Hn.
  pose proof (handle_webhook_preserves invoke silent log_silent invoke_silent
                chain request (self, e) Hth) as Hs.
  destruct (handle_webhook invoke chain request (self, e)) as [[r|x] [self' e']];
    [|done]. destruct Hs as [Hs Hc]. simpl in *. subst. eauto.
Qed.

(** Handling a request to the webhook route changes neither the
    configuration nor the providers and their subscriptions, keeps what is
    already in the log and in the list of requests, and does not move the
    clock. *)
Theorem webhook_keeps_registry chain request w :
  let w' := (handle_webhook invoke chain request w).2 in
  ww_config w'.1 = ww_config w.1
  ∧ ww_chains w'.1 = ww_chains w.1
  ∧ calls w.2 `prefix_of` calls w'.2
  ∧ logs w.2 `prefix_of` logs w'.2
  ∧ now w'.2 = now w.2.
Proof.
  pose proof (handle_webhook_preserves invoke delivery_frame log_delivery_frame
                (λ c tx _, handle_transaction_frame tx c) chain request w)
    as (? & ? & He).
  split_and!; [done..|by apply env_extends_calls|by apply env_extends_logs
               |by apply env_extends_now].
Qed.

(** Constructing the orchestrator with a storage type other than
    [sqlite] raises [ValueError] before any chain or notifier is set up, and
    logs nothing. *)
Theorem init_unknown_storage_raises config e :
  sc_type (storage config) ≠ "sqlite" →
  WalletWatch_init config e = (Raise (unknown_storage config), e).
Proof.
  intros Hs. unfold WalletWatch_init. by rewrite setup_unknown_storage.
Qed.

(** C25: constructing the orchestrator with the [sqlite] storage returns,
    whatever the chains and the notifiers of the configuration are, without
    a single request.  The storage is a new database.  Only the chains
    named [solana] are built and the last of them wins; a notifier is
    looked up by its type, and the last configuration of a type that could
    be built wins. *)
Theorem init_builds_from_config config e :
  sc_type (storage config) = "sqlite" →
  ∃ self e',
    WalletWatch_init config e = (Ok self, e')
    ∧ ww_config self = config
    ∧ ww_storage self = Some (SQLiteStorage_init (sc_path (storage config)))
    ∧ ww_chains self =
        match last (filter (λ cc, cc_name cc = "solana") (chains config)) with
        | Some cc => [("solana", provider_of cc)]
        | None => []
        end
    ∧ (∀ ty, pd_get ty (ww_notifiers self) =
             snd <$> last (filter (λ kv, kv.1 = ty)
                             (notifiers config ≫= built_notifier)))
    ∧ calls e' = calls e.
Proof.
  intros Hs. unfold WalletWatch_init.
  edestruct (setup_run {| ww_config := config; ww_chains := [];
                          ww_notifiers := []; ww_storage := None |} e Hs)
    as [ls ->].
  eexists _, _. split; [done|]. simpl. split_and!; [done..| | |apply app_nil_r].
  - rewrite built_chains_solana, (pd_update_one_key "solana").
    + rewrite fmap_last. by destruct (last _).
    + apply Forall_fmap, Forall_true. done.
  - intros ty. rewrite pd_get_update. by destruct (last _).
Qed.

(** C8: [run] subscribes every watch that names a configured chain and
    has a valid address, in the order of the configuration, and passes over
    the others: afterwards the callbacks of each address of a chain are the
    ones it had followed by the accepted watches for it.  The notifiers and
    the storage are not touched. *)
Theorem run_subscribes_accepted_watches self e name chain :
  pd_get name (ww_chains self) = Some chain →
  ∃ self' e' chain',
    run [] (self, e) = (Ok [], (self', e'))
    ∧ pd_get name (ww_chains self') = Some chain'
    ∧ (∀ a, callbacks_of a (base chain') =
            callbacks_of a (base chain)
            ++ filter (accepts name a) (watches (ww_config self)))
    ∧ ww_notifiers self' = ww_notifiers self
    ∧ ww_storage self' = ww_storage self.
Proof.
  intros Hn. destruct (run_decompose [] self e) as (e1 & self' & e' & _ & Hloop & ->).
  destruct (subscribe_loop_callbacks (watches (ww_config self)) self e1 name
              chain Hn) as (self2 & e2 & chain' & Hloop' & Hn' & _ & Hcb).
  pose proof (subscribe_loop_frame (watches (ww_config self)) (self, e1))
    as (_ & _ & Hno & Hst & _).
  rewrite Hloop in Hloop', Hno, Hst. injection Hloop' as <- <-.
  destruct (pd_keys (ww_chains self')); by eexists _, _, chain'.
Qed.

(** C21: [run] never raises and answers every request, in order: 401 for
    a request that is not authorized by the secret of the first chain, 200
    for a body that is a dict or a list, 500 otherwise. *)
Theorem run_answers_every_request requests self e name rest chain :
  pd_keys (ww_chains self) = name :: rest →
  pd_get name (ww_chains self) = Some chain →
  ∃ rs w', run requests (self, e) = (Ok rs, w')
           ∧ status <$> rs = expected_status chain <$> requests.
Proof.
  intros Hk Hn.
  destruct (run_decompose requests self e) as (e1 & self' & e' & _ & Hloop & ->).
  destruct (subscribe_loop_callbacks (watches (ww_config self)) self e1 name
              chain Hn) as (self2 & e2 & chain' & Hloop' & Hn' & Hsec & _).
  pose proof (subscribe_loop_frame (watches (ww_config self)) (self, e1))
    as (_ & Hk' & _).
  rewrite Hloop in Hloop', Hk'. injection Hloop' as <- <-.
  simpl in Hk'. rewrite Hk', Hk.
  destruct (serve_spec name chain' requests
              (self', env_after e' [] [watching_total self; starting_line self']) Hn')
    as (rs & w' & -> & Hst & _).
  exists rs, w'. split; [done|]. rewrite Hst. apply list_fmap_ext. intros _ request _.
  unfold expected_status, authorized. by rewrite Hsec.
Qed.

(** Once the configuration is loaded, [start] never ends with an
    uncaught exception: the process serves the requests and ends with code 0
    when the storage type is [sqlite], and ends with code 1, after logging
    the fatal error, when it is not.  No chain, notifier, watch, request or
    network failure makes it end otherwise (the database file itself always
    opens in this model). *)
Theorem start_exit_code cfg requests e :
  ∃ e', start cfg requests e =
        (Ok (if decide (sc_type (storage cfg) = "sqlite") then 0%Z else 1%Z), e').
Proof.
  unfold start, session, m_try. unfold mbind at 1, M_bind, m_bind.
  unfold mbind at 1, M_bind, m_bind, WalletWatch_init.
  case_decide as Hs.
  - edestruct (setup_run {| ww_config := cfg; ww_chains := [];
                            ww_notifiers := []; ww_storage := None |} e Hs)
      as [ls ->].
    unfold mbind at 1, M_bind, m_bind, log, m_modify, with_watcher. simpl.
    match goal with |- context [run requests ?w] =>
      pose proof (run_no_raise requests w) as Hn;
      destruct (run requests w) as [[rs|x] [watcher' e']]; [|done] end.
    by eexists.
  - rewrite setup_unknown_storage by done. unfold mbind, M_bind, m_bind, log.
    by eexists.
Qed.

End WalletWatch_theorems.

(** ** The theorems at concrete inputs *)

(** A rendering of amounts for the examples; no theorem depends on it. *)
Definition plain_usd : UsdFormat := λ _, "0.00".

Definition treasury : WatchConfig :=
  {| w_address := system_program; w_chain := "solana"; w_label := "Treasury";
     w_notify := ["webhook"; "pager"]; w_filters := [] |}.

(** One Solana chain, one webhook notifier, one watch that also names a
    notifier that is not configured, and the threshold [min_usd]. *)
Definition example_config (min_usd : float) : Config :=
  {| chains := [{| cc_name := "solana"; cc_provider := "helius";
                   cc_api_key := "key"; cc_rpc_url := "";
                   cc_webhook_url := "https://example.org/webhook";
                   cc_webhook_id := "wh-1"; cc_webhook_secret := "s3cret" |}];
     notifiers := [{| nc_type := "webhook"; nc_bot_token := "";
                      nc_webhook_url := "https://hooks.example.org/notify";
                      nc_chat_id := "" |}];
     watches := [treasury];
     filters := {| min_usd_value := min_usd; tx_types := [] |};
     storage := default_StorageConfig;
     server := default_ServerConfig 8080 |}.

Definition example_chain : SolanaProvider WatchConfig :=
  subscribed system_program treasury
    (SolanaProvider_init "key" "" "wh-1" "https://example.org/webhook" "s3cret").

Definition example_db : SQLiteStorage := SQLiteStorage_init "./data/wallet_watch.db".

(** The orchestrator of [example_config] once [run] has subscribed the
    watch. *)
Definition watcher (min_usd : float) : WalletWatch :=
  {| ww_config := example_config min_usd;
     ww_chains := [("solana", example_chain)];
     ww_notifiers :=
       [("webhook",
         NWebhook {| wh_config := [("bot_token", ""); ("chat_id", "")];
                     Notifiers.webhook_url := "https://hooks.example.org/notify";
                     headers := [("Content-Type", "application/json")];
                     method := "POST" |})];
     ww_storage := Some example_db |}.

Definition example_tx : Transaction :=
  delivered (transfer_event 1700000000) system_program.

Definition example_request : Request :=
  mkRequest (Some "s3cret") (Ok (BodyList [transfer_event 1700000000])).

Lemma solana_events_fail_threshold_witness :
  _should_notify (watcher 1) example_tx = false.
Proof. by apply (solana_events_fail_threshold (watcher 1) example_tx). Defined.

(** A transaction whose amount is NaN, as another provider could build. *)
Definition nan_tx : Transaction :=
  mkTransaction "sig2" "solana" system_program "SWAP" "swap" (Some nan) None None.

Lemma nan_amount_passes_threshold_witness :
  _should_notify (watcher 1000000) nan_tx = true.
Proof. by apply (nan_amount_passes_threshold (watcher 1000000) nan_tx nan). Defined.

Lemma handle_transaction_filtered_silent_witness :
  ∃ e', _handle_transaction (H:=plain_usd) example_tx treasury (watcher 1, quiet)
        = (Ok tt, (watcher 1, e'))
        ∧ calls e' = calls quiet
        ∧ logs e' = logs quiet ++ [arrival_line example_tx; filtered_line example_tx].
Proof.
  by apply (handle_transaction_filtered_silent (H:=plain_usd) example_tx treasury
              (watcher 1) quiet).
Defined.

Lemma handle_transaction_stores_witness :
  ∃ self' e',
    _handle_transaction (H:=plain_usd) example_tx treasury (watcher 0, quiet)
    = (Ok tt, (self', e'))
    ∧ ww_storage self'
      = Some (insert_or_ignore_transaction (now quiet) example_tx example_db)
    ∧ env_extends quiet e'.
Proof.
  by apply (handle_transaction_stores (H:=plain_usd) example_tx treasury
              (watcher 0) quiet example_db).
Defined.

Lemma threshold_silences_webhook_witness :
  ∃ r e', handle_webhook (order:=insertion_order) (invoke (H:=plain_usd))
            example_chain example_request (watcher 1, quiet)
          = (Ok r, (watcher 1, e'))
          ∧ calls e' = calls quiet.
Proof.
  by apply (threshold_silences_webhook (H:=plain_usd) (order:=insertion_order)
              example_chain example_request (watcher 1) quiet).
Defined.

(** The orchestrator of [example_config] as [_setup] builds it, before
    [run]. *)
Definition fresh_chain : SolanaProvider WatchConfig :=
  SolanaProvider_init "key" "" "wh-1" "https://example.org/webhook" "s3cret".

Definition fresh_watcher : WalletWatch :=
  {| ww_config := example_config 0;
     ww_chains := [("solana", fresh_chain)];
     ww_notifiers := ww_notifiers (watcher 0);
     ww_storage := Some example_db |}.

Lemma run_subscribes_accepted_watches_witness :
  ∃ self' e' chain',
    run (H:=plain_usd) (order:=insertion_order) [] (fresh_watcher, quiet)
    = (Ok [], (self', e'))
    ∧ pd_get "solana" (ww_chains self') = Some chain'
    ∧ (∀ a, callbacks_of a (base chain') =
            callbacks_of a (base fresh_chain)
            ++ filter (accepts "solana" a) (watches (ww_config fresh_watcher)))
    ∧ ww_notifiers self' = ww_notifiers fresh_watcher
    ∧ ww_storage self' = ww_storage fresh_watcher.
Proof.
  by apply (run_subscribes_accepted_watches (H:=plain_usd) (order:=insertion_order)
              fresh_watcher quiet "solana" fresh_chain).
Defined.

Lemma run_answers_every_request_witness :
  ∃ rs w',
    run (H:=plain_usd) (order:=insertion_order)
      [example_request; mkRequest None (Ok BodyNull)] (fresh_watcher, quiet)
    = (Ok rs, w')
    ∧ status <$> rs
      = expected_status fresh_chain
        <$> [example_request; mkRequest None (Ok BodyNull)].
Proof.
  by apply (run_answers_every_request (H:=plain_usd) (order:=insertion_order)
              [example_request; mkRequest None (Ok BodyNull)] fresh_watcher quiet
              "solana" [] fresh_chain).
Defined.

Definition postgres_config : Config :=
  {| chains := []; notifiers := []; watches := [];
     filters := default_FilterConfig;
     storage := {| sc_type := "postgres"; sc_path := "";
                   sc_url := "postgresql://localhost/ww" |};
     server := default_ServerConfig 8080 |}.

Lemma init_unknown_storage_raises_witness :
  WalletWatch_init postgres_config quiet
  = (Raise (unknown_storage postgres_config), quiet).
Proof. by apply (init_unknown_storage_raises postgres_config quiet). Defined.

Lemma init_builds_from_config_witness :
  ∃ self e',
    WalletWatch_init (example_config 0) quiet = (Ok self, e')
    ∧ ww_config self = example_config 0
    ∧ ww_storage self
      = Some (SQLiteStorage_init (sc_path (storage (example_config 0))))
    ∧ ww_chains self =
        match last (filter (λ cc, cc_name cc = "solana")
                      (chains (example_config 0))) with
        | Some cc => [("solana", provider_of cc)]
        | None => []
        end
    ∧ (∀ ty, pd_get ty (ww_notifiers self) =
             snd <$> last (filter (λ kv, kv.1 = ty)
                             (notifiers (example_config 0) ≫= built_notifier)))
    ∧ calls e' = calls quiet.
Proof. by apply (init_builds_from_config (example_config 0) quiet). Defined.

(** The whole program on one webhook event for a watched address.
    Without a threshold, the watch is subscribed and pushed to Helius, the
    event is answered 200, one message goes to the webhook notifier (the
    notifier named [pager], which is not configured, is passed over) and the
    transaction is stored.  With a threshold of one dollar the same event is
    answered 200 as well, but nothing is sent and nothing is stored. *)
Theorem end_to_end_example :
  (∃ self e',
     session (H:=plain_usd) (order:=insertion_order) (example_config 0)
       [example_request] quiet = (Ok ([status_ok], self), e')
     ∧ ww_chains self = [("solana", example_chain)]
     ∧ calls e' = [webhook_update example_chain;
                   HttpPost "https://hooks.example.org/notify"
                     (to_message (H:=plain_usd) example_tx "Treasury")]
     ∧ (λ db, tr_signature <$> transactions_tbl db) <$> ww_storage self
       = Some ["sig1"])
  ∧ (∃ self e',
       session (H:=plain_usd) (order:=insertion_order) (example_config 1)
         [example_request] quiet = (Ok ([status_ok], self), e')
       ∧ calls e' = [webhook_update example_chain]
       ∧ (λ db, tr_signature <$> transactions_tbl db) <$> ww_storage self
         = Some []).
Proof. split; eexists _, _; (split; [by vm_compute|]); by vm_compute. Qed.
