(* ===== verification/Invariant.v ===== *)
(** * The invariant of the orchestrator

    What is true of a [WalletWatch] from the moment its constructor returns:
    the configuration is the one it was built from; the dictionaries of
    chains and notifiers have no key twice; every registry is well formed,
    and every callback in it is a watch of the configuration registered
    under its own address, on its own chain, with an address the chain
    accepts; the object stored under a notifier's name has the class of that
    name, and a Telegram notifier has no subscriber twice; the tables of the
    storage keep their keys unique.

    Each component's part of the invariant is stated of the component, and
    every method of the component keeps it, whatever the outcome of the
    method.  [ww_wf] puts the parts together; the constructor establishes it,
    and [run_watch], [_handle_transaction], the server and [run] keep it. *)

From S2P Require Import Prelude Hoare PyDict PyStr Models Registry Storage.
From S2P Require Import Notifiers Keywords Base58 Solana Core.

(** ** Notifiers *)

Definition tg_wf (t : TelegramNotifier) : Prop := NoDup (subscribers t).

Definition notifier_wf (n : Notifier) : Prop :=
  match n with NTelegram t => tg_wf t | NWebhook _ => True end.

(** The class attribute [name] of a notifier object. *)
Definition notifier_name (n : Notifier) : string :=
  match n with NTelegram _ => "telegram" | NWebhook _ => "webhook" end.

(** A notifier as the orchestrator holds it under [name]. *)
Definition notifier_ok (name : string) (n : Notifier) : Prop :=
  notifier_wf n ∧ notifier_name n = name.

Section notifiers.
Implicit Types (recipient message chat_id : string).

Lemma TelegramNotifier_init_wf bot_token chat_id kwargs t :
  TelegramNotifier_init bot_token chat_id kwargs = Ok t → tg_wf t.
Proof.
  unfold TelegramNotifier_init, tg_wf. case_match; [|done]. intros [= <-]. simpl.
  case_match; [apply pyset_add_NoDup|]; apply NoDup_nil_2.
Qed.

Lemma add_subscriber_keeps chat_id : keeps (of_state tg_wf) (add_subscriber chat_id).
Proof.
  unfold add_subscriber. solve_keeps;
    apply keeps_st_modify; intros t Ht; by apply pyset_add_NoDup.
Qed.

Lemma remove_subscriber_keeps chat_id :
  keeps (of_state tg_wf) (remove_subscriber chat_id).
Proof.
  unfold remove_subscriber. solve_keeps;
    apply keeps_st_modify; intros t Ht; by apply pyset_discard_NoDup.
Qed.

Lemma tg_sent_keeps recipient reply : keeps (of_state tg_wf) (tg_sent recipient reply).
Proof.
  unfold tg_sent. solve_keeps;
    apply keeps_st_modify; intros t Ht; by apply pyset_discard_NoDup.
Qed.

Lemma tg_send_to_keeps recipient message :
  keeps (of_state tg_wf) (tg_send_to recipient message).
Proof.
  change (tg_send_to recipient message)
    with (net (TgSendMessage recipient message) ≫= tg_sent recipient).
  pose proof tg_sent_keeps. solve_keeps.
Qed.

Lemma tg_send_to_keyboard_keeps recipient message keyboard :
  keeps (of_state tg_wf) (tg_send_to_keyboard recipient message keyboard).
Proof.
  pose proof tg_sent_keeps. unfold tg_send_to_keyboard. solve_keeps.
Qed.

Lemma tg_send_loop_keeps size message todo : ∀ success,
  keeps (of_state tg_wf) (tg_send_loop size todo message success).
Proof.
  pose proof tg_send_to_keeps.
  induction todo as [|chat_id todo IH]; intros success; simpl; solve_keeps.
Qed.

Lemma tg_send_keeps message : keeps (of_state tg_wf) (tg_send message).
Proof. pose proof tg_send_loop_keeps. unfold tg_send. solve_keeps. Qed.

Lemma tg_send_loop_kwargs_keeps size message keyboard todo : ∀ success,
  keeps (of_state tg_wf) (tg_send_loop_kwargs size todo message keyboard success).
Proof.
  pose proof tg_send_to_keyboard_keeps.
  induction todo as [|chat_id todo IH]; intros success; simpl; solve_keeps.
Qed.

Lemma tg_send_kwargs_keeps message keyboard :
  keeps (of_state tg_wf) (tg_send_kwargs message keyboard).
Proof. pose proof tg_send_loop_kwargs_keeps. unfold tg_send_kwargs. solve_keeps. Qed.

Lemma start_polling_keeps : keeps (of_state tg_wf) start_polling.
Proof. unfold start_polling. solve_keeps. Qed.

(** The webhook notifier has no state to change. *)
Lemma wh_send_to_same recipient message self e :
  (wh_send_to recipient message (self, e)).2.1 = self.
Proof.
  unfold wh_send_to. rewrite m_bind_run. simpl.
  repeat case_decide;
    [destruct (wh_request_spec recipient (HttpPost recipient message) self e)
       as [ls ->]
    |destruct (wh_request_spec recipient (HttpGet recipient message) self e)
       as [ls ->]
    |rewrite m_bind_run, log_run]; done.
Qed.

Lemma notifier_send_keeps name message :
  keeps (of_state (notifier_ok name)) (send (N:=Notifier) message).
Proof.
  intros [[t|h] e] [Hwf Hname]; simpl; unfold notifier_send; simpl.
  - unfold on_telegram. simpl.
    pose proof (tg_send_keeps message (t, e) Hwf) as Ht.
    destruct (tg_send message (t, e)) as [r [t' e']]. by split.
  - unfold on_webhook. simpl.
    destruct (wh_send message (h, e)) as [r [h' e']]. by split.
Qed.

Lemma get_notifier_ok name bot_token webhook_url chat_id n :
  get_notifier name bot_token webhook_url chat_id = Ok n → notifier_ok name n.
Proof.
  unfold get_notifier. repeat case_decide; subst; [| |done].
  - destruct (TelegramNotifier_init _ _ _) as [t|] eqn:Ht; [|done].
    intros [= <-]. split; [by eapply TelegramNotifier_init_wf | done].
  - destruct (WebhookNotifier_init _ _ _ _); [|done]. by intros [= <-].
Qed.

End notifiers.

(** ** The storage engine *)

Section storage.

(** Runs a method on a storage whose handle is closed or open, with the
    method's two equations. *)
Ltac method_keeps on_closed on_open :=
  intros [db e] Hdb; unfold of_state;
  destruct (closed db) eqn:Hc;
    [rewrite on_closed by done | rewrite on_open by done];
    cbn [fst snd]; auto with ww.

Lemma save_transaction_keeps tx : keeps (of_state db_wf) (save_transaction tx).
Proof. method_keeps save_transaction_closed save_transaction_open. Qed.

Lemma save_watch_keeps a c l n f : keeps (of_state db_wf) (save_watch a c l n f).
Proof. method_keeps save_watch_closed save_watch_open. Qed.

Lemma delete_watch_keeps a : keeps (of_state db_wf) (delete_watch a).
Proof. method_keeps delete_watch_closed delete_watch_open. Qed.

Lemma get_watches_keeps c : keeps (of_state db_wf) (get_watches c).
Proof. method_keeps get_watches_closed get_watches_open. Qed.

Lemma get_transactions_keeps a n : keeps (of_state db_wf) (get_transactions a n).
Proof. method_keeps get_transactions_closed get_transactions_open. Qed.

Lemma close_keeps : keeps (of_state db_wf) close.
Proof. intros [db e] Hdb. rewrite close_run. by apply close_connection_wf. Qed.

End storage.

(** ** Providers *)

Section provider.
Variable cfg : Config.
Implicit Types (chain : SolanaProvider WatchConfig) (watch : WatchConfig).

(** The provider registered as [name]: its registry is well formed, and
    every callback in it is a watch of the configuration that names this
    chain and the address it is registered under, an address the chain
    accepts. *)
Definition chain_wf (name : string) chain : Prop :=
  registry_wf (base chain)
  ∧ ∀ a watch, watch ∈ callbacks_of a (base chain) →
               watch ∈ watches cfg ∧ accepts name a watch.

Lemma get_chain_provider_wf provider name api_key rpc_url id url secret chain :
  get_chain_provider provider api_key rpc_url id url secret = Ok chain →
  chain_wf name chain.
Proof.
  unfold get_chain_provider. case_decide; [|done]. intros [= <-].
  split; [apply ChainBase_init_wf | by intros a watch ?%elem_of_nil].
Qed.

Lemma subscribed_wf name chain watch :
  chain_wf name chain → watch ∈ watches cfg →
  accepts name (w_address watch) watch →
  chain_wf name (subscribed (w_address watch) watch chain).
Proof.
  intros [Hr Hc] Hw Ha. split; rewrite base_subscribed.
  - by apply add_callback_wf.
  - intros a w. rewrite callbacks_of_add_callback.
    case_decide as E; [subst a|apply Hc].
    intros [Hin| ->%list_elem_of_singleton]%elem_of_app; [by apply Hc | done].
Qed.

Lemma unsubscribed_wf name chain a :
  chain_wf name chain → chain_wf name (unsubscribed a chain).
Proof.
  intros [Hr Hc]. split; rewrite base_unsubscribed.
  - by apply remove_callbacks_wf.
  - intros a' w. rewrite callbacks_of_remove_callbacks.
    case_decide; [by intros ?%elem_of_nil | apply Hc].
Qed.

(** [subscribe] rejects what the chain does not accept, so it keeps the
    invariant for any watch of the configuration that names the chain. *)
Lemma subscribe_keeps name watch :
  watch ∈ watches cfg → w_chain watch = name →
  keeps (of_state (chain_wf name)) (subscribe (w_address watch) watch).
Proof.
  intros Hw Hn [chain e] Hc.
  destruct (validate_address (w_address watch)) eqn:Hv;
    [rewrite subscribe_valid by done | by rewrite subscribe_invalid].
  by apply subscribed_wf.
Qed.

Lemma unsubscribe_keeps name a :
  keeps (of_state (chain_wf name)) (unsubscribe (C:=WatchConfig) a).
Proof. intros [chain e] Hc. rewrite unsubscribe_run. by apply unsubscribed_wf. Qed.

End provider.

(** ** The orchestrator *)

Record ww_wf (cfg : Config) (self : WalletWatch) : Prop := WwWf {
  wf_config : ww_config self = cfg;
  wf_chains : pd_wf (ww_chains self);
  wf_chain : pd_Forall (chain_wf cfg) (ww_chains self);
  wf_notifiers : pd_wf (ww_notifiers self);
  wf_notifier : pd_Forall notifier_ok (ww_notifiers self);
  wf_storage db : ww_storage self = Some db → db_wf db;
}.

Section objects.
Variable cfg : Config.
Implicit Types (self : WalletWatch).

Lemma ww_wf_empty :
  ww_wf cfg {| ww_config := cfg; ww_chains := []; ww_notifiers := [];
               ww_storage := None |}.
Proof. split; simpl; try done; try apply NoDup_nil_2. Qed.

Lemma ww_wf_set_chain name chain self :
  ww_wf cfg self → chain_wf cfg name chain →
  ww_wf cfg (set_chains (pd_set name chain (ww_chains self)) self).
Proof.
  intros [] Hc. split; simpl; auto with ww. by apply pd_Forall_set.
Qed.

Lemma ww_wf_set_notifier name n self :
  ww_wf cfg self → notifier_ok name n →
  ww_wf cfg (set_notifiers (pd_set name n (ww_notifiers self)) self).
Proof.
  intros [] Hn. split; simpl; auto with ww. by apply pd_Forall_set.
Qed.

Lemma ww_wf_set_storage db self :
  ww_wf cfg self → db_wf db → ww_wf cfg (set_storage (Some db) self).
Proof. intros [] Hdb. split; simpl; auto. by intros ? [= <-]. Qed.

(** A method of an object the orchestrator holds keeps the orchestrator's
    invariant when it keeps the object's. *)
Lemma on_notifier_keeps {A} name n (m : M (Notifier * Env) A) :
  notifier_ok name n → keeps (of_state (notifier_ok name)) m →
  keeps (of_state (ww_wf cfg)) (on_notifier name n m).
Proof.
  intros Hn Hm [self e] Hself. specialize (Hm (n, e) Hn).
  unfold on_notifier, of_state. simpl.
  destruct (m (n, e)) as [r [n' e']]. by apply ww_wf_set_notifier.
Qed.

Lemma on_storage_keeps {A} db (m : M (SQLiteStorage * Env) A) :
  db_wf db → keeps (of_state db_wf) m →
  keeps (of_state (ww_wf cfg)) (on_storage db m).
Proof.
  intros Hdb Hm [self e] Hself. specialize (Hm (db, e) Hdb).
  unfold on_storage, of_state. simpl.
  destruct (m (db, e)) as [r [db' e']]. by apply ww_wf_set_storage.
Qed.

Lemma on_chain_keeps {A} name chain (m : M (SolanaProvider WatchConfig * Env) A) :
  chain_wf cfg name chain → keeps (of_state (chain_wf cfg name)) m →
  keeps (of_state (ww_wf cfg)) (on_chain name chain m).
Proof.
  intros Hc Hm [self e] Hself. specialize (Hm (chain, e) Hc).
  unfold on_chain, of_state. simpl.
  destruct (m (chain, e)) as [r [chain' e']]. by apply ww_wf_set_chain.
Qed.

End objects.

#[export] Hint Resolve notifier_send_keeps save_transaction_keeps : ww.

(** ** The methods of the orchestrator *)

Section WalletWatch_invariant.
Context `{!UsdFormat} {order : SetOrder}.
Variable cfg : Config.
Implicit Types (self : WalletWatch) (watch : WatchConfig) (tx : Transaction).

Local Abbreviation I := (of_state (ww_wf cfg)).

(** *** [_setup] *)

Lemma setup_chain_keeps cc : keeps I (setup_chain cc).
Proof.
  unfold setup_chain. solve_keeps. apply keeps_st_modify. intros self Hself.
  apply ww_wf_set_chain; [done|]. by eapply get_chain_provider_wf.
Qed.

Lemma setup_notifier_keeps nc : keeps I (setup_notifier nc).
Proof.
  unfold setup_notifier. solve_keeps. apply keeps_st_modify. intros self Hself.
  apply ww_wf_set_notifier; [done|]. by eapply get_notifier_ok.
Qed.

(** [get_storage] changes nothing of the orchestrator, and the storage it
    returns is a new, well-formed database. *)
Lemma get_storage_new config :
  hoare I (get_storage config) (λ r w, I w ∧ ∀ db, r = Ok db → db_wf db).
Proof.
  intros [self e] Hself. unfold get_storage. repeat case_decide; try done.
  rewrite m_bind_run, log_run. split; [done|]. intros db [= <-].
  apply SQLiteStorage_init_wf.
Qed.

Lemma setup_keeps : keeps I _setup.
Proof.
  pose proof setup_chain_keeps. pose proof setup_notifier_keeps.
  unfold _setup. apply keeps_st_get_bind. intros self Hself.
  apply (keeps_bind_value I db_wf); [apply get_storage_new|]. intros db Hdb.
  solve_keeps. apply keeps_st_modify. intros self' Hself'.
  by apply ww_wf_set_storage.
Qed.

Lemma WalletWatch_init_wf e self e' :
  WalletWatch_init cfg e = (Ok self, e') → ww_wf cfg self.
Proof.
  unfold WalletWatch_init. intros Hinit.
  pose proof (setup_keeps (_, e) (ww_wf_empty cfg)) as Hwf.
  destruct (_setup _) as [[[]|] [self' e'']]; [|done].
  by injection Hinit as <- <-.
Qed.

(** *** [_handle_transaction] *)

Lemma notify_via_keeps message name : keeps I (notify_via message name).
Proof.
  unfold notify_via. apply keeps_st_get_bind. intros self Hself.
  destruct (pd_get name (ww_notifiers self)) as [n|] eqn:Hn; [|auto with ww].
  solve_keeps. apply on_notifier_keeps; [by apply (wf_notifier _ _ Hself)|].
  auto with ww.
Qed.

Lemma store_keeps tx : keeps I (store tx).
Proof.
  unfold store. apply keeps_st_get_bind. intros self Hself.
  destruct (ww_storage self) as [db|] eqn:Hdb; [|auto with ww].
  solve_keeps. apply on_storage_keeps; [by apply (wf_storage _ _ Hself)|].
  auto with ww.
Qed.

Lemma handle_transaction_keeps tx watch : keeps I (_handle_transaction tx watch).
Proof.
  pose proof notify_via_keeps. pose proof (store_keeps tx) as Hstore.
  unfold _handle_transaction. fold (store tx). solve_keeps.
Qed.

(** *** [run] *)

Lemma run_watch_keeps watch : watch ∈ watches cfg → keeps I (run_watch watch).
Proof.
  intros Hw. unfold run_watch. apply keeps_st_get_bind. intros self Hself.
  destruct (pd_get (w_chain watch) (ww_chains self)) as [chain|] eqn:Hc;
    [|auto with ww].
  solve_keeps. apply on_chain_keeps; [by apply (wf_chain _ _ Hself)|].
  by apply subscribe_keeps.
Qed.

Lemma handle_webhook_keeps chain request :
  keeps I (handle_webhook invoke chain request).
Proof.
  apply keeps_preserves, handle_webhook_preserves; [tc_solve| |].
  - intros lvl msg. apply keeps_preserves, keeps_log.
  - intros watch tx _. apply keeps_preserves, handle_transaction_keeps.
Qed.

Lemma serve_keeps name requests : keeps I (serve name requests).
Proof.
  pose proof handle_webhook_keeps.
  induction requests as [|request requests IH]; simpl; solve_keeps.
Qed.

Lemma run_keeps requests : keeps I (run requests).
Proof.
  pose proof serve_keeps. unfold run, provider_run.
  apply keeps_st_get_bind. intros self Hself.
  apply keeps_bind; [solve_keeps|]. intros _.
  apply keeps_bind.
  - apply keeps_for. intros watch Hw. apply run_watch_keeps.
    by rewrite <- (wf_config _ _ Hself).
  - intros _. solve_keeps.
Qed.

End WalletWatch_invariant.

(** ** Theorems *)

Section WalletWatch_invariant_theorems.
Context `{!UsdFormat} {order : SetOrder}.
Implicit Types (self : WalletWatch) (cfg : Config).


(** C15: [run] keeps the invariant, whatever requests arrive, whatever they
    carry and whatever the network answers: after the subscriptions and
    after every request the orchestrator is well formed. *)
Theorem run_keeps_invariant cfg requests self e :
  ww_wf cfg self → ww_wf cfg (exec (run requests) (self, e)).1.
Proof. intros Hself. exact (run_keeps cfg requests (self, e) Hself). Qed.

(** A callback keeps the invariant for any transaction and any watch, also
    ones no provider would deliver. *)
Theorem handle_transaction_keeps_invariant cfg tx watch self e :
  ww_wf cfg self → ww_wf cfg (exec (_handle_transaction tx watch) (self, e)).1.
Proof.
  intros Hself. exact (handle_transaction_keeps cfg tx watch (self, e) Hself).
Qed.

Lemma session_wf cfg requests e rs watcher e' :
  session cfg requests e = (Ok (rs, watcher), e') → ww_wf cfg watcher.
Proof.
  unfold session. rewrite m_bind_run.
  destruct (WalletWatch_init cfg e) as [[self|] e1] eqn:Hinit; [|done].
  apply WalletWatch_init_wf in Hinit.
  rewrite m_bind_run. destruct (log INFO _ e1) as [[[]|] e2]; [|done].
  unfold with_watcher.
  pose proof (run_keeps cfg requests (self, e2) Hinit) as Hrun.
  destruct (run requests (self, e2)) as [[rs'|] [watcher' e3]]; [|done].
  by intros [= _ <- _].
Qed.

(** The orchestrator a session ends with is well formed for the
    configuration the session started from. *)
Theorem session_invariant cfg requests e rs watcher e' :
  session cfg requests e = (Ok (rs, watcher), e') → ww_wf cfg watcher.
Proof. apply session_wf. Qed.

(** What the invariant gives a reader of the state: every callback of every
    chain is a watch of the configuration, registered under its own address
    on its own chain, and the chain accepts the address. *)
Corollary callbacks_are_configured cfg self name chain a watch :
  ww_wf cfg self →
  pd_get name (ww_chains self) = Some chain →
  watch ∈ callbacks_of a (base chain) →
  watch ∈ watches cfg ∧ w_chain watch = name ∧ w_address watch = a
  ∧ validate_address a = true.
Proof.
  intros Hself Hc Hw. destruct (wf_chain _ _ Hself name chain Hc) as [_ Hcb].
  by destruct (Hcb a watch Hw) as [? (? & ? & ?)].
Qed.

End WalletWatch_invariant_theorems.

(** ** The theorems at concrete inputs *)


Lemma run_keeps_invariant_witness :
  ww_wf (example_config 0)
    (exec (run (H:=plain_usd) (order:=insertion_order)
             [example_request; mkRequest None (Ok BodyNull)])
       (fresh_watcher, quiet)).1.
Proof.
  apply (run_keeps_invariant (H:=plain_usd) (order:=insertion_order)
           (example_config 0) [example_request; mkRequest None (Ok BodyNull)]
           fresh_watcher quiet).
  eapply (WalletWatch_init_wf (example_config 0) quiet). by vm_compute.
Defined.

Lemma session_invariant_witness :
  ∃ rs watcher e',
    session (H:=plain_usd) (order:=insertion_order) (example_config 0)
      [example_request] quiet = (Ok (rs, watcher), e')
    ∧ ww_wf (example_config 0) watcher.
Proof.
  eexists _, _, _. split; [by vm_compute|].
  eapply (session_invariant (H:=plain_usd) (order:=insertion_order)
            (example_config 0) [example_request] quiet).
  by vm_compute.
Defined.
