(* ===== verification/Liveness.v ===== *)
(** * A failing broadcast heals itself

    [TelegramNotifier.send] raises [RuntimeError] when a subscriber who
    blocked the bot is discarded from the set the loop is iterating over.
    The discard is what makes the failure transient: a call that raises
    leaves the set strictly smaller, so of the calls the orchestrator makes,
    one after the other and whatever the network answers, no more than the
    first [n] can raise, [n] being the number of subscribers.

    The statement is a liveness property of the notifier under every
    environment.  A round is one call of [send], with or without a keyboard;
    [eventually] says that every
    sequence of rounds contains a round that returns, and [within n] that it
    is among the first [n + 1].  Both are inductive: a run is a path of the
    round relation, and the order of the rounds is the order of the calls. *)

From S2P Require Import Prelude Hoare PyDict PyStr Notifiers Keywords.

(** ** Runs of a labelled step relation *)

Section eventually.
Context {S L : Type}.
Variable step : S → L → S → Prop.
Variable good : L → Prop.

(** Along every run from [s] a step with a good label is taken. *)
#[warnings="-register-all"] Inductive eventually (s : S) : Prop :=
| eventually_intro :
    (∀ l s', step s l s' → good l ∨ eventually s') → eventually s.

(** The step with a good label is among the first [n + 1] of every run. *)
Fixpoint within (n : nat) (s : S) : Prop :=
  ∀ l s', step s l s' →
    good l ∨ match n with O => False | Datatypes.S n' => within n' s' end.

Lemma within_eventually n : ∀ s, within n s → eventually s.
Proof.
  induction n as [|n IH]; intros s Hs; constructor; intros l s' Hstep;
    (destruct (Hs l s' Hstep) as [?|Hn]; [by left|]); [done|].
  right. by apply IH.
Qed.

Lemma within_le n n' s : n ≤ n' → within n s → within n' s.
Proof.
  revert n' s. induction n as [|n IH]; intros [|n'] s Hle Hs l s' Hstep;
    (destruct (Hs l s' Hstep) as [?|Hn]; [by left|]); try done; try lia.
  right. apply (IH n'); [lia | done].
Qed.

(** A measure that every step without a good label decreases bounds the
    number of such steps. *)
Lemma within_measure (μ : S → nat) :
  (∀ s l s', step s l s' → good l ∨ μ s' < μ s) →
  ∀ s, within (μ s) s.
Proof.
  intros Hμ s. remember (μ s) as n eqn:Hn.
  assert (μ s ≤ n) as Hle by lia. clear Hn. revert s Hle.
  induction n as [|n IH]; intros s Hle l s' Hstep;
    (destruct (Hμ s l s' Hstep) as [?|Hlt]; [by left|]); [lia|].
  right. apply IH. lia.
Qed.

End eventually.

(** ** The broadcast *)

Section tg_send.
Implicit Types (t : TelegramNotifier) (e : Env) (message : string).
Implicit Types (keyboard : option Keyboard).

(** One message to one chat never grows the set. *)
Lemma tg_send_to_length recipient message keyboard t e :
  length (subscribers
            (tg_send_to_keyboard recipient message keyboard (t, e)).2.1)
  ≤ length (subscribers t).
Proof.
  destruct (tg_send_to_keyboard_run recipient message keyboard t e)
    as [ls ->].
  repeat case_match; simpl; try done; apply filter_length_le.
Qed.

(** The loop never grows the set, and when it raises the set is smaller
    than it was when the loop started. *)
Lemma tg_send_loop_shrinks size message keyboard todo : ∀ success t e,
  length (subscribers t) ≤ size →
  match tg_send_loop_kwargs size todo message keyboard success (t, e) with
  | (Ok _, (t', _)) => length (subscribers t') ≤ size
  | (Raise _, (t', _)) => length (subscribers t') < size
  end.
Proof.
  induction todo as [|chat_id todo IH]; intros success t e Ht; simpl;
    rewrite m_bind_run; simpl; (case_decide as Hsize; [|simpl; lia]).
  - done.
  - rewrite m_bind_run.
    pose proof (tg_send_to_length chat_id message keyboard t e) as Hlen.
    pose proof (tg_send_to_keyboard_no_raise chat_id message keyboard (t, e))
      as Hok.
    destruct (tg_send_to_keyboard _ _ _ _) as [[ok|x] [t' e']]; [|done].
    apply IH. simpl in Hlen. lia.
Qed.

(** A call of [send] never grows the set, and one that raises leaves fewer
    subscribers than it found. *)
Lemma tg_send_shrinks message keyboard t e :
  match tg_send_kwargs message keyboard (t, e) with
  | (Ok _, (t', _)) => length (subscribers t') ≤ length (subscribers t)
  | (Raise _, (t', _)) => length (subscribers t') < length (subscribers t)
  end.
Proof.
  unfold tg_send_kwargs. rewrite m_bind_run. simpl.
  destruct (subscribers t) as [|c l] eqn:Hsub.
  - rewrite m_bind_run, log_run. simpl. by rewrite Hsub.
  - rewrite <- Hsub. by apply tg_send_loop_shrinks.
Qed.

Lemma tg_send_raise_shrinks message keyboard t e x t' e' :
  tg_send_kwargs message keyboard (t, e) = (Raise x, (t', e')) →
  length (subscribers t') < length (subscribers t).
Proof.
  intros Hrun. pose proof (tg_send_shrinks message keyboard t e) as Hlen.
  by rewrite Hrun in Hlen.
Qed.

Lemma tg_send_empty_returns message keyboard t e :
  subscribers t = [] →
  is_ok (tg_send_kwargs message keyboard (t, e)).1 = true.
Proof.
  intros Hsub.
  destruct (tg_send_kwargs message keyboard (t, e)) as [[b|x] [t' e']]
    eqn:Hrun; [done|].
  apply tg_send_raise_shrinks in Hrun. rewrite Hsub in Hrun.
  simpl in Hrun. lia.
Qed.

(** A round: one call of [send], with some message and keyboard, in some
    environment. *)
Definition tg_round t (r : result bool) t' : Prop :=
  ∃ message keyboard e e',
    tg_send_kwargs message keyboard (t, e) = (r, (t', e')).

Definition returned (r : result bool) : Prop := is_ok r = true.

Lemma tg_round_measure t r t' :
  tg_round t r t' →
  returned r ∨ length (subscribers t') < length (subscribers t).
Proof.
  intros (message & keyboard & e & e' & Hrun).
  destruct r as [b|x]; [by left|right]. by eapply tg_send_raise_shrinks.
Qed.

(** The calls the orchestrator makes are rounds. *)
Lemma tg_send_round message t e :
  tg_round t (tg_send message (t, e)).1 (tg_send message (t, e)).2.1.
Proof.
  exists message, None, e, (tg_send message (t, e)).2.2.
  rewrite tg_send_kwargs_None. by destruct (tg_send _ _) as [r [t' e']].
Qed.

End tg_send.

(** ** Theorems *)

(** C16: of the calls of [send] made one after the other on a notifier, whatever
    the messages, the keyboards and the answers of the network, one of the
    first [n + 1] returns, [n] being the number of subscribers before the
    first call. *)
Theorem tg_send_returns_within t :
  within tg_round returned (length (subscribers t)) t.
Proof.
  apply (within_measure tg_round returned (λ t, length (subscribers t))).
  apply tg_round_measure.
Qed.

(** Every sequence of calls of [send] contains a call that returns: the
    broadcast cannot fail forever. *)
Theorem tg_send_eventually_returns t : eventually tg_round returned t.
Proof.
  apply (within_eventually _ _ (length (subscribers t))).
  apply (within_measure tg_round returned (λ t, length (subscribers t))).
  apply tg_round_measure.
Qed.

(** The number of subscribers never grows, so the bound of a later call is
    no larger than the bound of an earlier one. *)
Theorem tg_send_never_grows message keyboard t e :
  length (subscribers (tg_send_kwargs message keyboard (t, e)).2.1)
  ≤ length (subscribers t).
Proof.
  pose proof (tg_send_shrinks message keyboard t e) as Hlen.
  destruct (tg_send_kwargs _ _ _) as [[b|x] [t' e']]; simpl; lia.
Qed.

(** A notifier without subscribers never raises. *)
Theorem tg_send_no_subscribers message keyboard t e :
  subscribers t = [] →
  is_ok (tg_send_kwargs message keyboard (t, e)).1 = true.
Proof. apply tg_send_empty_returns. Qed.

(** The second of two calls to a notifier with one subscriber returns when
    the first raised. *)
Theorem tg_send_second_call_returns m1 m2 t e e2 :
  length (subscribers t) ≤ 1 →
  is_ok (tg_send m1 (t, e)).1 = false →
  is_ok (tg_send m2 ((tg_send m1 (t, e)).2.1, e2)).1 = true.
Proof.
  intros Hone Hraise. rewrite <- (tg_send_kwargs_None m1) in Hraise |- *.
  rewrite <- (tg_send_kwargs_None m2).
  apply tg_send_empty_returns.
  destruct (tg_send_kwargs m1 None (t, e)) as [[b|x] [t' e']] eqn:Hrun;
    [done|].
  apply tg_send_raise_shrinks in Hrun. simpl.
  destruct (subscribers t'); [done | simpl in Hrun; lia].
Qed.
