(* ===== verification/Provenance.v ===== *)
(** * Where the stored transactions come from

    A row of the table [transactions] is written by [save_transaction], which
    only [_handle_transaction] calls, which only a provider calls, for an
    event of a request it accepted.  This file follows a row back along that
    chain of calls, across the storage engine, the orchestrator, the registry
    and the webhook route:

    - [invoked]: the calls the route makes for a request.  The request
      carries the secret of the provider, when there is one; the transaction
      is built from an event of its body for an address of the event; the
      callback is registered for that address.
    - [rows_from T]: every row of the table is the row of a transaction
      in [T].
    - [pushed]: the transactions a list of requests can have brought.
    - [traced]: the invariant of the orchestrator's state, the methods one
      by one.

    The lemmas are stated with the Hoare logic of Hoare.v: the handling of
    a request keeps every invariant that the calls it makes keep.  Trace.v
    puts them together for a whole session. *)

From S2P Require Import Prelude Hoare PyDict PyStr Models Registry Storage.
From S2P Require Import Notifiers Base58 Solana Core Invariant.

(** ** The calls of the webhook route *)

(** The events of a body. *)
Definition events (data : payload) : list HeliusEvent :=
  match data with
  | BodyDict tx_data => [tx_data]
  | BodyList data => data
  | BodyNull => []
  end.

(** The request passes the check of the secret. *)
Definition authorised (secret : string) (request : Request) : bool :=
  negb (str_truthy secret
        && negb (bool_decide (default "" (req_authorization request) = secret))).

(** The transaction [tx] is built from an event of the request, for an
    address of the event. *)
Definition from_request {order : SetOrder} (request : Request)
    (tx : Transaction) : Prop :=
  ∃ data event,
    req_json request = Ok data ∧ event ∈ events data
    ∧ address tx ∈ addresses_involved event
    ∧ event_transaction event (address tx) = Ok tx.

Lemma event_transaction_signature event a tx :
  event_transaction event a = Ok tx →
  signature tx = default "" (ev_signature event).
Proof.
  rewrite event_transaction_spec. destruct (timestamp_ok event); [|done].
  by intros [= <-].
Qed.

(** The lines the provider writes between the route and a callback: those
    of the three [except] clauses. *)
Inductive provider_line : log_level * string → Prop :=
| callback_error x :
    provider_line (ERROR, "Callback error: " +:+ exn_msg x)
| processing_error x :
    provider_line (ERROR, "Error processing transaction: " +:+ exn_msg x)
| webhook_error x :
    provider_line (ERROR, "Webhook processing error: " +:+ exn_msg x).

Section invoked.
Context {C W : Type} `{!HasEnv W} {order : SetOrder}.
Variable invoke : C → Transaction → M W unit.
Variable I : W → Prop.
Hypothesis log_keeps :
  ∀ lvl msg, provider_line (lvl, msg) → keeps I (log lvl msg).
Implicit Types (self : SolanaProvider C) (request : Request).

(** The route calls [c] on [tx] while it handles [request]. *)
Definition invoked self request (c : C) (tx : Transaction) : Prop :=
  authorised (webhook_secret self) request = true
  ∧ from_request request tx
  ∧ c ∈ callbacks_of (address tx) (base self).

Lemma notify_callbacks_calls a tx (b : ChainBase C) :
  (∀ c, c ∈ callbacks_of a b → keeps I (invoke c tx)) →
  keeps I (notify_callbacks invoke a tx b).
Proof.
  intros Hc. unfold notify_callbacks. case_match; [|apply keeps_ret].
  apply keeps_for. intros c Hin.
  apply keeps_try; [by apply Hc | intros x; apply log_keeps; constructor].
Qed.

Lemma notify_address_calls self event a :
  (∀ c tx, event_transaction event a = Ok tx →
           c ∈ callbacks_of a (base self) → keeps I (invoke c tx)) →
  keeps I (notify_address invoke self event a).
Proof.
  intros Hc. unfold notify_address. case_match; [|apply keeps_ret].
  apply keeps_lift_bind. intros tx Htx. apply notify_callbacks_calls.
  intros c Hin. by apply Hc.
Qed.

Lemma process_event_calls self event :
  (∀ a c tx, a ∈ addresses_involved event →
             event_transaction event a = Ok tx →
             c ∈ callbacks_of a (base self) → keeps I (invoke c tx)) →
  keeps I (process_event invoke self event).
Proof.
  intros Hc. unfold process_event.
  apply keeps_try; [|intros x; apply log_keeps; constructor].
  apply keeps_for. intros a Ha. apply notify_address_calls.
  intros c tx. by apply Hc.
Qed.

Lemma process_webhook_data_calls self data :
  (∀ event, event ∈ events data → keeps I (process_event invoke self event)) →
  keeps I (_process_webhook_data invoke self data).
Proof.
  intros Hc. destruct data as [ev|evs|]; simpl;
    [apply (keeps_for I [ev]) | apply keeps_for | apply keeps_raise];
    intros event Hin; by apply Hc.
Qed.

(** The handling of a request keeps what its delivered calls keep. *)
Lemma handle_webhook_calls self request :
  (∀ c tx, invoked self request c tx → keeps I (invoke c tx)) →
  keeps I (handle_webhook invoke self request).
Proof.
  intros Hc. unfold handle_webhook.
  destruct (str_truthy _ && _) eqn:Hauth; [apply keeps_ret|].
  apply keeps_try;
    [|intros x; apply keeps_bind;
        [apply log_keeps; constructor | intros _; apply keeps_ret]].
  apply keeps_lift_bind. intros data Hdata.
  apply keeps_bind; [|intros _; apply keeps_ret].
  apply process_webhook_data_calls. intros event Hevent.
  apply process_event_calls. intros a c tx Ha Htx Hin.
  pose proof (event_transaction_provider_tx _ _ _ Htx) as [_ Haddr].
  apply Hc. subst a. split_and!; [|by exists data, event|done].
  unfold authorised. by rewrite Hauth.
Qed.

End invoked.

(** ** The rows of the table *)

Section rows.
Variable T : Transaction → Prop.
Implicit Types (db : SQLiteStorage) (tx : Transaction) (r : TxRow).

(** [r] is the row of [tx]: its columns are the fields of the transaction,
    as sqlite3 binds them. *)
Definition row_of tx r : Prop := ∃ t db, r = new_tx_row t tx db.

Definition rows_from db : Prop :=
  ∀ r, r ∈ transactions_tbl db → ∃ tx, T tx ∧ row_of tx r.

Lemma rows_from_new path : rows_from (SQLiteStorage_init path).
Proof. by intros r ?%elem_of_nil. Qed.

Lemma rows_from_insert t tx db :
  T tx → rows_from db → rows_from (insert_or_ignore_transaction t tx db).
Proof.
  intros Htx Hdb r. unfold insert_or_ignore_transaction.
  case_match; [apply Hdb|]. simpl.
  intros [Hr| ->%list_elem_of_singleton]%elem_of_app; [by apply Hdb|].
  exists tx. split; [done | by exists t, db].
Qed.

Lemma save_transaction_rows tx :
  T tx → keeps (of_state rows_from) (save_transaction tx).
Proof.
  intros Htx [db e] Hdb. unfold of_state. destruct (closed db) eqn:Hc;
    [by rewrite save_transaction_closed | rewrite save_transaction_open by done].
  by apply rows_from_insert.
Qed.

End rows.

Lemma rows_from_mono (T T' : Transaction → Prop) db :
  (∀ tx, T tx → T' tx) → rows_from T db → rows_from T' db.
Proof.
  intros HT Hdb r Hr. destruct (Hdb r Hr) as (tx & Htx & Hrow).
  exists tx. auto.
Qed.

(** ** The orchestrator *)

(** The secrets of the providers, by name, in the order of the chains. *)
Definition secrets (self : WalletWatch) : list (string * string) :=
  (λ kv, (kv.1, webhook_secret kv.2)) <$> ww_chains self.

(** The filter of a configuration: [_should_notify] reads nothing else of
    the orchestrator. *)
Definition passes (cfg : Config) (tx : Transaction) : bool :=
  _should_notify {| ww_config := cfg; ww_chains := []; ww_notifiers := [];
                    ww_storage := None |} tx.

(** The transactions the requests [requests] can have brought to the
    callback of [watch], in an orchestrator of the configuration [cfg] whose
    providers have the secrets [S]: the request carries the secret of the
    provider that serves, the transaction is built from one of its events
    for an address of the event, the watch is a watch of the configuration
    for that address, which is valid, on the chain that serves, and the
    filter lets the transaction pass. *)
Definition pushed_to {order : SetOrder} (cfg : Config)
    (S : list (string * string)) (requests : list Request)
    (watch : WatchConfig) (tx : Transaction) : Prop :=
  ∃ name secret request,
    head S = Some (name, secret)
    ∧ request ∈ requests ∧ authorised secret request = true
    ∧ from_request request tx
    ∧ watch ∈ watches cfg ∧ accepts name (address tx) watch
    ∧ passes cfg tx = true.

Definition pushed {order : SetOrder} (cfg : Config) (S : list (string * string))
    (requests : list Request) (tx : Transaction) : Prop :=
  ∃ watch, pushed_to cfg S requests watch tx.

Definition stored_from (T : Transaction → Prop) (self : WalletWatch) : Prop :=
  ∀ db, ww_storage self = Some db → rows_from T db.

(** The invariant: the orchestrator is well formed, the secrets are [S],
    and every stored row is the row of a transaction in [T]. *)
Definition traced (cfg : Config) (S : list (string * string))
    (T : Transaction → Prop) (self : WalletWatch) : Prop :=
  (ww_wf cfg self ∧ secrets self = S) ∧ stored_from T self.

Section traced.
Context `{!UsdFormat} {order : SetOrder}.
Variables (cfg : Config) (S : list (string * string)) (T : Transaction → Prop).
Implicit Types (self : WalletWatch) (watch : WatchConfig) (tx : Transaction).

Local Abbreviation K := (of_state (traced cfg S T)).

Lemma traced_intro {A} (m : M World A) :
  keeps (of_state (ww_wf cfg)) m →
  (∀ w, secrets (m w).2.1 = secrets w.1) →
  keeps (of_state (stored_from T)) m →
  keeps K m.
Proof.
  intros Hwf Hs Hst. apply keeps_both; [apply keeps_both; [done|]|done].
  by apply (keeps_part secrets (λ s, s = S)).
Qed.

(** What leaves the chains and the storage alone keeps the invariant. *)
Lemma traced_frame {A} (m : M World A) :
  keeps (of_state (ww_wf cfg)) m → preserves notify_frame m → keeps K m.
Proof.
  intros Hwf Hfr. apply traced_intro; [done| |].
  - intros w. destruct (Hfr w) as [(_ & Hch & _) _]. unfold secrets.
    by rewrite Hch.
  - apply (keeps_part ww_storage (λ o, ∀ db, o = Some db → rows_from T db)).
    intros w. by destruct (Hfr w) as [_ Hsto].
Qed.

Lemma on_storage_stored {A} db (m : M (SQLiteStorage * Env) A) :
  rows_from T db → keeps (of_state (rows_from T)) m →
  keeps (of_state (stored_from T)) (on_storage db m).
Proof.
  intros Hdb Hm [self e] Hself. specialize (Hm (db, e) Hdb).
  unfold on_storage, of_state. simpl.
  destruct (m (db, e)) as [r [db' e']]. by intros ? [= <-].
Qed.

Lemma store_stored tx : T tx → keeps (of_state (stored_from T)) (store tx).
Proof.
  intros Htx. unfold store. apply keeps_st_get_bind. intros self Hself.
  destruct (ww_storage self) as [db|] eqn:Hdb; [|apply keeps_ret].
  apply keeps_bind; [|intros _; apply keeps_ret].
  apply on_storage_stored; [by apply Hself | by apply save_transaction_rows].
Qed.

Lemma store_traced tx : T tx → keeps K (store tx).
Proof.
  intros Htx. apply traced_intro; [apply store_keeps| |by apply store_stored].
  intros w. destruct (store_frame tx w) as (_ & Hch & _). unfold secrets.
  by rewrite Hch.
Qed.

Lemma handle_transaction_traced tx watch :
  (passes cfg tx = true → T tx) → keeps K (_handle_transaction tx watch).
Proof.
  intros Htx. unfold _handle_transaction. fold (store tx).
  apply keeps_bind; [apply keeps_log|]. intros _.
  apply keeps_st_get_bind. intros self [[Hwf _] _].
  destruct (_should_notify self tx) eqn:Hf; simpl; [|apply keeps_log].
  apply keeps_bind; [|intros _; apply store_traced, Htx].
  - apply keeps_for. intros name _.
    apply traced_frame; [apply notify_via_keeps | apply notify_via_frame].
  - by rewrite <- (wf_config _ _ Hwf).
Qed.

(** A subscription changes the registry of a provider, not its secret. *)
Lemma run_watch_secrets watch w :
  secrets (run_watch watch w).2.1 = secrets w.1.
Proof.
  destruct w as [self e].
  destruct (pd_get (w_chain watch) (ww_chains self)) as [c|] eqn:Hc;
    [destruct (validate_address (w_address watch)) eqn:Hv|].
  - rewrite (run_watch_valid _ _ _ _ Hc Hv). by eapply pd_set_fmap_same.
  - by rewrite (run_watch_invalid _ _ _ _ Hc Hv).
  - by rewrite (run_watch_unknown_chain _ _ _ Hc).
Qed.

Lemma run_watch_traced watch : watch ∈ watches cfg → keeps K (run_watch watch).
Proof.
  intros Hw. apply traced_intro;
    [by apply run_watch_keeps | apply run_watch_secrets |].
  apply (keeps_part ww_storage (λ o, ∀ db, o = Some db → rows_from T db)).
  intros w. by destruct (run_watch_frame watch w) as (_ & _ & _ & Hsto & _).
Qed.

(** The first provider and its secret, read from the secrets. *)
Lemma first_secret self name secret chain :
  secrets self = S → head S = Some (name, secret) →
  pd_get name (ww_chains self) = Some chain →
  webhook_secret chain = secret.
Proof.
  intros <-. unfold secrets. destruct (ww_chains self) as [|[n c] rest];
    [done|]. intros [= -> <-]. rewrite pd_get_cons, decide_True by done.
  by intros [= <-].
Qed.

End traced.

(** ** The constructor *)

Section setup.
Context `{!UsdFormat} {order : SetOrder}.
Variable T : Transaction → Prop.
Implicit Types (self : WalletWatch) (cfg : Config).

Local Abbreviation J := (of_state (stored_from T)).

Lemma get_storage_rows config :
  hoare J (get_storage config) (λ r w, J w ∧ ∀ db, r = Ok db → rows_from T db).
Proof.
  intros [self e] Hself. unfold get_storage. repeat case_decide; try done.
  rewrite m_bind_run, log_run. split; [done|]. intros db [= <-].
  apply rows_from_new.
Qed.

(** The storage the constructor installs is new: it has no row. *)
Lemma setup_stored : keeps J _setup.
Proof.
  unfold _setup, setup_chain, setup_notifier.
  apply keeps_st_get_bind. intros self Hself.
  apply (keeps_bind_value J (rows_from T)); [apply get_storage_rows|].
  intros db Hdb. solve_keeps; apply keeps_st_modify; intros s Hs; try done.
  by intros ? [= <-].
Qed.

Lemma WalletWatch_init_stored cfg e self e' :
  WalletWatch_init cfg e = (Ok self, e') → stored_from T self.
Proof.
  unfold WalletWatch_init. intros Hinit.
  assert (stored_from T {| ww_config := cfg; ww_chains := [];
                           ww_notifiers := []; ww_storage := None |})
    as Hnone by done.
  pose proof (setup_stored (_, e) Hnone) as Hst.
  destruct (_setup _) as [[[]|] [self' e'']]; [|done].
  by injection Hinit as <- <-.
Qed.

End setup.

(** ** Theorems *)

(** C19: the handling of a request keeps every invariant of the state that
    the provider's three error lines keep and that the callbacks keep on
    the calls the route makes: calls for a request that carries the secret,
    with a transaction built from an event of its body, of a callback
    registered for the address of the transaction. *)
Theorem handle_webhook_keeps_what_calls_keep {C W} `{!HasEnv W}
    {order : SetOrder} (invoke : C → Transaction → M W unit) (I : W → Prop)
    (chain : SolanaProvider C) request :
  (∀ lvl msg, provider_line (lvl, msg) → keeps I (log lvl msg)) →
  (∀ c tx, invoked chain request c tx → keeps I (invoke c tx)) →
  keeps I (handle_webhook invoke chain request).
Proof. intros Hlog Hc. by apply handle_webhook_calls. Qed.

(** The theorem for the invariant of the orchestrator and the request of
    Core.v's example. *)
Lemma handle_webhook_keeps_what_calls_keep_witness :
  keeps (of_state (ww_wf (example_config 0)))
    (handle_webhook (order:=insertion_order) (invoke (H:=plain_usd))
       example_chain example_request).
Proof.
  apply (handle_webhook_keeps_what_calls_keep (order:=insertion_order)
           (invoke (H:=plain_usd)) (of_state (ww_wf (example_config 0)))
           example_chain example_request).
  - intros lvl msg _. apply keeps_log.
  - intros c tx _. apply handle_transaction_keeps.
Defined.
