(* ===== verification/Sent.v ===== *)
(** * What the process sends and logs

    The requests of the process are the list [calls] of the environment and
    its log the list [logs].  A request that carries a message is a
    notification: [send_message] of the Telegram client and the POST or GET
    of the webhook notifier.  The pushes of the address list to Helius and
    the JSON-RPC reads carry none.  One line of the log is special: the line
    the orchestrator writes when a notifier raised, which no component
    writes.

    Section [footprint] shows, method by method, what a method adds to the
    environment: a notifier makes requests that carry the message it is
    given, the storage makes none, a provider makes requests without a
    message, and none of them writes the failure line.  The lemmas are
    stated of every property of the environment that such additions keep.

    [sent_from Msg], the instance Trace.v uses, says that every notification
    made so far carries a message in [Msg]. *)

From S2P Require Import Prelude Hoare PyDict PyStr Models Registry Storage.
From S2P Require Import Notifiers Base58 Solana Core.

(** The message a request carries. *)
Definition notification (c : net_call) : option string :=
  match c with
  | TgSendMessage _ text | TgSendMarkup _ text _
  | HttpPost _ text | HttpGet _ text => Some text
  | TgPolling _ _ | HttpPostJson _ _ | HeliusPut _ _ _ _
  | JsonRpc _ _ _ _ => None
  end.

(** The line of the [except] clause of [_handle_transaction]'s loop over the
    notifiers. *)
Definition failure_line (l : log_level * string) : bool :=
  py_startswith "Failed to send notification via " l.2.

Definition ordinary (l : log_level * string) : Prop := failure_line l = false.

Lemma failure_line_failure lvl rest :
  failure_line (lvl, "Failed to send notification via " +:+ rest) = true.
Proof. apply prefix_app. Qed.

(** A method of an object the orchestrator holds adds to the environment
    what it adds on the object. *)
Section objects.
Context `{!UsdFormat} {order : SetOrder}.
Variable P : Env → Prop.

Lemma on_notifier_env {A} name n (m : M (Notifier * Env) A) :
  keeps (of_env P) m → keeps (of_env P) (on_notifier name n m).
Proof.
  intros Hm [self e] He. specialize (Hm (n, e) He).
  unfold on_notifier, of_env in *. simpl in *.
  by destruct (m (n, e)) as [r [n' e']].
Qed.

Lemma on_storage_env {A} db (m : M (SQLiteStorage * Env) A) :
  keeps (of_env P) m → keeps (of_env P) (on_storage db m).
Proof.
  intros Hm [self e] He. specialize (Hm (db, e) He).
  unfold on_storage, of_env in *. simpl in *.
  by destruct (m (db, e)) as [r [db' e']].
Qed.

Lemma on_chain_env {A} name chain (m : M (SolanaProvider WatchConfig * Env) A) :
  keeps (of_env P) m → keeps (of_env P) (on_chain name chain m).
Proof.
  intros Hm [self e] He. specialize (Hm (chain, e) He).
  unfold on_chain, of_env in *. simpl in *.
  by destruct (m (chain, e)) as [r [chain' e']].
Qed.

End objects.

Section footprint.
Variable Q : net_call → Prop.
Variable P : Env → Prop.
Hypothesis P_closed : env_closed Q ordinary P.
Hypothesis Q_other : ∀ c, notification c = None → Q c.

(** The requests that carry [message] are in [Q]. *)
Definition carries (message : string) : Prop :=
  ∀ c, notification c = Some message → Q c.

Lemma footprint_log {S} lvl msg :
  ordinary (lvl, msg) → keeps (W:=S * Env) (of_env P) (log lvl msg).
Proof. by apply (keeps_closed_log Q). Qed.

Lemma footprint_net {S} c : Q c → keeps (W:=S * Env) (of_env P) (net c).
Proof. by apply (keeps_closed_net Q ordinary). Qed.

#[local] Hint Extern 1 (keeps _ (log _ _)) =>
  apply footprint_log; reflexivity : ww.

(** ** The notifiers *)

Section notifiers.
Implicit Types (recipient message : string).

Lemma tg_sent_footprint recipient reply :
  keeps (of_env P) (tg_sent recipient reply).
Proof. unfold tg_sent. solve_keeps. Qed.

Lemma tg_send_to_footprint recipient message :
  carries message → keeps (of_env P) (tg_send_to recipient message).
Proof.
  intros Hm. change (tg_send_to recipient message)
    with (net (TgSendMessage recipient message) ≫= tg_sent recipient).
  apply keeps_bind; [|apply tg_sent_footprint].
  by apply footprint_net, Hm.
Qed.

Lemma tg_send_loop_footprint size message todo : ∀ success,
  carries message →
  keeps (of_env P) (tg_send_loop size todo message success).
Proof.
  induction todo as [|chat_id todo IH]; intros success Hm; simpl;
    pose proof (λ r, tg_send_to_footprint r message Hm); solve_keeps.
Qed.

Lemma tg_send_footprint message :
  carries message → keeps (of_env P) (tg_send message).
Proof.
  intros Hm.
  pose proof (λ size todo s, tg_send_loop_footprint size message todo s Hm).
  unfold tg_send. solve_keeps.
Qed.

Lemma wh_request_footprint recipient c :
  Q c → keeps (of_env P) (wh_request recipient c).
Proof.
  intros Hc. pose proof (footprint_net (S:=WebhookNotifier) c Hc).
  unfold wh_request. solve_keeps.
Qed.

Lemma wh_send_to_footprint recipient message :
  carries message → keeps (of_env P) (wh_send_to recipient message).
Proof.
  intros Hm.
  pose proof (wh_request_footprint recipient _
                (Hm (HttpPost recipient message) eq_refl)).
  pose proof (wh_request_footprint recipient _
                (Hm (HttpGet recipient message) eq_refl)).
  unfold wh_send_to. solve_keeps.
Qed.

Lemma wh_send_footprint message :
  carries message → keeps (of_env P) (wh_send message).
Proof.
  intros Hm. pose proof (λ r, wh_send_to_footprint r message Hm).
  unfold wh_send. solve_keeps.
Qed.

(** A notifier sends the message it is given, and nothing else. *)
Lemma notifier_send_footprint message :
  carries message → keeps (of_env P) (send (N:=Notifier) message).
Proof.
  intros Hm [[t|h] e] He; simpl; unfold notifier_send, of_env; simpl.
  - unfold on_telegram. simpl.
    pose proof (tg_send_footprint message Hm (t, e) He) as Ht.
    by destruct (tg_send message (t, e)) as [r [t' e']].
  - unfold on_webhook. simpl.
    pose proof (wh_send_footprint message Hm (h, e) He) as Hh.
    by destruct (wh_send message (h, e)) as [r [h' e']].
Qed.

End notifiers.

(** ** The storage and the providers *)

Lemma save_transaction_footprint tx : keeps (of_env P) (save_transaction tx).
Proof.
  intros [db e] He. unfold of_env. destruct (closed db) eqn:Hc;
    [rewrite save_transaction_closed by done | by rewrite save_transaction_open].
  simpl. rewrite env_log_after.
  apply P_closed; [done | done | by apply Forall_singleton].
Qed.

Lemma update_webhook_footprint {C} :
  keeps (of_env P) (_update_webhook (C:=C)).
Proof.
  pose proof (λ self : SolanaProvider C,
                footprint_net (S:=SolanaProvider C) (webhook_update self)
                  (Q_other (webhook_update self) eq_refl)).
  unfold _update_webhook. solve_keeps.
Qed.

Lemma subscribe_footprint {C} a (c : C) : keeps (of_env P) (subscribe a c).
Proof.
  pose proof (update_webhook_footprint (C:=C)). unfold subscribe. solve_keeps.
Qed.

(** ** The orchestrator *)

Section orchestrator.
Context `{!UsdFormat} {order : SetOrder}.

(** The body of the [try] of [notify_via]: the line of the [except] clause
    is the one line of the orchestrator that is not ordinary. *)
Lemma notify_footprint message name n :
  carries message →
  keeps (of_env P)
    (on_notifier name n (send message);;
     log INFO ("Notification sent via " +:+ name)).
Proof.
  intros Hm.
  pose proof (on_notifier_env P name n _ (notifier_send_footprint message Hm)).
  solve_keeps.
Qed.

Lemma store_footprint tx : keeps (of_env P) (store tx).
Proof.
  pose proof (λ db, on_storage_env P db _ (save_transaction_footprint tx)).
  unfold store. solve_keeps.
Qed.

Lemma run_watch_footprint watch : keeps (of_env P) (run_watch watch).
Proof.
  pose proof (λ name chain a,
                on_chain_env P name chain _ (subscribe_footprint a watch)).
  unfold run_watch. solve_keeps.
Qed.

(** The constructor makes no request. *)
Lemma setup_footprint : keeps (of_env P) _setup.
Proof. unfold _setup, get_storage, setup_chain, setup_notifier. solve_keeps. Qed.

End orchestrator.

End footprint.

(** ** The notifications *)

Section sent.
Context `{!UsdFormat} {order : SetOrder}.
Variable Msg : string → Prop.

(** A request that carries a message carries one of [Msg]. *)
Definition allowed (c : net_call) : Prop :=
  ∀ text, notification c = Some text → Msg text.

Definition sent_from : Env → Prop := calls_in allowed.

Lemma allowed_other c : notification c = None → allowed c.
Proof. intros Hc text. by rewrite Hc. Qed.

Lemma allowed_carries message : Msg message → carries allowed message.
Proof. intros Hm c Hc text. rewrite Hc. by intros [= <-]. Qed.

Lemma sent_from_closed : env_closed allowed ordinary sent_from.
Proof. intros e cs ls He Hcs _. by apply calls_in_after. Qed.

(** The failure line is a line of the log: it sends nothing. *)
Lemma notify_via_sent message name :
  Msg message → keeps (of_env sent_from) (notify_via message name).
Proof.
  intros Hm.
  pose proof (λ n, notify_footprint allowed sent_from sent_from_closed
                     message name n (allowed_carries message Hm)).
  unfold notify_via. solve_keeps.
Qed.

Lemma store_sent tx : keeps (of_env sent_from) (store tx).
Proof. apply (store_footprint allowed), sent_from_closed. Qed.

Lemma run_watch_sent watch : keeps (of_env sent_from) (run_watch watch).
Proof.
  apply (run_watch_footprint allowed);
    [apply sent_from_closed | apply allowed_other].
Qed.

Lemma setup_sent : keeps (of_env sent_from) _setup.
Proof. apply (setup_footprint allowed), sent_from_closed. Qed.

End sent.
