(* ===== verification/Trace.v ===== *)
(** * What a session stores and sends

    The two outputs of the program are the rows of the table [transactions]
    and the notifications.  This file shows where both come from, for a
    whole session ([watcher = WalletWatch(config); watcher.run()]): every
    row is the row of a transaction that a request of the session pushed,
    and every notification is the message of such a transaction for the
    watch that was registered for its address.

    [trace] is the invariant: the state is [Provenance.traced] and the
    environment [Sent.sent_from].  The constructor establishes it, and the
    loop of subscriptions, the server and [run] keep it; the part of the
    proof that crosses the provider is [Provenance.handle_webhook_calls]. *)

From S2P Require Import Prelude Hoare PyDict PyStr Models Registry Storage.
From S2P Require Import Notifiers Base58 Solana Core Invariant Provenance Sent.

(** The messages the requests can have caused: the message of a pushed
    transaction, with the label of the watch it was pushed to. *)
Definition notified `{!UsdFormat} {order : SetOrder} (cfg : Config)
    (S : list (string * string)) (requests : list Request) (text : string)
    : Prop :=
  ∃ watch tx,
    pushed_to cfg S requests watch tx ∧ text = to_message tx (w_label watch).

Section trace.
Context `{!UsdFormat} {order : SetOrder}.
Variables (cfg : Config) (S : list (string * string)) (all : list Request).
Implicit Types (self : WalletWatch) (request : Request) (tx : Transaction).

Definition trace : World → Prop := λ w,
  of_state (traced cfg S (pushed cfg S all)) w
  ∧ of_env (sent_from (notified cfg S all)) w.

Lemma trace_both {A} (m : M World A) :
  keeps (of_state (traced cfg S (pushed cfg S all))) m →
  keeps (of_env (sent_from (notified cfg S all))) m →
  keeps trace m.
Proof. apply keeps_and. Qed.

Lemma log_trace lvl msg : keeps trace (log lvl msg).
Proof. apply trace_both; [apply keeps_log | apply keeps_calls_log]. Qed.

(** The callback of [watch], on a transaction that was pushed to it when it
    passes the filter. *)
Lemma handle_transaction_trace tx watch :
  (passes cfg tx = true → pushed_to cfg S all watch tx) →
  keeps trace (_handle_transaction tx watch).
Proof.
  intros Htx. unfold _handle_transaction. fold (store tx).
  apply keeps_bind; [apply log_trace|]. intros _.
  apply keeps_st_get_bind_world. intros self [e [[[Hwf _] _] _]].
  destruct (_should_notify self tx) eqn:Hf; simpl; [|apply log_trace].
  assert (pushed_to cfg S all watch tx) as Hp.
  { apply Htx. by rewrite <- (wf_config _ _ Hwf). }
  apply keeps_bind.
  - apply keeps_for. intros name _. apply trace_both.
    + apply traced_frame; [apply notify_via_keeps | apply notify_via_frame].
    + apply notify_via_sent. by exists watch, tx.
  - intros _. apply trace_both; [|apply store_sent].
    apply store_traced. by exists watch.
Qed.

Lemma run_watch_trace watch : watch ∈ watches cfg → keeps trace (run_watch watch).
Proof.
  intros Hw. apply trace_both; [by apply run_watch_traced | apply run_watch_sent].
Qed.

Lemma handle_webhook_trace name secret chain request :
  head S = Some (name, secret) → webhook_secret chain = secret →
  chain_wf cfg name chain → request ∈ all →
  keeps trace (handle_webhook invoke chain request).
Proof.
  intros Hhead Hsecret [_ Hcb] Hin.
  apply handle_webhook_calls; [intros lvl msg _; apply log_trace|].
  intros watch tx (Hauth & Hfrom & Hwatch).
  apply handle_transaction_trace. intros Hpass.
  destruct (Hcb _ _ Hwatch) as [Hcfg Hacc].
  subst secret. by exists name, (webhook_secret chain), request.
Qed.

Lemma serve_trace name secret requests :
  head S = Some (name, secret) → requests ⊆ all →
  keeps trace (serve name requests).
Proof.
  intros Hhead. induction requests as [|request requests IH]; intros Hsub;
    simpl; [apply keeps_ret|].
  apply keeps_st_get_bind_world. intros self [e [[[Hwf Hs] _] _]].
  destruct (pd_get name (ww_chains self)) as [chain|] eqn:Hchain;
    [|apply keeps_ret].
  apply keeps_bind; [|intros r; apply keeps_bind;
                       [apply IH; set_solver | intros rs; apply keeps_ret]].
  eapply handle_webhook_trace; [done| |by apply (wf_chain _ _ Hwf)|set_solver].
  by eapply first_secret.
Qed.

Lemma run_trace : keeps trace (run all).
Proof.
  unfold run, provider_run.
  apply keeps_st_get_bind_world. intros self [e [[[Hwf _] _] _]].
  apply keeps_bind; [case_match; [apply log_trace | apply keeps_ret]|].
  intros _. apply keeps_bind.
  { apply keeps_for. intros watch Hw. apply run_watch_trace.
    by rewrite <- (wf_config _ _ Hwf). }
  intros _. apply keeps_bind; [apply log_trace|]. intros _.
  apply keeps_st_get_bind_world. intros self' [e' [[[_ Hs] _] _]]. cbv beta.
  destruct (ww_chains self') as [|[name chain] rest] eqn:Hchains;
    [apply keeps_ret|]. simpl.
  apply keeps_bind; [apply log_trace|]. intros _.
  apply (serve_trace name (webhook_secret chain)); [|done].
  simpl in Hs. by rewrite <- Hs; unfold secrets; rewrite Hchains.
Qed.

End trace.

(** ** The session *)

Section session.
Context `{!UsdFormat} {order : SetOrder}.
Implicit Types (self : WalletWatch) (cfg : Config).

Lemma WalletWatch_init_sent Msg cfg e self e' :
  WalletWatch_init cfg e = (Ok self, e') → sent_from Msg e → sent_from Msg e'.
Proof.
  unfold WalletWatch_init. intros Hinit He.
  pose proof (setup_sent Msg
                ({| ww_config := cfg; ww_chains := []; ww_notifiers := [];
                    ww_storage := None |}, e) He) as Hsent.
  destruct (_setup _) as [[[]|] [self' e'']]; [|done].
  by injection Hinit as <- <-.
Qed.

(** The orchestrator and the environment a session ends with, when it
    started in a process that had sent nothing. *)
Lemma session_trace cfg requests e rs watcher e' :
  calls e = [] →
  session cfg requests e = (Ok (rs, watcher), e') →
  trace cfg (secrets watcher) requests (watcher, e').
Proof.
  intros He. unfold session. rewrite m_bind_run.
  destruct (WalletWatch_init cfg e) as [[self|] e1] eqn:Hinit; [|done].
  pose proof (WalletWatch_init_wf _ _ _ _ Hinit) as Hwf.
  pose proof (WalletWatch_init_stored
                (pushed cfg (secrets self) requests) _ _ _ _ Hinit) as Hst.
  assert (sent_from (notified cfg (secrets self) requests) e1) as Hsent.
  { eapply WalletWatch_init_sent; [done|]. unfold sent_from, calls_in.
    by rewrite He. }
  rewrite m_bind_run.
  pose proof (log_calls INFO "Starting Wallet Watch..." e1) as Hcalls.
  unfold exec in Hcalls. destruct (log INFO _ e1) as [[[]|] e2]; [|done].
  unfold with_watcher. simpl in Hcalls.
  assert (sent_from (notified cfg (secrets self) requests) e2) as Hsent2.
  { unfold sent_from, calls_in. by rewrite Hcalls. }
  pose proof (run_trace cfg (secrets self) requests (self, e2)
                (conj (conj (conj Hwf eq_refl) Hst) Hsent2)) as Hrun.
  destruct (run requests (self, e2)) as [[rs'|] [watcher' e3]]; [|done].
  intros [= _ <- <-]. destruct Hrun as [[[Hwf' Hs] Hst'] Hsent'].
  simpl in *. by rewrite Hs.
Qed.

End session.

(** ** Theorems *)

Section trace_theorems.
Context `{!UsdFormat} {order : SetOrder}.
Implicit Types (self : WalletWatch) (cfg : Config) (r : TxRow).

(** [run] stores and sends only what the requests brought: when every row
    of the storage is the row of a pushed transaction and every
    notification made so far the message of one, so it is after [run],
    whatever the requests carry and whatever the network answers. *)
Theorem run_keeps_trace cfg requests self e :
  ww_wf cfg self →
  stored_from (pushed cfg (secrets self) requests) self →
  sent_from (notified cfg (secrets self) requests) e →
  stored_from (pushed cfg (secrets self) requests)
    (run requests (self, e)).2.1
  ∧ sent_from (notified cfg (secrets self) requests)
      (run requests (self, e)).2.2.
Proof.
  intros Hwf Hst He.
  destruct (run_trace cfg (secrets self) requests (self, e)
              (conj (conj (conj Hwf eq_refl) Hst) He)) as [[_ Hst'] He'].
  by split.
Qed.


(** C13: every notification of a session is the message of a transaction that
    a request of the session pushed, with the label of the watch it was
    pushed to: the process tells nobody anything that an authorised request
    did not bring about a watched address. *)
Theorem notifications_were_pushed cfg requests e rs watcher e' c text :
  calls e = [] →
  session cfg requests e = (Ok (rs, watcher), e') →
  c ∈ calls e' → notification c = Some text →
  notified cfg (secrets watcher) requests text.
Proof.
  intros He Hsession Hc Htext.
  destruct (session_trace _ _ _ _ _ _ He Hsession) as [_ Hsent].
  by apply (proj1 (Forall_forall _ _) Hsent c Hc text).
Qed.

(** A session without a request stores nothing. *)
Corollary no_request_no_row cfg e rs watcher e' db :
  calls e = [] →
  session cfg [] e = (Ok (rs, watcher), e') →
  ww_storage watcher = Some db → transactions_tbl db = [].
Proof.
  intros He Hsession Hdb.
  destruct (session_trace _ _ _ _ _ _ He Hsession) as [[_ Hst] _].
  destruct (transactions_tbl db) as [|r rows] eqn:Htbl; [done|].
  destruct (Hst db Hdb r)
    as (tx & (? & ? & ? & ? & _ & []%elem_of_nil & _) & _).
  rewrite Htbl. left.
Qed.

(** Requests that do not carry the secret store nothing and cause no
    notification. *)
Corollary unauthorised_requests_no_effect cfg requests e rs watcher e' :
  calls e = [] →
  session cfg requests e = (Ok (rs, watcher), e') →
  (∀ name secret request,
     head (secrets watcher) = Some (name, secret) → request ∈ requests →
     authorised secret request = false) →
  (∀ db, ww_storage watcher = Some db → transactions_tbl db = [])
  ∧ (∀ c, c ∈ calls e' → notification c = None).
Proof.
  intros He Hsession Hno.
  destruct (session_trace _ _ _ _ _ _ He Hsession) as [[_ Hst] Hsent].
  assert (∀ watch tx, ¬ pushed_to cfg (secrets watcher) requests watch tx)
    as Hnone.
  { intros watch tx (name & secret & request & Hh & Hin & Hauth & _).
    by rewrite (Hno name secret request) in Hauth. }
  split.
  - intros db Hdb. destruct (transactions_tbl db) as [|r rows] eqn:Htbl; [done|].
    destruct (Hst db Hdb r) as (tx & [watch Hp] & _); [rewrite Htbl; left|].
    by destruct (Hnone watch tx).
  - intros c Hc. destruct (notification c) as [text|] eqn:Htext; [|done].
    destruct (proj1 (Forall_forall _ _) Hsent c Hc text Htext)
      as (watch & tx & Hp & _).
    by destruct (Hnone watch tx).
Qed.

(** The columns of a stored row, read back to the request: the signature is
    the signature of an event of the request, the address an address of that
    event and of a watch of the configuration, and the chain is Solana. *)
Corollary stored_row_columns cfg requests e rs watcher e' db r :
  calls e = [] →
  session cfg requests e = (Ok (rs, watcher), e') →
  ww_storage watcher = Some db → r ∈ transactions_tbl db →
  ∃ request data event watch,
    request ∈ requests ∧ req_json request = Ok data ∧ event ∈ events data
    ∧ tr_signature r = default "" (ev_signature event)
    ∧ tr_address r ∈ addresses_involved event
    ∧ watch ∈ watches cfg ∧ w_address watch = tr_address r
    ∧ validate_address (tr_address r) = true
    ∧ tr_chain r = "solana".
Proof.
  intros He Hsession Hdb Hr.
  destruct (session_trace _ _ _ _ _ _ He Hsession) as [[_ Hst] _].
  destruct (Hst db Hdb r Hr)
    as (tx & (watch & name & secret & request & _ & Hin & _ & Hfrom & Hw
              & (_ & Ha & Hv) & _) & (t & db0 & ->)).
  destruct Hfrom as (data & event & Hdata & Hevent & Haddr & Htx).
  exists request, data, event, watch. simpl. split_and!; try done.
  - apply event_transaction_signature in Htx. by rewrite Htx.
  - by destruct (event_transaction_provider_tx _ _ _ Htx) as [[? _] _].
Qed.

End trace_theorems.

(** ** The theorems at concrete inputs *)

(** The session of Core.v's example: one request with the secret, whose
    event names the watched address. *)
Definition served : result (list Response * WalletWatch) * Env :=
  session (H:=plain_usd) (order:=insertion_order) (example_config 0)
    [example_request] quiet.

Definition served_watcher : WalletWatch :=
  match served.1 with Ok (_, watcher) => watcher | Raise _ => fresh_watcher end.

Definition served_row : TxRow := new_tx_row 0 example_tx example_db.

Definition served_call : net_call :=
  HttpPost "https://hooks.example.org/notify"
    (to_message (H:=plain_usd) example_tx "Treasury").


Lemma notifications_were_pushed_witness :
  ∃ watch tx,
    pushed_to (order:=insertion_order) (example_config 0)
      (secrets served_watcher) [example_request] watch tx
    ∧ to_message (H:=plain_usd) example_tx "Treasury"
      = to_message (H:=plain_usd) tx (w_label watch).
Proof.
  eapply (notifications_were_pushed (H:=plain_usd) (order:=insertion_order)
            (example_config 0) [example_request] quiet _ served_watcher _
            served_call);
    [done | by vm_compute | vm_compute; right; left | done].
Defined.

Lemma run_keeps_trace_witness :
  stored_from
    (pushed (order:=insertion_order) (example_config 0)
       (secrets fresh_watcher) [example_request])
    (run (H:=plain_usd) (order:=insertion_order) [example_request]
       (fresh_watcher, quiet)).2.1
  ∧ sent_from
      (notified (H:=plain_usd) (order:=insertion_order) (example_config 0)
         (secrets fresh_watcher) [example_request])
      (run (H:=plain_usd) (order:=insertion_order) [example_request]
         (fresh_watcher, quiet)).2.2.
Proof.
  apply (run_keeps_trace (H:=plain_usd) (order:=insertion_order)
           (example_config 0) [example_request] fresh_watcher quiet).
  - eapply (WalletWatch_init_wf (example_config 0) quiet). by vm_compute.
  - eapply (WalletWatch_init_stored _ (example_config 0) quiet).
    by vm_compute.
  - apply Forall_nil_2.
Defined.

(** A request without the secret leaves the table empty and sends
    nothing. *)
Example unauthorised_request_example :
  match session (H:=plain_usd) (order:=insertion_order) (example_config 0)
          [mkRequest None (req_json example_request)] quiet with
  | (Ok (rs, watcher), e') =>
      status <$> rs = [401%Z]
      ∧ (transactions_tbl <$> ww_storage watcher) = Some []
      ∧ notification <$> calls e' = [None]
  | (Raise _, _) => False
  end.
Proof. by vm_compute. Qed.
