(* ===== verification/Budget.v ===== *)
(** * How often a notification can fail

    [_handle_transaction] catches what a notifier raises and writes the
    line [Failed to send notification via ...].  The webhook notifier never
    raises; the Telegram notifier raises when a subscriber who blocked the
    bot is discarded during the loop over the subscribers, and then it has a
    subscriber less (Liveness.v).  Nothing in the program adds a subscriber
    after the constructor, which gives the one Telegram notifier at most one.

    So the subscribers the notifiers still have and the failure lines in the
    log never add up to more than they did: [budget B] is an invariant of
    every method of the orchestrator, and the log of a session has at most
    one failure line.  The proof composes the measure of Liveness.v with the
    footprints of Sent.v and crosses the provider with
    [Provenance.handle_webhook_calls]. *)

From S2P Require Import Prelude Hoare PyDict PyStr Models Registry Storage.
From S2P Require Import Notifiers Keywords Base58 Solana Core Invariant.
From S2P Require Import Liveness Provenance Sent.

(** The subscribers of a notifier: the chats of a Telegram notifier; a
    webhook notifier has none. *)
Definition notifier_subscribers (n : Notifier) : nat :=
  match n with NTelegram t => length (subscribers t) | NWebhook _ => 0 end.

(** The subscribers of all the notifiers the orchestrator holds. *)
Definition subscribers_left (self : WalletWatch) : nat :=
  pd_sum notifier_subscribers (ww_notifiers self).

(** The failure lines in the log. *)
Definition failures : Env → nat := lines failure_line.

Definition budget (B : nat) : World → Prop := λ w,
  subscribers_left w.1 + failures w.2 ≤ B.

(** What the constructor of a notifier stored under [name] gives it. *)
Definition at_most_one (name : string) (n : Notifier) : Prop :=
  notifier_subscribers n ≤ if decide (name = "telegram") then 1 else 0.

Section budget.
Context `{!UsdFormat} {order : SetOrder}.
Implicit Types (self : WalletWatch) (e : Env) (n : Notifier) (B k : nat).
Implicit Types (message name : string).

Lemma failures_closed k :
  env_closed (λ _, True) ordinary (λ e, failures e = k).
Proof. apply lines_closed. Qed.

Lemma anything_carries message : carries (λ _, True) message.
Proof. done. Qed.

(** ** Steps that leave the notifiers alone *)

Lemma budget_log B lvl msg : ordinary (lvl, msg) → keeps (budget B) (log lvl msg).
Proof.
  intros Hl [self e] Hw. rewrite log_run. unfold budget, failures. simpl.
  rewrite lines_quiet; [done | by apply Forall_singleton].
Qed.

Lemma budget_frame {A} B (m : M World A) :
  (∀ w, ww_notifiers (m w).2.1 = ww_notifiers w.1) →
  (∀ k, keeps (of_env (λ e, failures e = k)) m) →
  keeps (budget B) m.
Proof.
  intros Hn He [self e] Hw. unfold budget, subscribers_left.
  rewrite Hn, (He (failures e) (self, e) eq_refl). exact Hw.
Qed.

Lemma store_budget B tx : keeps (budget B) (store tx).
Proof.
  apply budget_frame.
  - intros [self e]. rewrite store_run. by repeat case_match.
  - intros k. apply (store_footprint (λ _, True)), failures_closed.
Qed.

Lemma run_watch_budget B watch : keeps (budget B) (run_watch watch).
Proof.
  apply budget_frame.
  - intros w. apply (run_watch_frame watch w).
  - intros k. by apply (run_watch_footprint (λ _, True));
      [apply failures_closed|].
Qed.

(** ** The notifications *)

(** A call of [send] never adds a subscriber, and one that raises removes
    one. *)
Lemma notifier_send_shrinks message n e :
  match send message (n, e) with
  | (Ok _, (n', _)) => notifier_subscribers n' ≤ notifier_subscribers n
  | (Raise _, (n', _)) => notifier_subscribers n' < notifier_subscribers n
  end.
Proof.
  destruct n as [t|h]; simpl; unfold notifier_send; simpl.
  - unfold on_telegram. simpl.
    pose proof (tg_send_shrinks message None t e) as Ht.
    rewrite tg_send_kwargs_None in Ht.
    by destruct (tg_send message (t, e)) as [[b|x] [t' e']].
  - unfold on_webhook. simpl. pose proof (wh_send_no_raise message (h, e)).
    by destruct (wh_send message (h, e)) as [[b|x] [h' e']]; [simpl; lia|].
Qed.

(** The body of the [try] of [notify_via]: when it raises, a unit of the
    budget is left for the line of the [except] clause. *)
Lemma notify_budget B message name n :
  hoare (λ w, budget B w ∧ pd_get name (ww_notifiers w.1) = Some n)
    (on_notifier name n (send message);;
     log INFO ("Notification sent via " +:+ name))
    (λ r w, subscribers_left w.1 + failures w.2
            + (if is_ok r then 0 else 1) ≤ B).
Proof.
  intros [self e] [Hw Hn].
  pose proof (notify_footprint (λ _, True) _ (failures_closed (failures e))
                message name n (anything_carries message) (self, e) eq_refl)
    as He.
  pose proof (notifier_send_shrinks message n e) as Hs.
  pose proof (pd_sum_set notifier_subscribers name
                (send message (n, e)).2.1 (ww_notifiers self)) as Hsum.
  simpl in Hn. rewrite Hn in Hsum. revert He. rewrite m_bind_run.
  unfold on_notifier, budget, subscribers_left, of_env in *.
  cbn [fst snd from_option] in *.
  destruct (send message (n, e)) as [[b|x] [n' e']]; cbn [fst snd] in *;
    rewrite ?log_run; simpl; intros He; lia.
Qed.

Lemma failure_line_budget B name x :
  hoare (λ w, subscribers_left w.1 + failures w.2 + 1 ≤ B)
    (log ERROR ("Failed to send notification via " +:+ name +:+ ": "
                +:+ exn_msg x))
    (λ _, budget B).
Proof.
  intros [self e] Hw. rewrite log_run. unfold budget, failures. simpl.
  rewrite lines_after. cbn [List.filter]. rewrite failure_line_failure.
  simpl in *. unfold failures in Hw. lia.
Qed.

Lemma notify_via_budget B message name :
  keeps (budget B) (notify_via message name).
Proof.
  intros [self e] Hw. unfold notify_via. rewrite m_bind_run. simpl.
  destruct (pd_get name (ww_notifiers self)) as [n|] eqn:Hn; [|done].
  refine (hoare_try _ _ _ _ (λ _, budget B) (notify_budget B message name n)
            _ _ (self, e) (conj Hw Hn)).
  - intros a w Hq. unfold budget. simpl in Hq. lia.
  - intros x. apply failure_line_budget.
Qed.

#[local] Hint Extern 1 (keeps (budget _) (log _ _)) =>
  apply budget_log; reflexivity : ww.

(** ** The callback, the server and [run] *)

Lemma handle_transaction_budget B tx watch :
  keeps (budget B) (_handle_transaction tx watch).
Proof.
  pose proof (notify_via_budget B). pose proof (store_budget B tx).
  unfold _handle_transaction. fold (store tx). solve_keeps.
Qed.

Lemma handle_webhook_budget B chain request :
  keeps (budget B) (handle_webhook invoke chain request).
Proof.
  apply handle_webhook_calls.
  - intros lvl msg Hl. apply budget_log. by destruct Hl.
  - intros watch tx _. apply handle_transaction_budget.
Qed.

Lemma serve_budget B name requests : keeps (budget B) (serve name requests).
Proof.
  pose proof (handle_webhook_budget B).
  induction requests as [|request requests IH]; simpl; solve_keeps.
Qed.

Lemma run_budget B requests : keeps (budget B) (run requests).
Proof.
  pose proof (serve_budget B). pose proof (run_watch_budget B).
  unfold run, provider_run. solve_keeps.
Qed.

(** ** The constructor *)

Lemma get_notifier_at_most_one name bot_token webhook_url chat_id n :
  get_notifier name bot_token webhook_url chat_id = Ok n → at_most_one name n.
Proof.
  unfold get_notifier, at_most_one, TelegramNotifier_init,
    WebhookNotifier_init.
  repeat case_decide; repeat case_match; intros ?; simplify_eq/=; lia.
Qed.

Lemma setup_at_most_one :
  keeps (of_state (λ self, pd_Forall at_most_one (ww_notifiers self))) _setup.
Proof.
  unfold _setup, get_storage, setup_chain, setup_notifier. solve_keeps;
    apply keeps_st_modify; intros self' Hself; try done.
  apply pd_Forall_set; [done|]. by eapply get_notifier_at_most_one.
Qed.

(** The constructor writes no failure line, whatever its outcome. *)
Lemma WalletWatch_init_failures cfg e :
  failures (WalletWatch_init cfg e).2 = failures e.
Proof.
  unfold WalletWatch_init.
  set (w := ({| ww_config := cfg; ww_chains := []; ww_notifiers := [];
                ww_storage := None |}, e)).
  pose proof (setup_footprint (λ _, True) _ (failures_closed (failures e))
                w eq_refl) as He.
  by destruct (_setup w) as [[[]|] [self' e'']].
Qed.

(** The orchestrator the constructor returns has at most one subscriber. *)
Lemma WalletWatch_init_budget cfg e self e' :
  WalletWatch_init cfg e = (Ok self, e') → budget (failures e + 1) (self, e').
Proof.
  intros Hinit. pose proof (WalletWatch_init_wf _ _ _ _ Hinit) as Hwf.
  pose proof (WalletWatch_init_failures cfg e) as He. rewrite Hinit in He.
  revert Hinit. unfold WalletWatch_init.
  set (w := ({| ww_config := cfg; ww_chains := []; ww_notifiers := [];
                ww_storage := None |}, e)).
  pose proof (setup_at_most_one w (pd_Forall_nil _)) as Hone.
  destruct (_setup w) as [[[]|] [self' e'']]; [|done]. intros [= <- <-].
  pose proof (pd_sum_one_key notifier_subscribers "telegram" 1 _
                (wf_notifiers _ _ Hwf) Hone) as Hsum.
  unfold budget, subscribers_left, of_state in *. simpl in *.
  case_decide; lia.
Qed.

(** A session, whatever its outcome: the environment it leaves is the
    environment of a state within the budget of the constructor. *)
Lemma session_budget cfg requests e :
  ∃ self, budget (failures e + 1) (self, (session cfg requests e).2).
Proof.
  unfold session. rewrite m_bind_run.
  pose proof (WalletWatch_init_failures cfg e) as He.
  destruct (WalletWatch_init cfg e) as [[self|] e1] eqn:Hinit.
  - apply WalletWatch_init_budget in Hinit. rewrite m_bind_run.
    pose proof (budget_log (failures e + 1) INFO "Starting Wallet Watch..."
                  eq_refl (self, e1) Hinit) as Hlog.
    rewrite log_run in Hlog. unfold log, m_modify. simpl.
    rewrite env_log_after. unfold with_watcher.
    pose proof (run_budget _ requests _ Hlog) as Hrun.
    by destruct (run requests _) as [[rs'|] [watcher' e3]];
      exists watcher'.
  - exists {| ww_config := cfg; ww_chains := []; ww_notifiers := [];
              ww_storage := None |}.
    unfold budget, subscribers_left. simpl in *. rewrite He.
    unfold pd_sum. simpl. lia.
Qed.

End budget.

(** ** Theorems *)

Section budget_theorems.
Context `{!UsdFormat} {order : SetOrder}.
Implicit Types (self : WalletWatch) (e : Env) (cfg : Config).

(** [run] pays for a failure line with a subscriber: the subscribers left
    and the failure lines written never add up to more than before, whatever
    the requests carry and whatever the network answers. *)
Theorem run_failures_paid requests self e :
  subscribers_left (run requests (self, e)).2.1
  + failures (run requests (self, e)).2.2
  ≤ subscribers_left self + failures e.
Proof.
  exact (run_budget (subscribers_left self + failures e) requests (self, e)
           (le_n _)).
Qed.

(** The callback of a watch writes at most as many failure lines as there
    are subscribers, and each costs one. *)
Theorem handle_transaction_failures_paid tx watch self e :
  subscribers_left (_handle_transaction tx watch (self, e)).2.1
  + failures (_handle_transaction tx watch (self, e)).2.2
  ≤ subscribers_left self + failures e.
Proof.
  exact (handle_transaction_budget (subscribers_left self + failures e)
           tx watch (self, e) (le_n _)).
Qed.

(** The log of a session has at most one failure line more than the log it
    started with, whatever the configuration, the requests, the answers of
    the network and the outcome. *)
Theorem session_failures_bounded cfg requests e :
  failures (session cfg requests e).2 ≤ failures e + 1.
Proof.
  destruct (session_budget cfg requests e) as [self Hb].
  unfold budget in Hb. simpl in Hb. lia.
Qed.

(** An orchestrator whose notifiers have no subscriber writes no failure
    line: with webhook notifiers only, no notification attempt raises. *)
Corollary no_subscribers_no_failures requests self e :
  subscribers_left self = 0 →
  failures (run requests (self, e)).2.2 ≤ failures e.
Proof.
  intros Hnone.
  pose proof (run_budget (subscribers_left self + failures e) requests
                (self, e) (le_n _)) as Hb.
  unfold budget in Hb. simpl in Hb. lia.
Qed.

End budget_theorems.

(** ** The theorems at concrete inputs *)

Definition pager : WatchConfig :=
  {| w_address := system_program; w_chain := "solana"; w_label := "Treasury";
     w_notify := ["telegram"]; w_filters := [] |}.

(** The configuration of Core.v's example with a Telegram notifier in
    place of the webhook. *)
Definition pager_config : Config :=
  {| chains := chains (example_config 0);
     notifiers := [{| nc_type := "telegram"; nc_bot_token := "token";
                      nc_webhook_url := ""; nc_chat_id := "42" |}];
     watches := [pager];
     filters := filters (example_config 0);
     storage := storage (example_config 0);
     server := server (example_config 0) |}.

(** The subscriber has blocked the bot: the request after the push of the
    address list to Helius, the first [send_message], is refused. *)
Definition blocking : Env := env0 (oracle_blocked_at 1) 0.

Definition paged (requests : list Request)
    : result (list Response * WalletWatch) * Env :=
  session (H:=plain_usd) (order:=insertion_order) pager_config requests
    blocking.

(** Two transactions for a subscriber who blocked the bot: the first
    notification fails and removes the subscriber, the second finds nobody
    to notify, and more transactions add no failure line. *)
Example blocked_subscriber_example :
  failures (paged [example_request]).2 = 1
  ∧ failures (paged [example_request; example_request]).2 = 1
  ∧ (filter (λ l, l.1 = WARNING)
       (logs (paged [example_request; example_request]).2)).*2
    = ["Bot blocked by user 42"; "No Telegram subscribers configured"].
Proof. by vm_compute. Qed.

Lemma no_subscribers_no_failures_witness :
  failures (run (H:=plain_usd) (order:=insertion_order) [example_request]
              (fresh_watcher, quiet)).2.2 ≤ failures quiet.
Proof.
  by apply (no_subscribers_no_failures (H:=plain_usd) (order:=insertion_order)
              [example_request] fresh_watcher quiet).
Defined.

