(* ===== verification/Stored.v ===== *)
(** * No pushed transaction is lost

    Trace.v shows that a row of the table comes from a pushed transaction.
    This file shows the converse: a transaction that a request of the
    session pushed has a row, with its signature, when the session ends.  The
    request reaches the callback of the watch because no step on the way
    can raise past it ([except] clauses around each callback and each
    event), the callback stores what passes the filter, and nothing deletes
    a row or closes the storage.

    The row has the signature of the transaction, not always its address:
    the signature is the key of the table, and an event that names two
    watched addresses gives two transactions with one signature, of which
    the second is ignored ([second_address_not_stored]).

    Section [reach] is the dual of [Provenance.handle_webhook_calls]: the
    handling of a request establishes what one of the calls it makes
    establishes, when every call keeps it. *)

From S2P Require Import Prelude Hoare PyDict PyStr Models Registry Storage.
From S2P Require Import Notifiers Base58 Solana Core Invariant Provenance.
From S2P Require Import Sent Trace.

(** ** Across the provider *)

Section reach.
Context {C W : Type} `{!HasEnv W} {order : SetOrder}.
Variable invoke : C → Transaction → M W unit.
Variables I I' : W → Prop.
Hypothesis log_I :
  ∀ lvl msg, provider_line (lvl, msg) → keeps I (log lvl msg).
Hypothesis log_I' :
  ∀ lvl msg, provider_line (lvl, msg) → keeps I' (log lvl msg).
Hypothesis invoke_I : ∀ c tx, keeps I (invoke c tx).
Hypothesis invoke_I' : ∀ c tx, keeps I' (invoke c tx).
Variables (c0 : C) (tx0 : Transaction).
Hypothesis invoke_reach : hoare I (invoke c0 tx0) (λ _, I').
Implicit Types (self : SolanaProvider C) (request : Request).

Lemma guarded_call_keeps (J : W → Prop) tx c :
  (∀ lvl msg, provider_line (lvl, msg) → keeps J (log lvl msg)) →
  keeps J (invoke c tx) → keeps J (guarded_call invoke tx c).
Proof.
  intros Hlog Hc. apply keeps_try; [done|]. intros x. apply Hlog. constructor.
Qed.

Lemma notify_callbacks_reach (b : ChainBase C) :
  c0 ∈ callbacks_of (address tx0) b →
  hoare I (notify_callbacks invoke (address tx0) tx0 b) (λ _, I').
Proof.
  intros Hc. unfold notify_callbacks, callbacks_of, pd_mem in *.
  destruct (pd_get _ _) as [l|]; [|by apply elem_of_nil in Hc]. simpl in *.
  apply (hoare_for_reach I I' l _ c0 Hc).
  - intros c _. apply guarded_call_no_raise.
  - intros c _. by apply guarded_call_keeps.
  - intros c _. by apply guarded_call_keeps.
  - apply hoare_try_keeps; [done|]. intros x. apply log_I'. constructor.
Qed.

Lemma notify_address_no_raise self event a :
  timestamp_ok event = true → no_raise (notify_address invoke self event a).
Proof. intros Hts w. by rewrite notify_address_ok. Qed.

Lemma notify_address_reach self event :
  event_transaction event (address tx0) = Ok tx0 →
  c0 ∈ callbacks_of (address tx0) (base self) →
  hoare I (notify_address invoke self event (address tx0)) (λ _, I').
Proof.
  intros Htx Hc w Hw. unfold notify_address.
  assert (pd_mem (address tx0) (subscriptions (base self)) = true) as ->.
  { unfold callbacks_of, pd_mem in *.
    by destruct (pd_get _ _); [|apply elem_of_nil in Hc]. }
  rewrite Htx, m_bind_run. simpl. by apply notify_callbacks_reach.
Qed.

Lemma process_event_reach self event :
  address tx0 ∈ addresses_involved event →
  event_transaction event (address tx0) = Ok tx0 →
  c0 ∈ callbacks_of (address tx0) (base self) →
  hoare I (process_event invoke self event) (λ _, I').
Proof.
  intros Ha Htx Hc. unfold process_event.
  assert (timestamp_ok event = true) as Hts.
  { rewrite event_transaction_spec in Htx. by destruct (timestamp_ok event). }
  apply hoare_try_keeps; [|intros x; apply log_I'; constructor].
  apply (hoare_for_reach I I' _ _ (address tx0) Ha).
  - intros a _. by apply notify_address_no_raise.
  - intros a _. by apply notify_address_calls.
  - intros a _. by apply notify_address_calls.
  - by apply notify_address_reach.
Qed.

Lemma process_webhook_data_reach self data event :
  event ∈ events data →
  address tx0 ∈ addresses_involved event →
  event_transaction event (address tx0) = Ok tx0 →
  c0 ∈ callbacks_of (address tx0) (base self) →
  hoare I (_process_webhook_data invoke self data) (λ _, I').
Proof.
  intros Hev Ha Htx Hc.
  assert (∀ l, event ∈ l →
               hoare I (m_for l (process_event invoke self)) (λ _, I')) as Hl.
  { intros l Hin. apply (hoare_for_reach I I' l _ event Hin).
    - intros ev _. apply process_event_no_raise.
    - intros ev _. by apply process_event_calls.
    - intros ev _. by apply process_event_calls.
    - by apply process_event_reach. }
  destruct data as [ev|evs|]; simpl in Hev;
    [by apply (Hl [ev]) | by apply (Hl evs) | by apply elem_of_nil in Hev].
Qed.

(** The handling of a request establishes what one of its calls
    establishes. *)
Lemma handle_webhook_reach self request :
  invoked self request c0 tx0 →
  hoare I (handle_webhook invoke self request) (λ _, I').
Proof.
  intros (Hauth & (data & event & Hjson & Hev & Ha & Htx) & Hc).
  unfold handle_webhook. unfold authorised in Hauth.
  apply negb_true_iff in Hauth. rewrite Hauth.
  apply hoare_try_keeps.
  - rewrite Hjson.
    apply (hoare_bind I _ _ (λ r w, r = Ok data ∧ I w) (λ _, I'));
      [apply hoare_lift | intros d | by intros x w [? _]].
    intros w [[= ->] Hw]. revert w Hw.
    apply (hoare_bind I _ _ (λ _, I') (λ _, I'));
      [by eapply process_webhook_data_reach | intros _; apply keeps_ret | done].
  - intros x. apply keeps_bind; [apply log_I'; constructor|].
    intros _. apply keeps_ret.
Qed.

End reach.

(** ** The orchestrator *)

(** The storage is there and its connection open. *)
Definition open_storage (self : WalletWatch) : Prop :=
  ∃ db, ww_storage self = Some db ∧ closed db = false.

(** The table has a row with the signature. *)
Definition has_row (sig : string) (self : WalletWatch) : Prop :=
  ∃ db, ww_storage self = Some db ∧ has_signature sig db = true.

(** The orchestrator while the server runs: the configuration and the
    providers do not change, and the storage stays open. *)
Definition serving (cfg : Config)
    (chs : pydict string (SolanaProvider WatchConfig)) (self : WalletWatch)
    : Prop :=
  ww_config self = cfg ∧ ww_chains self = chs ∧ open_storage self.

Section stored.
Context `{!UsdFormat} {order : SetOrder}.
Variables (cfg : Config) (chs : pydict string (SolanaProvider WatchConfig)).
Implicit Types (self : WalletWatch) (tx : Transaction) (sig name : string).
Implicit Types (watch : WatchConfig) (request : Request).

Lemma handle_transaction_serving tx watch :
  keeps (of_state (serving cfg chs)) (_handle_transaction tx watch).
Proof.
  intros [self e] (Hc & Hch & db & Hdb & Hopen).
  destruct (handle_transaction_frame tx watch (self, e)) as (Hc' & Hch' & _).
  pose proof (handle_transaction_keeps_open tx watch (self, e)) as Ho.
  unfold keeps_open, of_state, serving, open_storage in *. simpl in *.
  split_and!; [congruence..|]. rewrite Hdb in Ho.
  destruct (ww_storage (_handle_transaction tx watch (self, e)).2.1)
    as [db'|]; [|done].
  exists db'. split; [done|]. simpl in Ho. congruence.
Qed.

(** What the callback does to the storage when the transaction passes: the
    loop over the notifiers leaves it alone, and [store] inserts. *)
Lemma handle_transaction_storage tx watch self e :
  ww_storage (_handle_transaction tx watch (self, e)).2.1
  = if _should_notify self tx
    then (λ db, if closed db then db
                else insert_or_ignore_transaction (now e) tx db)
         <$> ww_storage self
    else ww_storage self.
Proof.
  destruct (_should_notify self tx) eqn:Hf;
    [rewrite handle_transaction_passed by done
    |by rewrite handle_transaction_filtered].
  pose proof (notify_loop_frame (to_message tx (w_label watch)) (w_notify watch)
                (self, env_after e [] [arrival_line tx])) as Hl.
  rewrite notify_loop_run in Hl. simpl in Hl.
  destruct (foldl _ _ _) as [self1 e1]. destruct Hl as [(_ & _ & He) Hst].
  simpl in *. rewrite store_run, Hst.
  destruct (ww_storage self) as [db|]; [|done]. simpl.
  destruct (closed db); [done|]. simpl. by rewrite (env_extends_now _ _ He).
Qed.

Lemma handle_transaction_has_row sig tx watch :
  keeps (of_state (has_row sig)) (_handle_transaction tx watch).
Proof.
  intros [self e] (db & Hdb & Hsig). unfold of_state, has_row.
  simpl in Hdb. rewrite handle_transaction_storage, Hdb.
  destruct (_should_notify self tx); simpl; [|by exists db].
  eexists. split; [done|].
  destruct (closed db); [done | by apply has_signature_insert_mono].
Qed.

(** The callback stores the transaction that passes the filter. *)
Lemma handle_transaction_reach tx watch :
  passes cfg tx = true →
  hoare (of_state (serving cfg chs)) (_handle_transaction tx watch)
    (λ _, of_state (has_row (signature tx))).
Proof.
  intros Hp [self e] (Hc & Hch & db & Hdb & Hopen). unfold of_state, has_row.
  simpl in *. subst cfg. rewrite handle_transaction_storage, Hdb.
  change (passes (ww_config self) tx) with (_should_notify self tx) in Hp.
  rewrite Hp. simpl. rewrite Hopen. eexists. split; [done|].
  apply has_signature_insert.
Qed.

(** *** The server *)

Lemma handle_webhook_serving chain request :
  keeps (of_state (serving cfg chs)) (handle_webhook invoke chain request).
Proof.
  apply handle_webhook_calls; [intros lvl msg _; apply keeps_log|].
  intros watch tx _. apply handle_transaction_serving.
Qed.

Lemma handle_webhook_has_row sig chain request :
  keeps (of_state (has_row sig)) (handle_webhook invoke chain request).
Proof.
  apply handle_webhook_calls; [intros lvl msg _; apply keeps_log|].
  intros watch tx _. apply handle_transaction_has_row.
Qed.

Lemma handle_webhook_stores chain request watch tx :
  invoked chain request watch tx → passes cfg tx = true →
  hoare (of_state (serving cfg chs)) (handle_webhook invoke chain request)
    (λ _, of_state (has_row (signature tx))).
Proof.
  intros Hcall Hp. apply (handle_webhook_reach invoke _ _) with watch tx;
    try done; try (intros lvl msg _; apply keeps_log).
  - intros c tx'. apply handle_transaction_serving.
  - intros c tx'. apply handle_transaction_has_row.
  - by apply handle_transaction_reach.
Qed.

Lemma serve_has_row sig name requests :
  keeps (of_state (has_row sig)) (serve name requests).
Proof.
  pose proof (handle_webhook_has_row sig).
  induction requests as [|request requests IH]; simpl; solve_keeps.
Qed.

(** The server stores the pushed transaction of each of its requests. *)
Lemma serve_stores name chain requests request watch tx :
  pd_get name chs = Some chain → request ∈ requests →
  invoked chain request watch tx → passes cfg tx = true →
  hoare (of_state (serving cfg chs)) (serve name requests)
    (λ _, of_state (has_row (signature tx))).
Proof.
  intros Hchain Hin Hcall Hp.
  induction requests as [|r requests IH]; [by apply elem_of_nil in Hin|].
  intros [self e] Hw. pose proof Hw as (_ & Hch & _). simpl in Hch.
  simpl. rewrite m_bind_run. simpl. rewrite Hch, Hchain. revert Hw.
  generalize (self, e). change (hoare (of_state (serving cfg chs))
    (r0 ← handle_webhook invoke chain r;
     rs ← serve name requests; mret (r0 :: rs))
    (λ _, of_state (has_row (signature tx)))).
  apply elem_of_cons in Hin as [<-|Hin].
  - apply (hoare_bind_returns _ (of_state (has_row (signature tx))));
      [apply handle_webhook_no_raise | by eapply handle_webhook_stores|].
    intros r0. pose proof (serve_has_row (signature tx) name requests).
    solve_keeps.
  - apply (hoare_bind_returns _ (of_state (serving cfg chs)));
      [apply handle_webhook_no_raise | apply handle_webhook_serving|].
    intros r0. apply (hoare_bind _ _ _ (λ _, of_state (has_row (signature tx))));
      [by apply IH | intros rs; apply keeps_ret | done].
Qed.

End stored.

(** ** [run] and the session *)

Section session.
Context `{!UsdFormat} {order : SetOrder}.
Implicit Types (self : WalletWatch) (tx : Transaction) (cfg : Config).
Implicit Types (watch : WatchConfig) (request : Request).

(** [run] subscribes the watch before it serves the request. *)
Lemma run_stores cfg requests request watch tx name rest chain self e :
  ww_config self = cfg → open_storage self →
  pd_keys (ww_chains self) = name :: rest →
  pd_get name (ww_chains self) = Some chain →
  request ∈ requests → authorised (webhook_secret chain) request = true →
  from_request request tx →
  watch ∈ watches cfg → accepts name (address tx) watch →
  passes cfg tx = true →
  has_row (signature tx) (run requests (self, e)).2.1.
Proof.
  intros Hc Hopen Hk Hn Hin Hauth Hfrom Hw Hacc Hp.
  destruct (run_decompose requests self e) as (e1 & self' & e' & _ & Hloop & ->).
  destruct (subscribe_loop_callbacks (watches (ww_config self)) self e1 name
              chain Hn) as (self2 & e2 & chain' & Hloop' & Hn' & Hsec & Hcb).
  pose proof (subscribe_loop_frame (watches (ww_config self)) (self, e1))
    as (Hcfg & Hk' & _ & Hst & _).
  rewrite Hloop in Hloop', Hcfg, Hk', Hst. injection Hloop' as <- <-.
  simpl in *. rewrite Hk', Hk.
  apply (serve_stores cfg (ww_chains self') name chain' requests request watch
           tx Hn' Hin); [|done|].
  - split_and!; [by rewrite Hsec | done |]. rewrite Hcb, Hc.
    apply elem_of_app. right. by apply list_elem_of_filter.
  - unfold of_state, serving, open_storage. simpl. rewrite Hst.
    split_and!; [congruence | done | done].
Qed.

(** The secrets of the providers are those of the constructor. *)
Lemma run_secrets S requests :
  keeps (of_state (λ self, secrets self = S)) (run requests).
Proof.
  assert (∀ tx watch, keeps (of_state (λ self, secrets self = S))
                        (_handle_transaction tx watch)) as Hcall.
  { intros tx watch. apply (keeps_part secrets (λ s, s = S)). intros w.
    destruct (handle_transaction_frame tx watch w) as (_ & Hch & _).
    unfold secrets. by rewrite Hch. }
  assert (∀ name rs, keeps (of_state (λ self, secrets self = S))
                       (serve name rs)) as Hserve.
  { intros name rs. induction rs as [|r rs IH]; simpl; solve_keeps.
    apply handle_webhook_calls; [intros lvl msg _; apply keeps_log|].
    intros watch tx _. apply Hcall. }
  pose proof (λ watch, keeps_part secrets (λ s, s = S) (run_watch watch)
                         (run_watch_secrets watch)).
  unfold run, provider_run. solve_keeps.
Qed.

(** The orchestrator the constructor returns has the configuration and an
    open storage. *)
Lemma WalletWatch_init_open cfg e self e' :
  WalletWatch_init cfg e = (Ok self, e') →
  ww_config self = cfg ∧ open_storage self.
Proof.
  unfold WalletWatch_init.
  set (self0 := {| ww_config := cfg; ww_chains := []; ww_notifiers := [];
                   ww_storage := None |}).
  destruct (decide (sc_type (storage cfg) = "sqlite")) as [Hs|Hs].
  - destruct (setup_run self0 e Hs) as [ls ->]. intros [= <- _].
    split; [done|]. by eexists.
  - by rewrite (setup_unknown_storage self0 e Hs).
Qed.

(** The first provider, read from the secrets. *)
Lemma first_chain self name secret :
  head (secrets self) = Some (name, secret) →
  ∃ chain rest, pd_keys (ww_chains self) = name :: rest
                ∧ pd_get name (ww_chains self) = Some chain
                ∧ webhook_secret chain = secret.
Proof.
  unfold secrets. destruct (ww_chains self) as [|[n c] rest]; [done|].
  intros [= -> <-]. exists c, (pd_keys rest).
  by rewrite pd_get_cons, decide_True.
Qed.

Lemma session_stores cfg requests e rs watcher e' tx :
  session cfg requests e = (Ok (rs, watcher), e') →
  pushed cfg (secrets watcher) requests tx →
  has_row (signature tx) watcher.
Proof.
  unfold session. rewrite m_bind_run.
  destruct (WalletWatch_init cfg e) as [[self|] e1] eqn:Hinit; [|done].
  apply WalletWatch_init_open in Hinit as [Hc Hopen].
  rewrite m_bind_run. unfold log, m_modify, with_watcher. simpl.
  pose proof (run_secrets (secrets self) requests
                (self, env_log INFO "Starting Wallet Watch..." e1) eq_refl)
    as Hs.
  intros Hrun (watch & name & secret & request & Hhead & Hin & Hauth & Hfrom
               & Hw & Hacc & Hp).
  assert (watcher = (run requests
                       (self, env_log INFO "Starting Wallet Watch..." e1)).2.1)
    as -> by (by destruct (run requests _) as [[rs'|] [watcher' e3]];
              simplify_eq).
  unfold of_state in Hs. rewrite Hs in Hhead.
  destruct (first_chain self name secret Hhead)
    as (chain & rest & Hk & Hn & <-).
  by eapply run_stores.
Qed.

End session.

(** ** Theorems *)

Section stored_theorems.
Context `{!UsdFormat} {order : SetOrder}.
Implicit Types (self : WalletWatch) (tx : Transaction) (cfg : Config).

(** C11: no pushed transaction is lost: a transaction that a request of the
    session pushed (the request carried the secret, the transaction is built
    from an event of its body for an address of the event, a watch of the
    configuration names that address and the chain that serves, the address
    is valid, and the filter lets the transaction pass) has a row with its
    signature in the table when the session ends, whatever the other
    requests carried, whatever the notifiers did and whatever the network
    answered. *)
Theorem pushed_transactions_are_stored cfg requests e rs watcher e' tx :
  session cfg requests e = (Ok (rs, watcher), e') →
  pushed cfg (secrets watcher) requests tx →
  has_row (signature tx) watcher.
Proof. apply session_stores. Qed.

(** The row itself. *)
Lemma has_row_elem_of sig self :
  has_row sig self
  ↔ ∃ db r, ww_storage self = Some db ∧ r ∈ transactions_tbl db
            ∧ tr_signature r = sig.
Proof.
  unfold has_row. setoid_rewrite has_signature_spec.
  setoid_rewrite list_elem_of_fmap. naive_solver.
Qed.


(** C20: the signature is the key of the table, and the transactions a provider
    builds for the addresses of one event share it: once the callback has
    stored the transaction of one address, the transaction of another
    address of the event leaves no row, whether it passes the filter or
    not. *)
Theorem second_transaction_ignored tx1 tx2 watch1 watch2 self e :
  signature tx2 = signature tx1 →
  _should_notify self tx1 = true →
  open_storage self →
  ww_storage ((_handle_transaction tx1 watch1;;
               _handle_transaction tx2 watch2) (self, e)).2.1
  = ww_storage (_handle_transaction tx1 watch1 (self, e)).2.1.
Proof.
  intros Hsig Hf (db & Hdb & Hopen). rewrite m_bind_run.
  pose proof (handle_transaction_no_raise tx1 watch1 (self, e)) as Hok.
  pose proof (handle_transaction_storage tx1 watch1 self e) as H1.
  rewrite Hf, Hdb in H1. simpl in H1. rewrite Hopen in H1.
  destruct (_handle_transaction tx1 watch1 (self, e)) as [[[]|] [self1 e1]];
    [|done].
  simpl in H1. rewrite handle_transaction_storage, H1.
  destruct (_should_notify self1 tx2); [|done]. simpl.
  rewrite insert_or_ignore_transaction_closed, Hopen.
  unfold insert_or_ignore_transaction at 1.
  by rewrite Hsig, has_signature_insert.
Qed.

End stored_theorems.

(** ** The theorems at concrete inputs *)

(** The request of Core.v's example pushes its transaction to the watch
    [treasury]. *)
Lemma example_pushed :
  pushed (order:=insertion_order) (example_config 0) (secrets served_watcher)
    [example_request] example_tx.
Proof.
  exists treasury, "solana", "s3cret", example_request.
  split_and!; [by vm_compute | by left | by vm_compute | | by left
              | by split_and!; [| |vm_compute] | by vm_compute].
  exists (BodyList [transfer_event 1700000000]), (transfer_event 1700000000).
  split_and!; [done | by left | by left | by vm_compute].
Defined.

Lemma pushed_transactions_are_stored_witness :
  has_row (signature example_tx) served_watcher.
Proof.
  eapply (pushed_transactions_are_stored (H:=plain_usd)
            (order:=insertion_order) (example_config 0) [example_request]
            quiet _ served_watcher _ example_tx);
    [by vm_compute | apply example_pushed].
Defined.


(** A second watch, on the other address of the example's transfer. *)
Definition reserve : WatchConfig :=
  {| w_address := wrapped_sol; w_chain := "solana"; w_label := "Reserve";
     w_notify := ["webhook"]; w_filters := [] |}.

Definition reserve_tx : Transaction :=
  delivered (transfer_event 1700000000) wrapped_sol.

Lemma second_transaction_ignored_witness :
  ww_storage ((_handle_transaction (H:=plain_usd) example_tx treasury;;
               _handle_transaction (H:=plain_usd) reserve_tx reserve)
                (watcher 0, quiet)).2.1
  = ww_storage (_handle_transaction (H:=plain_usd) example_tx treasury
                  (watcher 0, quiet)).2.1.
Proof.
  apply (second_transaction_ignored (H:=plain_usd) example_tx reserve_tx
           treasury reserve (watcher 0) quiet); [done | done |].
  by exists example_db.
Defined.

Definition two_watches : Config :=
  {| chains := chains (example_config 0);
     notifiers := notifiers (example_config 0);
     watches := [treasury; reserve];
     filters := filters (example_config 0);
     storage := storage (example_config 0);
     server := server (example_config 0) |}.

(** One transfer between two watched addresses: both watches are notified,
    and the table has one row, under the address the set gave first; the
    history of the other address does not have the transfer. *)
Example two_addresses_one_row :
  match session (H:=plain_usd) (order:=insertion_order) two_watches
          [example_request] quiet with
  | (Ok (_, watcher), e') =>
      omap notification (calls e')
      = [to_message (H:=plain_usd) example_tx "Treasury";
         to_message (H:=plain_usd) reserve_tx "Reserve"]
      ∧ (fmap tr_address ∘ transactions_tbl) <$> ww_storage watcher
        = Some [system_program]
  | (Raise _, _) => False
  end.
Proof. by vm_compute. Qed.
