(* ===== verification/Cli.v ===== *)
(** * The command line (cli.py)

    The commands [start], [validate], [health], [check] and [init] of the
    [click] group [main].  A command runs in a process: the files of the
    working directory, what was written to the standard output and to the
    standard error with [click.echo], the logging level [setup_logging] set,
    and the orchestrator [start] builds.  A command returns the exit code of
    the process: the argument of [sys.exit], and 0 when the function
    returns.

    [start] blocks in the provider's server.  Here the server handles the
    requests it is given and is then interrupted from the keyboard, which is
    the one way it ends; with no provider there is no server and
    [watcher.run()] returns.  [KeyboardInterrupt] is not an [Exception]:
    no handler of the program but the one of [start] catches it, and it is
    raised nowhere else in this model.

    [start_command] is the command [start]; it runs [session] of Core.v
    ([WalletWatch(cfg)], the log line, [watcher.run()]) on the
    configuration it chose.  [health_command] is the command [health],
    whose name the provider's route has already.

    Parsing the arguments is [click]'s: a command is given with its
    arguments already parsed, the logging level being one of the four
    choices and the answer to the prompt of [init] a boolean. *)

From stdpp Require Import gmap pretty.
From S2P Require Import Prelude PyDict PyStr Models Config Registry Storage.
From S2P Require Import Notifiers Base58 Solana Core.

(** ** The process *)

Record Process := mkProcess {
  proc_files : Files;
  proc_stdout : list string;
  proc_stderr : list string;
  proc_level : option log_level;
  proc_watcher : option WalletWatch;
}.

Abbreviation Shell := (Process * Env)%type.

(** A process that has run nothing yet. *)
Definition Process_init (files : Files) : Process :=
  {| proc_files := files; proc_stdout := []; proc_stderr := [];
     proc_level := None; proc_watcher := None |}.

Definition set_files (f : Files) (p : Process) : Process :=
  {| proc_files := f; proc_stdout := proc_stdout p;
     proc_stderr := proc_stderr p; proc_level := proc_level p;
     proc_watcher := proc_watcher p |}.

Definition set_level (l : log_level) (p : Process) : Process :=
  {| proc_files := proc_files p; proc_stdout := proc_stdout p;
     proc_stderr := proc_stderr p; proc_level := Some l;
     proc_watcher := proc_watcher p |}.

Definition set_watcher (w : WalletWatch) (p : Process) : Process :=
  {| proc_files := proc_files p; proc_stdout := proc_stdout p;
     proc_stderr := proc_stderr p; proc_level := proc_level p;
     proc_watcher := Some w |}.

(** [click.echo(message)] and [click.echo(message, err=True)] *)
Definition click_echo (message : string) : M Shell unit :=
  st_modify (λ p,
    {| proc_files := proc_files p; proc_stdout := proc_stdout p ++ [message];
       proc_stderr := proc_stderr p; proc_level := proc_level p;
       proc_watcher := proc_watcher p |}).

Definition click_echo_err (message : string) : M Shell unit :=
  st_modify (λ p,
    {| proc_files := proc_files p; proc_stdout := proc_stdout p;
       proc_stderr := proc_stderr p ++ [message]; proc_level := proc_level p;
       proc_watcher := proc_watcher p |}).

(** [setup_logging]: the level below which the log lines are not written.
    [logs] keeps every call to the logger, whatever the level. *)
Definition setup_logging (level : log_level) : M Shell unit :=
  st_modify (set_level level).

(** [Path(p).exists()] *)
Definition path_exists (path : string) (p : Process) : bool :=
  bool_decide (is_Some (proc_files p !! path)).

(** The double quote. *)
Definition dq : string := String (Ascii.ascii_of_nat 34) EmptyString.

(** [example_config], the text [init] writes. *)
Definition config_template : string :=
  String.concat nl
    ["# Wallet Watch Configuration";
     "# See https://github.com/yourusername/wallet-watch for documentation";
     EmptyString;
     "chains:";
     "  - name: solana";
     "    provider: helius";
     "    api_key: ${HELIUS_API_KEY}";
     EmptyString;
     "notifiers:";
     "  - type: telegram";
     "    bot_token: ${TELEGRAM_BOT_TOKEN}";
     EmptyString;
     "watches:";
     "  - address: " +:+ dq +:+ "YourWalletAddressHere" +:+ dq;
     "    chain: solana";
     "    label: " +:+ dq +:+ "My Wallet" +:+ dq;
     "    notify: [telegram]";
     EmptyString;
     "filters:";
     "  min_usd_value: 0";
     "  tx_types: []  # empty = all types";
     EmptyString;
     "storage:";
     "  type: sqlite";
     "  path: ./data/wallet_watch.db";
     EmptyString;
     "server:";
     "  port: 8080";
     "  host: " +:+ dq +:+ "0.0.0.0" +:+ dq;
     EmptyString].

Definition interrupt : exn := Exn KeyboardInterrupt EmptyString.

Section cli.
Context {usd : UsdFormat} {order : SetOrder}.
Context {environ : Environ} {yaml : Yaml} {pydantic : Pydantic}.
Context (default_port : Z).

(** ** [start] *)

(** A computation that only uses the environment, run in the process. *)
Definition lift_env {A} (m : M Env A) : M Shell A :=
  λ w, match m w.2 with (r, e) => (r, (w.1, e)) end.

(** The end of [watcher.run()] as the command sees it: the server does not
    return by itself, it ends when the process is interrupted, here once
    the requests are handled; without a provider there is no server and
    [run] returns. *)
Definition interrupted (watcher : WalletWatch) : M Shell unit :=
  if ww_chains watcher is [] then mret tt else m_raise interrupt.

(** The command [start].  [session] of Core.v is [WalletWatch(cfg)], the
    log line and [watcher.run()]; the orchestrator it leaves is kept in the
    process. *)
Definition start_command (config : string) (log_level : log_level)
    (requests : list Request) : M Shell Z :=
  setup_logging log_level;;
  try: (p ← st_get;
        cfg ← (if path_exists config p then
                 cfg ← m_lift (load_config (proc_files p) config);
                 log INFO ("Loaded config from " +:+ config);;
                 mret cfg
               else
                 let cfg := get_default_config default_port in
                 log WARNING ("Config file " +:+ config
                              +:+ " not found, using defaults");;
                 mret cfg);
        served ← lift_env (session cfg requests);
        st_modify (set_watcher served.2);;
        interrupted served.2;;
        mret 0%Z)
  except: λ e,
    if decide (exn_kind_of e = KeyboardInterrupt) then
      log INFO "Shutting down...";; mret 0%Z
    else
      log ERROR ("Fatal error: " +:+ exn_msg e);; mret 1%Z.

(** ** [validate] *)

Definition config_summary (cfg : Config) : string :=
  "Config valid: " +:+ pretty (length (chains cfg)) +:+ " chains, "
  +:+ pretty (length (notifiers cfg)) +:+ " notifiers, "
  +:+ pretty (length (watches cfg)) +:+ " watches".

Definition validate (config : string) : M Shell Z :=
  try: (p ← st_get;
        cfg ← m_lift (load_config (proc_files p) config);
        click_echo (config_summary cfg);;
        mret 0%Z)
  except: λ e, click_echo_err ("Config invalid: " +:+ exn_msg e);; mret 1%Z.

(** ** [health] *)

(** The command [health] (the provider's route has the same name). *)
Definition health_command : M Shell Z := click_echo "OK";; mret 0%Z.

(** ** [check] *)

Definition check (address chain : string) : M Shell Z :=
  try: (provider ← m_lift (get_chain_provider (C:=WatchConfig) chain
                             EmptyString EmptyString EmptyString EmptyString
                             EmptyString);
        if validate_address address then
          click_echo ("Valid " +:+ chain +:+ " address: " +:+ address);; mret 0%Z
        else
          click_echo_err ("Invalid " +:+ chain +:+ " address: " +:+ address);;
          mret 1%Z)
  except: λ e, click_echo_err ("Error: " +:+ exn_msg e);; mret 1%Z.

(** ** [init] *)

(** [overwrite] is the answer to the prompt, which is asked when the file
    exists. *)
Definition init (overwrite : bool) : M Shell Z :=
  p ← st_get;
  if path_exists "config.yaml" p && negb overwrite then mret 0%Z
  else
    st_modify (λ p, set_files (<["config.yaml" := config_template]> (proc_files p)) p);;
    click_echo "Created config.yaml";;
    click_echo "Edit the file and add your API keys, then run: wallet-watch start";;
    mret 0%Z.

(** ** [main] *)

Inductive command :=
| Start (config : string) (log_level : log_level) (requests : list Request)
| Validate (config : string)
| Health
| Check (address chain : string)
| Init (overwrite : bool).

Definition main (cmd : command) : M Shell Z :=
  match cmd with
  | Start config log_level requests =>
      start_command config log_level requests
  | Validate config => validate config
  | Health => health_command
  | Check address chain => check address chain
  | Init overwrite => init overwrite
  end.

(** The configuration [start] runs with. *)
Definition chosen_config (config : string) (p : Process) : result Config :=
  if path_exists config p then load_config (proc_files p) config
  else Ok (get_default_config default_port).

(** The exit code of [start]. *)
Definition start_code (config : string) (p : Process) : Z :=
  match chosen_config config p with
  | Ok cfg => if decide (sc_type (storage cfg) = "sqlite") then 0 else 1
  | Raise x => if decide (exn_kind_of x = KeyboardInterrupt) then 0 else 1
  end.

End cli.

(** ** Properties *)

Section cli_lemmas.
Context {usd : UsdFormat} {order : SetOrder}.
Context {environ : Environ} {yaml : Yaml} {pydantic : Pydantic}.
Context (default_port : Z).
Implicit Types (p : Process) (e : Env) (cfg : Config) (config : string).

(** [session] with SQLite storage returns the responses and the orchestrator
    [run] left, whose storage is open. *)
Lemma session_sqlite cfg requests e :
  sc_type (storage cfg) = "sqlite" →
  ∃ rs watcher e',
    session cfg requests e = (Ok (rs, watcher), e')
    ∧ closed <$> ww_storage watcher = Some false.
Proof.
  intros Hs. unfold session, WalletWatch_init. rewrite m_bind_run.
  edestruct (setup_run {| ww_config := cfg; ww_chains := [];
                          ww_notifiers := []; ww_storage := None |} e Hs)
    as [ls ->].
  rewrite m_bind_run. unfold log at 1, m_modify. simpl. unfold with_watcher.
  match goal with |- context [run requests ?w] =>
    pose proof (run_no_raise requests w) as Hn;
    pose proof (run_keeps_open requests w) as Hopen;
    destruct (run requests w) as [[rs|x] [watcher e']]; [|done] end.
  by exists rs, watcher, e'.
Qed.

Lemma session_unknown_storage cfg requests e :
  sc_type (storage cfg) ≠ "sqlite" →
  session cfg requests e = (Raise (unknown_storage cfg), e).
Proof.
  intros Hs. unfold session, WalletWatch_init. rewrite m_bind_run.
  by rewrite setup_unknown_storage.
Qed.

(** What [start] does once the configuration is chosen. *)
Lemma start_served cfg requests p e :
  ∃ p' e',
    m_try (served ← lift_env (session cfg requests);
           st_modify (set_watcher served.2);;
           interrupted served.2;;
           mret 0%Z)
      (λ x, if decide (exn_kind_of x = KeyboardInterrupt)
            then log INFO "Shutting down...";; mret 0%Z
            else log ERROR ("Fatal error: " +:+ exn_msg x);; mret 1%Z) (p, e)
    = (Ok (if decide (sc_type (storage cfg) = "sqlite") then 0%Z else 1%Z),
       (p', e'))
    ∧ proc_files p' = proc_files p
    ∧ (sc_type (storage cfg) = "sqlite" →
       ∃ watcher, proc_watcher p' = Some watcher
                  ∧ closed <$> ww_storage watcher = Some false).
Proof.
  rewrite m_try_bind. unfold lift_env. simpl. case_decide as Hs.
  - destruct (session_sqlite cfg requests e Hs) as (rs & watcher & e' & -> & Hopen).
    rewrite m_try_bind. unfold st_modify at 1, interrupted. simpl.
    rewrite m_try_bind.
    destruct (ww_chains watcher); simpl; rewrite ?m_bind_run, ?log_run;
      eexists _, _; (split_and!; [done..|]); by exists watcher.
  - rewrite session_unknown_storage by done. simpl.
    rewrite m_bind_run, log_run. by eexists _, _.
Qed.

(** [start] returns its exit code, leaves the files as they are, and when
    it ran an orchestrator leaves it with its storage open. *)
Lemma start_command_returns config level requests p e :
  ∃ p' e',
    start_command default_port config level requests (p, e)
    = (Ok (start_code default_port config p), (p', e'))
    ∧ proc_files p' = proc_files p
    ∧ (∀ cfg, chosen_config default_port config p = Ok cfg →
              sc_type (storage cfg) = "sqlite" →
              ∃ watcher, proc_watcher p' = Some watcher
                         ∧ closed <$> ww_storage watcher = Some false).
Proof.
  unfold start_command, start_code, chosen_config.
  rewrite m_bind_run. unfold setup_logging. unfold st_modify at 1. simpl.
  rewrite m_try_bind. unfold st_get at 1. simpl. rewrite m_try_bind.
  change (path_exists config (set_level level p)) with (path_exists config p).
  destruct (path_exists config p).
  - rewrite m_bind_run. unfold m_lift.
    destruct (load_config (proc_files p) config) as [cfg|x].
    + rewrite m_bind_run, log_run. simpl.
      destruct (start_served cfg requests (set_level level p)
                  (env_after e [] [(INFO, "Loaded config from " +:+ config)]))
        as (p' & e' & -> & Hf & Hw).
      exists p', e'. split_and!; [done..|]. by intros cfg' [= <-].
    + case_decide; rewrite m_bind_run, log_run; by eexists _, _.
  - cbv zeta. rewrite m_bind_run, log_run. simpl.
    destruct (start_served (get_default_config default_port) requests
                (set_level level p)
                (env_after e [] [(WARNING, "Config file " +:+ config
                                           +:+ " not found, using defaults")]))
      as (p' & e' & -> & Hf & Hw).
    exists p', e'. split_and!; [done..|]. by intros cfg' [= <-].
Qed.

(** *** The other commands *)

(** What is on the standard output and the standard error after a line more. *)
Definition said (message : string) p : Process :=
  {| proc_files := proc_files p; proc_stdout := proc_stdout p ++ [message];
     proc_stderr := proc_stderr p; proc_level := proc_level p;
     proc_watcher := proc_watcher p |}.

Definition complained (message : string) p : Process :=
  {| proc_files := proc_files p; proc_stdout := proc_stdout p;
     proc_stderr := proc_stderr p ++ [message]; proc_level := proc_level p;
     proc_watcher := proc_watcher p |}.

Lemma validate_run config p e :
  validate config (p, e) =
  match load_config (proc_files p) config with
  | Ok cfg => (Ok 0%Z, (said (config_summary cfg) p, e))
  | Raise x => (Ok 1%Z, (complained ("Config invalid: " +:+ exn_msg x) p, e))
  end.
Proof.
  unfold validate. rewrite m_try_bind. unfold st_get at 1. simpl.
  rewrite m_try_bind. unfold m_lift.
  by destruct (load_config (proc_files p) config).
Qed.

Lemma check_run address chain p e :
  check address chain (p, e) =
  if decide (chain = "solana") then
    if validate_address address
    then (Ok 0%Z, (said ("Valid " +:+ chain +:+ " address: " +:+ address) p, e))
    else (Ok 1%Z,
          (complained ("Invalid " +:+ chain +:+ " address: " +:+ address) p, e))
  else
    (Ok 1%Z, (complained ("Error: Unknown chain provider: " +:+ chain
                          +:+ ". Available: ['solana']") p, e)).
Proof.
  unfold check. rewrite m_try_bind. unfold m_lift, get_chain_provider, PROVIDERS.
  destruct (decide (chain = "solana")) as [->|Hne].
  - rewrite decide_True by apply list_elem_of_here.
    by destruct (validate_address address).
  - by rewrite decide_False by by intros ?%list_elem_of_singleton.
Qed.

Lemma init_run overwrite p e :
  init overwrite (p, e) =
  if path_exists "config.yaml" p && negb overwrite then (Ok 0%Z, (p, e))
  else
    (Ok 0%Z,
     (said "Edit the file and add your API keys, then run: wallet-watch start"
        (said "Created config.yaml"
           (set_files (<["config.yaml" := config_template]> (proc_files p)) p)),
      e)).
Proof.
  unfold init. rewrite m_bind_run. unfold st_get at 1. simpl.
  by destruct (path_exists "config.yaml" p && negb overwrite).
Qed.

End cli_lemmas.

(** ** Theorems *)

Section cli_theorems.
Context {usd : UsdFormat} {order : SetOrder}.
Context {environ : Environ} {yaml : Yaml} {pydantic : Pydantic}.
Context (default_port : Z).
Implicit Types (p : Process) (e : Env) (cfg : Config) (config : string).

(** C22: [start] never ends with an uncaught exception, whatever the files,
    the environment, the requests and the network are.  Its exit code is 1
    when the configuration file exists and does not load, and when the
    storage type of the configuration is not [sqlite]; it is 0 otherwise,
    also when chains, notifiers or watches of the configuration are
    rejected. *)
Theorem start_command_exit_code config level requests p e :
  ∃ w', start_command default_port config level requests (p, e)
        = (Ok (start_code default_port config p), w').
Proof.
  destruct (start_command_returns default_port config level requests p e)
    as (p' & e' & -> & _). by eexists.
Qed.

(** C23: when [start] has served and the process is interrupted, the exit
    code is 0 and the orchestrator still holds the storage with its
    connection open: nothing on the way out calls [close]. *)
Theorem start_leaves_storage_open config level requests p e cfg :
  chosen_config default_port config p = Ok cfg →
  sc_type (storage cfg) = "sqlite" →
  ∃ p' e' watcher,
    start_command default_port config level requests (p, e) = (Ok 0%Z, (p', e'))
    ∧ proc_watcher p' = Some watcher
    ∧ closed <$> ww_storage watcher = Some false.
Proof.
  intros Hcfg Hs.
  destruct (start_command_returns default_port config level requests p e)
    as (p' & e' & Hstart & _ & Hw).
  destruct (Hw cfg Hcfg Hs) as (watcher & ? & ?). exists p', e', watcher.
  revert Hstart. unfold start_code. rewrite Hcfg, decide_True by done. done.
Qed.

(** Every command ends with an exit code, 0 or 1: no exception leaves
    [main]. *)
Theorem main_returns_exit_code cmd p e :
  ∃ code w', main default_port cmd (p, e) = (Ok code, w')
             ∧ (code = 0 ∨ code = 1)%Z.
Proof.
  destruct cmd as [config level requests|config| |address chain|overwrite]; simpl.
  - destruct (start_command_returns default_port config level requests p e)
      as (p' & e' & -> & _). eexists _, _. split; [done|].
    unfold start_code. repeat case_match; auto.
  - rewrite validate_run. case_match; eexists _, _; eauto.
  - eexists _, _. eauto.
  - rewrite check_run. repeat case_match; eexists _, _; eauto.
  - rewrite init_run. case_match; eexists _, _; eauto.
Qed.

(** [check] ends with 0 exactly for a chain named [solana] and an
    address [validate_address] accepts; it reads and writes no file and
    makes no request. *)
Theorem check_exit_code address chain p e :
  ∃ p', check address chain (p, e)
        = (Ok (if decide (chain = "solana" ∧ validate_address address = true)
               then 0%Z else 1%Z), (p', e))
        ∧ proc_files p' = proc_files p.
Proof.
  rewrite check_run. destruct (decide (chain = "solana")) as [->|Hne].
  - destruct (validate_address address) eqn:Hv; eexists.
    + by rewrite decide_True.
    + by rewrite decide_False by by intros [_ ?].
  - eexists. by rewrite decide_False by by intros [? _].
Qed.

(** [validate] ends with 0 and one line on the standard output when the
    file loads, and with 1 and one line on the standard error when it does
    not; it changes nothing else. *)
Theorem validate_exit_code config p e :
  ∃ p', validate config (p, e)
        = (Ok (if is_ok (load_config (proc_files p) config) then 0%Z else 1%Z),
           (p', e))
        ∧ proc_files p' = proc_files p
        ∧ length (proc_stdout p' ++ proc_stderr p')
          = S (length (proc_stdout p ++ proc_stderr p)).
Proof.
  rewrite validate_run.
  destruct (load_config (proc_files p) config); eexists; (split_and!; [done..|]);
    simpl; rewrite !length_app; simpl; lia.
Qed.

(** [init] writes the template to [config.yaml] when the file does not
    exist or the user agrees to overwrite it, and touches no other file;
    it leaves an existing file alone when the user declines. *)
Theorem init_writes_template overwrite p e :
  ∃ p', init overwrite (p, e) = (Ok 0%Z, (p', e))
        ∧ (∀ path, path ≠ "config.yaml" →
                   proc_files p' !! path = proc_files p !! path)
        ∧ proc_files p' !! "config.yaml" =
          if path_exists "config.yaml" p && negb overwrite
          then proc_files p !! "config.yaml" else Some config_template.
Proof.
  rewrite init_run. case_match; eexists; (split_and!; [done..| |]); simpl;
    try done; [by intros; rewrite lookup_insert_ne | by rewrite lookup_insert_eq].
Qed.

End cli_theorems.

(** ** The theorems at concrete inputs *)

(** The document the template of [init] decodes to. *)
Definition template_document : pyval :=
  PDict
    [("chains",
      PList [PDict [("name", PStr "solana"); ("provider", PStr "helius");
                    ("api_key", PStr "${HELIUS_API_KEY}")]]);
     ("notifiers",
      PList [PDict [("type", PStr "telegram");
                    ("bot_token", PStr "${TELEGRAM_BOT_TOKEN}")]]);
     ("watches",
      PList [PDict [("address", PStr "YourWalletAddressHere");
                    ("chain", PStr "solana"); ("label", PStr "My Wallet");
                    ("notify", PList [PStr "telegram"])]]);
     ("filters", PDict [("min_usd_value", PInt 0); ("tx_types", PList [])]);
     ("storage", PDict [("type", PStr "sqlite");
                        ("path", PStr "./data/wallet_watch.db")]);
     ("server", PDict [("port", PInt 8080); ("host", PStr "0.0.0.0")])].

(** The example configuration of Config.v with a threshold of one dollar,
    and one with a storage type that is not registered. *)
Definition strict_text : string := "filters: {min_usd_value: 1}, ...".

Definition strict_document : pyval :=
  match example_document with
  | PDict d => PDict (pd_set "filters" (PDict [("min_usd_value", PInt 1)]) d)
  | v => v
  end.

Definition postgres_text : string := "storage: {type: postgres}".

Definition postgres_document : pyval :=
  PDict [("storage", PDict [("type", PStr "postgres")])].

Definition cli_yaml : Yaml := λ text,
  if decide (text = config_template) then Ok template_document
  else if decide (text = strict_text) then Ok strict_document
  else if decide (text = postgres_text) then Ok postgres_document
  else example_yaml text.

Definition example_process : Process :=
  Process_init (<["strict.yaml" := strict_text]>
                  (<["postgres.yaml" := postgres_text]> example_files)).

Definition empty_environ : Environ := λ _, None.

(** [start] in the examples: amounts are not rendered, a set is visited in
    insertion order, and the default port is 8080. *)
Definition example_start (environ : Environ) :=
  start_command (usd:=plain_usd) (order:=insertion_order) (environ:=environ)
    (yaml:=cli_yaml) (pydantic:=typed_validate 8080) 8080.

Lemma start_leaves_storage_open_witness :
  ∃ p' e' watcher,
    example_start example_environ "config.yaml" INFO [example_request]
      (example_process, quiet) = (Ok 0%Z, (p', e'))
    ∧ proc_watcher p' = Some watcher
    ∧ closed <$> ww_storage watcher = Some false.
Proof.
  by apply (start_leaves_storage_open (usd:=plain_usd) (order:=insertion_order)
              (environ:=example_environ) (yaml:=cli_yaml)
              (pydantic:=typed_validate 8080) 8080 "config.yaml" INFO
              [example_request] example_process quiet (example_config 0)).
Defined.

(** The whole program on one webhook event for a watched address.
    [start] loads the file, expands the key and the secret, builds the
    orchestrator, subscribes the watch and pushes it to Helius; the event is
    handled, one message goes to the webhook notifier (the notifier named
    [pager], which is not configured, is passed over) and the transaction is
    stored; the interrupt ends the process with code 0.  With a threshold of
    one dollar the same event sends nothing and stores nothing.  With a
    storage type that is not registered the process ends with code 1 before
    anything is built. *)
Theorem command_line_example :
  (∃ p' e' watcher,
     example_start example_environ "config.yaml" INFO [example_request]
       (example_process, quiet) = (Ok 0%Z, (p', e'))
     ∧ proc_watcher p' = Some watcher
     ∧ ww_chains watcher = [("solana", example_chain)]
     ∧ calls e' = [webhook_update example_chain;
                   HttpPost "https://hooks.example.org/notify"
                     (to_message (H:=plain_usd) example_tx "Treasury")]
     ∧ (λ db, tr_signature <$> transactions_tbl db) <$> ww_storage watcher
       = Some ["sig1"]
     ∧ last (logs e') = Some (INFO, "Shutting down..."))
  ∧ (∃ p' e' watcher,
       example_start example_environ "strict.yaml" INFO [example_request]
         (example_process, quiet) = (Ok 0%Z, (p', e'))
       ∧ proc_watcher p' = Some watcher
       ∧ calls e' = [webhook_update example_chain]
       ∧ (λ db, tr_signature <$> transactions_tbl db) <$> ww_storage watcher
         = Some [])
  ∧ (∃ p' e',
       example_start example_environ "postgres.yaml" INFO [example_request]
         (example_process, quiet) = (Ok 1%Z, (p', e'))
       ∧ proc_watcher p' = None ∧ calls e' = []).
Proof.
  split_and!; [eexists _, _, _..|eexists _, _];
    (split; [by vm_compute|]); by vm_compute.
Qed.

(** [init] in an empty directory, then [start] with no variable set in
    the environment.  The process starts and serves, but the template's
    watch is rejected (its address is not a Solana address) and the Telegram
    notifier is not built (its token expands to the empty string): no
    address is subscribed, no notifier is configured, and the count the log
    reports is the count of the configuration. *)
Example init_then_start_example :
  ∃ p1 p' e' chain,
    init false (Process_init ∅, quiet) = (Ok 0%Z, (p1, quiet))
    ∧ example_start empty_environ "config.yaml" INFO [] (p1, quiet)
      = (Ok 0%Z, (p', e'))
    ∧ (ww_chains <$> proc_watcher p') = Some [("solana", chain)]
    ∧ subscriptions (base chain) = []
    ∧ (ww_notifiers <$> proc_watcher p') = Some []
    ∧ filter (λ l, l.1 = ERROR) (logs e')
      = [(ERROR, "Failed to initialize notifier telegram: "
                 +:+ "Telegram bot_token is required");
         (ERROR, "Invalid address for solana: YourWalletAddressHere")]
    ∧ (INFO, "Watching 1 addresses...") ∈ logs e'.
Proof.
  eexists _, _, _, _. split; [by vm_compute|]. split; [by vm_compute|].
  split_and!; try by vm_compute. vm_compute. set_solver.
Qed.
