(* ===== verification/Started.v ===== *)
(** * What the command [start] leaves

    [start] of cli.py chooses the configuration, runs a session and keeps
    the orchestrator in the process.  The theorems of Invariant.v and
    Trace.v are stated of a session; this file states them of the command:
    the orchestrator the process holds when [start] ends is the one a
    session on the chosen configuration ended with, so it is well formed,
    its rows are rows of pushed transactions, and the notifications the
    process made are messages of pushed transactions. *)

From S2P Require Import Prelude Hoare PyDict PyStr Models Config Registry.
From S2P Require Import Storage Notifiers Base58 Solana Core Invariant.
From S2P Require Import Provenance Sent Trace Budget Cli.

Section started.
Context {usd : UsdFormat} {order : SetOrder}.
Context {environ : Environ} {yaml : Yaml} {pydantic : Pydantic}.
Context (default_port : Z).
Implicit Types (p : Process) (e : Env) (cfg : Config) (config : string).

(** The process after [start]: the orchestrator it holds, when it held
    none before, is the one the session ended with, and the process made no
    request after the session. *)
Definition session_of cfg requests e (w' : Shell) : Prop :=
  ∀ watcher, proc_watcher w'.1 = Some watcher →
    ∃ rs e1, session cfg requests e = (Ok (rs, watcher), e1)
             ∧ calls w'.2 = calls e1.

Lemma served_session cfg requests p e :
  proc_watcher p = None →
  ∃ r w',
    m_try (served ← lift_env (session cfg requests);
           st_modify (set_watcher served.2);;
           interrupted served.2;;
           mret 0%Z)
      (λ x, if decide (exn_kind_of x = KeyboardInterrupt)
            then log INFO "Shutting down...";; mret 0%Z
            else log ERROR ("Fatal error: " +:+ exn_msg x);; mret 1%Z) (p, e)
    = (r, w')
    ∧ session_of cfg requests e w'.
Proof.
  intros Hnone. rewrite m_try_bind. unfold lift_env. simpl.
  destruct (session cfg requests e) as [[[rs w]|x] e1] eqn:Hs.
  - rewrite m_try_bind. unfold st_modify at 1, interrupted. simpl.
    rewrite m_try_bind.
    destruct (ww_chains w); simpl; rewrite ?m_bind_run, ?log_run;
      eexists _, _; (split; [done|]); intros watcher [= <-];
      exists rs, e1; (split; [done|]); simpl; by rewrite ?app_nil_r.
  - simpl. case_decide; rewrite m_bind_run, log_run; eexists _, _;
      (split; [done|]); intros watcher Hw; simpl in Hw; congruence.
Qed.

(** [start], from a process that holds no orchestrator. *)
Lemma start_command_session config level requests p e :
  proc_watcher p = None →
  ∃ r w',
    start_command default_port config level requests (p, e) = (r, w')
    ∧ ∀ watcher, proc_watcher w'.1 = Some watcher →
        ∃ cfg e0 rs e1,
          chosen_config default_port config p = Ok cfg
          ∧ calls e0 = calls e
          ∧ session cfg requests e0 = (Ok (rs, watcher), e1)
          ∧ calls w'.2 = calls e1.
Proof.
  intros Hnone. unfold start_command, chosen_config.
  rewrite m_bind_run. unfold setup_logging. unfold st_modify at 1. simpl.
  rewrite m_try_bind. unfold st_get at 1. simpl. rewrite m_try_bind.
  change (path_exists config (set_level level p)) with (path_exists config p).
  destruct (path_exists config p).
  - rewrite m_bind_run. unfold m_lift.
    destruct (load_config (proc_files p) config) as [cfg|x].
    + rewrite m_bind_run, log_run. simpl.
      destruct (served_session cfg requests (set_level level p)
                  (env_after e [] [(INFO, "Loaded config from " +:+ config)])
                  Hnone) as (r & w' & -> & Hw).
      exists r, w'. split; [done|]. intros watcher Hwatcher.
      destruct (Hw watcher Hwatcher) as (rs & e1 & Hs & Hc).
      eexists cfg, _, rs, e1. split_and!; [done| |exact Hs|done].
      simpl. by rewrite app_nil_r.
    + case_decide; rewrite m_bind_run, log_run; eexists _, _;
        (split; [done|]); intros watcher Hw; simpl in Hw; congruence.
  - cbv zeta. rewrite m_bind_run, log_run. simpl.
    destruct (served_session (get_default_config default_port) requests
                (set_level level p)
                (env_after e [] [(WARNING, "Config file " +:+ config
                                           +:+ " not found, using defaults")])
                Hnone) as (r & w' & -> & Hw).
    exists r, w'. split; [done|]. intros watcher Hwatcher.
    destruct (Hw watcher Hwatcher) as (rs & e1 & Hs & Hc).
    eexists _, _, rs, e1. split_and!; [done| |exact Hs|done].
    simpl. by rewrite app_nil_r.
Qed.

(** *** The failure lines of the command

    Before the session the command writes ordinary lines, so the number of
    failure lines is the one it found; the session adds at most one; what
    follows, handlers included, writes ordinary lines again. *)

Lemma lift_session_failures cfg requests k :
  hoare (of_env (λ e, failures e = k)) (lift_env (session cfg requests))
    (λ _, of_env (λ e, failures e ≤ k + 1)).
Proof.
  intros [p e] He. unfold lift_env, of_env in *. simpl in *.
  destruct (session_budget cfg requests e) as [self Hb].
  unfold budget in Hb. destruct (session cfg requests e). simpl in *. lia.
Qed.

Lemma start_command_failures config level requests k :
  hoare (of_env (λ e, failures e = k))
    (start_command default_port config level requests)
    (λ _, of_env (λ e, failures e ≤ k + 1)).
Proof.
  pose proof (λ lvl msg, keeps_closed_log (S:=Process) _ _ _ lvl msg
                (lines_closed failure_line k)) as Hlog.
  pose proof (λ lvl msg, keeps_closed_log (S:=Process) _ _ _ lvl msg
                (lines_le_closed failure_line (k + 1))) as Hlog'.
  set (I0 := of_env (S:=Process) (λ e, failures e = k)) in *.
  set (I1 := of_env (S:=Process) (λ e, failures e ≤ k + 1)) in *.
  assert (∀ (x : exn) w, I0 w → I1 w) as Hle
    by (intros _ w Hw; unfold I0, I1, of_env, failures in *; lia).
  unfold start_command, setup_logging, interrupted.
  apply (hoare_bind I0 _ _ (λ _, I0));
    [apply keeps_env_st_modify | intros _ | exact Hle].
  apply (hoare_try I0 _ _ (λ _, I1)); [|done|].
  - apply (hoare_bind I0 _ _ (λ _, I0));
      [apply keeps_env_st_get | intros p | exact Hle].
    apply (hoare_bind I0 _ _ (λ _, I0)); [|intros cfg|exact Hle].
    { case_match; solve_keeps; by apply Hlog. }
    apply (hoare_bind I0 _ _ (λ _, I1));
      [apply lift_session_failures | intros served | done].
    solve_keeps.
  - intros x. case_decide; solve_keeps; by apply Hlog'.
Qed.

End started.

(** ** Theorems *)

Section started_theorems.
Context {usd : UsdFormat} {order : SetOrder}.
Context {environ : Environ} {yaml : Yaml} {pydantic : Pydantic}.
Context (default_port : Z).
Implicit Types (p : Process) (e : Env) (cfg : Config) (config : string).

(** The orchestrator the process holds when [start] ends is well formed for
    the configuration [start] chose. *)
Theorem start_command_watcher_wf config level requests p e watcher :
  proc_watcher p = None →
  proc_watcher
    (start_command default_port config level requests (p, e)).2.1
  = Some watcher →
  ∃ cfg, chosen_config default_port config p = Ok cfg ∧ ww_wf cfg watcher.
Proof.
  intros Hnone Hw.
  destruct (start_command_session default_port config level requests p e Hnone)
    as (r & w' & Hrun & Hsession).
  rewrite Hrun in Hw.
  destruct (Hsession watcher Hw) as (cfg & e0 & rs & e1 & Hcfg & _ & Hs & _).
  exists cfg. split; [done|]. by eapply session_wf.
Qed.


(** A process that made no request before [start] and whose requests all
    lack the secret of the provider that serves stores nothing and notifies
    nobody. *)
Corollary start_command_unauthorised config level requests p e watcher :
  proc_watcher p = None → calls e = [] →
  proc_watcher
    (start_command default_port config level requests (p, e)).2.1
  = Some watcher →
  (∀ name secret request,
     head (secrets watcher) = Some (name, secret) → request ∈ requests →
     authorised secret request = false) →
  (∀ db, ww_storage watcher = Some db → transactions_tbl db = [])
  ∧ (∀ c, c ∈ calls (start_command default_port config level requests
                       (p, e)).2.2 → notification c = None).
Proof.
  intros Hnone He Hw Hno.
  destruct (start_command_session default_port config level requests p e Hnone)
    as (r & w' & Hrun & Hsession).
  rewrite Hrun in Hw |- *.
  destruct (Hsession watcher Hw) as (cfg & e0 & rs & e1 & Hcfg & He0 & Hs & Hc).
  rewrite He in He0. simpl. rewrite Hc.
  by apply (unauthorised_requests_no_effect cfg requests e0 rs watcher e1).
Qed.

(** C18: the log of the command [start] has at most one failure line more than
    the log the process had: whatever the configuration file holds, whatever
    the requests carry and the network answers, and however the command
    ends, at most one notification attempt of the process fails with an
    exception. *)
Theorem start_command_failures_bounded config level requests p e :
  failures (start_command default_port config level requests (p, e)).2.2
  ≤ failures e + 1.
Proof.
  exact (start_command_failures default_port config level requests
           (failures e) (p, e) eq_refl).
Qed.

End started_theorems.

(** ** The theorems at concrete inputs *)

(** The process of Cli.v's example after [start]. *)
Definition started : result Z * Shell :=
  example_start example_environ "config.yaml" INFO [example_request]
    (example_process, quiet).

Definition started_watcher : WalletWatch :=
  default fresh_watcher (proc_watcher started.2.1).

Lemma start_command_watcher_wf_witness :
  ∃ cfg,
    chosen_config (environ:=example_environ) (yaml:=cli_yaml)
      (pydantic:=typed_validate 8080) 8080 "config.yaml" example_process
    = Ok cfg
    ∧ ww_wf cfg started_watcher.
Proof.
  apply (start_command_watcher_wf (usd:=plain_usd) (order:=insertion_order)
           (environ:=example_environ) (yaml:=cli_yaml)
           (pydantic:=typed_validate 8080) 8080 "config.yaml" INFO
           [example_request] example_process quiet started_watcher);
    [done | by vm_compute].
Defined.


(** What the example process stored and sent. *)
Example started_example :
  (transactions_tbl <$> ww_storage started_watcher) = Some [served_row]
  ∧ omap notification (calls started.2.2)
    = [to_message (H:=plain_usd) example_tx "Treasury"].
Proof. by vm_compute. Qed.
